(* ===== verification/_CoqProject ===== *)
-Q . S2P
Prelude.v
Time.v
Python.v
Regex.v
Schema.v
Session.v
Admission.v
Lifecycle.v
Listing.v
Responses.v
Transaction.v
Service.v
Concurrency.v
Progress.v
Routing.v
Config.v
Users.v
Auth.v
Socket.v
Legacy.v
Migration.v
Models.v
Serialize.v
