(* ===== verification/Prelude.v ===== *)
(** * Verification of the meeting service of Realtime-Meeting-Flask-Nextjs-WebRTC

    The program is the Flask backend under
    [src/backend/flask-service/src/]: a REST service whose blueprint
    [routes/meetings.py] decides who may join a scheduled meeting, when,
    and in what role, on top of SQLAlchemy tables ([models/*.py],
    created by [migrations/versions/initial_schema.py]), and whose
    blueprint [routes/auth.py] registers users and issues the JWTs the
    [token_required] decorator checks.  Every handler reads rows,
    decides, stages inserts, updates and deletes in the ORM session and
    commits them; an exception rolls the session back and answers 500.

    ** The files, in dependency order, and what they model

    - [Prelude] (this file): the scope [meeting_scope], the tactics
      [case_ifs] and [zbool], the hint databases [meeting] and
      [meeting_rw], and the lemmas on counting and selecting rows of a
      table ([count_rows], [first_row], [exists_row]): SQL's
      [.count()] and [.first()] over a filter.
    - [Time]: an instant is a [Z] of microseconds, the resolution of
      [datetime]; [timedelta.days] (floor) and Python's [round] (half to
      even) are written out, as the join window, [starts_in_minutes] and
      [time_remaining_minutes] use them.
    - [Python]: JSON values as [request.get_json()] returns them,
      their truthiness, [dict.get] (the last of duplicate keys wins),
      [k in data] and [data[k]] on any JSON value (with their
      TypeErrors), item assignment and [update], the binding of a
      call's keywords to a signature, and the [str] methods [isspace],
      [strip], [lower], [startswith], [split].
    - [Regex]: a model of the library [re], not code of the repository:
      the fragment of [re] the validators use, its meaning [matches], and
      the derivative matcher [matchb] proved to decide it; [re.match]
      with [^...$] (which accepts a final newline) and [re.search].
    - [Schema]: the rows of [models/meeting.py], [meeting_participant.py],
      [meeting_co_host.py], [meeting_audit_log.py] as Records, their
      string enums as Inductives, the database [Db] as one [gmap Z row]
      per table with its id sequence, the signatures of the classes'
      [__init__]s (a call binds its keywords as Python does,
      [Python.py_binds]), and the queries the handlers share (current
      rows, the participant of a user, active participation, the
      derived role, the moderator test).
    - [Session]: the unit of work.  A handler stages a list of [Op]s;
      [commit] applies them all or fails, enforcing the NOT NULL,
      foreign-key and unique constraints of the migration and the ORM's
      delete behaviour (cascade to participants and co-hosts, NULL for
      the child meetings and for the audit rows, whose NOT NULL column
      then fails the commit); [commit_or_500] is the handler's
      [try/except] with its rollback.
    - [Admission] ([Module Admission]): [join_meeting],
      [get_meeting], [get_waiting_room], [approve_participant],
      [reject_participant] (meetings.py 188-305, 349-365, 500-631), each
      guard in the code's order, each commit where the code commits.
      [join_meeting_tz tz] is the handler for meeting times loaded aware
      ([tz = true]) or naive; the program is [join_meeting], at
      [Schema.meeting_times_aware = false], where the time check of line
      206 raises TypeError ([window_check], over [Time.py_dt_lt]).
    - [Lifecycle] ([Module Lifecycle]): [create_meeting] with its
      validation (43-186), [delete_meeting], [end_meeting],
      [add_co_host], [remove_co_host] (367-498).  [bleach.clean] and
      [datetime.fromisoformat] are section variables.
    - [Listing] ([Module Listing]): [list_meetings] (307-347), its two
      queries, their union and the stable sort newest first (stdpp's
      [merge_sort]), against the contract [listing_spec].
    - [Service] ([Module Service]): the blueprint's dispatch [handle],
      the step relation (one request of an existing user, as
      [token_required] admits), reachability, and the invariants.
    - [Concurrency] ([Module Concurrency]): [join_meeting_tz] cut at
      its two commits into [join_reads] and [advance], requests as
      threads moved by a schedule; with the program's naive times every
      join answers at its reads, and the races it shows are latent.
    - [Progress] ([Module Progress]): what the step relation of
      [Service] can always still do.
    - [Routing] ([Module Routing]): the URL map of the application (the
      route decorators of both blueprints under the prefixes of
      [__init__.py], and the health checks) with Werkzeug's matching,
      the health and error views of [__init__.py], and [to_request],
      which composes a matched route and its body with [Service].
    - [Users] ([Module Users]): the [User] row of [models/user.py] and
      all its methods, with their lockout and one-shot verification
      lemmas; werkzeug's hashing is the [Hasher] class, with its law in
      [HasherLaws].
    - [Auth] ([Module Auth]): [validate_email], [validate_password],
      [validate_name] with the source's patterns, SQL [ILIKE], [register],
      [login], [verify_token] and [token_required]; PyJWT is the [Jwt]
      class.
    - [Responses] ([Module Responses]): [api_response],
      [error_response], [success_response] of [utils/responses.py], the
      body as the Python dict built by [update] and item assignment
      ([py_dict_update], [py_dict_set] of [Python]).
    - [Transaction] ([Module Transaction]): [with_transaction] and
      [safe_commit] of [utils/database.py] over the session of
      [Session]; the routes' inline [commit_or_500] is the decorator
      with the exception answered by a 500.
    - [Socket] ([Module Socket]): [utils/socket_events.py], the
      decorator [socket_auth_required] and the six handlers, over the
      room state of python-socketio (connected session ids and room
      memberships), as a labelled transition system [sstep] whose labels
      record each emit and the clients it reaches.  Connection and
      disconnection, and the delivery of an emit to a room, a list of
      rooms or the namespace room [None] ([room_target], [deliver]), are
      the library's.
    - [Serialize] ([Module Serialize]): the [to_dict] of every model,
      the JSON bodies of the join answer ([meeting_dict.update]) and of
      the waiting room, and the route's [s.replace('Z', '+00:00')]; over
      a model of the library functions [datetime.isoformat] and
      [datetime.fromisoformat] on the proleptic Gregorian calendar
      (H. Hinnant's [civil_from_days] / [days_from_civil] by 400-year
      eras).
    - [Config] ([Module Config]): the start-up of [src/__init__.py]
      (lines 13-58): the required environment variables, the
      configuration, the CORS rules of flask-cors, and the initialisation
      of SQLAlchemy and Redis, whose success is an input.
    - [Legacy] ([Module Legacy]): the blueprints [routes/auth.py] and
      [routes/meetings.py] outside [src/], with their own
      [token_required], over rows holding the attributes they use, and
      their server as a step relation [lstep].
    - [Migration] ([Module Migration]): the Alembic migration as DDL
      statements ([Ddl]) run against a PostgreSQL catalog, with the
      errors PostgreSQL raises; [upgrade_ops] and [downgrade_ops].
    - [Models] ([Module Models]): every column declaration of the five
      model classes ([OrmColumn]: type, nullability, client default,
      [unique], [index], [ForeignKey]) and the attributes each
      [__init__] assigns, the DDL [db.create_all()] emits from them
      ([orm_ddl]), and their comparison with the migrated tables.

    ** What the theorems show (claims C1-C31 of the manifest)

    - C1-C5 ([Service]): in every state reachable from one satisfying
      the invariants, a non-zero [max_participants] bounds the current
      rows, a user has at most one current row in a live meeting, there
      is one row per (meeting, user), [left_at] is never set, and the
      audit table only grows, by rows of increasing id.  Each handler's
      effect is classified once ([handle_effect]); the invariants are
      proved per class and lifted by induction on [rtc].  They hold for
      either awareness of the meeting times.
    - C6 ([Admission]) and C7 ([Service]): even with comparable times,
      the first join of a user other than the creator raises TypeError,
      because [MeetingParticipant(...)] is called with the keyword
      [joined_at] its [__init__] does not take, and answers 500 with
      nothing written; hence no request ever creates a participant row.
    - C8 ([Admission]): the program's [join_meeting] equals
      [join_meeting_ref], which never admits: every live meeting answers
      500 at the comparison of line 206.
    - C9-C11 ([Admission]): no write on a join error; the decisions are
      for moderators only and re-check capacity.
    - C12 ([Progress]): from any state the creator's rejections empty
      the waiting room: a liveness property proved by induction on the
      number of waiting rows.
    - C13, C14, C16, C17 ([Lifecycle]): what an accepted creation
      request satisfies; [create_meeting] never creates anything, as its
      audit row is built from the id of an unflushed meeting; a meeting
      with audit rows cannot be deleted; only the creator manages a
      meeting.  C15 ([Listing]): the listing meets its contract, which
      fixes it up to meetings created at the same instant.
    - C18-C20 ([Auth]): the e-mail rule; a registration body logs its
      user in; the duplicate check reads [_] as a wildcard, refusing
      every address that matches a stored one that way.
    - C21 ([Routing]): every request of [Service] has a URL that the
      application routes back to the same request.
    - C22, C23 ([Serialize]): reading a [Meeting.to_dict] gives back the
      row; [create_meeting] accepts the printed times exactly when they
      carry an offset, which the times of a row loaded from the database
      do not.
    - C24, C25 ([Socket]): an offer addressed to [[null]] reaches every
      connected client; the [user_id] an event forwards is the one of
      the sender's valid token.
    - C26 ([Config]): the application starts exactly when the three
      required variables are non-empty and both services initialise.
    - C27 ([Migration]): on any well-formed catalog, [downgrade] undoes
      [upgrade] exactly, by a generic lemma on creations and their
      inverses run in reverse order.
    - C28, C29 ([Models]): every column a model class maps exists in the
      migrated table with the same type (JSON stored as JSONB) and
      nullability, and the columns it does not map accept an INSERT
      that omits them; every NOT NULL column is defaulted or assigned by
      the class's [__init__].
    - C30, C31 ([Legacy]): the legacy tables keep unique lower-cased
      emails, unique usernames and existing hosts along every run; the
      legacy decorator answers 500 to a header without a space and
      ignores the word before the token.
    - Lemmas that are not claims describe the join past line 206
      ([tz = true]): the time window, capacity for everyone, rejoins of
      declined rows, the bounds of the answer, the serial refinement and
      termination of interleaved joins and their two races, and the
      library models ([Regex.matchb_spec], [Serialize.isoformat_roundtrip]).

    ** Modelling decisions, bounds and fuel

    - The authenticated user is an argument of each handler; [Auth]
      shows [token_required] yields only ids of the users table, which
      [Db.users] holds.  JWT decoding, hashing, [bleach.clean] and
      [fromisoformat] are interfaces or section variables of which only
      the laws a theorem states are assumed; [Serialize.request_datetime]
      models the last one, and C23 plugs it into [create_meeting]'s
      parsing.
    - One clock reading per request: every [datetime.now(UTC)] of a
      handler is the same [now], aware.  Random salts and tokens are
      inputs.
    - A datetime is an instant and whether it is aware; [<] between an
      aware and a naive one is TypeError ([Time.py_dt_lt]).  The meeting
      columns are [db.DateTime] without time zone, so a loaded meeting's
      times are naive ([Schema.meeting_times_aware]); the handlers and
      the invariants are stated for either awareness, so that the code
      after line 206 is verified as well as the program's answer.
    - [total_seconds() / 60] is a float; the model rounds the exact
      quotient, which agrees except within one ulp of a half minute (and
      is reached only with comparable times).
    - A JSON float is the rational its literal denotes; its rounding to
      a double is not modelled.  Python's [True == 1] and [3.0 == 3] are
      kept where the code compares or hashes values.
    - A character is a code point U+0000-U+00FF; [len] counts them.
    - No definition needs fuel: the matcher recurses on the input, the
      handlers are not recursive, and a join is at most three steps
      ([rank]).
    - The calendar is proved by evaluation: [all_doe_ok] checks the
      146097 days of one 400-year era by [vm_compute] (about 20 s), and
      the era arithmetic lifts it to every day; [datetime.min] and
      [datetime.max] bound the years to 1-9999, the range of [%04d].
    - [fromisoformat] is Python 3.11's on the extended formats
      [YYYY-MM-DD[?HH[:MM[:SS[.f...]]]][Z|+HH:MM|-HH:MM]]; the basic
      formats, week dates and offsets with seconds, which Python also
      accepts, are answered [None].
    - [.first()] without [order_by] is some matching row (SQL fixes
      none): the first of the map's enumeration.  The theorems only use
      that it matches, or that it is the only row that matches.
    - The library models ([Regex], the calendar and ISO formats of
      [Serialize], python-socketio's rooms in [Socket]) are not mapped
      to code of the repository; the claims use them only through the
      patterns and calls the code writes.

    ** Not modelled, and why

    - In [__init__.py], logging is output only, and whether SQLAlchemy,
      Redis and the health probes succeed are inputs (their libraries
      are not modelled).  It never creates a SocketIO server nor calls
      [register_socket_events], so [Socket] models code that is not
      served.
    - Werkzeug's redirect of a doubled slash to the merged path.
    - [jsonify] itself (the JSON text of a [JVal]) and the
      [created_at]/[updated_at] defaults: whether a datetime is aware
      and the [updated_at] column are inputs of the [to_dict]s.
    - The models the legacy routes import ([models.meeting] with [code]
      and [is_active], [models.user] with [username]) do not exist in
      the repository: [Legacy] takes the meeting code and the password
      salt as inputs and [is_active] as True at creation, and the
      legacy [to_dict]s are answered by the row's id.
    - [tests/*.py]: test code, which targets URLs and helpers the
      application does not have.
    - In [add_co_host], [User.query.get(user_id)] with a float, a
      boolean or a decimal string as [user_id] (which the database would
      coerce) is answered 500 rather than looked up.
    - In [Migration], the implicit indexes of primary keys and unique
      constraints; column types are recorded, not checked.  In [Models],
      the [relationship]s and their backrefs are modelled where a
      handler's flush uses them (the cascades of [Session]); the
      backrefs on [User] ([created_meetings], [co_hosted_meetings],
      [meeting_participations], [meeting_actions]) are used by no
      handler.
    - The import lines of each module, and the route-handler [print]
      and [traceback] output of [list_meetings]; its [except] branch,
      which answers 500 after a failed query, is not modelled, as the
      queries are total functions of the database here. *)

From stdpp Require Export base gmap list strings.
From Stdlib Require Export ZArith Lia.

Declare Scope meeting_scope.
Delimit Scope meeting_scope with meeting.
Open Scope Z_scope.

Create HintDb meeting discriminated.
Create Rewrite HintDb meeting_rw.

(** ** Tables: counting and selecting rows *)

(** [query.filter(P).count()] on a table keyed by primary key. *)
Definition count_rows {A} (P : Z * A → Prop) `{∀ x, Decision (P x)}
    (m : gmap Z A) : nat :=
  size (filter P m).

(** [query.filter(P).first()]: some matching row (SQL without
    [ORDER BY] fixes none; the lemmas below only use that the row
    matches, or that it is the only one that matches). *)
Definition first_row {A} (P : Z * A → Prop) `{∀ x, Decision (P x)}
    (m : gmap Z A) : option (Z * A) :=
  head (map_to_list (filter P m)).

(** A predicate holds of some row of the table; executable through
    [first_row]. *)
Definition exists_row {A} (P : Z * A → Prop) `{∀ x, Decision (P x)}
    (m : gmap Z A) : bool :=
  match first_row P m with Some _ => true | None => false end.

Notation "'rows_where' P 'of' m" := (count_rows P m)
  (at level 10, P at level 9, m at level 9) : meeting_scope.

Open Scope meeting_scope.

(** ** Tactics *)

(** Split every [if] of the goal and of the hypotheses, keeping the
    condition as an equation. *)
Ltac case_ifs :=
  repeat match goal with
  | |- context [if ?c then _ else _] => let E := fresh "E" in destruct c eqn:E
  | H : context [if ?c then _ else _] |- _ => let E := fresh "E" in destruct c eqn:E
  end.

(** Turn the boolean comparisons of the code into propositions. *)
Ltac zbool :=
  repeat match goal with
  | H : (_ =? _) = true |- _ => apply Z.eqb_eq in H
  | H : (_ =? _) = false |- _ => apply Z.eqb_neq in H
  | H : (_ <? _) = true |- _ => apply Z.ltb_lt in H
  | H : (_ <? _) = false |- _ => apply Z.ltb_ge in H
  | H : (_ <=? _) = true |- _ => apply Z.leb_le in H
  | H : (_ <=? _) = false |- _ => apply Z.leb_gt in H
  | H : (_ >? _) = true |- _ => apply Z.gtb_lt in H
  | H : (_ >? _) = false |- _ => rewrite Z.gtb_ltb in H; apply Z.ltb_ge in H
  | H : (_ && _) = true |- _ => apply andb_true_iff in H as [? ?]
  | H : (_ || _) = false |- _ => apply orb_false_iff in H as [? ?]
  | H : (_ && _) = false |- _ => apply andb_false_iff in H as [H|H]
  | H : (_ || _) = true |- _ => apply orb_true_iff in H as [H|H]
  | H : negb _ = true |- _ => apply negb_true_iff in H
  | H : negb _ = false |- _ => apply negb_false_iff in H
  | H : bool_decide _ = true |- _ => apply bool_decide_eq_true in H
  | H : bool_decide _ = false |- _ => apply bool_decide_eq_false in H
  | H : Nat.eqb _ _ = true |- _ => apply Nat.eqb_eq in H
  | H : Nat.eqb _ _ = false |- _ => apply Nat.eqb_neq in H
  | H : Nat.ltb _ _ = true |- _ => apply Nat.ltb_lt in H
  | H : Nat.ltb _ _ = false |- _ => apply Nat.ltb_ge in H
  | H : Nat.leb _ _ = true |- _ => apply Nat.leb_le in H
  | H : Nat.leb _ _ = false |- _ => apply Nat.leb_gt in H
  end.

(** ** Generic lemmas on rows *)

Section rows.
Context {A : Type}.
Implicit Types (m : gmap Z A).

Lemma count_rows_insert (P : Z * A → Prop) `{∀ x, Decision (P x)} m i x :
  count_rows P (<[i:=x]> m) =
    (count_rows P (delete i m) + if bool_decide (P (i, x)) then 1 else 0)%nat.
Proof.
  unfold count_rows. rewrite map_filter_insert.
  case_decide; rewrite ?bool_decide_true, ?bool_decide_false by done.
  - rewrite <-insert_delete_eq, map_size_insert_None.
    + rewrite map_filter_delete. lia.
    + apply lookup_delete_eq.
  - lia.
Qed.

Lemma count_rows_lookup (P : Z * A → Prop) `{∀ x, Decision (P x)} m i y :
  m !! i = Some y →
  count_rows P m =
    (count_rows P (delete i m) + if bool_decide (P (i, y)) then 1 else 0)%nat.
Proof.
  intros Hi. rewrite <-(count_rows_insert P). by rewrite insert_id.
Qed.

Lemma count_rows_ext (P Q : Z * A → Prop) `{∀ x, Decision (P x)}
    `{∀ x, Decision (Q x)} m :
  (∀ i x, m !! i = Some x → P (i, x) ↔ Q (i, x)) →
  count_rows P m = count_rows Q m.
Proof. intros HPQ. unfold count_rows. f_equal. by apply map_filter_ext. Qed.

Lemma count_rows_delete_le (P : Z * A → Prop) `{∀ x, Decision (P x)} m i :
  (count_rows P (delete i m) <= count_rows P m)%nat.
Proof.
  apply map_subseteq_size, map_filter_subseteq_mono, delete_subseteq.
Qed.

Lemma count_rows_mono (P Q : Z * A → Prop) `{∀ x, Decision (P x)}
    `{∀ x, Decision (Q x)} m :
  (∀ i x, m !! i = Some x → P (i, x) → Q (i, x)) →
  (count_rows P m <= count_rows Q m)%nat.
Proof. intros HPQ. apply map_subseteq_size. by apply map_filter_subseteq_ext. Qed.

Lemma first_row_Some (P : Z * A → Prop) `{∀ x, Decision (P x)} m k v :
  first_row P m = Some (k, v) → m !! k = Some v ∧ P (k, v).
Proof.
  unfold first_row. destruct (map_to_list (filter P m)) as [|[k' v'] l] eqn:E;
    simpl; [done|]. intros [= -> ->].
  assert ((k, v) ∈ map_to_list (filter P m)) as Hin by (rewrite E; left).
  apply elem_of_map_to_list, map_lookup_filter_Some in Hin. done.
Qed.

Lemma first_row_None (P : Z * A → Prop) `{∀ x, Decision (P x)} m :
  first_row P m = None ↔ ∀ k v, m !! k = Some v → ¬ P (k, v).
Proof.
  unfold first_row.
  transitivity (map_to_list (filter P m) = []).
  { destruct (map_to_list (filter P m)); naive_solver. }
  rewrite map_to_list_empty_iff, map_empty_filter, map_Forall_lookup. done.
Qed.

Lemma first_row_unique (P : Z * A → Prop) `{∀ x, Decision (P x)} m k v :
  (∀ k1 v1 k2 v2, m !! k1 = Some v1 → m !! k2 = Some v2 →
     P (k1, v1) → P (k2, v2) → k1 = k2) →
  m !! k = Some v → P (k, v) → first_row P m = Some (k, v).
Proof.
  intros Huniq Hk HP. destruct (first_row P m) as [[k' v']|] eqn:E.
  - apply first_row_Some in E as [Hk' HP'].
    assert (k' = k) as -> by eauto. congruence.
  - exfalso. eapply first_row_None; eauto.
Qed.

Lemma exists_row_true (P : Z * A → Prop) `{∀ x, Decision (P x)} m :
  exists_row P m = true ↔ ∃ k v, m !! k = Some v ∧ P (k, v).
Proof.
  unfold exists_row. destruct (first_row P m) as [[k v]|] eqn:E; split; try done.
  - intros _. apply first_row_Some in E. eauto.
  - intros (k & v & Hk & HP). eapply first_row_None in E; eauto.
Qed.

Lemma exists_row_false (P : Z * A → Prop) `{∀ x, Decision (P x)} m :
  exists_row P m = false ↔ ∀ k v, m !! k = Some v → ¬ P (k, v).
Proof.
  rewrite <-not_true_iff_false, exists_row_true. naive_solver.
Qed.
End rows.

#[export] Hint Resolve count_rows_delete_le : meeting.
#[export] Hint Rewrite @count_rows_insert : meeting_rw.
