(* ===== verification/Time.v ===== *)
(** The clock and the [datetime]/[timedelta] arithmetic of the handlers.

    An instant is a [Z] count of microseconds, the resolution of Python's
    [datetime]; a [timedelta] is a difference of instants.  The
    functions below are the three pieces of [timedelta] arithmetic that
    routes/meetings.py uses: comparing [total_seconds()] with a bound,
    [timedelta.days] (floor division by one day), and Python 3's [round]
    of a quotient (half to even).  A [datetime] is an instant with
    whether it is aware; [py_dt_lt] is its [<], which raises TypeError
    between an aware and a naive one. *)

From S2P Require Import Prelude.

Definition usec_per_sec : Z := 1000000.

(** [n] seconds as a [timedelta]. *)
Definition seconds (n : Z) : Z := n * usec_per_sec.

Notation "n 'secs'" := (seconds n) (at level 1, no associativity) : meeting_scope.

(** [timedelta.days]: Python normalises a timedelta so that its
    [seconds] and [microseconds] are non-negative, hence floor division. *)
Definition td_days (d : Z) : Z := d / 86400 secs.

(** [round(a / b)] for [b > 0]: Python 3 rounds half to even. *)
Definition py_round_div (a b : Z) : Z :=
  let q := a / b in
  let r := a mod b in
  if 2 * r <? b then q
  else if b <? 2 * r then q + 1
  else if Z.even q then q else q + 1.

(** [round(td.total_seconds() / 60)]: a timedelta in whole minutes. *)
Definition round_minutes (d : Z) : Z := py_round_div d 60 secs.

(** A [datetime] as a value: its instant and whether it carries a
    [tzinfo].  Python's [a < b] compares the instants when both are
    aware or both naive, and raises TypeError ("can't compare
    offset-naive and offset-aware datetimes", [None]) otherwise; [a > b]
    is [b < a]. *)
Definition py_dt_lt (a b : Z * bool) : option bool :=
  if Bool.eqb a.2 b.2 then Some (a.1 <? b.1) else None.

(** ** Lemmas *)

(** [py_round_div a b] is within half a unit of [a / b]. *)
Lemma py_round_div_spec a b :
  0 < b → 2 * a - b <= 2 * b * py_round_div a b <= 2 * a + b.
Proof.
  intros Hb. unfold py_round_div.
  pose proof (Z.div_mod a b ltac:(lia)) as Hdm.
  pose proof (Z.mod_pos_bound a b Hb) as Hr.
  case_ifs; zbool; lia.
Qed.

(** A delay of more than [60 k - 30] seconds rounds to at least [k]
    minutes. *)
Lemma round_minutes_lower d k : d > (60 * k - 30) secs → k <= round_minutes d.
Proof.
  intros Hd. unfold round_minutes.
  pose proof (py_round_div_spec d (60 secs) ltac:(unfold seconds, usec_per_sec; lia)).
  unfold seconds, usec_per_sec in *. nia.
Qed.

Lemma td_days_gt d n : td_days d > n ↔ d >= (n + 1) * 86400 secs.
Proof.
  unfold td_days, seconds, usec_per_sec. split; intros H.
  - pose proof (Z.mul_div_le d (86400 * 1000000) ltac:(lia)). nia.
  - enough (n + 1 <= d / (86400 * 1000000)) by lia.
    apply Z.div_le_lower_bound; lia.
Qed.

(** A non-negative delay rounds to a non-negative number of minutes, at
    most half a minute above the delay. *)
Lemma round_minutes_bounds d : 0 <= d → 0 <= round_minutes d ∧ round_minutes d * 60 secs <= d + 30 secs.
Proof.
  intros Hd. unfold round_minutes.
  pose proof (py_round_div_spec d (60 secs) ltac:(unfold seconds, usec_per_sec; lia)).
  unfold seconds, usec_per_sec in *. split; nia.
Qed.


Lemma py_dt_lt_mixed a b : a.2 ≠ b.2 → py_dt_lt a b = None.
Proof. unfold py_dt_lt. intros Hne. by destruct a as [? []], b as [? []]. Qed.

Lemma py_dt_lt_same x y tz : py_dt_lt (x, tz) (y, tz) = Some (x <? y).
Proof. unfold py_dt_lt. simpl. by rewrite eqb_reflx. Qed.
