(* ===== verification/Python.v ===== *)
(** The Python built-ins the handlers call on request data: JSON values
    as [request.get_json()] returns them and their truthiness, [dict.get],
    [in], item assignment and [update] on a JSON object, and the [str]
    methods [isspace], [strip], [lower],
    [startswith] and [split(sep)[1]].

    A character is one code point of U+0000..U+00FF (a Rocq [ascii]),
    so [len] counts characters; the classification of characters
    ([isspace], [lower]) is Python's on that range. *)

From Stdlib Require Import QArith_base.
From S2P Require Import Prelude.

(** ** JSON values *)

(** What [json.loads] builds: a JSON float is the rational its literal
    denotes (its rounding to a double is not modelled), a JSON object
    the list of its members in order. *)
Inductive JVal :=
  | JNull | JBool (b : bool) | JInt (z : Z) | JStr (s : string)
  | JList (l : list JVal) | JFloat (q : Q) | JObj (kvs : list (string * JVal)).

(** [bool(v)]: [None], [False], [0], [0.0], empty strings, lists and
    objects are falsy. *)
Definition py_truthy (v : JVal) : bool :=
  match v with
  | JNull => false
  | JBool b => b
  | JInt z => negb (z =? 0)
  | JStr s => negb (String.eqb s "")
  | JList l => negb (bool_decide (l = []))
  | JFloat q => negb (Qeq_bool q 0)
  | JObj kvs => negb (bool_decide (kvs = []))
  end.

(** [data.get(k)]: JSON objects keep the last of duplicate keys. *)
Definition obj_get (k : string) (data : list (string * JVal)) : option JVal :=
  (λ ikv : nat * (string * JVal), ikv.2.2) <$> list_find (λ kv, kv.1 = k) (reverse data).

(** [d[k] = v]: an existing key keeps its place and takes the value, a
    new key goes last. *)
Definition py_dict_set (k : string) (v : JVal) (d : list (string * JVal)) :
    list (string * JVal) :=
  if bool_decide (k ∈ d.*1) then (λ kv, if bool_decide (kv.1 = k) then (k, v) else kv) <$> d
  else d ++ [(k, v)].

(** [d.update(e)]: the members of [e] set in order. *)
Definition py_dict_update (d e : list (string * JVal)) : list (string * JVal) :=
  foldl (λ acc kv, py_dict_set kv.1 kv.2 acc) d e.

(** [k in data]. *)
Definition obj_has (k : string) (data : list (string * JVal)) : bool :=
  bool_decide (is_Some (obj_get k data)).

(** [k in data] on a JSON value: [None] is the TypeError of a value that supports no
    membership test ([None], numbers, booleans). *)
Definition py_in (k : string) (data : JVal) : option bool :=
  match data with
  | JObj kvs => Some (bool_decide (k ∈ kvs.*1))
  | JList l => Some (existsb (λ v, match v with JStr s => String.eqb s k | _ => false end) l)
  | JStr s => Some (bool_decide (is_Some (String.index 0 k s)))
  | _ => None
  end.

(** [all(k in data for k in ks)]: stops at the first False; a TypeError
    of the first test propagates. *)
Fixpoint py_all_in (ks : list string) (data : JVal) : option bool :=
  match ks with
  | [] => Some true
  | k :: ks' =>
      match py_in k data with
      | Some true => py_all_in ks' data
      | Some false => Some false
      | None => None
      end
  end.

(** [data[k]] once [k in data] holds: a list or a string raises
    TypeError (indices must be integers). *)
Definition py_getitem (k : string) (data : JVal) : option JVal :=
  match data with JObj kvs => obj_get k kvs | _ => None end.

(** ** Characters *)

(** [str.isspace] on one character: tab, LF, VT, FF, CR, the separators
    0x1c-0x1f, space, NEL (0x85) and no-break space (0xa0). *)
Definition py_space (c : Ascii.ascii) : bool :=
  let n := Ascii.nat_of_ascii c in
  ((9 <=? n) && (n <=? 13))%nat || ((28 <=? n) && (n <=? 32))%nat ||
  (n =? 133)%nat || (n =? 160)%nat.

(** [str.lower] on one character: A-Z and the Latin-1 capitals
    0xc0-0xde except the multiplication sign 0xd7. *)
Definition py_lower_char (c : Ascii.ascii) : Ascii.ascii :=
  let n := Ascii.nat_of_ascii c in
  if ((65 <=? n) && (n <=? 90))%nat || ((192 <=? n) && (n <=? 222) && negb (n =? 215))%nat
  then Ascii.ascii_of_nat (n + 32) else c.

(** ** Strings *)

Fixpoint lstrip (l : list Ascii.ascii) : list Ascii.ascii :=
  match l with
  | c :: l' => if py_space c then lstrip l' else l
  | [] => []
  end.

(** [str.strip()]. *)
Definition py_strip (s : string) : string :=
  String.string_of_list_ascii
    (reverse (lstrip (reverse (lstrip (String.list_ascii_of_string s))))).

(** [str.lower()]. *)
Definition py_lower (s : string) : string :=
  String.string_of_list_ascii (py_lower_char <$> String.list_ascii_of_string s).

(** [s.startswith(p)]. *)
Definition py_startswith (p s : string) : bool := String.prefix p s.

(** The characters of [s] up to the first occurrence of [sep]. *)
Fixpoint first_piece (sep s : string) : string :=
  match s with
  | EmptyString => EmptyString
  | String c s' => if String.prefix sep s then EmptyString else String c (first_piece sep s')
  end.

(** [s.split(sep)[1]] for a non-empty [sep]: the piece between the first
    and the second occurrence of [sep]; [None] is the IndexError of a
    string without [sep]. *)
Fixpoint py_split_1 (sep s : string) : option string :=
  match s with
  | EmptyString => None
  | String c s' =>
      if String.prefix sep s
      then Some (first_piece sep (String.substring (String.length sep) (String.length s) s))
      else py_split_1 sep s'
  end.

(** [s.split(c)] for a one-character separator: every occurrence cuts,
    so empty pieces are kept. *)
Fixpoint split_chars (c : Ascii.ascii) (l : list Ascii.ascii) : list (list Ascii.ascii) :=
  match l with
  | [] => [[]]
  | d :: l' =>
      let rest := split_chars c l' in
      if Ascii.eqb d c then [] :: rest
      else match rest with p :: ps => (d :: p) :: ps | [] => [[d]] end
  end.

Definition py_split (c : Ascii.ascii) (s : string) : list string :=
  String.string_of_list_ascii <$> split_chars c (String.list_ascii_of_string s).

(** [c in s] for a character. *)
Fixpoint str_has (c : Ascii.ascii) (s : string) : bool :=
  match s with
  | EmptyString => false
  | String d s' => Ascii.eqb d c || str_has c s'
  end.

(** ** Decimal digits ([int(s)] and [str(n)]) *)

Definition is_digit_char (c : Ascii.ascii) : bool :=
  let n := Ascii.nat_of_ascii c in ((48 <=? n) && (n <=? 57))%nat.

Fixpoint digits_value (acc : Z) (l : list Ascii.ascii) : Z :=
  match l with
  | [] => acc
  | c :: l' => digits_value (10 * acc + Z.of_nat (Ascii.nat_of_ascii c - 48)) l'
  end.

(** The character of a digit [0 <= d < 10]. *)
Definition digit_char (d : Z) : Ascii.ascii := Ascii.ascii_of_nat (48 + Z.to_nat d).

(** ** Calls with keyword arguments *)

(** A signature [def f(p1, ..., pk=d, ...)]: each parameter's name and
    whether it has a default. *)
Definition Signature := list (string * bool).

(** Binding the keyword arguments of a call [f(k1=..., ..., kn=...)] to
    the parameters of [f]: a keyword that names no parameter, or a
    parameter without default that no keyword names, is the TypeError
    the call raises ([false]), before the body of [f] runs.  (A keyword
    given twice is a SyntaxError of the caller.) *)
Definition py_binds (sig : Signature) (kws : list string) : bool :=
  forallb (λ k, bool_decide (k ∈ sig.*1)) kws && forallb (λ p, p.2 || bool_decide (p.1 ∈ kws)) sig.

(** ** Lemmas *)

(** [obj_get] read from the front: the last member with the key. *)
Fixpoint last_get (k : string) (d : list (string * JVal)) : option JVal :=
  match d with
  | [] => None
  | (k', v) :: d' =>
      match last_get k d' with
      | Some w => Some w
      | None => if bool_decide (k' = k) then Some v else None
      end
  end.

Lemma obj_get_last k d : obj_get k d = last_get k d.
Proof.
  unfold obj_get. induction d as [|[k' v] d IH]; [done|]. rewrite reverse_cons. simpl.
  destruct (list_find _ (reverse d)) as [[i [k2 v2]]|] eqn:E; simpl in *; rewrite <-IH.
  - by erewrite list_find_app_l by done.
  - rewrite list_find_app_r by done. simpl. by case_decide; case_bool_decide.
Qed.

Lemma last_get_app k d e :
  last_get k (d ++ e) = match last_get k e with Some w => Some w | None => last_get k d end.
Proof.
  induction d as [|[k' v] d IH]; simpl; [by destruct (last_get k e)|].
  rewrite IH. by destruct (last_get k e).
Qed.

Lemma last_get_None k d : k ∉ d.*1 → last_get k d = None.
Proof.
  induction d as [|[k' v] d IH]; simpl; [done|]. rewrite not_elem_of_cons.
  intros [Hk Hd]. rewrite IH by done. case_bool_decide; congruence.
Qed.

(** In a dict without repeated keys, a member is what its key gives. *)
Lemma last_get_elem k v d : NoDup d.*1 → (k, v) ∈ d → last_get k d = Some v.
Proof.
  induction d as [|[k' v'] d IH]; intros Hnd Hin; [by apply elem_of_nil in Hin|].
  rewrite fmap_cons, NoDup_cons in Hnd. destruct Hnd as [Hk' Hnd]. simpl in Hk' |- *.
  apply elem_of_cons in Hin as [[= -> ->]|Hin].
  - by rewrite last_get_None, bool_decide_eq_true_2.
  - by rewrite IH.
Qed.

Lemma obj_get_elem k v d : NoDup d.*1 → (k, v) ∈ d → obj_get k d = Some v.
Proof. rewrite obj_get_last. apply last_get_elem. Qed.

Lemma last_get_replace k k' v d :
  last_get k' ((λ kv : string * JVal, if bool_decide (kv.1 = k) then (k, v) else kv) <$> d) =
    if bool_decide (k' = k) then (if bool_decide (k ∈ d.*1) then Some v else None)
    else last_get k' d.
Proof.
  induction d as [|[k1 v1] d IH]; [simpl; by case_bool_decide|].
  rewrite fmap_cons. cbn [last_get fst]. rewrite IH, fmap_cons. cbn [fst].
  repeat case_bool_decide; simplify_eq/=; rewrite ?elem_of_cons in *; naive_solver.
Qed.

(** Reading a key after setting one. *)
Lemma obj_get_dict_set k' k v d :
  obj_get k' (py_dict_set k v d) = if bool_decide (k' = k) then Some v else obj_get k' d.
Proof.
  rewrite !obj_get_last. unfold py_dict_set. case_bool_decide as Hin.
  - etrans; [apply last_get_replace|].
    destruct (bool_decide (k' = k)); [|done]. by rewrite bool_decide_eq_true_2.
  - rewrite last_get_app. simpl. destruct (decide (k' = k)) as [->|Hne].
    + by rewrite !bool_decide_eq_true_2.
    + rewrite !bool_decide_eq_false_2 by congruence. by destruct (last_get k' d).
Qed.

(** Setting keeps the keys of a dict distinct. *)
Lemma dict_set_keys k v d : (py_dict_set k v d).*1 = if bool_decide (k ∈ d.*1) then d.*1 else d.*1 ++ [k].
Proof.
  unfold py_dict_set. case_bool_decide; [|by rewrite fmap_app].
  rewrite <-list_fmap_compose. apply list_fmap_ext. intros _ [k1 v1] _. simpl. by case_bool_decide.
Qed.

Lemma dict_set_nodup k v d : NoDup d.*1 → NoDup (py_dict_set k v d).*1.
Proof.
  rewrite dict_set_keys. case_bool_decide; [done|]. intros Hd.
  apply NoDup_app. split_and!; [done| |by apply NoDup_singleton]. set_solver.
Qed.

(** [lower] fixes what it produces and keeps white space. *)
Lemma py_lower_char_idem c : py_lower_char (py_lower_char c) = py_lower_char c.
Proof. destruct c as [[] [] [] [] [] [] [] []]; reflexivity. Qed.

Lemma py_space_lower c : py_space (py_lower_char c) = py_space c.
Proof. destruct c as [[] [] [] [] [] [] [] []]; reflexivity. Qed.

Lemma list_ascii_of_string_of_list l :
  String.list_ascii_of_string (String.string_of_list_ascii l) = l.
Proof. apply String.list_ascii_of_string_of_list_ascii. Qed.

Lemma string_of_list_inj l1 l2 :
  String.string_of_list_ascii l1 = String.string_of_list_ascii l2 → l1 = l2.
Proof. intros H. by rewrite <-(list_ascii_of_string_of_list l1), H, list_ascii_of_string_of_list. Qed.

Lemma py_lower_idem s : py_lower (py_lower s) = py_lower s.
Proof.
  unfold py_lower. rewrite list_ascii_of_string_of_list, <-list_fmap_compose.
  f_equal. apply list_fmap_ext. intros _ c _. apply py_lower_char_idem.
Qed.

Lemma lstrip_lower l : lstrip (py_lower_char <$> l) = py_lower_char <$> lstrip l.
Proof. induction l as [|c l IH]; simpl; [done|]. rewrite py_space_lower. by destruct (py_space c). Qed.

Lemma py_strip_lower s : py_strip (py_lower s) = py_lower (py_strip s).
Proof.
  unfold py_strip, py_lower. rewrite !list_ascii_of_string_of_list. f_equal.
  by rewrite lstrip_lower, <-fmap_reverse, lstrip_lower, <-fmap_reverse.
Qed.

Lemma lstrip_head l c l' : lstrip l = c :: l' → py_space c = false.
Proof.
  induction l as [|d l IH]; simpl; [done|].
  destruct (py_space d) eqn:Hd; [done|]. by intros [= <- _].
Qed.

Lemma lstrip_id l : (∀ c l', l = c :: l' → py_space c = false) → lstrip l = l.
Proof. destruct l as [|c l]; simpl; [done|]. intros H. by rewrite (H c l eq_refl). Qed.

Lemma lstrip_suffix l : ∃ k, l = k ++ lstrip l.
Proof.
  induction l as [|c l [k Hk]]; simpl; [by exists []|].
  destruct (py_space c); [exists (c :: k); simpl; by f_equal|by exists []].
Qed.

Lemma lstrip_idem l : lstrip (lstrip l) = lstrip l.
Proof. apply lstrip_id. intros c l' H. by eapply lstrip_head. Qed.

(** A stripped string neither starts nor ends with white space. *)
Lemma py_strip_idem s : py_strip (py_strip s) = py_strip s.
Proof.
  unfold py_strip. rewrite list_ascii_of_string_of_list. f_equal.
  set (r := lstrip (String.list_ascii_of_string s)).
  assert (Hr : lstrip r = r) by apply lstrip_idem.
  assert (Hrr : lstrip (reverse (lstrip (reverse r))) = reverse (lstrip (reverse r))).
  { apply lstrip_id. intros c l' Hc.
    assert (Hpre : ∃ k, r = c :: l' ++ k).
    { destruct (lstrip_suffix (reverse r)) as [k Hk].
      exists (reverse k). rewrite <-(reverse_involutive r), Hk, reverse_app, Hc. done. }
    destruct Hpre as [k Hk]. rewrite Hk in Hr. by eapply lstrip_head. }
  rewrite Hrr, reverse_involutive, lstrip_idem. done.
Qed.

(** Reading a key after [update]: the updating dict wins. *)
Lemma obj_get_dict_update k d e :
  obj_get k (py_dict_update d e) = obj_get k e ∪ obj_get k d.
Proof.
  revert d. induction e as [|[k' v] e IH]; intros d.
  { unfold py_dict_update. cbn [foldl]. by destruct (obj_get k d). }
  change (py_dict_update d ((k', v) :: e)) with (py_dict_update (py_dict_set k' v d) e).
  rewrite IH, obj_get_dict_set, !obj_get_last. simpl.
  destruct (last_get k e); [by rewrite !union_Some_l|]. rewrite !(left_id_L None union).
  destruct (decide (k = k')) as [->|Hne].
  - by rewrite !bool_decide_eq_true_2, union_Some_l.
  - by rewrite !bool_decide_eq_false_2, (left_id_L None union) by congruence.
Qed.

Lemma dict_update_nodup d e : NoDup d.*1 → NoDup (py_dict_update d e).*1.
Proof.
  revert d. induction e as [|[k' v] e IH]; intros d Hd; [done|].
  apply IH, dict_set_nodup, Hd.
Qed.

Lemma digits_value_snoc acc l c :
  digits_value acc (l ++ [c]) = 10 * digits_value acc l + Z.of_nat (Ascii.nat_of_ascii c - 48).
Proof. revert acc. induction l as [|d l IH]; intros acc; simpl; [done|apply IH]. Qed.

Lemma digit_char_spec d :
  0 <= d < 10 →
  Z.of_nat (Ascii.nat_of_ascii (digit_char d) - 48) = d ∧ is_digit_char (digit_char d) = true.
Proof.
  intros Hd. unfold is_digit_char, digit_char.
  rewrite Ascii.nat_ascii_embedding by lia. split; [lia|].
  apply andb_true_iff. rewrite !Nat.leb_le. lia.
Qed.

(** *** Strings *)

Lemma string_app_cons c s t : String c s +:+ t = String c (s +:+ t).
Proof. reflexivity. Qed.

Lemma string_app_empty t : "" +:+ t = t.
Proof. reflexivity. Qed.

Lemma string_app_nil_r s : s +:+ "" = s.
Proof. induction s as [|c s IH]; [done|]. by rewrite string_app_cons, IH. Qed.

Lemma string_app_assoc s1 s2 s3 : (s1 +:+ s2) +:+ s3 = s1 +:+ (s2 +:+ s3).
Proof. induction s1 as [|c s1 IH]; [done|]. by rewrite !string_app_cons, IH. Qed.

Lemma substring_0_full s m : (String.length s <= m)%nat → String.substring 0 m s = s.
Proof.
  revert m. induction s as [|c s IH]; intros [|m] Hm; simpl in *; try done; [lia|].
  rewrite IH by lia. done.
Qed.

Lemma prefix_char c d s : String.prefix (String c EmptyString) (String d s) = Ascii.eqb c d.
Proof. simpl. destruct (Ascii.ascii_dec c d), (Ascii.eqb_spec c d); try congruence; by destruct s. Qed.

Lemma first_piece_none c s : str_has c s = false → first_piece (String c EmptyString) s = s.
Proof.
  induction s as [|d s IH]; intros Hs; [done|]. simpl in Hs. apply orb_false_iff in Hs as [Hd Hs].
  cbn [first_piece]. rewrite prefix_char, Ascii.eqb_sym, Hd. by rewrite IH.
Qed.

(** [s.split(c)[1]] raises IndexError when [c] does not occur in [s]. *)
Lemma py_split_1_none c s : str_has c s = false → py_split_1 (String c EmptyString) s = None.
Proof.
  induction s as [|d s IH]; intros Hs; [done|]. simpl in Hs. apply orb_false_iff in Hs as [Hd Hs].
  cbn [py_split_1]. rewrite prefix_char, Ascii.eqb_sym, Hd. by apply IH.
Qed.

(** [(p + c + t).split(c)[1]] is [t] when neither holds [c]. *)
Lemma py_split_1_app c p t : str_has c p = false → str_has c t = false →
  py_split_1 (String c EmptyString) (p +:+ String c t) = Some t.
Proof.
  intros Hp Ht. induction p as [|d p IH].
  - rewrite string_app_empty. cbn [py_split_1]. rewrite prefix_char, Ascii.eqb_refl.
    cbn [String.length String.substring]. rewrite substring_0_full by lia. by rewrite first_piece_none.
  - simpl in Hp. apply orb_false_iff in Hp as [Hd Hp]. rewrite string_app_cons. cbn [py_split_1].
    rewrite prefix_char, Ascii.eqb_sym, Hd. by apply IH.
Qed.

(** *** Keyword arguments *)

(** A keyword the signature does not name makes the call raise. *)
Lemma py_binds_unexpected sig kws k : k ∈ kws → k ∉ sig.*1 → py_binds sig kws = false.
Proof.
  intros Hk Hn. unfold py_binds. apply andb_false_iff. left.
  apply not_true_iff_false. rewrite forallb_forall. intros Hall.
  apply Hn. apply (bool_decide_eq_true_1 _). apply Hall. by apply list_elem_of_In.
Qed.

(** A call binds when it names exactly the parameters it gives, and
    every parameter without default. *)
Lemma py_binds_true sig kws :
  py_binds sig kws = true ↔ (∀ k, k ∈ kws → k ∈ sig.*1) ∧ (∀ p, p ∈ sig → p.2 = false → p.1 ∈ kws).
Proof.
  unfold py_binds. rewrite andb_true_iff, !forallb_forall.
  setoid_rewrite <-list_elem_of_In. setoid_rewrite bool_decide_eq_true.
  split; intros [H1 H2]; split; try done.
  - intros p Hp Hd. specialize (H2 p Hp). rewrite Hd in H2. by apply bool_decide_eq_true in H2.
  - intros p Hp. destruct p.2 eqn:Hd; [done|]. apply bool_decide_eq_true. by apply H2.
Qed.
