(* ===== verification/Regex.v ===== *)
(** The fragment of Python's [re] that routes/auth.py uses: character
    classes, concatenation, alternation, repetition ([*], [+], [{m,}],
    [{m,n}]), with [re.match] on a pattern anchored by [^] and [$], and
    [re.search].

    [matches] is the meaning of a pattern (the language it denotes);
    [matchb] decides it with Brzozowski derivatives, the executable
    matcher the validators are run with, and the two agree on every
    pattern and string.  Python's [$] matches at the end of the string or before a
    newline that ends it, which [py_match_dollar] writes out. *)

From S2P Require Import Prelude Python.

Module Regex.

(** ** Syntax and meaning *)

Inductive re :=
  | RNone
  | REps
  | RClass (p : Ascii.ascii → bool)
  | RCat (r1 r2 : re)
  | RAlt (r1 r2 : re)
  | RStar (r : re).

Inductive matches : re → list Ascii.ascii → Prop :=
  | MEps : matches REps []
  | MClass p c : p c = true → matches (RClass p) [c]
  | MCat r1 r2 s1 s2 : matches r1 s1 → matches r2 s2 → matches (RCat r1 r2) (s1 ++ s2)
  | MAltL r1 r2 s : matches r1 s → matches (RAlt r1 r2) s
  | MAltR r1 r2 s : matches r2 s → matches (RAlt r1 r2) s
  | MStarNil r : matches (RStar r) []
  | MStarApp r s1 s2 : matches r s1 → matches (RStar r) s2 → matches (RStar r) (s1 ++ s2).

(** ** The derivative matcher *)

Fixpoint nullable (r : re) : bool :=
  match r with
  | RNone | RClass _ => false
  | REps | RStar _ => true
  | RCat r1 r2 => nullable r1 && nullable r2
  | RAlt r1 r2 => nullable r1 || nullable r2
  end.

(** Concatenation and alternation that drop the empty language and the
    empty word, keeping the derivatives small. *)
Definition cat (r1 r2 : re) : re :=
  match r1, r2 with
  | RNone, _ => RNone
  | _, RNone => RNone
  | REps, _ => r2
  | _, REps => r1
  | _, _ => RCat r1 r2
  end.

Definition alt (r1 r2 : re) : re :=
  match r1, r2 with
  | RNone, _ => r2
  | _, RNone => r1
  | _, _ => RAlt r1 r2
  end.

Fixpoint deriv (c : Ascii.ascii) (r : re) : re :=
  match r with
  | RNone | REps => RNone
  | RClass p => if p c then REps else RNone
  | RCat r1 r2 =>
      if nullable r1 then alt (cat (deriv c r1) r2) (deriv c r2) else cat (deriv c r1) r2
  | RAlt r1 r2 => alt (deriv c r1) (deriv c r2)
  | RStar r1 => cat (deriv c r1) (RStar r1)
  end.

Fixpoint matchb (r : re) (s : list Ascii.ascii) : bool :=
  match s with
  | [] => nullable r
  | c :: s' => matchb (deriv c r) s'
  end.

(** ** Python's repetitions and classes *)

Definition plus (r : re) : re := RCat r (RStar r).

(** [r{n}]. *)
Fixpoint rep (n : nat) (r : re) : re :=
  match n with O => REps | S n => RCat r (rep n r) end.

(** [r{0,n}], nested so that its derivatives stay one term. *)
Fixpoint rep_upto (n : nat) (r : re) : re :=
  match n with O => REps | S n => RAlt REps (RCat r (rep_upto n r)) end.

(** [r{m,}] and [r{m,n}]. *)
Definition rep_min (m : nat) (r : re) : re := RCat (rep m r) (RStar r).
Definition rep_range (m n : nat) (r : re) : re := RCat (rep m r) (rep_upto (n - m)%nat r).

(** A literal character. *)
Definition chr (c : Ascii.ascii) : re := RClass (λ d, bool_decide (d = c)).

(** The members of a class. *)
Definition in_range (lo hi : nat) (c : Ascii.ascii) : bool :=
  ((lo <=? Ascii.nat_of_ascii c) && (Ascii.nat_of_ascii c <=? hi))%nat.
Definition one_of (cs : list Ascii.ascii) (c : Ascii.ascii) : bool :=
  bool_decide (c ∈ cs).
Definition is_upper := in_range 65 90.
Definition is_lower := in_range 97 122.
Definition is_digit := in_range 48 57.
Definition is_alpha (c : Ascii.ascii) : bool := is_upper c || is_lower c.

(** ** [re.match] and [re.search] *)

(** [re.match(r'^' + r + '$', s)]: the whole string, or the whole
    string but a final newline. *)
Definition py_match_dollar (r : re) (s : string) : bool :=
  let l := String.list_ascii_of_string s in
  matchb r l ||
  match reverse l with
  | c :: rl => bool_decide (c = Ascii.ascii_of_nat 10) && matchb r (reverse rl)
  | [] => false
  end.

Fixpoint prefixes_of (l : list Ascii.ascii) : list (list Ascii.ascii) :=
  [] :: match l with [] => [] | c :: l' => cons c <$> prefixes_of l' end.

Fixpoint search_from (r : re) (l : list Ascii.ascii) : bool :=
  existsb (matchb r) (prefixes_of l) ||
  match l with [] => false | _ :: l' => search_from r l' end.

(** [re.search(r, s) is not None]. *)
Definition py_search (r : re) (s : string) : bool :=
  search_from r (String.list_ascii_of_string s).

(** ** The matcher decides the meaning *)

Lemma matches_none s : ¬ matches RNone s.
Proof. inversion 1. Qed.

Lemma matches_eps s : matches REps s ↔ s = [].
Proof. split; [by inversion 1|intros ->; constructor]. Qed.

Lemma matches_class p s : matches (RClass p) s ↔ ∃ c, s = [c] ∧ p c = true.
Proof. split; [inversion 1; eauto|intros (c & -> & Hc); by constructor]. Qed.

Lemma matches_cat r1 r2 s :
  matches (RCat r1 r2) s ↔ ∃ s1 s2, s = s1 ++ s2 ∧ matches r1 s1 ∧ matches r2 s2.
Proof. split; [inversion 1; eauto 10|intros (s1 & s2 & -> & H1 & H2); by constructor]. Qed.

Lemma matches_alt r1 r2 s : matches (RAlt r1 r2) s ↔ matches r1 s ∨ matches r2 s.
Proof. split; [inversion 1; eauto|intros [H|H]; by constructor]. Qed.

Lemma cons_eq_app {A} (c : A) s s1 s2 :
  c :: s = s1 ++ s2 → (s1 = [] ∧ s2 = c :: s) ∨ (∃ s1', s1 = c :: s1' ∧ s = s1' ++ s2).
Proof. destruct s1; simpl; [naive_solver|intros [= -> ->]; eauto]. Qed.

Lemma cat_cases r1 r2 :
  (cat r1 r2 = RNone ∧ (r1 = RNone ∨ r2 = RNone)) ∨ (r1 = REps ∧ cat r1 r2 = r2) ∨
  (r2 = REps ∧ cat r1 r2 = r1) ∨ cat r1 r2 = RCat r1 r2.
Proof. destruct r1, r2; simpl; auto 10. Qed.

Lemma alt_cases r1 r2 :
  (r1 = RNone ∧ alt r1 r2 = r2) ∨ (r2 = RNone ∧ alt r1 r2 = r1) ∨ alt r1 r2 = RAlt r1 r2.
Proof. destruct r1, r2; simpl; auto 10. Qed.

Lemma cat_spec r1 r2 s : matches (cat r1 r2) s ↔ matches (RCat r1 r2) s.
Proof.
  rewrite matches_cat.
  destruct (cat_cases r1 r2) as [[-> [->| ->]]|[[-> ->]|[[-> ->]| ->]]].
  - split; [by intros ?%matches_none|]. intros (? & ? & _ & ?%matches_none & _); done.
  - split; [by intros ?%matches_none|]. intros (? & ? & _ & _ & ?%matches_none); done.
  - setoid_rewrite matches_eps. split; [intros; by exists [], s|].
    by intros (s1 & s2 & -> & -> & ?).
  - setoid_rewrite matches_eps. split; [|intros (? & ? & -> & ? & ->); by rewrite app_nil_r].
    intros; exists s, []. by rewrite app_nil_r.
  - apply matches_cat.
Qed.

Lemma alt_spec r1 r2 s : matches (alt r1 r2) s ↔ matches (RAlt r1 r2) s.
Proof.
  rewrite matches_alt.
  destruct (alt_cases r1 r2) as [[-> ->]|[[-> ->]| ->]]; [| |apply matches_alt];
    split; try tauto; intros [H|H]; done || by apply matches_none in H.
Qed.

Lemma nullable_spec r : nullable r = true ↔ matches r [].
Proof.
  induction r as [| | |r1 IH1 r2 IH2|r1 IH1 r2 IH2|r IH]; simpl.
  - split; [done|inversion 1].
  - split; [constructor|done].
  - split; [done|inversion 1].
  - rewrite andb_true_iff, IH1, IH2, matches_cat. split.
    + intros [H1 H2]. by exists [], [].
    + intros (s1 & s2 & Heq & H1 & H2). symmetry in Heq.
      apply app_eq_nil in Heq as [-> ->]. done.
  - by rewrite orb_true_iff, IH1, IH2, matches_alt.
  - split; [constructor|done].
Qed.

(** A non-empty word of a star starts with a non-empty word of its body. *)
Lemma star_cons r c s :
  matches (RStar r) (c :: s) →
  ∃ s1 s2, s = s1 ++ s2 ∧ matches r (c :: s1) ∧ matches (RStar r) s2.
Proof.
  intros H. remember (RStar r) as r' eqn:Er. remember (c :: s) as w eqn:Ew.
  revert s Ew.
  induction H as [| | | | |r0|r0 s1 s2 H1 _ H2 IH2]; intros s0 Ew; try discriminate.
  injection Er as ->. destruct s1 as [|c' s1]; simpl in Ew; [by apply IH2|].
  injection Ew as -> <-. eauto.
Qed.

Lemma deriv_spec c r s : matches (deriv c r) s ↔ matches r (c :: s).
Proof.
  revert s. induction r as [| |p|r1 IH1 r2 IH2|r1 IH1 r2 IH2|r IH]; intros s; simpl.
  - split; intros H; inversion H.
  - split; intros H; inversion H.
  - rewrite matches_class. destruct (p c) eqn:Hp; rewrite ?matches_eps; split.
    + intros ->. eauto.
    + by intros (? & [= -> ->] & _).
    + intros H; inversion H.
    + intros (? & [= -> ->] & ?). congruence.
  - rewrite matches_cat. destruct (nullable r1) eqn:Hn.
    + rewrite alt_spec, matches_alt, cat_spec, matches_cat, IH2. setoid_rewrite IH1. split.
      * intros [(s1 & s2 & -> & H1 & H2)|H]; [by exists (c :: s1), s2|].
        exists [], (c :: s). apply nullable_spec in Hn. eauto.
      * intros (s1 & s2 & Heq & H1 & H2).
        apply cons_eq_app in Heq as [[-> ->]|(s1' & -> & ->)]; eauto 10.
    + rewrite cat_spec, matches_cat. setoid_rewrite IH1. split.
      * intros (s1 & s2 & -> & H1 & H2). by exists (c :: s1), s2.
      * intros (s1 & s2 & Heq & H1 & H2).
        apply cons_eq_app in Heq as [[-> ->]|(s1' & -> & ->)]; [|eauto].
        apply nullable_spec in H1. congruence.
  - by rewrite alt_spec, !matches_alt, IH1, IH2.
  - rewrite cat_spec, matches_cat. setoid_rewrite IH. split.
    + intros (s1 & s2 & -> & H1 & H2). change (c :: s1 ++ s2) with ((c :: s1) ++ s2).
      by constructor.
    + intros (s1 & s2 & -> & H1 & H2)%star_cons. eauto.
Qed.

Lemma matchb_correct r s : matchb r s = true ↔ matches r s.
Proof.
  revert r. induction s as [|c s IH]; intros r; simpl; [apply nullable_spec|].
  by rewrite IH, deriv_spec.
Qed.

(** The executable matcher decides the meaning of every pattern:
    [matchb r s] holds exactly when [s] is a word of [r]. *)
Lemma matchb_spec r s : matchb r s = true ↔ matches r s.
Proof.
  revert r. induction s as [|c s IH]; intros r; simpl; [apply nullable_spec|].
  by rewrite IH, deriv_spec.
Qed.

(** ** Python's anchors and search *)

Definition newline : Ascii.ascii := Ascii.ascii_of_nat 10.

Lemma py_match_dollar_spec r s :
  let l := String.list_ascii_of_string s in
  py_match_dollar r s = true ↔ matches r l ∨ ∃ l', l = l' ++ [newline] ∧ matches r l'.
Proof.
  intros l. unfold py_match_dollar. fold l. rewrite orb_true_iff, matchb_correct.
  apply or_iff_compat_l. destruct (reverse l) as [|c rl] eqn:E.
  - split; [done|]. intros (l' & -> & _). rewrite reverse_snoc in E. done.
  - rewrite andb_true_iff, bool_decide_eq_true, matchb_correct.
    assert (l = reverse rl ++ [c]) as El.
    { by rewrite <-(reverse_involutive l), E, reverse_cons. }
    split.
    + intros [-> H]. eauto.
    + intros (l' & Hl & H). rewrite El in Hl. apply app_inj_tail in Hl as [-> ->]. done.
Qed.

Lemma prefixes_of_spec b l : b ∈ prefixes_of l ↔ ∃ c, l = b ++ c.
Proof.
  revert b. induction l as [|x l IH]; intros b; simpl; rewrite elem_of_cons.
  - split; [intros [->|[]%elem_of_nil]; by exists []|].
    intros (c & Hc). symmetry in Hc. apply app_eq_nil in Hc as [-> _]. by left.
  - rewrite list_elem_of_fmap. setoid_rewrite IH. split.
    + intros [->|(b' & -> & c & ->)]; [by exists (x :: l)|]. by exists c.
    + intros (c & Hc). destruct b as [|y b']; [by left|].
      simpl in Hc. injection Hc as -> ->. right. eauto.
Qed.

Lemma search_from_spec r l :
  search_from r l = true ↔ ∃ a b c, l = a ++ b ++ c ∧ matches r b.
Proof.
  induction l as [|x l IH]; cbn [search_from]; rewrite orb_true_iff, existsb_exists;
    setoid_rewrite <-list_elem_of_In; setoid_rewrite prefixes_of_spec;
    setoid_rewrite matchb_correct.
  - split; [intros [(b & (c & Hc) & H)|?]; [by exists [], b, c|done]|].
    intros (a & b & c & Habc & H). left. exists b. split; [|done].
    symmetry in Habc. apply app_eq_nil in Habc as [-> Hbc].
    apply app_eq_nil in Hbc as [-> ->]. by exists [].
  - rewrite IH. split.
    + intros [(b & (c & Hc) & H)|(a & b & c & -> & H)]; [by exists [], b, c|].
      by exists (x :: a), b, c.
    + intros (a & b & c & Habc & H). destruct a as [|y a]; [left; by exists b; split; [exists c|]|].
      simpl in Habc. injection Habc as -> ->. right. eauto.
Qed.

(** [re.search] of a character class finds a character of the class. *)
Lemma py_search_class p s :
  py_search (RClass p) s = true ↔ Exists (λ c, p c = true) (String.list_ascii_of_string s).
Proof.
  unfold py_search. rewrite search_from_spec, Exists_exists. setoid_rewrite matches_class.
  split.
  - intros (a & b & c & Hs & x & -> & Hx). exists x. split; [|done].
    rewrite Hs. set_solver.
  - intros (x & Hin & Hx). apply list_elem_of_split in Hin as (a & c & Hs).
    exists a, [x], c. eauto.
Qed.

(** ** Repetitions of a class *)

Section class.
Context (p : Ascii.ascii → bool).
Notation all l := (Forall (λ c, p c = true) l).

Lemma star_class l : matches (RStar (RClass p)) l ↔ all l.
Proof.
  split.
  - intros H. induction l as [l IH] using (induction_ltof1 _ (@length _)); unfold ltof in IH.
    destruct l as [|c l]; [done|].
    apply star_cons in H as (s1 & s2 & -> & Hc & Hs2).
    apply matches_class in Hc as (? & [= -> ->] & Hc).
    constructor; [done|]. apply IH; [simpl; lia|done].
  - induction 1 as [|c l Hc _ IH]; [constructor|].
    change (c :: l) with ([c] ++ l). constructor; [by constructor|done].
Qed.

Lemma plus_class l : matches (plus (RClass p)) l ↔ l ≠ [] ∧ all l.
Proof.
  unfold plus. rewrite matches_cat. setoid_rewrite matches_class. setoid_rewrite star_class.
  split.
  - intros (s1 & s2 & -> & (c & -> & Hc) & H). split; [done|]. by constructor.
  - intros [Hne Hall]. destruct l as [|c l]; [done|]. inversion Hall; subst.
    exists [c], l. eauto.
Qed.

Lemma rep_class n l : matches (rep n (RClass p)) l ↔ length l = n ∧ all l.
Proof.
  revert l. induction n as [|n IH]; intros l; simpl.
  - rewrite matches_eps. split; [by intros ->|]. intros [Hl _]. by destruct l.
  - rewrite matches_cat. setoid_rewrite matches_class. setoid_rewrite IH. split.
    + intros (s1 & s2 & -> & (c & -> & Hc) & Hn & H). simpl. split; [lia|by constructor].
    + intros [Hl Hall]. destruct l as [|c l]; [done|]. inversion Hall; subst.
      exists [c], l. simpl in Hl. split_and!; [done|eauto|lia|done].
Qed.

Lemma rep_upto_class n l : matches (rep_upto n (RClass p)) l ↔ (length l <= n)%nat ∧ all l.
Proof.
  revert l. induction n as [|n IH]; intros l; simpl.
  - rewrite matches_eps. split; [by intros ->|]. intros [Hl _]. destruct l; simpl in *; [done|lia].
  - rewrite matches_alt, matches_eps, matches_cat. setoid_rewrite matches_class.
    setoid_rewrite IH. split.
    + intros [->|(s1 & s2 & -> & (c & -> & Hc) & Hn & H)]; simpl; [split; [lia|done]|].
      split; [lia|by constructor].
    + intros [Hl Hall]. destruct l as [|c l]; [by left|]. inversion Hall; subst.
      right. exists [c], l. simpl in Hl. split_and!; eauto with lia.
Qed.

Lemma rep_min_class m l : matches (rep_min m (RClass p)) l ↔ (m <= length l)%nat ∧ all l.
Proof.
  unfold rep_min. rewrite matches_cat. setoid_rewrite rep_class. setoid_rewrite star_class.
  split.
  - intros (s1 & s2 & -> & [<- H1] & H2). rewrite length_app. split; [lia|by apply Forall_app].
  - intros [Hl Hall]. exists (take m l), (drop m l). rewrite take_drop.
    split_and!; [done|rewrite length_take; lia|by apply Forall_take|by apply Forall_drop].
Qed.

Lemma rep_range_class m n :
  (m <= n)%nat → ∀ l, matches (rep_range m n (RClass p)) l ↔ (m <= length l <= n)%nat ∧ all l.
Proof.
  intros Hmn l. unfold rep_range. rewrite matches_cat. setoid_rewrite rep_class.
  setoid_rewrite rep_upto_class. split.
  - intros (s1 & s2 & -> & [<- H1] & [Hl2 H2]). rewrite length_app.
    split; [lia|by apply Forall_app].
  - intros [Hl Hall]. exists (take m l), (drop m l). rewrite take_drop, length_drop.
    split_and!; [done|rewrite length_take; lia|by apply Forall_take|lia|by apply Forall_drop].
Qed.
End class.

Lemma chr_spec c l : matches (chr c) l ↔ l = [c].
Proof. unfold chr. rewrite matches_class. setoid_rewrite bool_decide_eq_true. naive_solver. Qed.

End Regex.
