(* ===== verification/Schema.v ===== *)
(** The data model: the rows of the four meeting tables, their enums, the
    database, and the queries the handlers of routes/meetings.py share.

    Each table is a [gmap Z row] keyed by its primary key, and each has
    the id sequence of its [SERIAL] column.  Columns no handler reads
    ([updated_at], [recording_url], the participation statistics) are
    left out; the [users] table only matters through its ids here. *)

From S2P Require Import Prelude Time Python.

(** ** Enums (string columns whose values the code fixes) *)

(** [meeting_type]: 'regular', 'recurring', 'private'. *)
Inductive MeetingType := Regular | Recurring | Private.
(** [recurring_pattern]: 'daily', 'weekly', 'monthly', 'custom'. *)
Inductive RecurringPattern := Daily | Weekly | Monthly | Custom.
(** [MeetingParticipant.status]: 'pending', 'approved', 'declined'. *)
Inductive Status := Pending | Approved | Declined.
(** The role strings of [join_meeting]: 'host', 'co-host', 'attendee'. *)
Inductive Role := Host | CoHostRole | Attendee.
(** [MeetingAuditLog.action] values written by the handlers. *)
Inductive Action :=
  | Created | Joined | AddedCoHost | RemovedCoHost
  | ApprovedParticipant | RejectedParticipant.
(** The ['status'] entry of a 'joined' audit row:
    [participant.status if participant else 'host']. *)
Inductive JoinStatus := StatusOf (s : Status) | HostStatus.
(** The JSON [details] of an audit row, one shape per action. *)
Inductive Details :=
  | DCreated (mt : MeetingType) (requires_approval is_recorded : bool)
      (rp : option RecurringPattern)
  | DJoined (r : Role) (s : JoinStatus)
  | DCoHostId (user_id : Z)
  | DParticipantId (participant_id : Z).

#[export] Instance MeetingType_eq_dec : EqDecision MeetingType.
Proof. solve_decision. Defined.
#[export] Instance RecurringPattern_eq_dec : EqDecision RecurringPattern.
Proof. solve_decision. Defined.
#[export] Instance Status_eq_dec : EqDecision Status.
Proof. solve_decision. Defined.
#[export] Instance Role_eq_dec : EqDecision Role.
Proof. solve_decision. Defined.
#[export] Instance Action_eq_dec : EqDecision Action.
Proof. solve_decision. Defined.
#[export] Instance JoinStatus_eq_dec : EqDecision JoinStatus.
Proof. solve_decision. Defined.
#[export] Instance Details_eq_dec : EqDecision Details.
Proof. solve_decision. Defined.

(** ** Rows *)

(** [class Meeting] (models/meeting.py). *)
Record Meeting := mkMeeting {
  title : string;
  description : option string;
  start_time : Z;
  end_time : Z;
  created_by : Z;
  m_created_at : Z;
  ended_at : option Z;
  meeting_type : MeetingType;
  max_participants : option Z;
  requires_approval : bool;
  is_recorded : bool;
  recurring_pattern : option RecurringPattern;
  parent_meeting_id : option Z
}.

(** [start_time], [end_time] and [ended_at] are [db.DateTime] columns
    without [timezone=True] (models/meeting.py lines 10-15, the
    migration's [sa.DateTime()]): a meeting a handler loads from the
    database holds naive datetimes, whatever it was created with. *)
Definition meeting_times_aware : bool := false.

(** [class MeetingParticipant] (models/meeting_participant.py). *)
Record Participant := mkParticipant {
  p_meeting_id : Z;
  p_user_id : Z;
  status : Status;
  role : Role;
  joined_at : option Z;
  left_at : option Z;
  is_banned : bool;
  p_created_at : Z
}.

(** [class MeetingCoHost] (models/meeting_co_host.py). *)
Record CoHost := mkCoHost { ch_meeting_id : Z; ch_user_id : Z }.

(** [class MeetingAuditLog] (models/meeting_audit_log.py). *)
Record AuditLog := mkAuditLog {
  al_meeting_id : Z;
  al_user_id : Z;
  action : Action;
  details : Details;
  al_created_at : Z
}.

(** The database: one map per table and the id sequences. *)
Record Db := mkDb {
  users : gset Z;
  meetings : gmap Z Meeting;
  participants : gmap Z Participant;
  co_hosts : gmap Z CoHost;
  audit_logs : gmap Z AuditLog;
  next_meeting_id : Z;
  next_participant_id : Z;
  next_co_host_id : Z;
  next_audit_id : Z
}.

(** Field updates used by the handlers. *)
Definition set_ended_at (m : Meeting) (t : option Z) : Meeting :=
  {| title := m.(title); description := m.(description);
     start_time := m.(start_time); end_time := m.(end_time);
     created_by := m.(created_by); m_created_at := m.(m_created_at);
     ended_at := t; meeting_type := m.(meeting_type);
     max_participants := m.(max_participants);
     requires_approval := m.(requires_approval);
     is_recorded := m.(is_recorded);
     recurring_pattern := m.(recurring_pattern);
     parent_meeting_id := m.(parent_meeting_id) |}.

Definition set_parent (m : Meeting) (p : option Z) : Meeting :=
  {| title := m.(title); description := m.(description);
     start_time := m.(start_time); end_time := m.(end_time);
     created_by := m.(created_by); m_created_at := m.(m_created_at);
     ended_at := m.(ended_at); meeting_type := m.(meeting_type);
     max_participants := m.(max_participants);
     requires_approval := m.(requires_approval);
     is_recorded := m.(is_recorded);
     recurring_pattern := m.(recurring_pattern);
     parent_meeting_id := p |}.

(** ** The constructors of the model classes *)

(** Each model class defines its own [__init__].  SQLAlchemy's
    instrumentation wraps it with the same parameters, so a call
    [Model(k1=..., ...)] binds its keywords as Python does ([py_binds])
    and raises TypeError on a keyword the [__init__] does not take. *)

(** [Meeting.__init__(self, title, description, start_time, end_time,
    created_by, meeting_type='regular', max_participants=None,
    requires_approval=False, is_recorded=False)]. *)
Definition Meeting_init_sig : Signature :=
  [("title", false); ("description", false); ("start_time", false); ("end_time", false);
   ("created_by", false); ("meeting_type", true); ("max_participants", true);
   ("requires_approval", true); ("is_recorded", true)].

(** [MeetingParticipant.__init__(self, meeting_id, user_id,
    status='pending', role='attendee')]: [joined_at], [left_at] and
    [is_banned] are not parameters. *)
Definition MeetingParticipant_init_sig : Signature :=
  [("meeting_id", false); ("user_id", false); ("status", true); ("role", true)].

(** [MeetingCoHost.__init__(self, meeting_id, user_id)]. *)
Definition MeetingCoHost_init_sig : Signature := [("meeting_id", false); ("user_id", false)].

(** [MeetingAuditLog.__init__(self, meeting_id, user_id, action,
    details=None)]. *)
Definition MeetingAuditLog_init_sig : Signature :=
  [("meeting_id", false); ("user_id", false); ("action", false); ("details", true)].

(** ** Shared queries of routes/meetings.py *)

(** A meeting that exists and has no [ended_at]. *)
Definition live (db : Db) (mid : Z) : bool :=
  match db.(meetings) !! mid with
  | Some m => bool_decide (m.(ended_at) = None)
  | None => false
  end.

(** [filter_by(meeting_id=id, left_at=None)] (lines 219-222). *)
Definition is_current (mid : Z) (kv : Z * Participant) : Prop :=
  kv.2.(p_meeting_id) = mid ∧ kv.2.(left_at) = None.

(** [filter_by(meeting_id=id, left_at=None, status='approved')]
    (lines 561-565). *)
Definition is_current_approved (mid : Z) (kv : Z * Participant) : Prop :=
  kv.2.(p_meeting_id) = mid ∧ kv.2.(left_at) = None ∧ kv.2.(status) = Approved.

(** [filter_by(meeting_id=meeting.id, user_id=current_user.id)]
    (lines 227-230). *)
Definition is_row_of (mid u : Z) (kv : Z * Participant) : Prop :=
  kv.2.(p_meeting_id) = mid ∧ kv.2.(p_user_id) = u.

(** The join of lines 236-241: a row of [u] with [left_at] null in a
    meeting other than [mid] whose [ended_at] is null. *)
Definition is_active_elsewhere (db : Db) (u mid : Z) (kv : Z * Participant) : Prop :=
  kv.2.(p_user_id) = u ∧ kv.2.(left_at) = None ∧ kv.2.(p_meeting_id) ≠ mid ∧
  live db kv.2.(p_meeting_id) = true.

(** [MeetingCoHost.query.filter_by(meeting_id=.., user_id=..)]. *)
Definition is_co_host_row (mid u : Z) (kv : Z * CoHost) : Prop :=
  kv.2.(ch_meeting_id) = mid ∧ kv.2.(ch_user_id) = u.

#[export] Instance is_current_dec mid kv : Decision (is_current mid kv).
Proof. unfold is_current. apply _. Defined.
#[export] Instance is_current_approved_dec mid kv : Decision (is_current_approved mid kv).
Proof. unfold is_current_approved. apply _. Defined.
#[export] Instance is_row_of_dec mid u kv : Decision (is_row_of mid u kv).
Proof. unfold is_row_of. apply _. Defined.
#[export] Instance is_active_elsewhere_dec db u mid kv :
  Decision (is_active_elsewhere db u mid kv).
Proof. unfold is_active_elsewhere. apply _. Defined.
#[export] Instance is_co_host_row_dec mid u kv : Decision (is_co_host_row mid u kv).
Proof. unfold is_co_host_row. apply _. Defined.

Definition count_current (db : Db) (mid : Z) : nat :=
  count_rows (is_current mid) db.(participants).

Definition count_approved (db : Db) (mid : Z) : nat :=
  count_rows (is_current_approved mid) db.(participants).

(** [meeting.max_participants and current >= meeting.max_participants]:
    a [None] or [0] limit is falsy and disables the check. *)
Definition max_reached (mp : option Z) (current : nat) : bool :=
  match mp with
  | Some n => negb (n =? 0) && (n <=? Z.of_nat current)
  | None => false
  end.

Definition find_participant (db : Db) (mid u : Z) : option (Z * Participant) :=
  first_row (is_row_of mid u) db.(participants).

Definition active_participation (db : Db) (u mid : Z) : bool :=
  exists_row (is_active_elsewhere db u mid) db.(participants).

Definition is_co_host (db : Db) (mid u : Z) : bool :=
  exists_row (is_co_host_row mid u) db.(co_hosts).

(** Role derivation of lines 247-251. *)
Definition participant_role (db : Db) (m : Meeting) (mid u : Z) : Role :=
  if m.(created_by) =? u then Host
  else if is_co_host db mid u then CoHostRole
  else Attendee.

(** The permission test of lines 510-513, 546-549, 600-603. *)
Definition can_moderate (db : Db) (m : Meeting) (mid u : Z) : bool :=
  (m.(created_by) =? u) || is_co_host db mid u.

(** ** Lemmas *)

Lemma max_reached_spec mp current :
  max_reached mp current = true ↔
  ∃ n, mp = Some n ∧ n ≠ 0 ∧ n <= Z.of_nat current.
Proof.
  destruct mp as [n|]; simpl; [|naive_solver].
  rewrite andb_true_iff, negb_true_iff, Z.eqb_neq, Z.leb_le. naive_solver.
Qed.

Lemma max_reached_false mp current :
  max_reached mp current = false ↔
  ∀ n, mp = Some n → n ≠ 0 → Z.of_nat current < n.
Proof.
  rewrite <-not_true_iff_false, max_reached_spec.
  split; [intros H n -> Hn; apply Z.nle_gt; intros Hle; apply H; eauto|]. intros H (n & -> & Hn & Hle). specialize (H n eq_refl Hn). lia.
Qed.

Lemma live_true db mid :
  live db mid = true ↔ ∃ m, db.(meetings) !! mid = Some m ∧ m.(ended_at) = None.
Proof.
  unfold live. destruct (db.(meetings) !! mid); [|naive_solver].
  rewrite bool_decide_eq_true. naive_solver.
Qed.

Lemma find_participant_Some db mid u k p :
  find_participant db mid u = Some (k, p) →
  db.(participants) !! k = Some p ∧ p.(p_meeting_id) = mid ∧ p.(p_user_id) = u.
Proof. intros H%first_row_Some. unfold is_row_of in H. naive_solver. Qed.

Lemma find_participant_None db mid u :
  find_participant db mid u = None ↔
  ∀ k p, db.(participants) !! k = Some p → p.(p_meeting_id) = mid → p.(p_user_id) ≠ u.
Proof. unfold find_participant. rewrite first_row_None. unfold is_row_of. naive_solver. Qed.

Lemma active_participation_false db u mid :
  active_participation db u mid = false ↔
  ∀ k p, db.(participants) !! k = Some p → p.(p_user_id) = u → p.(left_at) = None →
    p.(p_meeting_id) ≠ mid → live db p.(p_meeting_id) = false.
Proof.
  unfold active_participation. rewrite exists_row_false. unfold is_active_elsewhere.
  setoid_rewrite <-not_true_iff_false. naive_solver.
Qed.

Lemma is_co_host_true db mid u :
  is_co_host db mid u = true ↔
  ∃ k c, db.(co_hosts) !! k = Some c ∧ c.(ch_meeting_id) = mid ∧ c.(ch_user_id) = u.
Proof. unfold is_co_host. rewrite exists_row_true. unfold is_co_host_row. naive_solver. Qed.

Lemma participant_role_host db m mid u :
  m.(created_by) = u → participant_role db m mid u = Host.
Proof. intros <-. unfold participant_role. by rewrite Z.eqb_refl. Qed.

#[export] Hint Resolve find_participant_Some : meeting.

(** The constructor calls of create_meeting (lines 142-152, 163,
    167-177), add_co_host (441, 445-450), remove_co_host (484-489),
    approve_participant (574-579) and reject_participant (617-622), and
    the audit row of join_meeting (280-287), bind their keywords: these
    rows are built as the handlers write them. *)
Lemma handler_constructor_calls_bind :
  py_binds Meeting_init_sig
    ["title"; "description"; "start_time"; "end_time"; "created_by"; "meeting_type";
     "max_participants"; "requires_approval"; "is_recorded"] = true ∧
  py_binds MeetingCoHost_init_sig ["meeting_id"; "user_id"] = true ∧
  py_binds MeetingAuditLog_init_sig ["meeting_id"; "user_id"; "action"; "details"] = true.
Proof. vm_compute. auto. Qed.
