(* ===== verification/Session.v ===== *)
(** The SQLAlchemy session as the handlers use it: a list of staged
    operations, applied all together by [db.session.commit()] or not at
    all.

    What the commit checks is what the PostgreSQL schema of
    migrations/versions/initial_schema.py and the ORM mappings of
    models/*.py make it check:
    - NOT NULL: a foreign key built from the id of an object that was
      [add]ed but not flushed is [None] ([Meeting.id] before the flush);
      inserting it fails;
    - FOREIGN KEY: [meeting_id] must name a meeting, [user_id] a user;
    - UNIQUE [uq_meeting_co_hosts (meeting_id, user_id)];
    - an UPDATE of a row that is gone fails (StaleDataError);
    - deleting a meeting deletes its participants and co-hosts
      ([cascade='all, delete-orphan'], models/meeting.py lines 28-29),
      sets [parent_meeting_id] of its child meetings to NULL (plain
      relationship, line 30), and sets [meeting_id] of its audit rows to
      NULL (the backref [audit_logs] of models/meeting_audit_log.py line
      15 has no delete cascade), which the NOT NULL constraint refuses.

    A failed commit is an exception; every handler catches it, calls
    [db.session.rollback()] and keeps the database it had. *)

From S2P Require Import Prelude Time Schema.

Inductive Op :=
  | InsertMeeting (m : Meeting)
  | InsertParticipant (p : Participant)
  | InsertCoHost (meeting_id : option Z) (user_id : Z)
  | InsertAudit (meeting_id : option Z) (user_id : Z) (a : Action) (d : Details)
  | UpdateParticipant (pid : Z) (p : Participant)
  | UpdateMeeting (mid : Z) (m : Meeting)
  | DeleteMeeting (mid : Z)
  | DeleteCoHost (chid : Z).

(** ** Table updates *)

Definition with_meetings (db : Db) (ms : gmap Z Meeting) (next : Z) : Db :=
  mkDb db.(users) ms db.(participants) db.(co_hosts) db.(audit_logs)
       next db.(next_participant_id) db.(next_co_host_id) db.(next_audit_id).

Definition with_participants (db : Db) (ps : gmap Z Participant) (next : Z) : Db :=
  mkDb db.(users) db.(meetings) ps db.(co_hosts) db.(audit_logs)
       db.(next_meeting_id) next db.(next_co_host_id) db.(next_audit_id).

Definition with_co_hosts (db : Db) (cs : gmap Z CoHost) (next : Z) : Db :=
  mkDb db.(users) db.(meetings) db.(participants) cs db.(audit_logs)
       db.(next_meeting_id) db.(next_participant_id) next db.(next_audit_id).

Definition with_audit_logs (db : Db) (ls : gmap Z AuditLog) (next : Z) : Db :=
  mkDb db.(users) db.(meetings) db.(participants) db.(co_hosts) ls
       db.(next_meeting_id) db.(next_participant_id) db.(next_co_host_id) next.

(** The foreign keys of a row. *)
Definition meeting_fk (db : Db) (mid : Z) : bool := bool_decide (is_Some (db.(meetings) !! mid)).
Definition user_fk (db : Db) (u : Z) : bool := bool_decide (u ∈ db.(users)).

(** Deleting a meeting with the ORM cascades of models/meeting.py. *)
Definition delete_meeting_rows (db : Db) (mid : Z) : Db :=
  mkDb db.(users)
    ((λ m, if bool_decide (m.(parent_meeting_id) = Some mid) then set_parent m None else m)
       <$> delete mid db.(meetings))
    (filter (λ kv : Z * Participant, kv.2.(p_meeting_id) ≠ mid) db.(participants))
    (filter (λ kv : Z * CoHost, kv.2.(ch_meeting_id) ≠ mid) db.(co_hosts))
    db.(audit_logs)
    db.(next_meeting_id) db.(next_participant_id) db.(next_co_host_id) db.(next_audit_id).

Definition has_audit_rows (db : Db) (mid : Z) : bool :=
  exists_row (λ kv : Z * AuditLog, kv.2.(al_meeting_id) = mid) db.(audit_logs).

(** One staged operation at flush time [now] ([created_at] defaults). *)
Definition apply_op (now : Z) (db : Db) (op : Op) : option Db :=
  match op with
  | InsertMeeting m =>
      if user_fk db m.(created_by) then
        Some (with_meetings db (<[db.(next_meeting_id) := m]> db.(meetings))
                (db.(next_meeting_id) + 1))
      else None
  | InsertParticipant p =>
      if meeting_fk db p.(p_meeting_id) && user_fk db p.(p_user_id) then
        Some (with_participants db (<[db.(next_participant_id) := p]> db.(participants))
                (db.(next_participant_id) + 1))
      else None
  | InsertCoHost (Some mid) u =>
      if meeting_fk db mid && user_fk db u && negb (exists_row (is_co_host_row mid u) db.(co_hosts))
      then Some (with_co_hosts db (<[db.(next_co_host_id) := mkCoHost mid u]> db.(co_hosts))
                   (db.(next_co_host_id) + 1))
      else None
  | InsertCoHost None _ => None
  | InsertAudit (Some mid) u a d =>
      if meeting_fk db mid && user_fk db u then
        Some (with_audit_logs db
                (<[db.(next_audit_id) := mkAuditLog mid u a d now]> db.(audit_logs))
                (db.(next_audit_id) + 1))
      else None
  | InsertAudit None _ _ _ => None
  | UpdateParticipant pid p =>
      if bool_decide (is_Some (db.(participants) !! pid)) then
        Some (with_participants db (<[pid := p]> db.(participants)) db.(next_participant_id))
      else None
  | UpdateMeeting mid m =>
      if meeting_fk db mid && user_fk db m.(created_by) then
        Some (with_meetings db (<[mid := m]> db.(meetings)) db.(next_meeting_id))
      else None
  | DeleteMeeting mid =>
      if has_audit_rows db mid then None
      else if meeting_fk db mid then Some (delete_meeting_rows db mid)
      else None
  | DeleteCoHost chid =>
      Some (with_co_hosts db (delete chid db.(co_hosts)) db.(next_co_host_id))
  end.

(** [db.session.commit()]: all staged operations or none. *)
Fixpoint commit (now : Z) (db : Db) (ops : list Op) : option Db :=
  match ops with
  | [] => Some db
  | op :: ops' => apply_op now db op ≫= λ db', commit now db' ops'
  end.

(** ** The contract of the session *)

Lemma commit_app now db ops1 ops2 :
  commit now db (ops1 ++ ops2) = commit now db ops1 ≫= λ db', commit now db' ops2.
Proof.
  revert db. induction ops1 as [|op ops1 IH]; intros db; simpl; [done|].
  destruct (apply_op now db op); simpl; [apply IH|done].
Qed.

(** A staged row whose foreign key is the id of an unflushed object makes
    the whole commit fail, whatever else is staged. *)
Lemma commit_null_audit now db ops1 u a d ops2 :
  commit now db (ops1 ++ InsertAudit None u a d :: ops2) = None.
Proof.
  rewrite commit_app. destruct (commit now db ops1); simpl; done.
Qed.

Lemma apply_op_users now db op db' :
  apply_op now db op = Some db' → db'.(users) = db.(users).
Proof. destruct op as [| | [] | [] | | | |]; simpl; intros H; case_ifs; simplify_eq; done. Qed.

(** Operations that touch neither meetings nor participants. *)
Definition side_op (op : Op) : bool :=
  match op with
  | InsertCoHost _ _ | InsertAudit _ _ _ _ | DeleteCoHost _ => true
  | _ => false
  end.

Lemma apply_side_op now db op db' :
  side_op op = true → apply_op now db op = Some db' →
  db'.(meetings) = db.(meetings) ∧ db'.(participants) = db.(participants).
Proof. destruct op as [| | [] | [] | | | |]; simpl; intros ? H; case_ifs; simplify_eq; done. Qed.

Lemma commit_side_ops now db ops db' :
  Forall (λ op, side_op op = true) ops → commit now db ops = Some db' →
  db'.(meetings) = db.(meetings) ∧ db'.(participants) = db.(participants).
Proof.
  revert db. induction ops as [|op ops IH]; intros db Hs H; simpl in H; [by simplify_eq|].
  inversion Hs as [|? ? Hop Hops]; subst.
  destruct (apply_op now db op) as [d|] eqn:E; simpl in H; [|done].
  destruct (IH d Hops H) as [-> ->]. exact (apply_side_op _ _ _ _ Hop E).
Qed.

(** Every key of a table is below its sequence. *)
Definition keys_below {A} (m : gmap Z A) (n : Z) : Prop :=
  ∀ k v, m !! k = Some v → k < n.

Lemma keys_below_insert {A} (m : gmap Z A) n x :
  keys_below m n → keys_below (<[n:=x]> m) (n + 1).
Proof.
  intros Hm k v. rewrite lookup_insert_Some. intros [[<- _]|[_ Hk]]; [lia|].
  specialize (Hm _ _ Hk). lia.
Qed.

Lemma keys_below_fresh {A} (m : gmap Z A) n : keys_below m n → m !! n = None.
Proof. intros Hm. destruct (m !! n) eqn:E; [|done]. specialize (Hm _ _ E). lia. Qed.

(** The audit log only grows, and a new row gets an id at or above the
    sequence: creation order is id order. *)
Lemma apply_op_audit now db op db' :
  keys_below db.(audit_logs) db.(next_audit_id) →
  apply_op now db op = Some db' →
  db.(audit_logs) ⊆ db'.(audit_logs) ∧ db.(next_audit_id) <= db'.(next_audit_id) ∧
  keys_below db'.(audit_logs) db'.(next_audit_id) ∧
  ∀ k l, db'.(audit_logs) !! k = Some l → db.(audit_logs) !! k = None →
    db.(next_audit_id) <= k.
Proof.
  intros Hk. destruct op as [| | [] | [] | | | |]; simpl; intros H; case_ifs; simplify_eq;
    simpl; try (split; [done|split; [lia|split; [done|intros; congruence]]]).
  split; [by apply insert_subseteq, keys_below_fresh|].
  split; [lia|split; [by apply keys_below_insert|]].
  intros k l Hl Hnone. apply lookup_insert_Some in Hl as [[<- _]|[_ Hl]]; [lia|congruence].
Qed.

Lemma commit_audit now db ops db' :
  keys_below db.(audit_logs) db.(next_audit_id) →
  commit now db ops = Some db' →
  db.(audit_logs) ⊆ db'.(audit_logs) ∧ db.(next_audit_id) <= db'.(next_audit_id) ∧
  keys_below db'.(audit_logs) db'.(next_audit_id) ∧
  ∀ k l, db'.(audit_logs) !! k = Some l → db.(audit_logs) !! k = None →
    db.(next_audit_id) <= k.
Proof.
  revert db. induction ops as [|op ops IH]; intros db Hk H; simpl in H.
  - simplify_eq. split; [done|split; [lia|split; [done|intros; congruence]]].
  - destruct (apply_op now db op) as [d|] eqn:E; simpl in H; [|done].
    destruct (apply_op_audit _ _ _ _ Hk E) as (Hsub & Hle & Hk' & Hnew).
    destruct (IH d Hk' H) as (Hsub' & Hle' & Hk'' & Hnew').
    split; [by trans (audit_logs d)|split; [lia|split; [done|]]].
    intros k l Hl Hnone. destruct (audit_logs d !! k) eqn:Ed.
    + eapply Hnew; eauto.
    + specialize (Hnew' _ _ Hl Ed). lia.
Qed.

Lemma commit_single now db op : commit now db [op] = apply_op now db op.
Proof. simpl. by destruct (apply_op now db op). Qed.

Lemma apply_insert_participant now db p db1 :
  apply_op now db (InsertParticipant p) = Some db1 →
  db1 = with_participants db (<[db.(next_participant_id) := p]> db.(participants))
          (db.(next_participant_id) + 1).
Proof. simpl. case_ifs; congruence. Qed.

Lemma apply_update_participant now db k p db1 :
  apply_op now db (UpdateParticipant k p) = Some db1 →
  db1 = with_participants db (<[k := p]> db.(participants)) db.(next_participant_id).
Proof. simpl. case_ifs; congruence. Qed.

(** Meetings, participants and the participant sequence are the same. *)
Definition pm_eq (db db' : Db) : Prop :=
  db'.(meetings) = db.(meetings) ∧ db'.(participants) = db.(participants) ∧
  db'.(next_participant_id) = db.(next_participant_id).

Lemma pm_eq_refl db : pm_eq db db.
Proof. done. Qed.

Lemma pm_eq_trans db1 db2 db3 : pm_eq db1 db2 → pm_eq db2 db3 → pm_eq db1 db3.
Proof. intros (?&?&?) (?&?&?). split_and!; congruence. Qed.

Lemma apply_side_op_pm now db op db' :
  side_op op = true → apply_op now db op = Some db' → pm_eq db db'.
Proof. destruct op as [| | [] | [] | | | |]; simpl; intros ? H; case_ifs; simplify_eq; done. Qed.

Lemma commit_side_pm now db ops db' :
  Forall (λ op, side_op op = true) ops → commit now db ops = Some db' → pm_eq db db'.
Proof.
  revert db. induction ops as [|op ops IH]; intros db Hs H; simpl in H; [by simplify_eq|].
  inversion Hs as [|? ? Hop Hops]; subst.
  destruct (apply_op now db op) as [d|] eqn:E; simpl in H; [|done].
  eapply pm_eq_trans; [exact (apply_side_op_pm _ _ _ _ Hop E)|eauto].
Qed.

(** The participant write of a commit that starts with it and goes on
    with side operations. *)
Lemma commit_participant_then_side now db op ops db' :
  Forall (λ op, side_op op = true) ops → commit now db (op :: ops) = Some db' →
  ∃ d, apply_op now db op = Some d ∧ pm_eq d db'.
Proof.
  intros Hs H. simpl in H. destruct (apply_op now db op) as [d|] eqn:E; simpl in H; [|done].
  exists d. split; [done|]. by eapply commit_side_pm.
Qed.

#[export] Hint Resolve commit_side_ops pm_eq_refl : meeting.

(** ** Handler results

    The JSON error messages of routes/meetings.py, one constructor each,
    and the successful responses. *)

Inductive Err :=
  (* create_meeting, lines 50-139 *)
  | ErrNoData | ErrMissingFields | ErrTitleEmpty | ErrTitleTooLong
  | ErrDescriptionTooLong | ErrTimezoneRequired | ErrDatetimeFormat
  | ErrStartInPast | ErrStartNotBeforeEnd | ErrTooShort | ErrTooLong
  | ErrTooFarAhead | ErrInvalidType | ErrInvalidMax | ErrInvalidPattern
  | ErrOverlap | ErrActiveLimit
  (* join_meeting, lines 192-244 *)
  | ErrInvalidMeetingId | ErrMeetingNotFound | ErrMeetingEnded
  | ErrNotStarted (starts_in_minutes : Z) | ErrExceededEnd
  | ErrMaxParticipants | ErrBanned | ErrInAnotherMeeting
  (* the other handlers *)
  | ErrAccessDenied | ErrOnlyHostDelete | ErrOnlyHostEnd | ErrOnlyHostAddCoHost
  | ErrOnlyHostRemoveCoHost | ErrNoUserId | ErrUserNotFound | ErrAlreadyCoHost
  | ErrNotCoHost | ErrParticipantNotFound | ErrNotInWaitingRoom
  (* every [except Exception] *)
  | ErrServer.

Inductive Msg :=
  | MsgDeleted | MsgEnded | MsgCoHostAdded | MsgCoHostRemoved
  | MsgApproved | MsgRejected.

Inductive Resp :=
  | RError (e : Err)
  (** 202 ['status': 'waiting'] *)
  | RWaiting
  (** 200 [meeting_dict] with ['role'], ['is_creator'],
      ['participant_count'], ['time_remaining_minutes'] *)
  | RJoined (r : Role) (is_creator : bool) (participant_count : nat)
      (time_remaining_minutes : Z)
  (** 201 [meeting.to_dict()] of a new meeting *)
  | RCreated (mid : Z)
  (** 200 [meeting.to_dict()] *)
  | RMeeting (mid : Z) (m : Meeting)
  (** 200 [waiting_participants]: participant id, user id, [created_at] *)
  | RWaitingRoom (l : list (Z * Z * Z))
  | RMessage (msg : Msg).

#[export] Instance Err_eq_dec : EqDecision Err.
Proof. solve_decision. Defined.

Definition err_status (e : Err) : Z :=
  match e with
  | ErrMeetingNotFound | ErrUserNotFound | ErrNotCoHost | ErrParticipantNotFound => 404
  | ErrBanned | ErrAccessDenied | ErrOnlyHostDelete | ErrOnlyHostEnd
  | ErrOnlyHostAddCoHost | ErrOnlyHostRemoveCoHost => 403
  | ErrServer => 500
  | _ => 400
  end.

Definition status_code (r : Resp) : Z :=
  match r with
  | RError e => err_status e
  | RWaiting => 202
  | RCreated _ => 201
  | _ => 200
  end.

(** Commit the staged operations and answer [ok]; on failure roll back
    and answer 500. *)
Definition commit_or_500 (now : Z) (db : Db) (ops : list Op) (ok : Resp) : Resp * Db :=
  match commit now db ops with
  | Some db' => (ok, db')
  | None => (RError ErrServer, db)
  end.

Lemma commit_or_500_cases now db ops ok :
  (∃ db', commit now db ops = Some db' ∧ commit_or_500 now db ops ok = (ok, db')) ∨
  (commit now db ops = None ∧ commit_or_500 now db ops ok = (RError ErrServer, db)).
Proof. unfold commit_or_500. destruct (commit now db ops); eauto. Qed.

(** Evaluate the commits of a handler whose rows satisfy their foreign
    keys: the hypotheses [meetings d !! i = Some _],
    [participants d !! i = Some _] and [x ∈ users d] discharge them. *)
Ltac run_commits :=
  unfold commit_or_500; simpl;
  unfold meeting_fk, user_fk;
  repeat (simpl; match goal with
  | H : meetings ?d !! ?i = Some _ |- context [bool_decide (is_Some (meetings ?d !! ?i))] =>
      rewrite (bool_decide_eq_true_2 (is_Some (meetings d !! i))) by (rewrite H; by eexists)
  | H : participants ?d !! ?i = Some _ |-
      context [bool_decide (is_Some (participants ?d !! ?i))] =>
      rewrite (bool_decide_eq_true_2 (is_Some (participants d !! i))) by (rewrite H; by eexists)
  | H : exists_row ?P ?t = false |- context [exists_row ?P ?t] => rewrite H
  | H : ?x ∈ users ?d |- context [bool_decide (?x ∈ users ?d)] =>
      rewrite (bool_decide_eq_true_2 (x ∈ users d)) by exact H
  end); simpl.
