(* ===== verification/Admission.v ===== *)
(** The admission engine of routes/meetings.py: [join_meeting] (lines
    188-305), [get_meeting] (349-365), [get_waiting_room] (500-534),
    [approve_participant] (536-588) and [reject_participant] (590-631).

    Each handler is a function of the database, the authenticated user
    [u], its path arguments and the request time [now], returning the
    response and the database after its commits.  The guards are the
    code's, in the code's order, each an early return.

    [join_meeting_tz tz] takes whether the meeting times the handler
    loads are aware.  The columns are [DateTime] without time zone, so
    the program is [join_meeting], at [meeting_times_aware = false]: the
    comparison of line 206 raises TypeError for every live meeting, and
    [join_meeting_never_admits] shows it equal to a handler that admits
    no one.  The lemmas at [tz = true] describe the checks past line
    206, which the invariants of [Service] cover for both values. *)

From S2P Require Import Prelude Time Python Schema Session.

Module Admission.

(** ** join_meeting *)

(** The row [MeetingParticipant(...)] of lines 256-262 describes
    ([created_at] is the flush time). *)
Definition new_participant (mid u : Z) (rq : bool) (r : Role) (now : Z) : Participant :=
  mkParticipant mid u (if rq then Pending else Approved) r
    (if rq then None else Some now) None false now.

(** Lines 266-268: the rejoin refreshes [joined_at], [left_at] and
    [role], and keeps [status] and [is_banned]. *)
Definition refresh_participant (p : Participant) (rq : bool) (r : Role) (now : Z) : Participant :=
  mkParticipant p.(p_meeting_id) p.(p_user_id) p.(status) r
    (if rq then None else Some now) None p.(is_banned) p.(p_created_at).

(** The keywords of the call [MeetingParticipant(...)] of lines
    256-262. *)
Definition join_participant_kws : list string :=
  ["meeting_id"; "user_id"; "status"; "role"; "joined_at"].

(** Lines 254-268: the write of a join by a user other than the creator
    and the status it leaves.  A first join calls [MeetingParticipant]
    with the keywords above: when they do not bind to its [__init__]
    the call raises TypeError, caught by the [except] of lines 303-305
    ([None]: rollback and 500, nothing written). *)
Definition participant_write (participant : option (Z * Participant)) (id u : Z) (rq : bool)
    (r : Role) (now : Z) : option (Op * Status) :=
  match participant with
  | None =>
      if py_binds MeetingParticipant_init_sig join_participant_kws
      then Some (InsertParticipant (new_participant id u rq r now), if rq then Pending else Approved)
      else None
  | Some (pid, p) => Some (UpdateParticipant pid (refresh_participant p rq r now), p.(status))
  end.

(** Lines 279-301: the 'joined' audit row, its commit, and the meeting
    details of the 200 answer. *)
Definition log_join (db : Db) (m : Meeting) (id u : Z) (r : Role) (st : JoinStatus)
    (now : Z) (current : nat) : Resp * Db :=
  commit_or_500 now db [InsertAudit (Some id) u Joined (DJoined r st)]
    (RJoined r (m.(created_by) =? u) current (round_minutes (m.(end_time) - now))).

(** The refusals of the time window of lines 205-216 once the times
    can be compared: [Some e] when the join is refused. *)
Definition window_error (m : Meeting) (now : Z) : option Err :=
  if (now <? m.(start_time)) && (m.(start_time) - now >? 300 secs)
  then Some (ErrNotStarted (round_minutes (m.(start_time) - now)))
  else if now >? m.(end_time) then Some ErrExceededEnd
  else None.

(** Lines 205-216 on a meeting whose loaded times have awareness [tz]:
    [current_time = datetime.now(UTC)] is aware, and [current_time <
    meeting.start_time] (line 206), then [current_time >
    meeting.end_time] (line 215), are Python comparisons of datetimes.
    [None] is their TypeError on naive times, [Some e] the refusal if
    any. *)
Definition window_check (tz : bool) (m : Meeting) (now : Z) : option (option Err) :=
  match py_dt_lt (now, true) (m.(start_time), tz) with
  | None => None
  | Some early =>
    if early && (m.(start_time) - now >? 300 secs)
    then Some (Some (ErrNotStarted (round_minutes (m.(start_time) - now))))
    else
      match py_dt_lt (m.(end_time), tz) (now, true) with
      | None => None
      | Some late => Some (if late then Some ErrExceededEnd else None)
      end
  end.

(** [join_meeting] (lines 188-305) on meetings whose loaded times have
    awareness [tz]; an exception of the body is caught by lines 303-305
    (rollback, 500). *)
Definition join_meeting_tz (tz : bool) (db : Db) (u id now : Z) : Resp * Db :=
  if id <=? 0 then (RError ErrInvalidMeetingId, db) else
  match db.(meetings) !! id with
  | None => (RError ErrMeetingNotFound, db)
  | Some m =>
    if bool_decide (is_Some m.(ended_at)) then (RError ErrMeetingEnded, db) else
    match window_check tz m now with
    | None => (RError ErrServer, db)
    | Some (Some e) => (RError e, db)
    | Some None =>
      let current := count_current db id in
      if max_reached m.(max_participants) current then (RError ErrMaxParticipants, db) else
      let participant := find_participant db id u in
      if (match participant with Some (_, p) => p.(is_banned) | None => false end)
      then (RError ErrBanned, db) else
      if active_participation db u id then (RError ErrInAnotherMeeting, db) else
      let r := participant_role db m id u in
      if m.(created_by) =? u then
        log_join db m id u r
          (match participant with Some (_, p) => StatusOf p.(status) | None => HostStatus end)
          now current
      else
        let rq := m.(requires_approval) in
        match participant_write participant id u rq r now with
        | None => (RError ErrServer, db)
        | Some (op, st) =>
          match commit now db [op] with
          | None => (RError ErrServer, db)
          | Some db1 =>
            if rq && bool_decide (st = Pending) then (RWaiting, db1)
            else log_join db1 m id u r (StatusOf st) now current
          end
        end
    end
  end.

(** The handler as the program runs it: the times it loads are naive
    ([meeting_times_aware]). *)
Definition join_meeting (db : Db) (u id now : Z) : Resp * Db :=
  join_meeting_tz meeting_times_aware db u id now.

(** ** get_meeting *)

(** Lines 351-365: the creator, or a user with any participant row. *)
Definition get_meeting (db : Db) (u id : Z) : Resp * Db :=
  match db.(meetings) !! id with
  | None => (RError ErrMeetingNotFound, db)
  | Some m =>
    if (m.(created_by) =? u) || exists_row (is_row_of id u) db.(participants)
    then (RMeeting id m, db)
    else (RError ErrAccessDenied, db)
  end.

(** ** get_waiting_room *)

Definition is_waiting (mid : Z) (kv : Z * Participant) : Prop :=
  kv.2.(p_meeting_id) = mid ∧ kv.2.(status) = Pending.

#[export] Instance is_waiting_dec mid kv : Decision (is_waiting mid kv).
Proof. unfold is_waiting. apply _. Defined.

(** Lines 502-534.  [User.query.get(p.user_id).to_dict()] raises when the
    user is gone, which answers 500. *)
Definition get_waiting_room (db : Db) (u id : Z) : Resp * Db :=
  match db.(meetings) !! id with
  | None => (RError ErrMeetingNotFound, db)
  | Some m =>
    if negb (can_moderate db m id u) then (RError ErrAccessDenied, db) else
    let waiting := map_to_list (filter (is_waiting id) db.(participants)) in
    if forallb (λ kv, bool_decide (kv.2.(p_user_id) ∈ db.(users))) waiting
    then (RWaitingRoom ((λ kv, (kv.1, kv.2.(p_user_id), kv.2.(p_created_at))) <$> waiting), db)
    else (RError ErrServer, db)
  end.

(** ** approve_participant and reject_participant *)

(** Lines 570-571: [status = 'approved'], [joined_at = now]. *)
Definition approved_row (p : Participant) (now : Z) : Participant :=
  mkParticipant p.(p_meeting_id) p.(p_user_id) Approved p.(role)
    (Some now) p.(left_at) p.(is_banned) p.(p_created_at).

(** Line 614: [status = 'declined']. *)
Definition declined_row (p : Participant) : Participant :=
  mkParticipant p.(p_meeting_id) p.(p_user_id) Declined p.(role)
    p.(joined_at) p.(left_at) p.(is_banned) p.(p_created_at).

(** The guards shared by lines 540-558 and 594-612: the meeting exists,
    [u] is its creator or a co-host, the participant belongs to it and
    waits. *)
Definition decision_target (db : Db) (u id pid : Z) : Err + (Meeting * Participant) :=
  match db.(meetings) !! id with
  | None => inl ErrMeetingNotFound
  | Some m =>
    if negb (can_moderate db m id u) then inl ErrAccessDenied else
    match db.(participants) !! pid with
    | None => inl ErrParticipantNotFound
    | Some p =>
      if negb (p.(p_meeting_id) =? id) then inl ErrParticipantNotFound
      else if negb (bool_decide (p.(status) = Pending)) then inl ErrNotInWaitingRoom
      else inr (m, p)
    end
  end.

(** Lines 538-588: the capacity is checked again at decision time. *)
Definition approve_participant (db : Db) (u id pid now : Z) : Resp * Db :=
  match decision_target db u id pid with
  | inl e => (RError e, db)
  | inr (m, p) =>
    if max_reached m.(max_participants) (count_approved db id)
    then (RError ErrMaxParticipants, db)
    else commit_or_500 now db
           [UpdateParticipant pid (approved_row p now);
            InsertAudit (Some id) u ApprovedParticipant (DParticipantId pid)]
           (RMessage MsgApproved)
  end.

(** Lines 592-631. *)
Definition reject_participant (db : Db) (u id pid now : Z) : Resp * Db :=
  match decision_target db u id pid with
  | inl e => (RError e, db)
  | inr (m, p) =>
    commit_or_500 now db
      [UpdateParticipant pid (declined_row p);
       InsertAudit (Some id) u RejectedParticipant (DParticipantId pid)]
      (RMessage MsgRejected)
  end.

(** ** Properties *)

(** On comparable times, the checks of lines 205-216 are the refusals
    of [window_error]. *)
Lemma window_check_true m now : window_check true m now = Some (window_error m now).
Proof.
  unfold window_check, window_error. rewrite !py_dt_lt_same. simpl.
  destruct (_ && _); [done|]. by rewrite Z.gtb_ltb.
Qed.

(** On naive times, the first comparison raises. *)
Lemma window_check_naive m now : window_check false m now = None.
Proof. unfold window_check. by rewrite py_dt_lt_mixed. Qed.

(** The guards of lines 192-244 all pass on comparable times. *)
Definition admissible (db : Db) (u id now : Z) (m : Meeting) : Prop :=
  0 < id ∧ db.(meetings) !! id = Some m ∧ m.(ended_at) = None ∧
  window_error m now = None ∧
  max_reached m.(max_participants) (count_current db id) = false ∧
  (∀ pid p, find_participant db id u = Some (pid, p) → p.(is_banned) = false) ∧
  active_participation db u id = false.

(** Once the guards pass, the join is the role-dependent write. *)
Lemma join_meeting_admissible db u id now m :
  admissible db u id now m →
  join_meeting_tz true db u id now =
    (let participant := find_participant db id u in
     let r := participant_role db m id u in
     let current := count_current db id in
     if m.(created_by) =? u then
       log_join db m id u r
         (match participant with Some (_, p) => StatusOf p.(status) | None => HostStatus end)
         now current
     else
       let rq := m.(requires_approval) in
       match participant_write participant id u rq r now with
       | None => (RError ErrServer, db)
       | Some (op, st) =>
         match commit now db [op] with
         | None => (RError ErrServer, db)
         | Some db1 =>
           if rq && bool_decide (st = Pending) then (RWaiting, db1)
           else log_join db1 m id u r (StatusOf st) now current
         end
       end).
Proof.
  intros (Hid & Hm & Hend & Hwin & Hmax & Hban & Hact).
  unfold join_meeting_tz. rewrite Hm, window_check_true, Hwin, Hmax, Hact, Hend.
  replace (id <=? 0) with false by lia. simpl.
  destruct (find_participant db id u) as [[pid p]|] eqn:Hp; [|done].
  by rewrite (Hban pid p eq_refl).
Qed.

(** Evaluate the commits of the join, whose rows satisfy their
    foreign keys. *)
Ltac run_join_commits := unfold log_join; run_commits.

Lemma participant_role_attendee db m id u :
  m.(created_by) ≠ u → is_co_host db id u = false → participant_role db m id u = Attendee.
Proof. intros Hne Hco. unfold participant_role. rewrite Hco. by rewrite (proj2 (Z.eqb_neq _ _) Hne). Qed.

Lemma creator_neq m u : m.(created_by) ≠ u → (m.(created_by) =? u) = false.
Proof. apply Z.eqb_neq. Qed.

(** The call of lines 256-262 passes [joined_at], a keyword
    [MeetingParticipant.__init__] does not take. *)
Lemma join_participant_call_raises :
  py_binds MeetingParticipant_init_sig join_participant_kws = false.
Proof. apply (py_binds_unexpected _ _ "joined_at"); [set_solver|vm_compute; set_solver]. Qed.

(** On naive times, the join of a live meeting raises at line 206. *)
Lemma join_naive_live db u id now m :
  0 < id → db.(meetings) !! id = Some m → m.(ended_at) = None →
  join_meeting_tz false db u id now = (RError ErrServer, db).
Proof.
  intros Hid Hm Hend. unfold join_meeting_tz. replace (id <=? 0) with false by lia.
  rewrite Hm, Hend. simpl. by rewrite ?window_check_naive.
Qed.

(** C6: the first join of any user other than the creator fails,
    whether or not the loaded times are aware.  On the naive times the
    program loads, line 206 raises; on comparable times every guard
    passes, and [MeetingParticipant(...)] is called with the keyword
    [joined_at], which its [__init__] does not take.  Either TypeError
    is caught, the session rolled back, and the answer is the 500
    'Server error occurred while joining meeting', with nothing written,
    whatever the role, the waiting room or the capacity. *)
Theorem join_first_time_fails tz db u id now m :
  admissible db u id now m → m.(created_by) ≠ u → find_participant db id u = None →
  join_meeting_tz tz db u id now = (RError ErrServer, db).
Proof.
  intros Hadm Hne Hp. destruct tz.
  - rewrite (join_meeting_admissible _ _ _ _ _ Hadm). cbn zeta.
    rewrite Hp, (creator_neq _ _ Hne). unfold participant_write.
    by rewrite join_participant_call_raises.
  - destruct Hadm as (Hid & Hm & Hend & _). by apply (join_naive_live _ _ _ _ m).
Qed.

(** The answers [join_meeting] can give in the program: the guards of
    lines 192-202, and otherwise the 500 of the TypeError of line 206;
    the database is never changed. *)
Definition join_meeting_ref (db : Db) (id : Z) : Resp * Db :=
  if id <=? 0 then (RError ErrInvalidMeetingId, db) else
  match db.(meetings) !! id with
  | None => (RError ErrMeetingNotFound, db)
  | Some m =>
    if bool_decide (is_Some m.(ended_at)) then (RError ErrMeetingEnded, db)
    else (RError ErrServer, db)
  end.

(** C8: nobody ever joins a meeting.  [start_time] and [end_time] are
    [DateTime] columns without time zone, so the meeting the handler
    loads holds naive datetimes, and [datetime.now(UTC) <
    meeting.start_time] (line 206) raises TypeError.  [join_meeting] is
    therefore [join_meeting_ref], for every database, user, meeting id
    and instant: 400 for a non-positive id, 404 for a missing meeting,
    400 for an ended one, and 500 for every other, with the database
    unchanged.  No time-window, capacity, ban or role rule is ever
    reached. *)
Theorem join_meeting_never_admits db u id now :
  join_meeting db u id now = join_meeting_ref db id.
Proof.
  unfold join_meeting, join_meeting_tz, join_meeting_ref, meeting_times_aware.
  destruct (id <=? 0); [done|]. destruct (db.(meetings) !! id) as [m|]; [|done].
  destruct (bool_decide _); [done|]. by rewrite window_check_naive.
Qed.

(** The creator joins as 'host' without a participant row: only the
    'joined' audit row is written, with status 'host'. *)
Theorem join_host_admitted db u id now m :
  admissible db u id now m →
  m.(created_by) = u → find_participant db id u = None → u ∈ db.(users) →
  ∃ db',
    commit now db [InsertAudit (Some id) u Joined (DJoined Host HostStatus)] = Some db' ∧
    db'.(participants) = db.(participants) ∧
    join_meeting_tz true db u id now =
      (RJoined Host true (count_current db id) (round_minutes (m.(end_time) - now)), db').
Proof.
  intros Hadm Heq Hp Hu. pose proof Hadm as (_ & Hm & _).
  rewrite (join_meeting_admissible _ _ _ _ _ Hadm). cbn zeta.
  rewrite Hp, (participant_role_host _ _ _ _ Heq), <-Heq, Z.eqb_refl.
  subst u. run_join_commits. rewrite Z.eqb_refl. eauto.
Qed.

(** A user who already has a row that is not pending (approved, or
    declined by the host) is let in with a 200 on every later join, also
    when the meeting has a waiting room: the row is refreshed, its
    status kept, and a 'joined' audit row written. *)
Theorem join_rejoin_not_pending db u id now m pid p :
  admissible db u id now m →
  m.(created_by) ≠ u → find_participant db id u = Some (pid, p) →
  p.(status) ≠ Pending → u ∈ db.(users) →
  let r := participant_role db m id u in
  ∃ db',
    commit now db [UpdateParticipant pid (refresh_participant p m.(requires_approval) r now);
                   InsertAudit (Some id) u Joined (DJoined r (StatusOf p.(status)))] = Some db' ∧
    join_meeting_tz true db u id now =
      (RJoined r false (count_current db id) (round_minutes (m.(end_time) - now)), db').
Proof.
  intros Hadm Hne Hp Hst Hu r. pose proof Hadm as (_ & Hm & _).
  pose proof (find_participant_Some _ _ _ _ _ Hp) as (Hpid & _).
  rewrite (join_meeting_admissible _ _ _ _ _ Hadm). cbn zeta.
  rewrite Hp, (creator_neq _ _ Hne). run_join_commits.
  rewrite (bool_decide_eq_false_2 (status p = Pending)) by done.
  rewrite andb_false_r. run_join_commits. rewrite (creator_neq _ _ Hne). eauto.
Qed.

(** The time window of lines 205-216 is closed: a join is on time from
    exactly five minutes before the start up to the end. *)
Lemma window_error_None m now :
  window_error m now = None ↔ m.(start_time) - 300 secs <= now <= m.(end_time).
Proof.
  unfold window_error, seconds, usec_per_sec.
  case_ifs; zbool; split; intros; done || lia.
Qed.

(** Too early.  More than five minutes before the start the join is
    refused with [starts_in_minutes] the rounded delay, which is at
    least 5; nothing is written. *)
Theorem join_not_started db u id now m :
  0 < id → db.(meetings) !! id = Some m → m.(ended_at) = None →
  now < m.(start_time) - 300 secs →
  ∃ k, join_meeting_tz true db u id now = (RError (ErrNotStarted k), db) ∧
       k = round_minutes (m.(start_time) - now) ∧ 5 <= k.
Proof.
  intros Hid Hm Hend Hnow. exists (round_minutes (m.(start_time) - now)).
  split; [|split; [done|apply round_minutes_lower; unfold seconds, usec_per_sec in *; lia]].
  unfold join_meeting_tz. replace (id <=? 0) with false by lia.
  rewrite Hm, Hend. simpl. rewrite window_check_true. unfold window_error, seconds, usec_per_sec in *.
  replace (now <? start_time m) with true by lia.
  replace (start_time m - now >? 300 * 1000000) with true by lia. done.
Qed.

(** The prefix of guards before the capacity check passes. *)
Definition on_time (db : Db) (id now : Z) (m : Meeting) : Prop :=
  0 < id ∧ db.(meetings) !! id = Some m ∧ m.(ended_at) = None ∧ window_error m now = None.

Ltac open_join Hon :=
  let Hid := fresh in let Hm := fresh in let Hend := fresh in let Hw := fresh in
  destruct Hon as (Hid & Hm & Hend & Hw);
  unfold join_meeting_tz; replace (_ <=? 0) with false by lia; rewrite Hm, Hend; simpl;
  rewrite window_check_true, Hw; simpl.


(** Capacity comes first.  When the rows of the meeting with
    [left_at] null (pending ones included) reach [max_participants],
    every join is refused, the creator's included, and nothing is
    written. *)
Theorem join_full db u id now m :
  on_time db id now m →
  max_reached m.(max_participants) (count_current db id) = true →
  join_meeting_tz true db u id now = (RError ErrMaxParticipants, db).
Proof. intros Hon Hmax. open_join Hon. by rewrite Hmax. Qed.

(** A banned row refuses the join, whatever its status, once the
    meeting is not full. *)
Theorem join_banned db u id now m pid p :
  on_time db id now m →
  max_reached m.(max_participants) (count_current db id) = false →
  find_participant db id u = Some (pid, p) → p.(is_banned) = true →
  join_meeting_tz true db u id now = (RError ErrBanned, db).
Proof. intros Hon Hmax Hp Hb. open_join Hon. by rewrite Hmax, Hp, Hb. Qed.

(** A user with a row whose [left_at] is null in another live
    meeting is refused. *)
Theorem join_in_another_meeting db u id now m k q :
  on_time db id now m →
  max_reached m.(max_participants) (count_current db id) = false →
  (∀ pid p, find_participant db id u = Some (pid, p) → p.(is_banned) = false) →
  db.(participants) !! k = Some q → q.(p_user_id) = u → q.(left_at) = None →
  q.(p_meeting_id) ≠ id → live db q.(p_meeting_id) = true →
  join_meeting_tz true db u id now = (RError ErrInAnotherMeeting, db).
Proof.
  intros Hon Hmax Hban Hk Hu Hl Hne Hlive.
  open_join Hon. rewrite Hmax.
  assert (active_participation db u id = true) as ->.
  { apply exists_row_true. exists k, q. unfold is_active_elsewhere. naive_solver. }
  destruct (find_participant db id u) as [[pid p]|] eqn:Hp; [|done].
  by rewrite (Hban pid p eq_refl).
Qed.

(** C9: a refused join writes nothing: every error other than the 500
    of a failed commit or of an exception leaves the database as it
    was, whether or not the loaded times are aware. *)
Theorem join_error_no_write tz db u id now e db' :
  join_meeting_tz tz db u id now = (RError e, db') → e ≠ ErrServer → db' = db.
Proof.
  unfold join_meeting_tz, log_join, commit_or_500. intros H Hne.
  repeat (case_match; simplify_eq; try done).
Qed.

(** ** Approval decisions *)

Lemma decision_target_inr db u id pid m p :
  decision_target db u id pid = inr (m, p) →
  db.(meetings) !! id = Some m ∧ can_moderate db m id u = true ∧
  db.(participants) !! pid = Some p ∧ p.(p_meeting_id) = id ∧ p.(status) = Pending.
Proof.
  unfold decision_target. intros H.
  destruct (db.(meetings) !! id) eqn:Hm; [|done].
  destruct (db.(participants) !! pid) eqn:Hp; case_ifs; simplify_eq; zbool; done.
Qed.

(** C10: only the creator or a co-host decides: anyone else gets 403 on
    approve and on reject, and nothing is written. *)
Theorem decision_forbidden db u id pid now m :
  db.(meetings) !! id = Some m → can_moderate db m id u = false →
  approve_participant db u id pid now = (RError ErrAccessDenied, db) ∧
  reject_participant db u id pid now = (RError ErrAccessDenied, db).
Proof.
  intros Hm Hmod. unfold approve_participant, reject_participant, decision_target.
  by rewrite Hm, Hmod.
Qed.

(** C11: approval re-checks the capacity at decision time: when the
    approved rows with [left_at] null reach [max_participants], approval
    is refused and nothing is written. *)
Theorem approve_rechecks_capacity db u id pid now m p :
  decision_target db u id pid = inr (m, p) →
  max_reached m.(max_participants) (count_approved db id) = true →
  approve_participant db u id pid now = (RError ErrMaxParticipants, db).
Proof. intros Ht Hmax. unfold approve_participant. by rewrite Ht, Hmax. Qed.

(** A successful approval sets the row to approved with
    [joined_at = now] and writes one 'approved_participant' audit row. *)
Theorem approve_admits db u id pid now m p :
  decision_target db u id pid = inr (m, p) →
  max_reached m.(max_participants) (count_approved db id) = false →
  u ∈ db.(users) →
  ∃ db',
    commit now db [UpdateParticipant pid (approved_row p now);
                   InsertAudit (Some id) u ApprovedParticipant (DParticipantId pid)] = Some db' ∧
    approve_participant db u id pid now = (RMessage MsgApproved, db').
Proof.
  intros Ht Hmax Hu. destruct (decision_target_inr _ _ _ _ _ _ Ht) as (Hm & _ & Hp & _).
  unfold approve_participant. rewrite Ht, Hmax. run_join_commits. eauto.
Qed.

(** A rejection sets the row to declined and writes one
    'rejected_participant' audit row. *)
Theorem reject_declines db u id pid now m p :
  decision_target db u id pid = inr (m, p) → u ∈ db.(users) →
  ∃ db',
    commit now db [UpdateParticipant pid (declined_row p);
                   InsertAudit (Some id) u RejectedParticipant (DParticipantId pid)] = Some db' ∧
    reject_participant db u id pid now = (RMessage MsgRejected, db').
Proof.
  intros Ht Hu. destruct (decision_target_inr _ _ _ _ _ _ Ht) as (Hm & _ & Hp & _).
  unfold reject_participant. rewrite Ht. run_join_commits. eauto.
Qed.

(** The waiting room shows a moderator exactly the pending rows of
    the meeting, with their ids, users and creation times. *)
Theorem waiting_room_lists_pending db u id m :
  db.(meetings) !! id = Some m → can_moderate db m id u = true →
  (∀ k p, db.(participants) !! k = Some p → p.(p_user_id) ∈ db.(users)) →
  ∃ l, get_waiting_room db u id = (RWaitingRoom l, db) ∧
    ∀ k uid c, (k, uid, c) ∈ l ↔
      ∃ p, db.(participants) !! k = Some p ∧ p.(p_meeting_id) = id ∧
           p.(status) = Pending ∧ uid = p.(p_user_id) ∧ c = p.(p_created_at).
Proof.
  intros Hm Hmod Hfk. unfold get_waiting_room. rewrite Hm, Hmod. simpl.
  rewrite (proj2 (forallb_forall _ _)).
  - eexists; split; [done|]. intros k uid c. rewrite list_elem_of_fmap. split.
    + intros ([k' p] & Heq & Hin).
      apply elem_of_map_to_list, map_lookup_filter_Some in Hin as (Hk & Hmid & Hst).
      simpl in *. simplify_eq. eauto 10.
    + intros (p & Hk & Hmid & Hst & -> & ->). exists (k, p). split; [done|].
      by apply elem_of_map_to_list, map_lookup_filter_Some.
  - intros [k p] Hin. apply list_elem_of_In, elem_of_map_to_list, map_lookup_filter_Some in Hin.
    apply bool_decide_eq_true. eapply Hfk. naive_solver.
Qed.

(** Any participant row gives read access to the meeting, whatever
    its status or ban. *)
Theorem get_meeting_any_row db u id m k p :
  db.(meetings) !! id = Some m → db.(participants) !! k = Some p →
  p.(p_meeting_id) = id → p.(p_user_id) = u →
  get_meeting db u id = (RMeeting id m, db).
Proof.
  intros Hm Hk Hid Hu. unfold get_meeting. rewrite Hm.
  assert (exists_row (is_row_of id u) db.(participants) = true) as ->.
  { apply exists_row_true. exists k, p. by split. }
  by rewrite orb_true_r.
Qed.

(** What a 200 answer of the join reports: the meeting existed, the
    join was on time and within capacity, and the counts are the ones
    read before the join. *)
Lemma join_meeting_RJoined db u id now r ic pc trm db' :
  join_meeting_tz true db u id now = (RJoined r ic pc trm, db') →
  ∃ m, db.(meetings) !! id = Some m ∧ window_error m now = None ∧
    max_reached m.(max_participants) (count_current db id) = false ∧
    pc = count_current db id ∧ trm = round_minutes (m.(end_time) - now).
Proof.
  unfold join_meeting_tz, log_join, commit_or_500.
  repeat case_match; intros; simplify_eq;
    repeat match goal with H : window_check true _ _ = _ |- _ => rewrite window_check_true in H end;
    simplify_eq; eauto 10.
Qed.

(** The numbers of a 200 answer of the join are bounded:
    [time_remaining_minutes] is at least 0 and at most the meeting's
    duration in minutes plus 5 and a half (so at most 1445 for a meeting
    of at most 24 hours), and [participant_count] is below a non-zero
    [max_participants]. *)
Theorem join_answer_bounds db u id now r ic pc trm db' :
  join_meeting_tz true db u id now = (RJoined r ic pc trm, db') →
  ∃ m, db.(meetings) !! id = Some m ∧
    0 <= trm ∧ trm * 60 secs <= m.(end_time) - m.(start_time) + 330 secs ∧
    (m.(end_time) - m.(start_time) <= 86400 secs → trm <= 1445) ∧
    (∀ n, m.(max_participants) = Some n → n ≠ 0 → Z.of_nat pc < n).
Proof.
  intros (m & Hm & Hw & Hmax & -> & ->)%join_meeting_RJoined.
  exists m. apply window_error_None in Hw.
  destruct (round_minutes_bounds (m.(end_time) - now) ltac:(lia)) as [H0 H1].
  split_and!; [done|done| |unfold seconds, usec_per_sec in *; lia|].
  - unfold seconds, usec_per_sec in *. lia.
  - intros n Hn Hn0. by apply (proj1 (max_reached_false _ _) Hmax).
Qed.

(** ** Scenarios

    A meeting [1] created by user [1], starting 10 minutes after the
    instant 0 and ending after an hour; user [3] is its co-host and user
    [2] an attendee; meeting [5] is another live meeting. *)

Definition ex_meeting (rq : bool) (mx : option Z) : Meeting :=
  mkMeeting "standup" (Some "daily sync") (600 secs) (3600 secs) 1 0 None Regular mx rq false
    None None.

Definition ex_db (rq : bool) (mx : option Z) (ps : gmap Z Participant) : Db :=
  mkDb {[1; 2; 3]} {[1 := ex_meeting rq mx; 5 := ex_meeting false None]} ps
    {[1 := mkCoHost 1 3]} ∅ 6 10 2 1.

Definition ex_row (mid u : Z) (st : Status) (banned : bool) : Participant :=
  mkParticipant mid u st Attendee None None banned 0.

Ltac decide_guards :=
  unfold admissible, on_time; repeat split;
  first [ lia | vm_compute; reflexivity | set_solver
        | intros ? ? Hf; vm_compute in Hf; simplify_eq; reflexivity
        | intros ?; discriminate ].

(** The creator [1] joins 55 minutes before the end of meeting [1]. *)
Lemma join_answer_bounds_witness :
  (join_meeting_tz true (ex_db false None ∅) 1 1 (300 secs)).1 = RJoined Host true 0 55 ∧
  ∃ m, (ex_db false None ∅).(meetings) !! 1 = Some m ∧
    0 <= 55 ∧ 55 * 60 secs <= m.(end_time) - m.(start_time) + 330 secs ∧
    (m.(end_time) - m.(start_time) <= 86400 secs → 55 <= 1445) ∧
    (∀ n, m.(max_participants) = Some n → n ≠ 0 → Z.of_nat 0 < n).
Proof.
  split; [vm_compute; reflexivity|].
  apply (join_answer_bounds (ex_db false None ∅) 1 1 (300 secs) Host true 0 55
           (join_meeting_tz true (ex_db false None ∅) 1 1 (300 secs)).2).
  vm_compute. reflexivity.
Defined.

(** The attendee [2] of meeting [1] joins it for the first time on
    comparable times, and its co-host [3] in the program: 500. *)
Lemma join_first_time_fails_witness :
  join_meeting_tz true (ex_db false None ∅) 2 1 (300 secs) = (RError ErrServer, ex_db false None ∅) ∧
  join_meeting (ex_db true None ∅) 3 1 (300 secs) = (RError ErrServer, ex_db true None ∅).
Proof.
  split; [apply (join_first_time_fails true _ _ _ _ (ex_meeting false None))
         |apply (join_first_time_fails meeting_times_aware _ _ _ _ (ex_meeting true None))];
    decide_guards.
Defined.

Lemma join_host_admitted_witness :
  ∃ db', commit (300 secs) (ex_db true None ∅)
           [InsertAudit (Some 1) 1 Joined (DJoined Host HostStatus)] = Some db' ∧
    db'.(participants) = (ex_db true None ∅).(participants) ∧
    join_meeting_tz true (ex_db true None ∅) 1 1 (300 secs) =
      (RJoined Host true (count_current (ex_db true None ∅) 1)
         (round_minutes ((ex_meeting true None).(end_time) - 300 secs)), db').
Proof.
  apply (join_host_admitted _ _ _ _ (ex_meeting true None)); decide_guards.
Defined.

(** The attendee [2], declined by the host, joins again the meeting with
    a waiting room and is let in. *)
Lemma join_rejoin_not_pending_witness :
  let db := ex_db true None {[1 := ex_row 1 2 Declined false]} in
  let r := participant_role db (ex_meeting true None) 1 2 in
  ∃ db',
    commit (300 secs) db
      [UpdateParticipant 1 (refresh_participant (ex_row 1 2 Declined false) true r (300 secs));
       InsertAudit (Some 1) 2 Joined (DJoined r (StatusOf Declined))] = Some db' ∧
    join_meeting_tz true db 2 1 (300 secs) =
      (RJoined r false (count_current db 1)
         (round_minutes ((ex_meeting true None).(end_time) - 300 secs)), db').
Proof.
  apply (join_rejoin_not_pending _ _ _ _ (ex_meeting true None) 1 (ex_row 1 2 Declined false));
    decide_guards.
Defined.

Lemma join_not_started_witness :
  join_meeting_tz true (ex_db false None ∅) 2 1 0 = (RError (ErrNotStarted 10), ex_db false None ∅).
Proof.
  destruct (join_not_started (ex_db false None ∅) 2 1 0 (ex_meeting false None)
              ltac:(lia) ltac:(reflexivity) ltac:(reflexivity) ltac:(vm_compute; reflexivity))
    as (k & Hj & Hk & _).
  rewrite Hj. vm_compute in Hk. rewrite Hk. reflexivity.
Defined.

(** The creator is locked out of a meeting for one whose single seat is
    held by a pending attendee. *)
Lemma join_full_witness :
  join_meeting_tz true (ex_db true (Some 1) {[1 := ex_row 1 2 Pending false]}) 1 1 (300 secs) =
    (RError ErrMaxParticipants, ex_db true (Some 1) {[1 := ex_row 1 2 Pending false]}).
Proof. apply (join_full _ _ _ _ (ex_meeting true (Some 1))); decide_guards. Defined.

Lemma join_banned_witness :
  join_meeting_tz true (ex_db false None {[1 := ex_row 1 2 Approved true]}) 2 1 (300 secs) =
    (RError ErrBanned, ex_db false None {[1 := ex_row 1 2 Approved true]}).
Proof.
  apply (join_banned _ _ _ _ (ex_meeting false None) 1 (ex_row 1 2 Approved true));
    decide_guards.
Defined.

(** A declined row of user [2] in the live meeting [5] keeps user [2] out
    of meeting [1]. *)
Lemma join_in_another_meeting_witness :
  join_meeting_tz true (ex_db false None {[4 := ex_row 5 2 Declined false]}) 2 1 (300 secs) =
    (RError ErrInAnotherMeeting, ex_db false None {[4 := ex_row 5 2 Declined false]}).
Proof.
  apply (join_in_another_meeting _ _ _ _ (ex_meeting false None) 4 (ex_row 5 2 Declined false));
    decide_guards.
Defined.

Lemma join_error_no_write_witness :
  (join_meeting_tz true (ex_db false None ∅) 2 1 0).2 = ex_db false None ∅.
Proof.
  apply (join_error_no_write true _ 2 1 0 (ErrNotStarted 10)); [vm_compute; reflexivity|discriminate].
Defined.

Lemma decision_forbidden_witness :
  approve_participant (ex_db true None {[1 := ex_row 1 2 Pending false]}) 2 1 1 0 =
    (RError ErrAccessDenied, ex_db true None {[1 := ex_row 1 2 Pending false]}) ∧
  reject_participant (ex_db true None {[1 := ex_row 1 2 Pending false]}) 2 1 1 0 =
    (RError ErrAccessDenied, ex_db true None {[1 := ex_row 1 2 Pending false]}).
Proof. apply (decision_forbidden _ _ _ _ _ (ex_meeting true None)); reflexivity. Defined.

(** One seat: the attendee on row 1 was approved; approving the one on
    row 2 is refused. *)
Definition ex_two_queued : Db :=
  ex_db true (Some 1) {[1 := mkParticipant 1 2 Approved Attendee (Some 0) None false 0;
                        2 := ex_row 1 3 Pending false]}.

Lemma approve_rechecks_capacity_witness :
  approve_participant ex_two_queued 1 1 2 0 = (RError ErrMaxParticipants, ex_two_queued).
Proof.
  apply (approve_rechecks_capacity _ _ _ _ _ (ex_meeting true (Some 1)) (ex_row 1 3 Pending false));
    vm_compute; reflexivity.
Defined.

Lemma approve_admits_witness :
  ∃ db', commit 0 (ex_db true None {[1 := ex_row 1 2 Pending false]})
           [UpdateParticipant 1 (approved_row (ex_row 1 2 Pending false) 0);
            InsertAudit (Some 1) 3 ApprovedParticipant (DParticipantId 1)] = Some db' ∧
    approve_participant (ex_db true None {[1 := ex_row 1 2 Pending false]}) 3 1 1 0 =
      (RMessage MsgApproved, db').
Proof.
  apply (approve_admits _ _ _ _ _ (ex_meeting true None)); [vm_compute; reflexivity..|set_solver].
Defined.

Lemma reject_declines_witness :
  ∃ db', commit 0 (ex_db true None {[1 := ex_row 1 2 Pending false]})
           [UpdateParticipant 1 (declined_row (ex_row 1 2 Pending false));
            InsertAudit (Some 1) 1 RejectedParticipant (DParticipantId 1)] = Some db' ∧
    reject_participant (ex_db true None {[1 := ex_row 1 2 Pending false]}) 1 1 1 0 =
      (RMessage MsgRejected, db').
Proof.
  apply (reject_declines _ _ _ _ _ (ex_meeting true None)); [vm_compute; reflexivity|set_solver].
Defined.

Lemma waiting_room_lists_pending_witness :
  ∃ l, get_waiting_room ex_two_queued 3 1 = (RWaitingRoom l, ex_two_queued) ∧
    ∀ k uid c, (k, uid, c) ∈ l ↔
      ∃ p, ex_two_queued.(participants) !! k = Some p ∧ p.(p_meeting_id) = 1 ∧
           p.(status) = Pending ∧ uid = p.(p_user_id) ∧ c = p.(p_created_at).
Proof.
  apply (waiting_room_lists_pending _ _ _ (ex_meeting true (Some 1)));
    [vm_compute; reflexivity..|].
  intros k p Hk. unfold ex_two_queued, ex_db in Hk. simpl in Hk.
  rewrite lookup_insert_Some, lookup_singleton_Some in Hk.
  destruct Hk as [[_ <-]|[_ [_ <-]]]; simpl; set_solver.
Defined.

(** The banned, declined attendee [2] still reads the meeting. *)
Lemma get_meeting_any_row_witness :
  get_meeting (ex_db false None {[7 := ex_row 1 2 Declined true]}) 2 1 =
    (RMeeting 1 (ex_meeting false None), ex_db false None {[7 := ex_row 1 2 Declined true]}).
Proof. apply (get_meeting_any_row _ _ _ _ 7 (ex_row 1 2 Declined true)); reflexivity. Defined.

End Admission.

