(* ===== verification/Lifecycle.v ===== *)
(** The meeting lifecycle of routes/meetings.py: [create_meeting] (lines
    43-186) with its validation, [delete_meeting] (367-386),
    [end_meeting] (388-407), [add_co_host] (409-459) and
    [remove_co_host] (461-498).

    A request body is any JSON value ([request.get_json()]; [None] when
    there is no JSON body), with Python's [k in data] and [data[k]] on
    it.  The sanitiser
    [bleach.clean] and the parser [datetime.fromisoformat] are library
    calls: the section takes them as variables, so every theorem holds
    for any sanitiser and any parser. *)

From Stdlib Require Import QArith_base.
From S2P Require Import Prelude Time Python Schema Session.

Module Lifecycle.

Section create.

(** [bleach.clean]. *)
Variable clean : string → string.
(** [datetime.fromisoformat(s.replace('Z', '+00:00'))]: the instant, and
    whether it carries a timezone; [None] is the ValueError. *)
Variable parse_datetime : string → option (Z * bool).

(** ** create_meeting: the validation of lines 48-139 *)

(** Lines 53-55. *)
Definition required_fields : list string := ["title"; "description"; "start_time"; "end_time"].

(** [x.strip()] of a JSON value: AttributeError on a non-string. *)
Definition strip_field (v : option JVal) : option string :=
  match v with Some (JStr s) => Some (py_strip s) | _ => None end.

(** Lines 70-78: the ValueError of either parse comes first, then the
    timezone check; a non-string value raises AttributeError (500). *)
Definition parse_times (vs ve : option JVal) : Err + (Z * Z) :=
  match vs with
  | Some (JStr s) =>
    match parse_datetime s with
    | None => inl ErrDatetimeFormat
    | Some (ts, tzs) =>
      match ve with
      | Some (JStr e) =>
        match parse_datetime e with
        | None => inl ErrDatetimeFormat
        | Some (te, tze) => if tzs && tze then inr (ts, te) else inl ErrTimezoneRequired
        end
      | _ => inl ErrServer
      end
    end
  | _ => inl ErrServer
  end.

(** Lines 102-104: [data.get('meeting_type', 'regular')]. *)
Definition parse_meeting_type (v : option JVal) : option MeetingType :=
  match v with
  | None => Some Regular
  | Some (JStr s) =>
    if String.eqb s "regular" then Some Regular
    else if String.eqb s "recurring" then Some Recurring
    else if String.eqb s "private" then Some Private
    else None
  | Some _ => None
  end.

(** Lines 106-109: [None] is the 400; [isinstance(True, int)] holds in
    Python, and [True] is stored as 1. *)
Definition parse_max (v : option JVal) : option (option Z) :=
  match v with
  | None | Some JNull => Some None
  | Some (JInt z) => if z <=? 0 then None else Some (Some z)
  | Some (JBool true) => Some (Some 1)
  | Some _ => None
  end.

(** Lines 115-119. *)
Definition parse_pattern (v : option JVal) : option RecurringPattern :=
  match v with
  | Some (JStr s) =>
    if String.eqb s "daily" then Some Daily
    else if String.eqb s "weekly" then Some Weekly
    else if String.eqb s "monthly" then Some Monthly
    else if String.eqb s "custom" then Some Custom
    else None
  | _ => None
  end.

(** The value a [Boolean NOT NULL] column accepts ([False] when the key
    is absent): SQLAlchemy's [Boolean] takes the values equal to [None],
    [True] or [False], so [0], [1], [0.0] and [1.0] too; [None] makes
    the flush raise. *)
Definition stored_bool (v : option JVal) : option bool :=
  match v with
  | None => Some false
  | Some (JBool b) => Some b
  | Some (JInt 0) => Some false
  | Some (JInt 1) => Some true
  | Some (JFloat q) =>
      if Qeq_bool q 0 then Some false else if Qeq_bool q 1 then Some true else None
  | Some _ => None
  end.

(** Lines 121-127: an active meeting of [u] overlapping [start, end). *)
Definition overlaps (u ts te : Z) (kv : Z * Meeting) : Prop :=
  kv.2.(created_by) = u ∧ kv.2.(ended_at) = None ∧
  kv.2.(end_time) > ts ∧ kv.2.(start_time) < te.

(** Lines 133-136. *)
Definition active_of (u : Z) (kv : Z * Meeting) : Prop :=
  kv.2.(created_by) = u ∧ kv.2.(ended_at) = None.

#[export] Instance overlaps_dec u ts te kv : Decision (overlaps u ts te kv).
Proof. unfold overlaps. apply _. Defined.
#[export] Instance active_of_dec u kv : Decision (active_of u kv).
Proof. unfold active_of. apply _. Defined.

(** What the validation hands to the insertion: the meeting row and the
    requested co-host ids. *)
Record Draft := mkDraft { d_meeting : Meeting; d_co_hosts : list JVal }.

(** Lines 48-56: [data] is what [request.get_json()] returned ([None]
    for a body [null]).  [not data] refuses every falsy value; the
    membership tests are Python's on any JSON value (a TypeError on a
    number or a boolean); [data['title']] on a list or a string that
    passed them is a TypeError; each is a 500. *)
Definition validate_create (db : Db) (u now : Z) (data : option JVal) : Err + Draft :=
  match data with
  | None => inl ErrNoData
  | Some v =>
    if negb (py_truthy v) then inl ErrNoData else
    match py_all_in required_fields v with
    | None => inl ErrServer
    | Some false => inl ErrMissingFields
    | Some true =>
    match v with
    | JObj obj =>
    match strip_field (obj_get "title" obj), strip_field (obj_get "description" obj) with
    | Some t, Some d =>
      let title := clean t in
      let description := clean d in
      if bool_decide (title = "") then inl ErrTitleEmpty
      else if 200 <? Z.of_nat (String.length title) then inl ErrTitleTooLong
      else if 2000 <? Z.of_nat (String.length description) then inl ErrDescriptionTooLong
      else
      match parse_times (obj_get "start_time" obj) (obj_get "end_time" obj) with
      | inl e => inl e
      | inr (ts, te) =>
        if ts <? now then inl ErrStartInPast
        else if te <=? ts then inl ErrStartNotBeforeEnd
        else if te - ts <? 300 secs then inl ErrTooShort
        else if 86400 secs <? te - ts then inl ErrTooLong
        else if 365 <? td_days (ts - now) then inl ErrTooFarAhead
        else
        match parse_meeting_type (obj_get "meeting_type" obj) with
        | None => inl ErrInvalidType
        | Some mt =>
          match parse_max (obj_get "max_participants" obj) with
          | None => inl ErrInvalidMax
          | Some mx =>
            let rp := if bool_decide (mt = Recurring)
                      then Some <$> parse_pattern (obj_get "recurring_pattern" obj)
                      else Some None in
            match rp with
            | None => inl ErrInvalidPattern
            | Some rp =>
              if exists_row (overlaps u ts te) db.(meetings) then inl ErrOverlap
              else if 50 <=? Z.of_nat (count_rows (active_of u) db.(meetings))
              then inl ErrActiveLimit
              else
              match stored_bool (obj_get "requires_approval" obj),
                    stored_bool (obj_get "is_recorded" obj) with
              | Some rq, Some rec =>
                (* a string or an object, which the loop would iterate, is
                   refused here: creation answers 500 either way *)
                let co := match obj_get "co_hosts" obj with
                          | None => Some []
                          | Some (JList l) => Some l
                          | Some _ => None
                          end in
                match co with
                | Some l =>
                  inr (mkDraft (mkMeeting title (Some description) ts te u now None mt mx rq rec rp None) l)
                | None => inl ErrServer
                end
              | _, _ => inl ErrServer
              end
            end
          end
        end
      end
    | _, _ => inl ErrServer
    end
    | _ => inl ErrServer
    end
    end
  end.

(** [co_host_id != current_user.id], with Python's [True == 1] and
    [3.0 == 3]. *)
Definition py_ne_id (v : JVal) (u : Z) : bool :=
  match v with
  | JInt z => negb (z =? u)
  | JBool b => negb (Z.b2z b =? u)
  | JFloat q => negb (Qeq_bool q (inject_Z u))
  | _ => true
  end.

(** The id an Integer column stores for a JSON value, if any. *)
Definition int_id (v : JVal) : option Z :=
  match v with JInt z => Some z | JBool b => Some (Z.b2z b) | _ => None end.

(** Lines 141-178: the staged rows.  [meeting.id] is [None] until the
    flush, so the co-host rows and the audit row carry a NULL
    [meeting_id]. *)
Definition create_ops (u : Z) (d : Draft) : option (list Op) :=
  let m := d.(d_meeting) in
  let meeting_id : option Z := None in
  ids ← mapM int_id (filter (λ v, py_ne_id v u = true) d.(d_co_hosts));
  Some ([InsertMeeting m] ++
        ((λ c, InsertCoHost meeting_id c) <$> ids) ++
        [InsertAudit meeting_id u Created
           (DCreated m.(meeting_type) m.(requires_approval) m.(is_recorded)
              m.(recurring_pattern))]).

(** Lines 45-186. *)
Definition create_meeting (db : Db) (u now : Z) (data : option JVal)
    : Resp * Db :=
  match validate_create db u now data with
  | inl e => (RError e, db)
  | inr d =>
    match create_ops u d with
    | None => (RError ErrServer, db)
    | Some ops => commit_or_500 now db ops (RCreated db.(next_meeting_id))
    end
  end.

End create.

(** ** end, delete and co-hosts *)

(** Lines 390-407: no check that the meeting has already ended. *)
Definition end_meeting (db : Db) (u id now : Z) : Resp * Db :=
  match db.(meetings) !! id with
  | None => (RError ErrMeetingNotFound, db)
  | Some m =>
    if negb (m.(created_by) =? u) then (RError ErrOnlyHostEnd, db)
    else commit_or_500 now db [UpdateMeeting id (set_ended_at m (Some now))] (RMessage MsgEnded)
  end.

(** Lines 369-386. *)
Definition delete_meeting (db : Db) (u id now : Z) : Resp * Db :=
  match db.(meetings) !! id with
  | None => (RError ErrMeetingNotFound, db)
  | Some m =>
    if negb (m.(created_by) =? u) then (RError ErrOnlyHostDelete, db)
    else commit_or_500 now db [DeleteMeeting id] (RMessage MsgDeleted)
  end.

(** Lines 421-433: the user id of the body.  [not data or 'user_id' not
    in data] is the 400 (a TypeError of [in] on a number is a 500);
    [data['user_id']] on a list or a string is a TypeError.  The value is
    the parameter of [User.query.get]: [None] finds no user (404); an
    integer is the key; any other JSON value is taken to make the query
    raise, as PostgreSQL does for a boolean, a list, an object or a
    non-numeric string (a decimal string or an integral float, which it
    would cast, is answered the same way). *)
Definition co_host_param (data : option JVal) : Err + Z :=
  match data with
  | None => inl ErrNoUserId
  | Some v =>
    if negb (py_truthy v) then inl ErrNoUserId else
    match py_in "user_id" v with
    | None => inl ErrServer
    | Some false => inl ErrNoUserId
    | Some true =>
      match py_getitem "user_id" v with
      | Some (JInt c) => inr c
      | Some JNull => inl ErrUserNotFound
      | _ => inl ErrServer
      end
    end
  end.

(** The body [{"user_id": c}]. *)
Definition co_host_body (c : Z) : option JVal := Some (JObj [("user_id", JInt c)]).

(** Lines 411-459. *)
Definition add_co_host (db : Db) (u id : Z) (data : option JVal) (now : Z) : Resp * Db :=
  match db.(meetings) !! id with
  | None => (RError ErrMeetingNotFound, db)
  | Some m =>
    if negb (m.(created_by) =? u) then (RError ErrOnlyHostAddCoHost, db) else
    match co_host_param data with
    | inl e => (RError e, db)
    | inr c =>
      if negb (bool_decide (c ∈ db.(users))) then (RError ErrUserNotFound, db)
      else if is_co_host db id c then (RError ErrAlreadyCoHost, db)
      else commit_or_500 now db
             [InsertCoHost (Some id) c; InsertAudit (Some id) u AddedCoHost (DCoHostId c)]
             (RMessage MsgCoHostAdded)
    end
  end.

(** Lines 463-498. *)
Definition remove_co_host (db : Db) (u id c now : Z) : Resp * Db :=
  match db.(meetings) !! id with
  | None => (RError ErrMeetingNotFound, db)
  | Some m =>
    if negb (m.(created_by) =? u) then (RError ErrOnlyHostRemoveCoHost, db) else
    match first_row (is_co_host_row id c) db.(co_hosts) with
    | None => (RError ErrNotCoHost, db)
    | Some (chid, _) =>
      commit_or_500 now db
        [DeleteCoHost chid; InsertAudit (Some id) u RemovedCoHost (DCoHostId c)]
        (RMessage MsgCoHostRemoved)
    end
  end.

(** ** Properties *)

Lemma parse_max_pos v o n : parse_max v = Some o → o = Some n → 0 < n.
Proof. destruct v as [[| [] | z | | | |]|]; simpl; intros; case_ifs; simplify_eq; zbool; lia. Qed.

Section create_props.
Variable clean : string → string.
Variable parse_datetime : string → option (Z * bool).

(** C13: a request that passes the validation describes a meeting
    satisfying the invariants of the data model: a non-empty title of at
    most 200 characters, a description of at most 2000, [now <= start],
    a start at most 365 days and some hours ahead, a duration between 5
    minutes and 24 hours, a recurring pattern exactly for recurring
    meetings, a positive capacity if any, owned by [u], not ended, not
    overlapping another active meeting of [u], and fewer than 50 active
    meetings of [u]. *)
Theorem validate_create_sound db u now data d :
  validate_create clean parse_datetime db u now data = inr d →
  let m := d.(d_meeting) in
  m.(title) ≠ "" ∧ (String.length m.(title) <= 200)%nat ∧
  (∃ ds, m.(description) = Some ds ∧ (String.length ds <= 2000)%nat) ∧
  now <= m.(start_time) ∧ td_days (m.(start_time) - now) <= 365 ∧
  300 secs <= m.(end_time) - m.(start_time) <= 86400 secs ∧
  (is_Some m.(recurring_pattern) ↔ m.(meeting_type) = Recurring) ∧
  (∀ n, m.(max_participants) = Some n → 0 < n) ∧
  m.(created_by) = u ∧ m.(ended_at) = None ∧
  (∀ k m', db.(meetings) !! k = Some m' → ¬ overlaps u m.(start_time) m.(end_time) (k, m')) ∧
  (count_rows (active_of u) db.(meetings) < 50)%nat.
Proof.
  unfold validate_create. intros H.
  repeat (case_match; simplify_eq; try done).
  all: simpl; zbool; split_and!; try (done || lia);
    first
    [ (* recurring pattern iff recurring *)
      repeat match goal with
      | H : _ <$> parse_pattern _ = Some _ |- _ =>
          destruct (parse_pattern _); simpl in H; simplify_eq
      end; naive_solver
    | intros n Hn; by eapply parse_max_pos
    | intros k m' Hk; eapply exists_row_false; eauto
    | eexists; split; [reflexivity|lia] ].
Qed.

(** Every answer of [create_meeting] is an error that leaves the
    database as it was: the validation's, or the 500 of the commit. *)
Lemma create_meeting_cases db u now data :
  create_meeting clean parse_datetime db u now data = (RError ErrServer, db) ∨
  ∃ e, validate_create clean parse_datetime db u now data = inl e ∧
       create_meeting clean parse_datetime db u now data = (RError e, db).
Proof.
  unfold create_meeting.
  destruct (validate_create clean parse_datetime db u now data) as [e|d]; [by right; exists e|].
  left. destruct (create_ops u d) as [ops|] eqn:Hops; [|done].
  unfold create_ops in Hops.
  destruct (mapM int_id _) as [ids|]; cbv [mbind option_bind] in Hops; [|done].
  injection Hops as <-.
  unfold commit_or_500. rewrite app_comm_cons, commit_null_audit. done.
Qed.

(** C14: [create_meeting] never creates a meeting.  Whatever the
    request, the database is unchanged and the answer is an error; a
    request that passes every validation gets a 500, because the audit
    row (and every co-host row) is built from [meeting.id] before the
    meeting is flushed, and its NULL [meeting_id] fails the commit. *)
Theorem create_meeting_never_commits db u now data :
  (create_meeting clean parse_datetime db u now data).2 = db ∧
  ((∃ d, validate_create clean parse_datetime db u now data = inr d) →
   (create_meeting clean parse_datetime db u now data).1 = RError ErrServer).
Proof.
  destruct (create_meeting_cases db u now data) as [->|(e & He & ->)]; [done|].
  split; [done|]. intros (d & Hd). congruence.
Qed.

End create_props.

(** Ending is not refused when the meeting has already ended: the
    creator's request overwrites [ended_at] with [now], touches no
    participant row and writes no audit row. *)
Theorem end_meeting_overwrites db u id now m :
  db.(meetings) !! id = Some m → m.(created_by) = u → u ∈ db.(users) →
  ∃ db', end_meeting db u id now = (RMessage MsgEnded, db') ∧
    db'.(meetings) = <[id := set_ended_at m (Some now)]> db.(meetings) ∧
    db'.(participants) = db.(participants) ∧ db'.(audit_logs) = db.(audit_logs).
Proof.
  intros Hm <- Hu. unfold end_meeting, commit_or_500. rewrite Hm, Z.eqb_refl. simpl.
  unfold meeting_fk, user_fk. rewrite bool_decide_eq_true_2 by (rewrite Hm; by eexists).
  rewrite bool_decide_eq_true_2 by done. simpl. eauto.
Qed.

(** C16: a meeting with an audit row cannot be deleted: the ORM sets the
    [meeting_id] of its audit rows to NULL, the commit fails, and the
    creator gets a 500 with nothing deleted. *)
Theorem delete_meeting_blocked_by_audit db u id now m :
  db.(meetings) !! id = Some m → m.(created_by) = u → has_audit_rows db id = true →
  delete_meeting db u id now = (RError ErrServer, db).
Proof.
  intros Hm <- Ha. unfold delete_meeting, commit_or_500. rewrite Hm, Z.eqb_refl. simpl.
  by rewrite Ha.
Qed.

(** Without audit rows, deletion removes the meeting with its
    participant and co-host rows, and detaches its child meetings. *)
Theorem delete_meeting_cascades db u id now m :
  db.(meetings) !! id = Some m → m.(created_by) = u → has_audit_rows db id = false →
  delete_meeting db u id now = (RMessage MsgDeleted, delete_meeting_rows db id).
Proof.
  intros Hm <- Ha. unfold delete_meeting, commit_or_500. rewrite Hm, Z.eqb_refl. simpl.
  rewrite Ha. unfold meeting_fk. rewrite bool_decide_eq_true_2 by (rewrite Hm; by eexists).
  done.
Qed.

(** C17: only the creator ends, deletes, or changes the co-hosts of a
    meeting: anyone else gets 403 and nothing is written. *)
Theorem lifecycle_creator_only db u id now m c co :
  db.(meetings) !! id = Some m → m.(created_by) ≠ u →
  end_meeting db u id now = (RError ErrOnlyHostEnd, db) ∧
  delete_meeting db u id now = (RError ErrOnlyHostDelete, db) ∧
  add_co_host db u id co now = (RError ErrOnlyHostAddCoHost, db) ∧
  remove_co_host db u id c now = (RError ErrOnlyHostRemoveCoHost, db).
Proof.
  intros Hm Hne. unfold end_meeting, delete_meeting, add_co_host, remove_co_host.
  rewrite Hm, (proj2 (Z.eqb_neq _ _) Hne). done.
Qed.

Lemma co_host_param_body c : co_host_param (co_host_body c) = inr c.
Proof. reflexivity. Qed.

(** Adding a co-host who exists and is not one yet writes the
    co-host row and one 'added_co_host' audit row; the creator may add
    themself.  A second addition of the same user is refused. *)
Theorem add_co_host_adds db u id now m c :
  db.(meetings) !! id = Some m → m.(created_by) = u → c ∈ db.(users) → u ∈ db.(users) →
  is_co_host db id c = false →
  (∃ db', commit now db [InsertCoHost (Some id) c;
                         InsertAudit (Some id) u AddedCoHost (DCoHostId c)] = Some db' ∧
          add_co_host db u id (co_host_body c) now = (RMessage MsgCoHostAdded, db') ∧
          is_co_host db' id c = true ∧
          add_co_host db' u id (co_host_body c) now = (RError ErrAlreadyCoHost, db')).
Proof.
  intros Hm <- Hc Hu Hco. unfold add_co_host. rewrite Hm, Z.eqb_refl, co_host_param_body. simpl.
  rewrite (bool_decide_eq_true_2 (c ∈ users db)) by done. simpl. rewrite Hco.
  unfold is_co_host in Hco. run_commits.
  eexists; split; [done|split; [done|]].
  assert (Hnew : is_co_host (with_audit_logs (with_co_hosts db
            (<[next_co_host_id db:=mkCoHost id c]> (co_hosts db)) (next_co_host_id db + 1))
            (<[next_audit_id db:=mkAuditLog id (created_by m) AddedCoHost (DCoHostId c) now]>
               (audit_logs db)) (next_audit_id db + 1)) id c = true).
  { apply is_co_host_true. exists (next_co_host_id db), (mkCoHost id c). simpl.
    by rewrite lookup_insert_eq. }
  split; [done|]. simpl. rewrite Hm, Z.eqb_refl. simpl.
  rewrite (bool_decide_eq_true_2 (c ∈ users db)) by done. simpl in Hnew. by rewrite Hnew.
Qed.

(** ** Scenarios *)

(** A parser that knows two instants, ten minutes and one hour after 0,
    and one naive datetime. *)
Definition ex_parse (s : string) : option (Z * bool) :=
  if String.eqb s "00:10Z" then Some (600 secs, true)
  else if String.eqb s "01:00Z" then Some (3600 secs, true)
  else if String.eqb s "00:10" then Some (600 secs, false)
  else None.

Definition ex_request : list (string * JVal) :=
  [("title", JStr "  Standup "); ("description", JStr "daily sync");
   ("start_time", JStr "00:10Z"); ("end_time", JStr "01:00Z");
   ("meeting_type", JStr "recurring"); ("recurring_pattern", JStr "daily");
   ("max_participants", JInt 10); ("requires_approval", JBool true);
   ("co_hosts", JList [JInt 3])].

Definition lc_meeting (ended : option Z) : Meeting :=
  mkMeeting "standup" (Some "daily sync") (600 secs) (3600 secs) 1 0 ended Regular None false false
    None None.

Definition lc_db (ended : option Z) (logs : gmap Z AuditLog) : Db :=
  mkDb {[1; 2; 3]} {[1 := lc_meeting ended]}
    {[1 := mkParticipant 1 2 Approved Attendee (Some 0) None false 0]}
    {[1 := mkCoHost 1 3]} logs 2 2 2 10.

Definition ex_draft : Draft :=
  match validate_create (λ s, s) ex_parse (lc_db None ∅) 2 0 (Some (JObj ex_request)) with
  | inr d => d
  | inl _ => mkDraft (lc_meeting None) []
  end.

Lemma validate_create_sound_witness :
  let m := ex_draft.(d_meeting) in
  m.(title) ≠ "" ∧ (String.length m.(title) <= 200)%nat ∧
  (∃ ds, m.(description) = Some ds ∧ (String.length ds <= 2000)%nat) ∧
  0 <= m.(start_time) ∧ td_days (m.(start_time) - 0) <= 365 ∧
  300 secs <= m.(end_time) - m.(start_time) <= 86400 secs ∧
  (is_Some m.(recurring_pattern) ↔ m.(meeting_type) = Recurring) ∧
  (∀ n, m.(max_participants) = Some n → 0 < n) ∧
  m.(created_by) = 2 ∧ m.(ended_at) = None ∧
  (∀ k m', (lc_db None ∅).(meetings) !! k = Some m' →
     ¬ overlaps 2 m.(start_time) m.(end_time) (k, m')) ∧
  (count_rows (active_of 2) (lc_db None ∅).(meetings) < 50)%nat.
Proof. apply (validate_create_sound (λ s, s) ex_parse _ _ _ (Some (JObj ex_request))). vm_compute. reflexivity. Defined.

(** The valid request of user 2 is answered 500 and creates nothing. *)
Lemma create_meeting_never_commits_witness :
  (create_meeting (λ s, s) ex_parse (lc_db None ∅) 2 0 (Some (JObj ex_request))).2 = lc_db None ∅ ∧
  (create_meeting (λ s, s) ex_parse (lc_db None ∅) 2 0 (Some (JObj ex_request))).1 = RError ErrServer.
Proof.
  destruct (create_meeting_never_commits (λ s, s) ex_parse (lc_db None ∅) 2 0 (Some (JObj ex_request)))
    as [H1 H2].
  split; [exact H1|]. apply H2. eexists. reflexivity.
Defined.

(** Ending a meeting that ended at instant 5 again at instant 9. *)
Lemma end_meeting_overwrites_witness :
  ∃ db', end_meeting (lc_db (Some 5) ∅) 1 1 9 = (RMessage MsgEnded, db') ∧
    db'.(meetings) = <[1 := set_ended_at (lc_meeting (Some 5)) (Some 9)]> (lc_db (Some 5) ∅).(meetings) ∧
    db'.(participants) = (lc_db (Some 5) ∅).(participants) ∧
    db'.(audit_logs) = (lc_db (Some 5) ∅).(audit_logs).
Proof. apply end_meeting_overwrites; [reflexivity|reflexivity|set_solver]. Defined.

(** Once attendee 2 has joined (one 'joined' audit row), the meeting can
    no longer be deleted. *)
Definition ex_joined_log : gmap Z AuditLog :=
  {[1 := mkAuditLog 1 2 Joined (DJoined Attendee (StatusOf Approved)) 0]}.

Lemma delete_meeting_blocked_by_audit_witness :
  delete_meeting (lc_db None ex_joined_log) 1 1 0 = (RError ErrServer, lc_db None ex_joined_log).
Proof. apply (delete_meeting_blocked_by_audit _ _ _ _ (lc_meeting None)); reflexivity. Defined.

Lemma delete_meeting_cascades_witness :
  delete_meeting (lc_db None ∅) 1 1 0 = (RMessage MsgDeleted, delete_meeting_rows (lc_db None ∅) 1).
Proof. apply (delete_meeting_cascades _ _ _ _ (lc_meeting None)); reflexivity. Defined.

Lemma lifecycle_creator_only_witness :
  end_meeting (lc_db None ∅) 3 1 0 = (RError ErrOnlyHostEnd, lc_db None ∅) ∧
  delete_meeting (lc_db None ∅) 3 1 0 = (RError ErrOnlyHostDelete, lc_db None ∅) ∧
  add_co_host (lc_db None ∅) 3 1 (co_host_body 2) 0 = (RError ErrOnlyHostAddCoHost, lc_db None ∅) ∧
  remove_co_host (lc_db None ∅) 3 1 3 0 = (RError ErrOnlyHostRemoveCoHost, lc_db None ∅).
Proof. apply (lifecycle_creator_only _ _ _ _ (lc_meeting None)); [reflexivity|discriminate]. Defined.

(** The creator makes themself a co-host of their own meeting. *)
Lemma add_co_host_adds_witness :
  ∃ db', commit 0 (lc_db None ∅) [InsertCoHost (Some 1) 1;
                                  InsertAudit (Some 1) 1 AddedCoHost (DCoHostId 1)] = Some db' ∧
    add_co_host (lc_db None ∅) 1 1 (co_host_body 1) 0 = (RMessage MsgCoHostAdded, db') ∧
    is_co_host db' 1 1 = true ∧
    add_co_host db' 1 1 (co_host_body 1) 0 = (RError ErrAlreadyCoHost, db').
Proof.
  apply (add_co_host_adds _ _ _ _ (lc_meeting None)); [reflexivity|reflexivity|set_solver|set_solver|].
  reflexivity.
Defined.

End Lifecycle.
