(* ===== verification/Listing.v ===== *)
(** [list_meetings] (routes/meetings.py, lines 307-347): the meetings a
    user created or has a participant row in, newest first.

    The two queries are filtered copies of the [meetings] table; their
    union is the Python [set] (both queries yield the same identity-map
    objects, so a meeting in both is kept once).  [sorted(...,
    key=created_at, reverse=True)] is a stable sort by [created_at],
    newest first, which stdpp's [merge_sort] is; the order of meetings
    created at the same instant is the set's iteration order, which
    Python leaves unspecified and the model takes from the map.  The
    JSON of each meeting ([to_dict]) is not modelled: the answer is the
    list of rows. *)

From stdpp Require Import sorting.
From S2P Require Import Prelude Time Python Schema.

Module Listing.

(** [request.args.get('active_only', type=lambda v: v.lower() == 'true',
    default=True)]: absent, the filter is on; present, it is on only for
    the string [true] in any case. *)
Definition active_only_arg (arg : option string) : bool :=
  match arg with
  | None => true
  | Some v => bool_decide (py_lower v = "true"%string)
  end.

(** [.filter(Meeting.ended_at.is_(None))] when [active_only]. *)
Definition shown (active_only : bool) (m : Meeting) : Prop :=
  active_only = true → m.(ended_at) = None.

#[export] Instance shown_dec a m : Decision (shown a m).
Proof. unfold shown. apply _. Defined.

(** [Meeting.query.filter(Meeting.created_by == current_user.id)]
    (lines 317-320). *)
Definition creator_meetings (db : Db) (u : Z) (active_only : bool) : gmap Z Meeting :=
  filter (λ kv : Z * Meeting, kv.2.(created_by) = u ∧ shown active_only kv.2) db.(meetings).

(** The inner join of lines 324-329: a meeting with a participant row
    of [u], whatever the row's status, [left_at] or [is_banned]. *)
Definition has_row (db : Db) (u : Z) (kv : Z * Meeting) : Prop :=
  exists_row (is_row_of kv.1 u) db.(participants) = true.

#[export] Instance has_row_dec db u kv : Decision (has_row db u kv).
Proof. unfold has_row. apply _. Defined.

Definition participant_meetings (db : Db) (u : Z) (active_only : bool) : gmap Z Meeting :=
  filter (λ kv : Z * Meeting, has_row db u kv ∧ shown active_only kv.2) db.(meetings).

(** The sort key, [reverse=True]: [a] may come before [b]. *)
Definition newer (a b : Z * Meeting) : Prop := b.2.(m_created_at) ≤ a.2.(m_created_at).

#[export] Instance newer_dec a b : Decision (newer a b).
Proof. unfold newer. apply _. Defined.

(** The handler: the answer for [current_user] [u] and the query
    argument [arg]. *)
Definition list_meetings (db : Db) (u : Z) (arg : option string) : list (Z * Meeting) :=
  let active_only := active_only_arg arg in
  merge_sort newer
    (map_to_list (creator_meetings db u active_only ∪ participant_meetings db u active_only)).

(** ** What the endpoint promises *)

(** A meeting the answer must hold: a row of the table, not ended when
    the filter is on, created by [u] or with a participant row of [u]. *)
Definition visible (db : Db) (u : Z) (active_only : bool) (i : Z) (m : Meeting) : Prop :=
  db.(meetings) !! i = Some m ∧ shown active_only m ∧
  (m.(created_by) = u ∨ ∃ k p, db.(participants) !! k = Some p ∧
                               p.(p_meeting_id) = i ∧ p.(p_user_id) = u).

(** Each visible meeting once, and nothing else, newest first. *)
Definition listing_spec (db : Db) (u : Z) (active_only : bool) (l : list (Z * Meeting)) : Prop :=
  NoDup l.*1 ∧ (∀ i m, (i, m) ∈ l ↔ visible db u active_only i m) ∧
  StronglySorted (λ a b, b.2.(m_created_at) ≤ a.2.(m_created_at)) l.

(** ** Lemmas *)

Lemma union_filter_lookup (P Q : Z * Meeting → Prop) `{∀ x, Decision (P x)}
    `{∀ x, Decision (Q x)} (m : gmap Z Meeting) i x :
  (filter P m ∪ filter Q m) !! i = Some x ↔ m !! i = Some x ∧ (P (i, x) ∨ Q (i, x)).
Proof.
  rewrite lookup_union_Some_raw, !map_lookup_filter_Some, map_lookup_filter_None.
  destruct (m !! i) as [y|] eqn:E; [|naive_solver].
  split; [naive_solver|]. intros [[= <-] [HP|HQ]]; [by left|].
  destruct (decide (P (i, y))); naive_solver.
Qed.

Lemma newer_total : Total newer.
Proof. intros a b. unfold newer. lia. Qed.

Lemma newer_trans : Transitive newer.
Proof. intros a b c. unfold newer. lia. Qed.

Lemma list_meetings_elem db u arg i m :
  (i, m) ∈ list_meetings db u arg ↔ visible db u (active_only_arg arg) i m.
Proof.
  unfold list_meetings, visible. rewrite (merge_sort_Permutation _ _), elem_of_map_to_list.
  unfold creator_meetings, participant_meetings. rewrite union_filter_lookup.
  unfold has_row. rewrite exists_row_true. unfold is_row_of. simpl. naive_solver.
Qed.

Lemma list_meetings_nodup db u arg : NoDup (list_meetings db u arg).*1.
Proof. unfold list_meetings. rewrite (merge_sort_Permutation _ _). apply NoDup_fst_map_to_list. Qed.

Lemma list_meetings_sorted db u arg : StronglySorted newer (list_meetings db u arg).
Proof.
  apply Sorted_StronglySorted; [apply newer_trans|].
  apply Sorted_merge_sort, newer_total.
Qed.

(** C15: [list_meetings] implements its contract: it answers each
    meeting the user created or holds a participant row in (only those
    not ended unless [active_only] is turned off) exactly once, newest
    first; and every list with these properties is a permutation of the
    answer with the same sequence of creation times, so the answer is
    fixed up to the order of meetings created at the same instant. *)
Theorem list_meetings_refines db u arg :
  listing_spec db u (active_only_arg arg) (list_meetings db u arg) ∧
  ∀ l, listing_spec db u (active_only_arg arg) l →
    l ≡ₚ list_meetings db u arg ∧
    (λ kv : Z * Meeting, kv.2.(m_created_at)) <$> l =
      (λ kv : Z * Meeting, kv.2.(m_created_at)) <$> list_meetings db u arg.
Proof.
  assert (Hspec : listing_spec db u (active_only_arg arg) (list_meetings db u arg)).
  { split_and!; [apply list_meetings_nodup|apply list_meetings_elem|apply list_meetings_sorted]. }
  split; [done|]. intros l (Hnd & Hin & Hs). destruct Hspec as (Hnd' & Hin' & Hs').
  assert (Hp : l ≡ₚ list_meetings db u arg).
  { apply NoDup_Permutation; [by eapply NoDup_fmap_1|by eapply NoDup_fmap_1|].
    intros [i m]. by rewrite Hin, Hin'. }
  split; [done|]. apply (StronglySorted_unique_strong (λ a b : Z, b ≤ a)).
  - intros a b ????. lia.
  - eapply StronglySorted_fmap; [|exact Hs]. done.
  - eapply StronglySorted_fmap; [|exact Hs']. done.
  - by rewrite Hp.
Qed.

(** ** A scenario *)

(** Meeting 1 of user 1 (created at 10), meeting 2 of user 3 (created
    at 20, ended at 30) and meeting 3 of user 2 (created at 5); user 2
    holds a declined, banned row in meeting 1 and an approved row in
    meeting 2. *)
Definition ls_meeting (creator created : Z) (ended : option Z) : Meeting :=
  mkMeeting "sync" None 100 200 creator created ended Regular None false false None None.

Definition ls_db : Db :=
  mkDb {[1; 2; 3]}
    {[1 := ls_meeting 1 10 None; 2 := ls_meeting 3 20 (Some 30); 3 := ls_meeting 2 5 None]}
    {[1 := mkParticipant 1 2 Declined Attendee None None true 10;
      2 := mkParticipant 2 2 Approved Attendee (Some 20) None false 20]}
    ∅ ∅ 4 3 1 1.

(** A declined and banned user still finds the meeting in the list. *)
Lemma list_meetings_shows_banned_row :
  list_meetings ls_db 2 None = [(1, ls_meeting 1 10 None); (3, ls_meeting 2 5 None)].
Proof. vm_compute. reflexivity. Qed.

(** Only the string [true] (any case) keeps the filter when the argument
    is given: [active_only=1] lists ended meetings too. *)
Lemma list_meetings_flag_strict :
  list_meetings ls_db 2 (Some "TRUE"%string) = list_meetings ls_db 2 None ∧
  list_meetings ls_db 2 (Some "1"%string) =
    [(2, ls_meeting 3 20 (Some 30)); (1, ls_meeting 1 10 None); (3, ls_meeting 2 5 None)].
Proof. split; vm_compute; reflexivity. Qed.

End Listing.
