(* ===== verification/Responses.v ===== *)
(** The response helpers of utils/responses.py: [api_response] builds
    the body dict by [update] and item assignment, [error_response] and
    [success_response] call it with their defaults.  The body is the
    Python dict before [jsonify]: a list of members in insertion order,
    read with [obj_get].  No route of the service calls these helpers;
    the theorems state what they would answer. *)

From S2P Require Import Prelude Python.

Module Responses.

(** [api_response] (lines 4-38): the dict and the status code. *)
Definition api_response (data : option (list (string * JVal)))
    (message error code : option string) (status_code : Z) : list (string * JVal) * Z :=
  let r0 : list (string * JVal) := [] in
  let r1 := match data with Some d => py_dict_update r0 d | None => r0 end in
  let r2 := match message with Some m => py_dict_set "message" (JStr m) r1 | None => r1 end in
  let r3 := match error with Some e => py_dict_set "error" (JStr e) r2 | None => r2 end in
  let r4 := match code with Some c => py_dict_set "code" (JStr c) r3 | None => r3 end in
  (r4, status_code).

(** [error_response] (lines 40-56), [status_code=400] by default. *)
Definition error_response (error code : string) (status_code : option Z) : list (string * JVal) * Z :=
  api_response None None (Some error) (Some code) (default 400 status_code).

(** [success_response] (lines 58-74), [status_code=200] by default. *)
Definition success_response (data : option (list (string * JVal))) (message : option string)
    (status_code : option Z) : list (string * JVal) * Z :=
  api_response data message None None (default 200 status_code).

(** What a key of the body holds: the argument named by the key when it
    is given, else the member of [data]. *)
Definition response_member (data : option (list (string * JVal)))
    (message error code : option string) (k : string) : option JVal :=
  (if bool_decide (k = "code") then JStr <$> code else None) ∪
  ((if bool_decide (k = "error") then JStr <$> error else None) ∪
   ((if bool_decide (k = "message") then JStr <$> message else None) ∪
    (data ≫= obj_get k))).

(** ** Lemmas *)

Lemma obj_get_opt_set k k' (o : option string) d :
  obj_get k (match o with Some x => py_dict_set k' (JStr x) d | None => d end) =
    (if bool_decide (k = k') then JStr <$> o else None) ∪ obj_get k d.
Proof.
  destruct o as [x|]; simpl.
  - rewrite obj_get_dict_set. case_bool_decide; [by rewrite union_Some_l|].
    by rewrite (left_id_L None union).
  - case_bool_decide; by rewrite (left_id_L None union).
Qed.

Lemma opt_set_nodup k (o : option string) d :
  NoDup d.*1 → NoDup (match o with Some x => py_dict_set k (JStr x) d | None => d end).*1.
Proof. destruct o; [apply dict_set_nodup|done]. Qed.

Lemma obj_get_data k (data : option (list (string * JVal))) :
  obj_get k (match data with Some d => py_dict_update [] d | None => [] end) = data ≫= obj_get k.
Proof. destruct data as [d|]; [|done]. simpl. rewrite obj_get_dict_update. by destruct (obj_get k d). Qed.

Lemma data_nodup (data : option (list (string * JVal))) :
  NoDup (match data with Some d => py_dict_update [] d | None => [] end).*1.
Proof. destruct data; apply dict_update_nodup || idtac; constructor. Qed.

(** [api_response] answers the status code it is given and a body with
    distinct keys in which [code], [error] and [message], when given,
    override the members of [data] of the same name, and every other key
    holds the member of [data]. *)
Theorem api_response_spec data message error code status_code :
  (api_response data message error code status_code).2 = status_code ∧
  NoDup (api_response data message error code status_code).1.*1 ∧
  ∀ k, obj_get k (api_response data message error code status_code).1 =
       response_member data message error code k.
Proof.
  unfold api_response, response_member. cbv zeta. cbn [fst snd]. split_and!; [done| |].
  - do 3 apply opt_set_nodup. apply data_nodup.
  - intros k. by rewrite !obj_get_opt_set, obj_get_data.
Qed.

(** [error_response] answers exactly [{'error': error, 'code': code}]. *)
Lemma error_response_body error code status_code :
  error_response error code status_code =
    ([("error", JStr error); ("code", JStr code)], default 400 status_code).
Proof. reflexivity. Qed.

End Responses.
