(* ===== verification/Transaction.v ===== *)
(** The transaction helpers of utils/database.py: the decorator
    [with_transaction] and [safe_commit].  A wrapped function runs on
    the database, stages operations in the session and returns a value
    or raises; the helpers commit, or roll back and raise again.  The
    log line of the [except] branch is output only.  The routes inline
    the same pattern ([commit_or_500] of [Session]) instead of calling
    these helpers; [commit_or_500_with_transaction] shows the two agree. *)

From S2P Require Import Prelude Time Schema Session.

Module Transaction.

(** A function under the decorator: its value ([None] when it raises)
    and the operations it staged before returning or raising. *)
Definition Staged (A : Type) : Type := Db → option A * list Op.

(** [with_transaction(f)] (lines 6-26): [result = f(...)], then
    [db.session.commit()], then [return result]; an exception of either
    rolls the session back and is raised again ([None]). *)
Definition with_transaction {A} (f : Staged A) (now : Z) (db : Db) : option A * Db :=
  match f db with
  | (Some result, ops) =>
      match commit now db ops with
      | Some db' => (Some result, db')
      | None => (None, db)
      end
  | (None, _) => (None, db)
  end.

(** [safe_commit()] (lines 28-37). *)
Definition safe_commit (now : Z) (db : Db) (ops : list Op) : option unit * Db :=
  match commit now db ops with
  | Some db' => (Some tt, db')
  | None => (None, db)
  end.

(** ** Lemmas *)

(** All or nothing: the decorated call either keeps the database and
    raises, or returns the function's value with all of its staged
    operations committed. *)
Lemma with_transaction_atomic {A} (f : Staged A) now db :
  with_transaction f now db = (None, db) ∨
  ∃ a ops db', f db = (Some a, ops) ∧ commit now db ops = Some db' ∧
               with_transaction f now db = (Some a, db').
Proof.
  unfold with_transaction. destruct (f db) as [[a|] ops]; [|by left].
  destruct (commit now db ops) as [db'|] eqn:E; [right; by exists a, ops, db'|by left].
Qed.

(** The decorator is the function followed by [safe_commit]. *)
Lemma with_transaction_safe_commit {A} (f : Staged A) now db :
  with_transaction f now db =
    match f db with
    | (Some a, ops) => let '(r, db') := safe_commit now db ops in ((λ _ : unit, a) <$> r, db')
    | (None, _) => (None, db)
    end.
Proof.
  unfold with_transaction, safe_commit. destruct (f db) as [[a|] ops]; [|done].
  by destruct (commit now db ops).
Qed.

(** The routes' [try: ... commit() except: rollback(); return 500] is
    the decorator around a function that stages [ops] and returns [ok],
    with the exception answered by a 500. *)
Lemma commit_or_500_with_transaction now db ops ok :
  commit_or_500 now db ops ok =
    let '(r, db') := with_transaction (λ _, (Some ok, ops)) now db in
    (default (RError ErrServer) r, db').
Proof. unfold commit_or_500, with_transaction. by destruct (commit now db ops). Qed.

End Transaction.
