(* ===== verification/Service.v ===== *)
(** The service as a whole: every handler of routes/meetings.py behind
    one request type, the step relation of the service (one request of
    an authenticated user at a time, as [token_required] admits only
    existing users), and the invariants that hold in every reachable
    state.

    Each handler's effect on the meetings and participants tables falls
    in one of six classes ([effect]); the invariants are proved once per
    class, and the classification once per handler.  The section takes
    the awareness [tz] of the loaded meeting times: the invariants hold
    for the program ([tz = false]) and for the join past line 206. *)

From S2P Require Import Prelude Time Python Schema Session Admission Lifecycle.
Import Admission Lifecycle.

Module Service.

(** ** Requests and the step relation *)

Inductive Request :=
  | Join (id : Z)
  | GetMeeting (id : Z)
  | WaitingRoom (id : Z)
  | Approve (id pid : Z)
  | Reject (id pid : Z)
  | Create (data : option JVal)
  | End (id : Z)
  | Delete (id : Z)
  | AddCoHost (id : Z) (data : option JVal)
  | RemoveCoHost (id c : Z).

Section service.
Variable clean : string → string.
Variable parse_datetime : string → option (Z * bool).
(** Whether the meeting times the handlers load are aware.  The
    program's are naive ([meeting_times_aware]), which makes every join
    of a live meeting raise; the invariants hold either way. *)
Variable tz : bool.

(** The blueprint's dispatch: one route per request. *)
Definition handle (db : Db) (u now : Z) (req : Request) : Resp * Db :=
  match req with
  | Join id => join_meeting_tz tz db u id now
  | GetMeeting id => get_meeting db u id
  | WaitingRoom id => get_waiting_room db u id
  | Approve id pid => approve_participant db u id pid now
  | Reject id pid => reject_participant db u id pid now
  | Create data => create_meeting clean parse_datetime db u now data
  | End id => end_meeting db u id now
  | Delete id => delete_meeting db u id now
  | AddCoHost id data => add_co_host db u id data now
  | RemoveCoHost id c => remove_co_host db u id c now
  end.

Inductive step : Db → Db → Prop :=
  | step_request db u now req :
      u ∈ db.(users) → step db (handle db u now req).2.

Definition reachable (db0 db : Db) : Prop := rtc step db0 db.

(** ** What a handler does to meetings and participants *)

Inductive effect (db db' : Db) : Prop :=
  | eff_frame : pm_eq db db' → effect db db'
  | eff_status k p p' :
      db.(participants) !! k = Some p →
      p'.(p_meeting_id) = p.(p_meeting_id) → p'.(p_user_id) = p.(p_user_id) →
      p'.(left_at) = p.(left_at) →
      db'.(meetings) = db.(meetings) → db'.(participants) = <[k := p']> db.(participants) →
      db'.(next_participant_id) = db.(next_participant_id) → effect db db'
  | eff_join_again id u m k p p' :
      db.(meetings) !! id = Some m → m.(ended_at) = None →
      find_participant db id u = Some (k, p) →
      p'.(p_meeting_id) = id → p'.(p_user_id) = u → p'.(left_at) = None →
      active_participation db u id = false →
      max_reached m.(max_participants) (count_current db id) = false →
      db'.(meetings) = db.(meetings) → db'.(participants) = <[k := p']> db.(participants) →
      db'.(next_participant_id) = db.(next_participant_id) → effect db db'
  | eff_end id m t :
      db.(meetings) !! id = Some m →
      db'.(meetings) = <[id := set_ended_at m (Some t)]> db.(meetings) →
      db'.(participants) = db.(participants) →
      db'.(next_participant_id) = db.(next_participant_id) → effect db db'
  | eff_delete id : db' = delete_meeting_rows db id → effect db db'.

Lemma commit_or_500_side now db ops ok :
  Forall (λ op, side_op op = true) ops → effect db (commit_or_500 now db ops ok).2.
Proof.
  intros Hs. apply eff_frame. destruct (commit_or_500_cases now db ops ok) as
    [(d & Hc & ->)|(_ & ->)]; [by eapply commit_side_pm|done].
Qed.

Lemma log_join_pm db m id u r st now current :
  pm_eq db (log_join db m id u r st now current).2.
Proof.
  unfold log_join. destruct (commit_or_500_cases now db
    [InsertAudit (Some id) u Joined (DJoined r st)]
    (RJoined r (m.(created_by) =? u) current (round_minutes (m.(end_time) - now))))
    as [(d & Hc & ->)|(_ & ->)]; [|done].
  eapply commit_side_pm; [|done]. by repeat constructor.
Qed.

(** A status update at an existing key: approve and reject. *)
Lemma decision_effect db u id pid now :
  effect db (approve_participant db u id pid now).2 ∧
  effect db (reject_participant db u id pid now).2.
Proof.
  unfold approve_participant, reject_participant.
  destruct (decision_target db u id pid) as [e|[m p]] eqn:Ht; [split; by do 2 constructor|].
  destruct (decision_target_inr _ _ _ _ _ _ Ht) as (_ & _ & Hp & _).
  assert (∀ p' a d,
    p'.(p_meeting_id) = p.(p_meeting_id) → p'.(p_user_id) = p.(p_user_id) →
    p'.(left_at) = p.(left_at) →
    ∀ ok, effect db (commit_or_500 now db
      [UpdateParticipant pid p'; InsertAudit (Some id) u a d] ok).2) as Hupd.
  { intros p' a d H1 H2 H3 ok.
    destruct (commit_or_500_cases now db [UpdateParticipant pid p'; InsertAudit (Some id) u a d] ok)
      as [(db' & Hc & ->)|(_ & ->)]; [|by do 2 constructor].
    apply commit_participant_then_side in Hc as (d' & Hd & Hpm); [|by repeat constructor].
    simpl in Hd. case_ifs; simplify_eq. destruct Hpm as (Hm' & Hp' & Hn').
    eapply eff_status; eauto. }
  split; [case_ifs; [by do 2 constructor|]|]; apply Hupd; done.
Qed.

Lemma join_tail_pm (b : bool) db1 m id u r st now current :
  pm_eq db1 (if b then (RWaiting, db1) else log_join db1 m id u r st now current).2.
Proof. destruct b; [done|apply log_join_pm]. Qed.

(** The join refreshes the participant row of a user who has one, and
    only after all of its guards have passed; a first join writes
    nothing. *)
Lemma join_effect db u id now : effect db (join_meeting_tz tz db u id now).2.
Proof.
  unfold join_meeting_tz.
  destruct (id <=? 0); [by do 2 constructor|].
  destruct (db.(meetings) !! id) as [m|] eqn:Hm; [|by do 2 constructor].
  destruct (bool_decide (is_Some m.(ended_at))) eqn:He; [by do 2 constructor|].
  apply bool_decide_eq_false, eq_None_not_Some in He.
  destruct (window_check tz m now) as [[e|]|]; [by do 2 constructor| |by do 2 constructor].
  destruct (max_reached _ _) eqn:Hmax; [by do 2 constructor|].
  destruct (find_participant db id u) as [[k p]|] eqn:Hp.
  - destruct (is_banned p); [by do 2 constructor|].
    destruct (active_participation db u id) eqn:Ha; [by do 2 constructor|].
    destruct (m.(created_by) =? u); [apply eff_frame, log_join_pm|].
    destruct (find_participant_Some _ _ _ _ _ Hp) as (Hk & Hpm & Hpu). cbn zeta.
    cbn [participant_write]. rewrite commit_single.
    destruct (apply_op now db _) as [db1|] eqn:Hc; [|by do 2 constructor].
    apply apply_update_participant in Hc as ->.
    match goal with
    | |- context [if ?b then (RWaiting, ?d1) else log_join ?d1 ?m ?i ?u ?r ?st ?n ?c] =>
        destruct (join_tail_pm b d1 m i u r st n c) as (H1 & H2 & H3)
    end.
    simpl in H1, H2, H3.
    eapply (eff_join_again _ _ _ _ m k p
      (refresh_participant p (requires_approval m) (participant_role db m id u) now)); eauto.
  - destruct (active_participation db u id) eqn:Ha; [by do 2 constructor|].
    destruct (m.(created_by) =? u); [apply eff_frame, log_join_pm|]. cbn zeta.
    unfold participant_write. rewrite join_participant_call_raises. by do 2 constructor.
Qed.

Lemma end_effect db u id now : effect db (end_meeting db u id now).2.
Proof.
  unfold end_meeting. destruct (db.(meetings) !! id) as [m|] eqn:Hm; [|by do 2 constructor].
  destruct (negb _); [by do 2 constructor|].
  destruct (commit_or_500_cases now db [UpdateMeeting id (set_ended_at m (Some now))]
    (RMessage MsgEnded)) as [(d & Hc & ->)|(_ & ->)]; [|by do 2 constructor].
  rewrite commit_single in Hc. simpl in Hc. case_ifs; simplify_eq. by eapply eff_end.
Qed.

Lemma delete_effect db u id now : effect db (delete_meeting db u id now).2.
Proof.
  unfold delete_meeting. destruct (db.(meetings) !! id) as [m|] eqn:Hm; [|by do 2 constructor].
  destruct (negb _); [by do 2 constructor|].
  destruct (commit_or_500_cases now db [DeleteMeeting id] (RMessage MsgDeleted))
    as [(d & Hc & ->)|(_ & ->)]; [|by do 2 constructor].
  rewrite commit_single in Hc. simpl in Hc. case_ifs; simplify_eq. by eapply eff_delete.
Qed.

Lemma handle_effect db u now req : effect db (handle db u now req).2.
Proof.
  destruct req; simpl.
  - apply join_effect.
  - unfold get_meeting. repeat case_match; by do 2 constructor.
  - unfold get_waiting_room. repeat case_match; by do 2 constructor.
  - apply decision_effect.
  - apply decision_effect.
  - destruct (create_meeting_cases clean parse_datetime db u now data) as [->|(? & _ & ->)];
      by do 2 constructor.
  - apply end_effect.
  - apply delete_effect.
  - unfold add_co_host. repeat case_match; try by do 2 constructor.
    apply commit_or_500_side. by repeat constructor.
  - unfold remove_co_host. repeat case_match; try by do 2 constructor.
    apply commit_or_500_side. by repeat constructor.
Qed.

End service.

(** ** Invariants *)

(** One participant row per (meeting, user): the code's [.first()]
    lookups rely on it, and no constraint of the schema enforces it. *)
Definition unique_rows (db : Db) : Prop :=
  ∀ k1 k2 p1 p2, db.(participants) !! k1 = Some p1 → db.(participants) !! k2 = Some p2 →
    p1.(p_meeting_id) = p2.(p_meeting_id) → p1.(p_user_id) = p2.(p_user_id) → k1 = k2.

(** The rows of a meeting with [left_at] null never exceed a non-zero
    [max_participants]. *)
Definition within_capacity (db : Db) : Prop :=
  ∀ id m n, db.(meetings) !! id = Some m → m.(max_participants) = Some n → n ≠ 0 →
    Z.of_nat (count_current db id) <= n.

(** A user has at most one row with [left_at] null in a live meeting. *)
Definition exclusive (db : Db) : Prop :=
  ∀ k1 k2 p1 p2, db.(participants) !! k1 = Some p1 → db.(participants) !! k2 = Some p2 →
    p1.(p_user_id) = p2.(p_user_id) → p1.(left_at) = None → p2.(left_at) = None →
    live db p1.(p_meeting_id) = true → live db p2.(p_meeting_id) = true → k1 = k2.

Definition fresh_rows (db : Db) : Prop := keys_below db.(participants) db.(next_participant_id).

Definition inv (db : Db) : Prop :=
  unique_rows db ∧ within_capacity db ∧ exclusive db ∧ fresh_rows db.

Lemma live_pm db db' x : db'.(meetings) = db.(meetings) → live db' x = live db x.
Proof. unfold live. by intros ->. Qed.

Lemma count_current_pm db db' id :
  db'.(participants) = db.(participants) → count_current db' id = count_current db id.
Proof. unfold count_current. by intros ->. Qed.

Lemma inv_pm_eq db db' : pm_eq db db' → inv db → inv db'.
Proof.
  intros (Hm & Hp & Hn) (Hu & Hc & He & Hf). unfold inv, unique_rows, within_capacity,
    exclusive, fresh_rows in *. rewrite Hp, Hn. split_and!.
  - done.
  - intros id m n. rewrite Hm, (count_current_pm db db' id Hp). apply Hc.
  - intros ????????. rewrite !(live_pm db db' _ Hm). eauto.
  - done.
Qed.

(** A row of the updated table is the new row at [k] or an old row. *)
Lemma lookup_insert_cases (m : gmap Z Participant) k p' k' q :
  <[k := p']> m !! k' = Some q → (k' = k ∧ q = p') ∨ (k' ≠ k ∧ m !! k' = Some q).
Proof. rewrite lookup_insert_Some. naive_solver. Qed.

(** Replacing the row at [k] by one with the same meeting, user and
    [left_at] changes no count of current rows. *)
Lemma count_current_replace (ps : gmap Z Participant) id k p p' :
  ps !! k = Some p → p'.(p_meeting_id) = p.(p_meeting_id) → p'.(left_at) = p.(left_at) →
  count_rows (is_current id) (<[k := p']> ps) = count_rows (is_current id) ps.
Proof.
  intros Hk Hm Hl. rewrite count_rows_insert, (count_rows_lookup _ ps k p Hk).
  case_bool_decide as H1; case_bool_decide as H2; try done; exfalso;
    unfold is_current in *; simpl in *;
    first [destruct H1; apply H2; split; congruence | destruct H2; apply H1; split; congruence].
Qed.

(** Writing one current row of meeting [id] adds at most one to its count
    and leaves the other meetings' counts. *)
Lemma count_current_write (ps : gmap Z Participant) id id' k p' :
  p'.(p_meeting_id) = id →
  (count_rows (is_current id') (<[k := p']> ps) <=
     count_rows (is_current id') ps + if bool_decide (id' = id) then 1 else 0)%nat.
Proof.
  intros Hm. rewrite count_rows_insert. pose proof (count_rows_delete_le (is_current id') ps k).
  case_bool_decide as H1; case_bool_decide as H2; try lia; exfalso;
    unfold is_current in *; simpl in *; naive_solver.
Qed.

Section preservation.
Context (db db' : Db) (Hinv : inv db).

Lemma inv_status k p p' :
  db.(participants) !! k = Some p →
  p'.(p_meeting_id) = p.(p_meeting_id) → p'.(p_user_id) = p.(p_user_id) →
  p'.(left_at) = p.(left_at) →
  db'.(meetings) = db.(meetings) → db'.(participants) = <[k := p']> db.(participants) →
  db'.(next_participant_id) = db.(next_participant_id) → inv db'.
Proof.
  destruct Hinv as (Hu & Hc & He & Hf). intros Hk Hm Hus Hl Hms Hps Hn.
  (* every row of [db'] projects to a row of [db] at the same key *)
  assert (Hold : ∀ k' q, db'.(participants) !! k' = Some q → ∃ q0,
            db.(participants) !! k' = Some q0 ∧ q.(p_meeting_id) = q0.(p_meeting_id) ∧
            q.(p_user_id) = q0.(p_user_id) ∧ q.(left_at) = q0.(left_at)).
  { intros k' q Hq. rewrite Hps in Hq.
    apply lookup_insert_cases in Hq as [[-> ->]|[_ Hq]]; eauto. }
  split_and!.
  - intros k1 k2 p1 p2 H1 H2 E1 E2.
    destruct (Hold _ _ H1) as (q1 & Q1 & ? & ? & ?), (Hold _ _ H2) as (q2 & Q2 & ? & ? & ?).
    eapply Hu; eauto; congruence.
  - intros id m n. rewrite Hms. unfold count_current. rewrite Hps.
    rewrite (count_current_replace _ _ _ _ _ Hk Hm Hl). apply Hc.
  - intros k1 k2 p1 p2 H1 H2 E1 E2 E3 L1 L2.
    rewrite (live_pm db db' _ Hms) in L1. rewrite (live_pm db db' _ Hms) in L2.
    destruct (Hold _ _ H1) as (q1 & Q1 & M1 & U1 & T1), (Hold _ _ H2) as (q2 & Q2 & M2 & U2 & T2).
    rewrite M1 in L1. rewrite M2 in L2. eapply He; eauto; congruence.
  - intros k' q Hq. rewrite Hn. destruct (Hold _ _ Hq) as (q0 & Q0 & _). eapply Hf; eauto.
Qed.

Lemma inv_join_again id u m k p p' :
  db.(meetings) !! id = Some m → m.(ended_at) = None →
  find_participant db id u = Some (k, p) →
  p'.(p_meeting_id) = id → p'.(p_user_id) = u → p'.(left_at) = None →
  active_participation db u id = false →
  max_reached m.(max_participants) (count_current db id) = false →
  db'.(meetings) = db.(meetings) → db'.(participants) = <[k := p']> db.(participants) →
  db'.(next_participant_id) = db.(next_participant_id) → inv db'.
Proof.
  destruct Hinv as (Hu & Hc & He & Hf).
  intros Hm Hend Hp Hpm Hpu Hpl Hact Hmax Hms Hps Hn.
  destruct (find_participant_Some _ _ _ _ _ Hp) as (Hk & Hkm & Hku).
  rewrite active_participation_false in Hact.
  assert (Hlive : live db id = true) by (apply live_true; eauto).
  split_and!.
  - intros k1 k2 p1 p2 H1 H2 E1 E2. rewrite Hps in H1, H2.
    apply lookup_insert_cases in H1 as [[-> ->]|[Hk1 H1]];
    apply lookup_insert_cases in H2 as [[-> ->]|[Hk2 H2]]; try done.
    + eapply Hu; [exact Hk|exact H2|congruence|congruence].
    + eapply Hu; [exact H1|exact Hk|congruence|congruence].
    + eauto.
  - intros id' m' n Hm' Hmx Hn0. rewrite Hms in Hm'. unfold count_current. rewrite Hps.
    pose proof (count_current_write (participants db) id id' k p' Hpm).
    specialize (Hc _ _ _ Hm' Hmx Hn0). unfold count_current in Hc.
    destruct (decide (id' = id)) as [->|Hne].
    + rewrite bool_decide_eq_true_2 in H by done. simplify_eq.
      apply max_reached_false with (n := n) in Hmax; [|done|done].
      unfold count_current in Hmax. lia.
    + rewrite bool_decide_eq_false_2 in H by done. lia.
  - intros k1 k2 p1 p2 H1 H2 E1 E2 E3 L1 L2.
    rewrite (live_pm db db' _ Hms) in L1. rewrite (live_pm db db' _ Hms) in L2.
    rewrite Hps in H1, H2.
    apply lookup_insert_cases in H1 as [[-> ->]|[Hk1 H1]];
    apply lookup_insert_cases in H2 as [[-> ->]|[Hk2 H2]]; try done.
    + destruct (decide (p2.(p_meeting_id) = id)) as [E|E].
      * eapply Hu; [exact Hk|exact H2|congruence|congruence].
      * pose proof (Hact _ _ H2 ltac:(congruence) E3 E). congruence.
    + destruct (decide (p1.(p_meeting_id) = id)) as [E|E].
      * eapply Hu; [exact H1|exact Hk|congruence|congruence].
      * pose proof (Hact _ _ H1 ltac:(congruence) E2 E). congruence.
    + eauto.
  - intros k' q Hq. rewrite Hn. rewrite Hps in Hq.
    apply lookup_insert_cases in Hq as [[-> _]|[_ Hq]]; eapply Hf; eauto.
Qed.

Lemma inv_end id m t :
  db.(meetings) !! id = Some m →
  db'.(meetings) = <[id := set_ended_at m (Some t)]> db.(meetings) →
  db'.(participants) = db.(participants) →
  db'.(next_participant_id) = db.(next_participant_id) → inv db'.
Proof.
  destruct Hinv as (Hu & Hc & He & Hf). intros Hm Hms Hps Hn.
  (* a meeting live after the update was live before *)
  assert (Hlive : ∀ x, live db' x = true → live db x = true).
  { intros x. rewrite !live_true, Hms. intros (m' & Hx & Hend).
    apply lookup_insert_Some in Hx as [[<- <-]|[_ Hx]]; [done|eauto]. }
  unfold inv, unique_rows, within_capacity, exclusive, fresh_rows in *.
  rewrite Hps, Hn. split_and!; [done| |eauto 10|done].
  intros id' m' n Hm'. rewrite (count_current_pm db db' id' Hps). rewrite Hms in Hm'.
  apply lookup_insert_Some in Hm' as [[<- <-]|[_ Hm']]; [|by apply Hc].
  simpl. by apply Hc.
Qed.

Lemma inv_delete id : db' = delete_meeting_rows db id → inv db'.
Proof.
  destruct Hinv as (Hu & Hc & He & Hf). intros ->.
  assert (Hrow : ∀ k q, (delete_meeting_rows db id).(participants) !! k = Some q →
            db.(participants) !! k = Some q ∧ q.(p_meeting_id) ≠ id).
  { intros k q. simpl. rewrite map_lookup_filter_Some. naive_solver. }
  assert (Hmt : ∀ x m', (delete_meeting_rows db id).(meetings) !! x = Some m' →
            x ≠ id ∧ ∃ m0, db.(meetings) !! x = Some m0 ∧
              m'.(max_participants) = m0.(max_participants) ∧ m'.(ended_at) = m0.(ended_at)).
  { intros x m'. simpl. rewrite lookup_fmap.
    destruct (decide (x = id)) as [->|Hx]; [by rewrite lookup_delete_eq|].
    rewrite lookup_delete_ne by congruence. intros Hm0. split; [done|].
    destruct (db.(meetings) !! x) as [m0|]; [|done].
    simpl in Hm0. simplify_eq. exists m0. case_bool_decide; done. }
  assert (Hlive : ∀ x, live (delete_meeting_rows db id) x = true → live db x = true).
  { intros x. rewrite !live_true. intros (m' & Hx & Hend).
    destruct (Hmt _ _ Hx) as (_ & m0 & ? & _ & ?). exists m0. split; congruence. }
  split_and!.
  - intros k1 k2 p1 p2 H1 H2. apply Hrow in H1 as [H1 _]. apply Hrow in H2 as [H2 _]. eauto.
  - intros x m' n Hx Hmx Hn0. destruct (Hmt _ _ Hx) as (_ & m0 & Hm0 & Hmx0 & _).
    specialize (Hc x m0 n Hm0 ltac:(congruence) Hn0).
    enough (count_current (delete_meeting_rows db id) x <= count_current db x)%nat by lia.
    apply map_subseteq_size, map_filter_subseteq_mono, map_filter_subseteq.
  - intros k1 k2 p1 p2 H1 H2 E1 E2 E3 L1 L2.
    apply Hrow in H1 as [H1 _]. apply Hrow in H2 as [H2 _]. eauto.
  - intros k q Hq. apply Hrow in Hq as [Hq _]. simpl. eauto.
Qed.

End preservation.

Lemma effect_inv db db' : effect db db' → inv db → inv db'.
Proof.
  intros [Hpm|k p p' ? ? ? ? ? ? ?
         |id u m k p p' ? ? ? ? ? ? ? ? ? ? ?|id m t ? ? ? ?|id ?] Hinv.
  - by eapply inv_pm_eq.
  - by eapply inv_status.
  - by eapply inv_join_again.
  - by eapply inv_end.
  - by eapply inv_delete.
Qed.

Lemma step_inv clean parse_datetime tz db db' :
  step clean parse_datetime tz db db' → inv db → inv db'.
Proof. intros [? u now req _]. apply effect_inv, handle_effect. Qed.

Lemma reachable_inv clean parse_datetime tz db0 db :
  inv db0 → reachable clean parse_datetime tz db0 db → inv db.
Proof. intros H0 Hr. induction Hr; eauto using step_inv. Qed.

(** ** Commits of a request *)

(** The states a handler goes through: zero, one or two commits. *)
Inductive commits : Db → Db → Prop :=
  | commits_refl db : commits db db
  | commits_step db now ops d db' : commit now db ops = Some d → commits d db' → commits db db'.

Lemma commit_or_500_commits now db ops ok : commits db (commit_or_500 now db ops ok).2.
Proof.
  destruct (commit_or_500_cases now db ops ok) as [(d & Hc & ->)|(_ & ->)];
    [econstructor; [exact Hc|constructor]|constructor].
Qed.

Lemma join_commits tz db u id now : commits db (join_meeting_tz tz db u id now).2.
Proof.
  unfold join_meeting_tz. repeat case_match; try apply commits_refl; try apply commit_or_500_commits.
  all: eapply commits_step; [eassumption|]; first [apply commits_refl | apply commit_or_500_commits].
Qed.

Lemma handle_commits clean parse_datetime tz db u now req :
  commits db (handle clean parse_datetime tz db u now req).2.
Proof.
  destruct req; simpl.
  - apply join_commits.
  - unfold get_meeting. repeat case_match; apply commits_refl.
  - unfold get_waiting_room. repeat case_match; apply commits_refl.
  - unfold approve_participant. repeat case_match; apply commits_refl || apply commit_or_500_commits.
  - unfold reject_participant. repeat case_match; apply commits_refl || apply commit_or_500_commits.
  - destruct (create_meeting_cases clean parse_datetime db u now data) as [->|(? & _ & ->)];
      apply commits_refl.
  - unfold end_meeting. repeat case_match; apply commits_refl || apply commit_or_500_commits.
  - unfold delete_meeting. repeat case_match; apply commits_refl || apply commit_or_500_commits.
  - unfold add_co_host. repeat case_match; apply commits_refl || apply commit_or_500_commits.
  - unfold remove_co_host. repeat case_match; apply commits_refl || apply commit_or_500_commits.
Qed.

(** The audit facts of [commit_audit], along any chain of commits. *)
Definition audit_grows (db db' : Db) : Prop :=
  db.(audit_logs) ⊆ db'.(audit_logs) ∧ db.(next_audit_id) <= db'.(next_audit_id) ∧
  keys_below db'.(audit_logs) db'.(next_audit_id) ∧
  ∀ k l, db'.(audit_logs) !! k = Some l → db.(audit_logs) !! k = None →
    db.(next_audit_id) <= k.

Lemma audit_grows_refl db : keys_below db.(audit_logs) db.(next_audit_id) → audit_grows db db.
Proof. intros Hk. split_and!; [done|lia|done|intros; congruence]. Qed.

Lemma audit_grows_trans db1 db2 db3 :
  audit_grows db1 db2 → audit_grows db2 db3 → audit_grows db1 db3.
Proof.
  intros (S1 & L1 & K1 & N1) (S2 & L2 & K2 & N2).
  split_and!; [by trans (audit_logs db2)|lia|done|].
  intros k l Hl Hnone. destruct (audit_logs db2 !! k) eqn:E2.
  - eapply N1; eauto.
  - specialize (N2 _ _ Hl E2). lia.
Qed.

Lemma commits_audit db db' :
  commits db db' → keys_below db.(audit_logs) db.(next_audit_id) → audit_grows db db'.
Proof.
  induction 1 as [db|db now ops d db' Hc _ IH]; intros Hk; [by apply audit_grows_refl|].
  pose proof (commit_audit _ _ _ _ Hk Hc) as Hg.
  eapply audit_grows_trans; [exact Hg|]. apply IH. apply Hg.
Qed.

(** ** [left_at] *)

(** No row of the result has a [left_at] that the same row did not have
    before. *)
Definition left_kept (db db' : Db) : Prop :=
  ∀ k p' t, db'.(participants) !! k = Some p' → p'.(left_at) = Some t →
    ∃ p, db.(participants) !! k = Some p ∧ p.(left_at) = Some t.

Lemma effect_left_kept db db' : effect db db' → left_kept db db'.
Proof.
  intros [(_ & Hp & _)|k p p' Hk _ _ Hl _ Hps _
         |id u m k p p' _ _ _ _ _ Hl _ _ _ Hps _|id m t _ _ Hps _|id ->];
    intros k' q t' Hq Hqt.
  - rewrite Hp in Hq. eauto.
  - rewrite Hps in Hq. apply lookup_insert_cases in Hq as [[-> ->]|[_ Hq]]; [|eauto].
    exists p. split; [done|congruence].
  - rewrite Hps in Hq. apply lookup_insert_cases in Hq as [[-> ->]|[_ Hq]]; [congruence|eauto].
  - rewrite Hps in Hq. eauto.
  - simpl in Hq. apply map_lookup_filter_Some in Hq as [Hq _]. eauto.
Qed.

(** ** Participant rows *)

(** Every row of [db'] is a row of [db], at the same key, of the same
    meeting and user. *)
Definition rows_kept (db db' : Db) : Prop :=
  ∀ k p', db'.(participants) !! k = Some p' →
    ∃ p, db.(participants) !! k = Some p ∧
      p'.(p_meeting_id) = p.(p_meeting_id) ∧ p'.(p_user_id) = p.(p_user_id).

Lemma rows_kept_refl db : rows_kept db db.
Proof. intros k p Hk. eauto. Qed.

Lemma rows_kept_trans db1 db2 db3 : rows_kept db1 db2 → rows_kept db2 db3 → rows_kept db1 db3.
Proof.
  intros H12 H23 k p3 H3. destruct (H23 _ _ H3) as (p2 & H2 & ? & ?).
  destruct (H12 _ _ H2) as (p1 & H1 & ? & ?). exists p1. split_and!; congruence.
Qed.

(** No handler adds a participant row: the first join raises before its
    row is added, and the others update rows in place or delete them. *)
Lemma effect_rows_kept db db' : effect db db' → rows_kept db db'.
Proof.
  intros [(_ & Hp & _)|k p p' Hk Hm Hu _ _ Hps _
         |id u m k p p' _ _ Hf Hm Hu _ _ _ _ Hps _|id m t _ _ Hps _|id ->];
    intros k' q Hq.
  - rewrite Hp in Hq. eauto.
  - rewrite Hps in Hq. apply lookup_insert_cases in Hq as [[-> ->]|[_ Hq]]; eauto.
  - destruct (find_participant_Some _ _ _ _ _ Hf) as (Hk & Hkm & Hku).
    rewrite Hps in Hq. apply lookup_insert_cases in Hq as [[-> ->]|[_ Hq]]; [|eauto].
    exists p. split_and!; congruence.
  - rewrite Hps in Hq. eauto.
  - simpl in Hq. apply map_lookup_filter_Some in Hq as [Hq _]. eauto.
Qed.

(** A database without participant rows satisfies the invariants. *)
Lemma inv_no_rows db :
  db.(participants) = ∅ →
  (∀ id m n, db.(meetings) !! id = Some m → m.(max_participants) = Some n → n ≠ 0 → 0 <= n) →
  inv db.
Proof.
  intros Hp Hmx. unfold inv, unique_rows, within_capacity, exclusive, fresh_rows, count_current.
  rewrite Hp. split_and!.
  - intros ????. by rewrite lookup_empty.
  - intros id m n Hm Hn Hn0. unfold count_rows. rewrite map_filter_empty, map_size_empty. simpl. eauto.
  - intros ????. by rewrite lookup_empty.
  - intros ??. by rewrite lookup_empty.
Qed.

(** ** The properties of the service *)

Section claims.
Variable clean : string → string.
Variable parse_datetime : string → option (Z * bool).
Variable tz : bool.

(** C1: capacity.  In every state reachable from one satisfying the
    invariants, the rows of a meeting with [left_at] null (pending ones
    included) never exceed a non-zero [max_participants], whatever
    requests the users send one after the other. *)
Theorem capacity_invariant db0 db :
  inv db0 → reachable clean parse_datetime tz db0 db → within_capacity db.
Proof. intros H0 Hr. apply (reachable_inv _ _ _ _ _ H0 Hr). Qed.

(** C2: exclusivity.  In every reachable state, a user has at most one
    row with [left_at] null in a meeting that has not ended. *)
Theorem exclusivity_invariant db0 db :
  inv db0 → reachable clean parse_datetime tz db0 db → exclusive db.
Proof. intros H0 Hr. apply (reachable_inv _ _ _ _ _ H0 Hr). Qed.

(** C3: in every reachable state there is at most one participant row
    per (meeting, user), although the schema has no unique constraint on
    it. *)
Theorem unique_rows_invariant db0 db :
  inv db0 → reachable clean parse_datetime tz db0 db → unique_rows db.
Proof. intros H0 Hr. apply (reachable_inv _ _ _ _ _ H0 Hr). Qed.

(** C7: no request creates a participant row.  The first join of a user
    raises before its row is written, and every other handler updates
    rows in place or deletes them: in every reachable state each row is
    a row of the initial state, at the same id, of the same meeting and
    user, so a user who holds no row of a meeting never gets one. *)
Theorem participant_rows_never_created db0 db :
  reachable clean parse_datetime tz db0 db →
  ∀ k p, db.(participants) !! k = Some p →
    ∃ p0, db0.(participants) !! k = Some p0 ∧
      p.(p_meeting_id) = p0.(p_meeting_id) ∧ p.(p_user_id) = p0.(p_user_id).
Proof.
  intros Hr. induction Hr as [|d1 d2 d3 [? u now req _] _ IH]; [apply rows_kept_refl|].
  eapply rows_kept_trans; [apply effect_rows_kept, handle_effect|exact IH].
Qed.

(** C4: no request ever sets [left_at]: there is no leave operation, so
    from a state where no row has left, no row ever leaves, and a row in
    a live meeting keeps its user out of every other meeting until the
    meeting ends. *)
Theorem left_at_never_set db0 db :
  (∀ k p, db0.(participants) !! k = Some p → p.(left_at) = None) →
  reachable clean parse_datetime tz db0 db →
  ∀ k p, db.(participants) !! k = Some p → p.(left_at) = None.
Proof.
  intros H0 Hr. induction Hr as [|d1 d2 d3 Hs _ IH]; [done|].
  apply IH. intros k p Hk. destruct (p.(left_at)) as [t|] eqn:Ht; [|done].
  destruct Hs as [d u now req _].
  destruct (effect_left_kept _ _ (handle_effect clean parse_datetime tz d u now req) k p t Hk Ht)
    as (q & Hq & Hqt).
  rewrite (H0 _ _ Hq) in Hqt. done.
Qed.

(** C5: the audit trail is append-only and ordered by id: along any run,
    no audit row is changed or removed, and every row added gets an id
    above every earlier one. *)
Theorem audit_append_only db0 db :
  keys_below db0.(audit_logs) db0.(next_audit_id) →
  reachable clean parse_datetime tz db0 db →
  db0.(audit_logs) ⊆ db.(audit_logs) ∧
  ∀ k l k0 l0, db.(audit_logs) !! k = Some l → db0.(audit_logs) !! k = None →
    db0.(audit_logs) !! k0 = Some l0 → k0 < k.
Proof.
  intros H0 Hr.
  assert (audit_grows db0 db) as (Hsub & _ & _ & Hnew).
  { induction Hr as [d|d1 d2 d3 Hs _ IH]; [by apply audit_grows_refl|].
    destruct Hs as [d u now req _].
    pose proof (commits_audit _ _ (handle_commits clean parse_datetime tz d u now req) H0) as Hg.
    eapply audit_grows_trans; [exact Hg|]. apply IH. apply Hg. }
  split; [done|]. intros k l k0 l0 Hk Hnone Hk0.
  specialize (Hnew _ _ Hk Hnone). specialize (H0 _ _ Hk0). lia.
Qed.

End claims.

(** ** Scenarios: two seats; user 2, who holds an approved row, joins
    again, then user 3 joins for the first time *)

Definition svc_meeting : Meeting :=
  mkMeeting "standup" (Some "daily sync") (600 secs) (3600 secs) 1 0 None Regular (Some 2) false false
    None None.

Definition svc_db0 : Db :=
  mkDb {[1; 2; 3]} {[1 := svc_meeting]}
    {[1 := mkParticipant 1 2 Approved Attendee (Some 0) None false 0]} ∅
    {[1 := mkAuditLog 1 1 Joined (DJoined Host HostStatus) 0]} 2 2 1 2.

Definition svc_after_2 : Db := (handle (λ s, s) ex_parse true svc_db0 2 (300 secs) (Join 1)).2.
Definition svc_after_3 : Db := (handle (λ s, s) ex_parse true svc_after_2 3 (301 secs) (Join 1)).2.

Lemma svc_one_row k p : svc_db0.(participants) !! k = Some p → k = 1.
Proof. simpl. by intros [? _]%lookup_singleton_Some. Qed.

Lemma svc_inv0 : inv svc_db0.
Proof.
  split_and!.
  - intros k1 k2 p1 p2 H1 H2 _ _. by rewrite (svc_one_row _ _ H1), (svc_one_row _ _ H2).
  - intros id m n Hm Hn _. simpl in Hm. apply lookup_singleton_Some in Hm as [<- <-].
    simpl in Hn. simplify_eq. by vm_compute.
  - intros k1 k2 p1 p2 H1 H2 _ _ _ _ _. by rewrite (svc_one_row _ _ H1), (svc_one_row _ _ H2).
  - intros k p Hk. rewrite (svc_one_row _ _ Hk). simpl. lia.
Qed.

Lemma svc_reachable : reachable (λ s, s) ex_parse true svc_db0 svc_after_3.
Proof.
  unfold reachable, svc_after_3, svc_after_2. eapply rtc_l.
  - apply (step_request _ _ _ _ 2 (300 secs) (Join 1)). simpl. set_solver.
  - apply rtc_once. apply step_request. vm_compute. set_solver.
Qed.

Lemma capacity_invariant_witness : within_capacity svc_after_3.
Proof. apply (capacity_invariant (λ s, s) ex_parse true svc_db0); [apply svc_inv0|apply svc_reachable]. Defined.

Lemma exclusivity_invariant_witness : exclusive svc_after_3.
Proof. apply (exclusivity_invariant (λ s, s) ex_parse true svc_db0); [apply svc_inv0|apply svc_reachable]. Defined.

Lemma unique_rows_invariant_witness : unique_rows svc_after_3.
Proof. apply (unique_rows_invariant (λ s, s) ex_parse true svc_db0); [apply svc_inv0|apply svc_reachable]. Defined.

Lemma svc_no_left k p : svc_db0.(participants) !! k = Some p → p.(left_at) = None.
Proof. simpl. by intros [_ <-]%lookup_singleton_Some. Qed.

Lemma left_at_never_set_witness :
  ∃ p, svc_after_3.(participants) !! 1 = Some p ∧ p.(left_at) = None.
Proof.
  eexists; split; [vm_compute; reflexivity|].
  apply (left_at_never_set (λ s, s) ex_parse true svc_db0 svc_after_3 svc_no_left svc_reachable 1).
  vm_compute. reflexivity.
Defined.

(** User 3 holds no row after its join; the row of user 2 is the one it
    held. *)
Lemma participant_rows_never_created_witness :
  svc_after_3.(participants) !! 2 = None ∧
  ∃ p p0, svc_after_3.(participants) !! 1 = Some p ∧ svc_db0.(participants) !! 1 = Some p0 ∧
    p.(p_meeting_id) = p0.(p_meeting_id) ∧ p.(p_user_id) = p0.(p_user_id).
Proof.
  split; [vm_compute; reflexivity|].
  destruct (participant_rows_never_created (λ s, s) ex_parse true svc_db0 svc_after_3 svc_reachable 1
    (mkParticipant 1 2 Approved Attendee (Some (300 secs)) None false 0))
    as (p0 & H0 & Hm & Hu); [vm_compute; reflexivity|].
  eexists _, p0. split; [vm_compute; reflexivity|]. auto.
Defined.

Lemma audit_append_only_witness :
  svc_db0.(audit_logs) ⊆ svc_after_3.(audit_logs) ∧
  ∃ l l0, svc_after_3.(audit_logs) !! 2 = Some l ∧ svc_db0.(audit_logs) !! 2 = None ∧
    svc_db0.(audit_logs) !! 1 = Some l0 ∧ 1 < 2.
Proof.
  destruct (audit_append_only (λ s, s) ex_parse true svc_db0 svc_after_3) as [Hsub Hord].
  - intros k l. simpl. rewrite lookup_singleton_Some. unfold svc_db0. simpl. lia.
  - apply svc_reachable.
  - split; [exact Hsub|]. do 2 eexists. split; [vm_compute; reflexivity|].
    split; [vm_compute; reflexivity|]. split; [vm_compute; reflexivity|].
    eapply Hord; vm_compute; reflexivity.
Defined.

End Service.
