(* ===== verification/Concurrency.v ===== *)
(** Concurrent joins.  [join_meeting_tz tz] (routes/meetings.py, lines
    188-305) runs its queries, then commits the participant row (line
    270) and, in a second transaction, the 'joined' audit row (line 290).
    Nothing locks the rows it read, and no constraint of the schema
    bounds the number of rows of a meeting or of a user, so requests
    served at the same time interleave at these boundaries.

    A join is cut into its phases: [join_reads] is the decision taken
    from the reads of lines 192-263, [advance] one commit.  A [Thread] is
    one request in progress; a schedule names the thread that moves
    next.  Reading all at once is one of the interleavings the real
    server allows (each query is its own statement), so every schedule
    of this model is a possible execution.

    The section takes the awareness [tz] of the loaded meeting times, as
    [join_meeting_tz] does.  With the program's naive times every join
    answers at its reads (line 206), so the races below, shown with
    comparable times, are latent in the code after that line. *)

From S2P Require Import Prelude Time Schema Session Admission Lifecycle Service.
Import Admission Service.

Module Concurrency.

(** ** The phases of a join *)

(** What remains of a join once its reads are done. *)
Inductive Phase :=
  | PDone (r : Resp)
  | PWrite (m : Meeting) (id u : Z) (r : Role) (op : Op) (rq : bool) (st : Status)
      (current : nat)
  | PAudit (m : Meeting) (id u : Z) (r : Role) (st : JoinStatus) (current : nat).

Section interleaving.
(** Whether the meeting times a join loads are aware ([Service]). *)
Variable tz : bool.

(** Lines 192-263: the guards, in order, on one snapshot [db], and the
    write they lead to. *)
Definition join_reads (db : Db) (u id now : Z) : Phase :=
  if id <=? 0 then PDone (RError ErrInvalidMeetingId) else
  match db.(meetings) !! id with
  | None => PDone (RError ErrMeetingNotFound)
  | Some m =>
    if bool_decide (is_Some m.(ended_at)) then PDone (RError ErrMeetingEnded) else
    match window_check tz m now with
    | None => PDone (RError ErrServer)
    | Some (Some e) => PDone (RError e)
    | Some None =>
      let current := count_current db id in
      if max_reached m.(max_participants) current then PDone (RError ErrMaxParticipants) else
      let participant := find_participant db id u in
      if (match participant with Some (_, p) => p.(is_banned) | None => false end)
      then PDone (RError ErrBanned) else
      if active_participation db u id then PDone (RError ErrInAnotherMeeting) else
      let r := participant_role db m id u in
      if m.(created_by) =? u then
        PAudit m id u r
          (match participant with Some (_, p) => StatusOf p.(status) | None => HostStatus end)
          current
      else
        let rq := m.(requires_approval) in
        match participant_write participant id u rq r now with
        | None => PDone (RError ErrServer)
        | Some (op, st) => PWrite m id u r op rq st current
        end
    end
  end.

(** One commit of a join on the current database: line 270 and the
    202 of lines 273-277, or the audit commit of lines 279-301. *)
Definition advance (db : Db) (now : Z) (ph : Phase) : Db * Phase :=
  match ph with
  | PDone r => (db, PDone r)
  | PWrite m id u r op rq st current =>
      match commit now db [op] with
      | None => (db, PDone (RError ErrServer))
      | Some db1 =>
          if rq && bool_decide (st = Pending) then (db1, PDone RWaiting)
          else (db1, PAudit m id u r (StatusOf st) current)
      end
  | PAudit m id u r st current =>
      let '(resp, db') := log_join db m id u r st now current in (db', PDone resp)
  end.

(** ** Threads and schedules *)

(** A join request in progress: not started ([t_phase = None]) or at a
    phase. *)
Record Thread := mkThread { t_user : Z; t_meeting : Z; t_now : Z; t_phase : option Phase }.

Definition thread_step (db : Db) (t : Thread) : Db * Thread :=
  match t.(t_phase) with
  | None => (db, mkThread t.(t_user) t.(t_meeting) t.(t_now)
                   (Some (join_reads db t.(t_user) t.(t_meeting) t.(t_now))))
  | Some ph =>
      let '(db', ph') := advance db t.(t_now) ph in
      (db', mkThread t.(t_user) t.(t_meeting) t.(t_now) (Some ph'))
  end.

(** The scheduler moves thread [i]; an index without a thread moves
    nothing. *)
Definition sched_step (s : Db * list Thread) (i : nat) : Db * list Thread :=
  match s.2 !! i with
  | Some t => let '(db', t') := thread_step s.1 t in (db', <[i := t']> s.2)
  | None => s
  end.

Definition run (s : Db * list Thread) (sched : list nat) : Db * list Thread :=
  foldl sched_step s sched.

(** The answer a thread has given, once done. *)
Definition answer (t : Thread) : option Resp :=
  match t.(t_phase) with Some (PDone r) => Some r | _ => None end.

(** The steps still ahead of a thread: its reads and two commits. *)
Definition rank (t : Thread) : nat :=
  match t.(t_phase) with
  | None => 3
  | Some (PWrite _ _ _ _ _ _ _ _) => 2
  | Some (PAudit _ _ _ _ _ _) => 1
  | Some (PDone _) => 0
  end.

(** The serial schedule: each thread runs to its end before the next
    starts. *)
Definition serial (n : nat) : list nat := mjoin ((λ i, [i; i; i]) <$> seq 0 n).

(** ** Schedules *)

Lemma run_app s l1 l2 : run s (l1 ++ l2) = run (run s l1) l2.
Proof. unfold run. by rewrite foldl_app. Qed.

Lemma run_cons s i l : run s (i :: l) = run (sched_step s i) l.
Proof. done. Qed.

Lemma sched_step_self db ts i t :
  ts !! i = Some t →
  sched_step (db, ts) i = ((thread_step db t).1, <[i := (thread_step db t).2]> ts).
Proof. intros Hi. unfold sched_step. simpl. rewrite Hi. by destruct (thread_step db t). Qed.

(** Moving one thread leaves every other thread where it was. *)
Lemma sched_step_other s i j t :
  s.2 !! i = Some t → i ≠ j → (sched_step s j).2 !! i = Some t.
Proof.
  intros Hi Hne. unfold sched_step. destruct (s.2 !! j) as [t'|]; [|done].
  destruct (thread_step s.1 t'). simpl. by rewrite list_lookup_insert_ne.
Qed.

Lemma sched_step_length s j : length (sched_step s j).2 = length s.2.
Proof.
  unfold sched_step. destruct (s.2 !! j); [|done].
  destruct (thread_step s.1 t). simpl. by rewrite length_insert.
Qed.

Lemma thread_step_fields db t :
  let t' := (thread_step db t).2 in
  t'.(t_user) = t.(t_user) ∧ t'.(t_meeting) = t.(t_meeting) ∧ t'.(t_now) = t.(t_now).
Proof.
  unfold thread_step. destruct (t_phase t); [|done]. by destruct (advance db (t_now t) p).
Qed.

(** Each move of a thread brings it one step nearer its end, and a
    thread at its end stays there. *)
Lemma rank_step db t : (rank (thread_step db t).2 <= pred (rank t))%nat.
Proof.
  unfold thread_step, advance, rank.
  repeat (case_match || (progress simplify_eq/=)); simpl in *; lia.
Qed.

Definition moves (i : nat) (sched : list nat) : nat := length (filter (λ j, j = i) sched).

Lemma run_rank s sched i t :
  s.2 !! i = Some t →
  ∃ t', (run s sched).2 !! i = Some t' ∧ (rank t' <= rank t - moves i sched)%nat.
Proof.
  revert s t. induction sched as [|j sched IH]; intros s t Hi.
  - exists t. split; [done|]. unfold moves. simpl. lia.
  - rewrite run_cons. unfold moves. rewrite filter_cons.
    destruct (decide (j = i)) as [->|Hne].
    + destruct s as [db ts]. simpl in Hi.
      destruct (IH (sched_step (db, ts) i) (thread_step db t).2) as (t' & Ht' & Hr).
      { rewrite (sched_step_self db ts i t Hi). simpl.
        apply list_lookup_insert_eq. by eapply lookup_lt_Some. }
      pose proof (rank_step db t). exists t'. split; [done|].
      simpl. fold (moves i sched). lia.
    + destruct (IH (sched_step s j) t) as (t' & Ht' & Hr); [by apply sched_step_other|].
      exists t'. split; [done|]. fold (moves i sched). lia.
Qed.

Lemma rank_0_answer t : rank t = 0%nat → ∃ r, answer t = Some r.
Proof. unfold rank, answer. destruct (t_phase t) as [[]|]; naive_solver. Qed.

(** ** A join alone is [join_meeting_tz tz] *)

(** The reads followed by the two commits, with nothing in between, are
    the handler of [Admission]. *)
Lemma join_in_phases db u id now :
  let '(db1, ph1) := advance db now (join_reads db u id now) in
  advance db1 now ph1 = ((join_meeting_tz tz db u id now).2, PDone (join_meeting_tz tz db u id now).1).
Proof.
  unfold join_reads, join_meeting_tz.
  repeat (case_match; simplify_eq/=; try done);
    unfold log_join, commit_or_500 in *; repeat (case_match; simplify_eq/=); done.
Qed.

Lemma thread_step_start db u id now :
  thread_step db (mkThread u id now None) = (db, mkThread u id now (Some (join_reads db u id now))).
Proof. reflexivity. Qed.

Lemma thread_step_phase db u id now ph :
  thread_step db (mkThread u id now (Some ph)) =
    ((advance db now ph).1, mkThread u id now (Some (advance db now ph).2)).
Proof. unfold thread_step. cbn [t_phase t_now t_user t_meeting]. by destruct (advance db now ph). Qed.

(** A thread moved three times in a row serves its request exactly as
    the atomic handler does. *)
Lemma run_alone db ts i u id now :
  ts !! i = Some (mkThread u id now None) →
  run (db, ts) [i; i; i] =
    ((join_meeting_tz tz db u id now).2,
     <[i := mkThread u id now (Some (PDone (join_meeting_tz tz db u id now).1))]> ts).
Proof.
  intros Hi. pose proof (join_in_phases db u id now) as Hph.
  assert (i < length ts)%nat as Hlt by (by eapply lookup_lt_Some).
  rewrite !run_cons, (sched_step_self _ _ _ _ Hi), thread_step_start. cbn [fst snd].
  rewrite (sched_step_self _ _ i _ (list_lookup_insert_eq _ _ _ Hlt)), thread_step_phase.
  cbn [fst snd]. revert Hph.
  destruct (advance db now (join_reads db u id now)) as [db1 ph1]. cbn [fst snd]. intros Hph.
  rewrite list_insert_insert_eq.
  rewrite (sched_step_self _ _ i _ (list_lookup_insert_eq _ _ _ Hlt)), thread_step_phase, Hph.
  cbn [fst snd]. rewrite list_insert_insert_eq. reflexivity.
Qed.

(** ** Serial schedules *)

(** The requests served one after another by the atomic handler. *)
Definition serial_db (db : Db) (ts : list Thread) : Db :=
  foldl (λ db t, (join_meeting_tz tz db t.(t_user) t.(t_meeting) t.(t_now)).2) db ts.

Definition unstarted (t : Thread) : Prop := t.(t_phase) = None.

Lemma serial_S n : serial (S n) = serial n ++ [n; n; n].
Proof. unfold serial. rewrite seq_S, fmap_app, join_app. simpl. by rewrite ?app_nil_r. Qed.

Lemma run_serial db ts n :
  Forall unstarted ts → (n <= length ts)%nat →
  (run (db, ts) (serial n)).1 = serial_db db (take n ts) ∧
  ∀ j, (n <= j)%nat → (run (db, ts) (serial n)).2 !! j = ts !! j.
Proof.
  intros Hts. induction n as [|n IH]; intros Hn; [done|].
  destruct (lookup_lt_is_Some_2 ts n) as [[u id now ph] Ht]; [lia|].
  assert (ph = None) as -> by (by eapply Forall_lookup_1 in Hts; [|exact Ht]).
  destruct IH as [Hdb Hrest]; [lia|].
  rewrite serial_S, run_app. destruct (run (db, ts) (serial n)) as [db' ts'] eqn:E.
  simpl in Hdb, Hrest. rewrite (run_alone db' ts' n u id now) by (rewrite Hrest; [exact Ht|lia]).
  split.
  - simpl. rewrite (take_S_r _ _ _ Ht). unfold serial_db. rewrite foldl_app. simpl.
    fold (serial_db db (take n ts)). by rewrite <-Hdb.
  - intros j Hj. simpl. rewrite list_lookup_insert_ne by lia. apply Hrest. lia.
Qed.

Lemma serial_db_inv db ts : inv db → inv (serial_db db ts).
Proof.
  revert db. induction ts as [|t ts IH]; intros db Hinv; [done|].
  simpl. apply IH. eapply effect_inv; [apply join_effect|done].
Qed.

(** ** Properties *)

Lemma run_serial_all db ts :
  Forall unstarted ts → (run (db, ts) (serial (length ts))).1 = serial_db db ts.
Proof.
  intros Hts. rewrite (proj1 (run_serial db ts (length ts) Hts (le_n _))).
  by rewrite take_ge.
Qed.

(** Run one after another, concurrent joins are the atomic handler
    applied in turn: the serial schedule leaves the database the
    sequence of [join_meeting_tz tz]s leaves. *)
Theorem serial_refines_atomic db ts :
  Forall unstarted ts →
  (run (db, ts) (serial (length ts))).1 = serial_db db ts.
Proof. apply run_serial_all. Qed.

(** The serial schedule keeps the service invariants: joins that
    do not overlap never overfill a meeting nor put a user in two live
    meetings. *)
Theorem serial_preserves_inv db ts :
  inv db → Forall unstarted ts → inv (run (db, ts) (serial (length ts))).1.
Proof. intros Hinv Hts. rewrite run_serial_all by done. by apply serial_db_inv. Qed.

(** Every join ends, whatever the other requests do meanwhile: a
    thread the scheduler moves three times has given its answer. *)
Theorem join_terminates s sched i t :
  s.2 !! i = Some t → (3 <= moves i sched)%nat →
  ∃ t' r, (run s sched).2 !! i = Some t' ∧ answer t' = Some r.
Proof.
  intros Hi Hm. destruct (run_rank s sched i t Hi) as (t' & Ht' & Hr).
  assert (rank t <= 3)%nat by (unfold rank; repeat case_match; lia).
  destruct (rank_0_answer t') as [r Hr']; [lia|]. eauto.
Qed.

End interleaving.

(** ** The race

    The races below are on comparable times ([tz = true]): they are what
    the check-then-write of lines 219-263 allows once line 206 stops
    raising.  In the program every join of a live meeting raises first
    ([Admission.join_meeting_never_admits]), so they are latent. *)

(** A row of user [u] in meeting [mid], approved, that has left.  No
    handler sets [left_at], so such rows come from outside the service;
    they are the only rows a join can bring back into a meeting, since a
    first join raises. *)
Definition left_row (mid u : Z) : Participant :=
  mkParticipant mid u Approved Attendee (Some 0) (Some 100) false 0.

Definition one_seat : Meeting :=
  mkMeeting "standup" (Some "daily sync") (600 secs) (3600 secs) 1 0 None Regular (Some 1) false false
    None None.

(** A meeting with one seat, and users 2 and 3, who both left it, joining
    it again at the same time. *)
Definition race_capacity : Db * list Thread :=
  (mkDb {[1; 2; 3]} {[1 := one_seat]} {[1 := left_row 1 2; 2 := left_row 1 3]} ∅ ∅ 2 3 1 1,
   [mkThread 2 1 (300 secs) None; mkThread 3 1 (300 secs) None]).

(** User 2, who left two live meetings, joining both again at the same
    time. *)
Definition race_exclusive : Db * list Thread :=
  (ex_db false None {[1 := left_row 1 2; 2 := left_row 5 2]},
   [mkThread 2 1 (300 secs) None; mkThread 2 5 (300 secs) None]).

(** The interleaving where both requests read before either commits. *)
Definition interleaved : list nat := [0; 1; 0; 1; 0; 1]%nat.

(** A state whose rows have all left, one per (meeting, user), satisfies
    the invariants when no meeting has a negative capacity. *)
Lemma inv_left_rows db :
  (∀ k p, db.(participants) !! k = Some p → is_Some p.(left_at)) →
  unique_rows db → fresh_rows db →
  (∀ id m n, db.(meetings) !! id = Some m → m.(max_participants) = Some n → 0 <= n) → inv db.
Proof.
  intros Hl Hu Hf Hmx.
  split_and!; [done| |intros k1 k2 p1 p2 H1 _ _ L1; destruct (Hl _ _ H1); congruence|done].
  intros id m n Hm Hn _. specialize (Hmx _ _ _ Hm Hn). unfold count_current, count_rows.
  rewrite map_empty_filter_2; [rewrite map_size_empty; lia|].
  intros k p Hk [_ Hp]. destruct (Hl _ _ Hk). simpl in Hp. congruence.
Qed.

(** Case analysis on a row of a two-row table. *)
Ltac row_cases H :=
  simpl in H; apply lookup_insert_Some in H as [[<- <-]|[_ H]];
  [|apply lookup_singleton_Some in H as [<- <-]].

Lemma race_capacity_inv : inv race_capacity.1.
Proof.
  apply inv_left_rows.
  - intros k p Hk. row_cases Hk; eexists; reflexivity.
  - intros k1 k2 p1 p2 H1 H2 _ E. row_cases H1; row_cases H2; simpl in E; congruence.
  - intros k p Hk. row_cases Hk; simpl; lia.
  - intros id m n Hm Hn. simpl in Hm. rewrite ?lookup_insert_Some, lookup_singleton_Some in Hm.
    destruct_or?; destruct_and?; simplify_eq/=; lia.
Qed.

Lemma race_exclusive_inv : inv race_exclusive.1.
Proof.
  apply inv_left_rows.
  - intros k p Hk. row_cases Hk; eexists; reflexivity.
  - intros k1 k2 p1 p2 H1 H2 E _. row_cases H1; row_cases H2; simpl in E; congruence.
  - intros k p Hk. row_cases Hk; simpl; lia.
  - intros id m n Hm Hn. simpl in Hm. rewrite ?lookup_insert_Some, lookup_singleton_Some in Hm.
    destruct_or?; destruct_and?; simplify_eq/=; lia.
Qed.

(** Capacity is not enforced under concurrency.  From a state
    satisfying the invariants, two users who left a one-seat meeting
    join it again, both reading before either commits: both are
    admitted, and the meeting holds two current rows. *)
Theorem race_breaks_capacity :
  inv race_capacity.1 ∧
  answer <$> (run true race_capacity interleaved).2 =
    [Some (RJoined Attendee false 0 55); Some (RJoined Attendee false 0 55)] ∧
  ¬ within_capacity (run true race_capacity interleaved).1.
Proof.
  split_and!; [apply race_capacity_inv|vm_compute; reflexivity|].
  intros Hcap. specialize (Hcap 1 one_seat 1 ltac:(vm_compute; reflexivity)
                             ltac:(reflexivity) ltac:(lia)).
  assert (count_current (run true race_capacity interleaved).1 1 = 2%nat) as Hc
    by (vm_compute; reflexivity).
  rewrite Hc in Hcap. lia.
Qed.

(** The one-active-meeting rule is not enforced under concurrency:
    one user joining again two live meetings they left, at the same
    time, is admitted to both. *)
Theorem race_breaks_exclusivity :
  inv race_exclusive.1 ∧
  answer <$> (run true race_exclusive interleaved).2 =
    [Some (RJoined Attendee false 0 55); Some (RJoined Attendee false 0 55)] ∧
  ¬ exclusive (run true race_exclusive interleaved).1.
Proof.
  split_and!; [apply race_exclusive_inv|vm_compute; reflexivity|].
  intros Hex. assert (1 = 2) by
    (eapply (Hex 1 2); vm_compute; reflexivity).
  lia.
Qed.

(** ** Scenario *)

Lemma serial_refines_atomic_witness :
  Forall unstarted race_capacity.2 ∧
  (run true race_capacity (serial 2)).1 = serial_db true race_capacity.1 race_capacity.2.
Proof.
  split; [repeat constructor|].
  apply (serial_refines_atomic true race_capacity.1 race_capacity.2). repeat constructor.
Defined.

Lemma serial_preserves_inv_witness : inv (run true race_capacity (serial 2)).1.
Proof.
  apply (serial_preserves_inv true race_capacity.1 race_capacity.2);
    [apply race_capacity_inv|repeat constructor].
Defined.

Lemma join_terminates_witness :
  ∃ t' r, (run true race_capacity interleaved).2 !! 1%nat = Some t' ∧ answer t' = Some r.
Proof. apply (join_terminates true race_capacity interleaved 1 (mkThread 3 1 (300 secs) None)); done. Defined.

End Concurrency.
