(* ===== verification/Progress.v ===== *)
(** Progress of the service: what can always still happen.  The step
    relation of [Service] lets any existing user send any request; the
    theorems here build the requests that reach a goal from any state
    (the moderator's decisions), so that no state of the service is
    stuck with a waiting room that cannot be emptied. *)

From S2P Require Import Prelude Time Python Schema Session Admission Lifecycle Service.
Import Admission Service.

Module Progress.

(** Rows of meeting [id] in its waiting room. *)
Definition waiting_count (db : Db) (id : Z) : nat :=
  count_rows (is_waiting id) db.(participants).

(** ** Lemmas *)

(** A non-zero count has a row to show for it. *)
Lemma count_rows_pos {A} (P : Z * A → Prop) `{∀ x, Decision (P x)} (m : gmap Z A) :
  count_rows P m ≠ 0%nat → ∃ k v, m !! k = Some v ∧ P (k, v).
Proof.
  intros Hc. apply (exists_row_true P). destruct (exists_row P m) eqn:E; [done|].
  exfalso. apply Hc. rewrite exists_row_false in E. unfold count_rows.
  apply map_size_empty_iff, map_empty_filter_2. intros k v Hk HP. by eapply E.
Qed.

(** The creator can reject any waiting row of a meeting: the commit
    declines it and touches neither the meetings nor the users. *)
Lemma creator_rejects db id m pid p now :
  db.(meetings) !! id = Some m → m.(created_by) ∈ db.(users) →
  db.(participants) !! pid = Some p → is_waiting id (pid, p) →
  ∃ db', reject_participant db m.(created_by) id pid now = (RMessage MsgRejected, db') ∧
    db'.(meetings) = db.(meetings) ∧ db'.(users) = db.(users) ∧
    db'.(participants) = <[pid := declined_row p]> db.(participants).
Proof.
  intros Hm Hu Hp [Hid Hst]. simpl in Hid, Hst.
  assert (decision_target db m.(created_by) id pid = inr (m, p)) as Ht.
  { unfold decision_target, can_moderate. rewrite Hm, Z.eqb_refl, Hp, Hid, Z.eqb_refl. simpl.
    by rewrite bool_decide_eq_true_2. }
  unfold reject_participant. rewrite Ht. run_join_commits. eauto.
Qed.

Section drain.
Variable clean : string → string.
Variable parse_datetime : string → option (Z * bool).
Variable tz : bool.

(** C12: the waiting room can always be emptied.  From any state in
    which a meeting exists and its creator is a user, a sequence of
    requests of the service (the creator's rejections, one per waiting
    row) reaches a state where the meeting has no waiting row, with the
    meetings as they were. *)
Theorem waiting_room_drains db id m :
  db.(meetings) !! id = Some m → m.(created_by) ∈ db.(users) →
  ∃ db', reachable clean parse_datetime tz db db' ∧ waiting_count db' id = 0%nat ∧
    db'.(meetings) = db.(meetings).
Proof.
  remember (waiting_count db id) as n eqn:En. revert db En.
  induction n as [|n IH]; intros db En Hm Hu; [exists db; split_and!; [constructor|by rewrite <-En|done]|].
  destruct (count_rows_pos (is_waiting id) db.(participants)) as (pid & p & Hp & Hw);
    [unfold waiting_count in En; lia|].
  destruct (creator_rejects db id m pid p 0 Hm Hu Hp Hw) as (db1 & Hr & Hm1 & Hu1 & Hp1).
  destruct (IH db1) as (db' & Hreach & H0 & Hmeet).
  - unfold waiting_count in *. rewrite Hp1, count_rows_insert.
    rewrite (count_rows_lookup _ _ _ _ Hp), bool_decide_eq_true_2 in En by done.
    rewrite bool_decide_eq_false_2 by (unfold is_waiting; simpl; naive_solver). lia.
  - by rewrite Hm1.
  - by rewrite Hu1.
  - exists db'. split_and!; [|done|congruence].
    eapply rtc_l; [|exact Hreach].
    replace db1 with (handle clean parse_datetime tz db m.(created_by) 0 (Reject id pid)).2
      by (simpl; by rewrite Hr).
    by constructor.
Qed.

End drain.

(** The waiting room of [ex_two_queued] (one pending row in a full
    meeting) can be emptied. *)
Lemma waiting_room_drains_witness :
  ex_two_queued.(meetings) !! 1 = Some (ex_meeting true (Some 1)) ∧
  (ex_meeting true (Some 1)).(created_by) ∈ ex_two_queued.(users) ∧
  ∃ db', reachable (λ s, s) (λ _, None) meeting_times_aware ex_two_queued db' ∧ waiting_count db' 1 = 0%nat ∧
    db'.(meetings) = ex_two_queued.(meetings).
Proof.
  split_and!; [vm_compute; reflexivity|vm_compute; set_solver|].
  apply (waiting_room_drains (λ s, s) (λ _, None) meeting_times_aware ex_two_queued 1 (ex_meeting true (Some 1)));
    [vm_compute; reflexivity|vm_compute; set_solver].
Defined.

End Progress.
