(* ===== verification/Routing.v ===== *)
(** URL routing of the application: the rules the route decorators of
    routes/auth.py and routes/meetings.py declare, mounted under the
    [url_prefix]es of src/__init__.py (lines 87-88) next to the health
    checks (lines 61-81), and Werkzeug's matching of a request against
    them: [<int:id>] takes a non-empty run of decimal digits, a path
    that matches no rule is the 404 of lines 96-98, a path that matches
    only with another method is a 405, [OPTIONS] is answered by Flask
    itself and [HEAD] runs the [GET] view.  A path with an empty segment
    (a doubled or trailing slash) matches no rule here; Werkzeug answers
    a doubled slash with a redirect to the merged path, which is not
    modelled.

    [to_request] turns a matched meeting route into the request of
    [Service] it serves, so that a path and a body are composed with
    the handlers. *)

From Stdlib Require Import Ascii.
From S2P Require Import Prelude Python Schema Session Admission Lifecycle Service.
Import Service.

Module Routing.

Inductive Method := GET | POST | PUT | DELETE | PATCH | HEAD | OPTIONS.

#[export] Instance Method_eq_dec : EqDecision Method.
Proof. solve_decision. Defined.

(** A segment of a rule: a literal, or an [<int:...>] converter. *)
Inductive Seg := Lit (s : string) | IntArg.

(** The view functions. *)
Inductive Endpoint :=
  | EHealth | EHealthDb | EHealthRedis
  | ERegister | ELogin | EVerifyToken
  | ECreate | EJoin | EList | EGetMeeting | EDeleteMeeting | EEnd
  | EAddCoHost | ERemoveCoHost | EWaitingRoom | EApprove | EReject.

#[export] Instance Endpoint_eq_dec : EqDecision Endpoint.
Proof. solve_decision. Defined.

Record Rule := mkRule { rule_segs : list Seg; rule_methods : list Method; rule_endpoint : Endpoint }.

(** The decorators of routes/auth.py (lines 52, 132, 187). *)
Definition auth_rules : list Rule :=
  [mkRule [Lit "register"] [POST] ERegister;
   mkRule [Lit "login"] [POST] ELogin;
   mkRule [Lit "verify-token"] [POST] EVerifyToken].

(** The decorators of routes/meetings.py (lines 43-590). *)
Definition meetings_rules : list Rule :=
  [mkRule [Lit "create"] [POST] ECreate;
   mkRule [Lit "join"; IntArg] [GET] EJoin;
   mkRule [Lit "list"] [GET] EList;
   mkRule [IntArg] [GET] EGetMeeting;
   mkRule [IntArg] [DELETE] EDeleteMeeting;
   mkRule [IntArg; Lit "end"] [POST] EEnd;
   mkRule [IntArg; Lit "co-hosts"] [POST] EAddCoHost;
   mkRule [IntArg; Lit "co-hosts"; IntArg] [DELETE] ERemoveCoHost;
   mkRule [IntArg; Lit "waiting-room"] [GET] EWaitingRoom;
   mkRule [IntArg; Lit "participants"; IntArg; Lit "approve"] [POST] EApprove;
   mkRule [IntArg; Lit "participants"; IntArg; Lit "reject"] [POST] EReject].

(** [app.register_blueprint(bp, url_prefix=...)]. *)
Definition prefixed (prefix : list string) (rs : list Rule) : list Rule :=
  (λ r, mkRule ((Lit <$> prefix) ++ r.(rule_segs)) r.(rule_methods) r.(rule_endpoint)) <$> rs.

(** The application's URL map (lines 61-88). *)
Definition url_map : list Rule :=
  [mkRule [Lit "health"] [GET] EHealth;
   mkRule [Lit "health"; Lit "db"] [GET] EHealthDb;
   mkRule [Lit "health"; Lit "redis"] [GET] EHealthRedis] ++
  prefixed ["api"; "auth"] auth_rules ++ prefixed ["api"; "meetings"] meetings_rules.

(** ** The views of src/__init__.py *)

(** [health_check] (lines 61-63). *)
Definition health_check : list (string * JVal) * Z := ([("status", JStr "healthy")], 200).

(** [db_health_check] and [redis_health_check] (lines 65-81): the probe
    ([db.session.execute('SELECT 1')], [redis_client.ping()]) is an
    input, [None] when it succeeds and the exception's message when it
    raises. *)
Definition db_health_check (probe : option string) : list (string * JVal) * Z :=
  match probe with
  | None => ([("status", JStr "healthy"); ("message", JStr "Database connection successful")], 200)
  | Some msg => ([("status", JStr "unhealthy"); ("message", JStr msg)], 500)
  end.

Definition redis_health_check (probe : option string) : list (string * JVal) * Z :=
  match probe with
  | None => ([("status", JStr "healthy"); ("message", JStr "Redis connection successful")], 200)
  | Some msg => ([("status", JStr "unhealthy"); ("message", JStr msg)], 500)
  end.

(** The error handlers (lines 91-98). *)
Definition internal_error : list (string * JVal) * Z := ([("error", JStr "Internal Server Error")], 500).
Definition not_found_error : list (string * JVal) * Z := ([("error", JStr "Not Found")], 404).

(** ** Matching *)

(** The integer converter: [\d+], then [int(value)]. *)
Definition parse_int (s : string) : option Z :=
  let l := String.list_ascii_of_string s in
  if bool_decide (l ≠ []) && forallb is_digit_char l then Some (digits_value 0 l) else None.

Fixpoint match_segs (ps : list Seg) (ss : list string) : option (list Z) :=
  match ps, ss with
  | [], [] => Some []
  | Lit l :: ps', s :: ss' => if String.eqb l s then match_segs ps' ss' else None
  | IntArg :: ps', s :: ss' =>
      n ← parse_int s; args ← match_segs ps' ss'; Some (n :: args)
  | _, _ => None
  end.

(** The segments of a path: what follows the leading slash, cut at
    every slash ([None] for a path without the leading slash). *)
Fixpoint split_slash (acc : string) (s : string) : list string :=
  match s with
  | EmptyString => [acc]
  | String c s' =>
      if Ascii.eqb c "/"%char then acc :: split_slash EmptyString s'
      else split_slash (acc +:+ String c EmptyString) s'
  end.

Definition segments (path : string) : option (list string) :=
  match path with
  | String c s => if Ascii.eqb c "/"%char then Some (split_slash EmptyString s) else None
  | EmptyString => None
  end.

(** A method a rule answers: its own, and [HEAD] for [GET]. *)
Definition allows (r : Rule) (m : Method) : bool :=
  bool_decide (m ∈ r.(rule_methods)) ||
  (bool_decide (m = HEAD) && bool_decide (GET ∈ r.(rule_methods))).

Inductive Routed :=
  | RFound (e : Endpoint) (args : list Z)
  | ROptions
  | RNotFound
  | RMethodNotAllowed.

Definition route (m : Method) (path : string) : Routed :=
  match segments path with
  | None => RNotFound
  | Some ss =>
      let hits := omap (λ r, (λ args, (r, args)) <$> match_segs r.(rule_segs) ss) url_map in
      match hits with
      | [] => RNotFound
      | _ =>
          if bool_decide (m = OPTIONS) then ROptions else
          match list_find (λ h, allows h.1 m = true) hits with
          | Some (_, (r, args)) => RFound r.(rule_endpoint) args
          | None => RMethodNotAllowed
          end
      end
  end.

(** ** From a matched route to the service *)

(** The meeting view a matched route calls, with its path arguments and
    the JSON body ([request.get_json()]): the request of [Service] it
    serves.  [list_meetings] ([Listing]), the routes of [Auth] and the
    health checks are served elsewhere ([None]). *)
Definition to_request (e : Endpoint) (args : list Z) (body : option JVal) :
    option Request :=
  match e, args with
  | ECreate, [] => Some (Create body)
  | EJoin, [id] => Some (Join id)
  | EGetMeeting, [id] => Some (GetMeeting id)
  | EDeleteMeeting, [id] => Some (Delete id)
  | EEnd, [id] => Some (End id)
  | EAddCoHost, [id] => Some (AddCoHost id body)
  | ERemoveCoHost, [id; c] => Some (RemoveCoHost id c)
  | EWaitingRoom, [id] => Some (WaitingRoom id)
  | EApprove, [id; pid] => Some (Approve id pid)
  | EReject, [id; pid] => Some (Reject id pid)
  | _, _ => None
  end.

(** ** Printing a request as a URL *)

(** The decimal digits of [n >= 0], most significant first, given
    enough fuel ([n < 10 ^ fuel]). *)
Fixpoint digits_of (fuel : nat) (n : Z) : list Ascii.ascii :=
  match fuel with
  | O => []
  | S f => (if n <? 10 then [] else digits_of f (n / 10)) ++ [digit_char (n mod 10)]
  end.

Definition show_int (n : Z) : string :=
  String.string_of_list_ascii (digits_of (S (Z.to_nat n)) n).

Definition path_string (ss : list string) : string :=
  foldr (λ s acc, "/" +:+ s +:+ acc) "" ss.

(** A segment of a request URL: a literal or a printed number. *)
Inductive Tok := TLit (s : string) | TNum (n : Z).

Definition render (t : Tok) : string := match t with TLit s => s | TNum n => show_int n end.

(** The method and URL a client uses for a request of [Service]. *)
Definition request_url (req : Request) : Method * list Tok :=
  match req with
  | Join id => (GET, [TLit "api"; TLit "meetings"; TLit "join"; TNum id])
  | GetMeeting id => (GET, [TLit "api"; TLit "meetings"; TNum id])
  | WaitingRoom id => (GET, [TLit "api"; TLit "meetings"; TNum id; TLit "waiting-room"])
  | Approve id pid =>
      (POST, [TLit "api"; TLit "meetings"; TNum id; TLit "participants"; TNum pid; TLit "approve"])
  | Reject id pid =>
      (POST, [TLit "api"; TLit "meetings"; TNum id; TLit "participants"; TNum pid; TLit "reject"])
  | Create _ => (POST, [TLit "api"; TLit "meetings"; TLit "create"])
  | End id => (POST, [TLit "api"; TLit "meetings"; TNum id; TLit "end"])
  | Delete id => (DELETE, [TLit "api"; TLit "meetings"; TNum id])
  | AddCoHost id _ => (POST, [TLit "api"; TLit "meetings"; TNum id; TLit "co-hosts"])
  | RemoveCoHost id c => (DELETE, [TLit "api"; TLit "meetings"; TNum id; TLit "co-hosts"; TNum c])
  end.

(** The body a client sends with it. *)
Definition request_body (req : Request) : option JVal :=
  match req with
  | Create data | AddCoHost _ data => data
  | _ => None
  end.

(** The path arguments of a request. *)
Definition request_ids (req : Request) : list Z :=
  match req with
  | Join id | GetMeeting id | WaitingRoom id | End id | Delete id | AddCoHost id _ => [id]
  | Approve id pid | Reject id pid => [id; pid]
  | RemoveCoHost id c => [id; c]
  | Create _ => []
  end.

(** ** Lemmas *)

Definition slash_free (s : string) : bool :=
  forallb (λ c, negb (Ascii.eqb c "/"%char)) (String.list_ascii_of_string s).

Lemma split_slash_app acc s t :
  slash_free s = true → split_slash acc (s +:+ t) = split_slash (acc +:+ s) t.
Proof.
  revert acc. induction s as [|c s IH]; intros acc Hs.
  - by rewrite string_app_empty, string_app_nil_r.
  - rewrite string_app_cons. simpl. simpl in Hs.
    apply andb_true_iff in Hs as [Hc Hs]. apply negb_true_iff in Hc. rewrite Hc.
    rewrite IH by done. by rewrite string_app_assoc.
Qed.

Lemma split_slash_path acc ss :
  forallb slash_free ss = true → split_slash acc (path_string ss) = acc :: ss.
Proof.
  revert acc. induction ss as [|s ss IH]; intros acc Hss; [done|].
  simpl in Hss. apply andb_true_iff in Hss as [Hs Hss]. simpl.
  rewrite string_app_empty, split_slash_app, string_app_empty by done. by rewrite IH.
Qed.

(** The path of segments splits back into them. *)
Lemma segments_path s ss :
  forallb slash_free (s :: ss) = true → segments (path_string (s :: ss)) = Some (s :: ss).
Proof.
  intros Hss. simpl in Hss. apply andb_true_iff in Hss as [Hs Hss]. simpl.
  rewrite string_app_empty, split_slash_app, string_app_empty by done.
  by rewrite split_slash_path.
Qed.

Lemma digits_of_spec fuel n :
  0 <= n < 10 ^ Z.of_nat fuel →
  digits_value 0 (digits_of fuel n) = n ∧ forallb is_digit_char (digits_of fuel n) = true.
Proof.
  revert n. induction fuel as [|f IH]; intros n Hn; cbn [digits_of].
  - rewrite Z.pow_0_r in Hn. split; [simpl; lia|done].
  - rewrite Nat2Z.inj_succ, Z.pow_succ_r in Hn by lia.
    destruct (digit_char_spec (n mod 10) ltac:(apply Z.mod_pos_bound; lia)) as [Hv Hd].
    rewrite digits_value_snoc, forallb_app. cbn [forallb]. rewrite Hv, Hd, andb_true_r.
    destruct (n <? 10) eqn:E; zbool; cbn [digits_value forallb].
    + split; [|done]. rewrite Z.mod_small by lia. lia.
    + destruct (IH (n / 10)) as [IHv IHd].
      { split; [apply Z.div_pos; lia|]. apply Z.div_lt_upper_bound; lia. }
      rewrite IHv, IHd. split; [|done]. pose proof (Z.div_mod n 10). lia.
Qed.

(** A non-negative number prints to a run of digits that parses back. *)
Lemma parse_show_int n : 0 <= n → parse_int (show_int n) = Some n ∧ slash_free (show_int n) = true.
Proof.
  intros Hn. unfold parse_int, slash_free, show_int. rewrite list_ascii_of_string_of_list.
  destruct (digits_of_spec (S (Z.to_nat n)) n) as [Hv Hd].
  { split; [done|]. rewrite Nat2Z.inj_succ, Z2Nat.id by done.
    eapply Z.lt_le_trans; [apply (Z.pow_gt_lin_r 10 n); lia|]. apply Z.pow_le_mono_r; lia. }
  assert (digits_of (S (Z.to_nat n)) n ≠ []) as Hne.
  { cbn [digits_of]. intros H. by apply app_eq_nil in H as [_ ?]. }
  rewrite Hv, Hd, (bool_decide_eq_true_2 _ Hne). split; [done|].
  apply forallb_forall. intros c Hc. pose proof (proj1 (forallb_forall _ _) Hd c Hc) as Hc'.
  unfold is_digit_char in Hc'. apply andb_true_iff in Hc' as [H1 H2]. apply Nat.leb_le in H1.
  apply negb_true_iff. destruct (Ascii.eqb c "/"%char) eqn:E; [|done].
  apply Ascii.eqb_eq in E. subst c. vm_compute in H1. lia.
Qed.

(** Matching a rule against the tokens of a URL: the numbers are not
    looked at, only passed on. *)
Fixpoint match_toks (ps : list Seg) (ts : list Tok) : option (list Z) :=
  match ps, ts with
  | [], [] => Some []
  | Lit l :: ps', TLit s :: ts' => if String.eqb l s then match_toks ps' ts' else None
  | IntArg :: ps', TLit s :: ts' => n ← parse_int s; args ← match_toks ps' ts'; Some (n :: args)
  | IntArg :: ps', TNum n :: ts' => args ← match_toks ps' ts'; Some (n :: args)
  | _, _ => None
  end.

Definition route_toks (m : Method) (ts : list Tok) : Routed :=
  let hits := omap (λ r, (λ args, (r, args)) <$> match_toks r.(rule_segs) ts) url_map in
  match hits with
  | [] => RNotFound
  | _ =>
      if bool_decide (m = OPTIONS) then ROptions else
      match list_find (λ h, allows h.1 m = true) hits with
      | Some (_, (r, args)) => RFound r.(rule_endpoint) args
      | None => RMethodNotAllowed
      end
  end.

(** A literal of a rule is not a number. *)
Definition lit_ok (p : Seg) : bool :=
  match p with Lit l => bool_decide (parse_int l = None) | IntArg => true end.

Definition tok_ok (t : Tok) : bool :=
  match t with TLit s => slash_free s | TNum n => bool_decide (0 <= n) end.

Lemma match_segs_toks ps ts :
  forallb lit_ok ps = true → forallb tok_ok ts = true →
  match_segs ps (render <$> ts) = match_toks ps ts.
Proof.
  revert ts. induction ps as [|p ps IH]; intros ts Hps Hts; destruct ts as [|t ts]; try done.
  simpl in Hps, Hts. apply andb_true_iff in Hps as [Hp Hps]. apply andb_true_iff in Hts as [Ht Hts].
  destruct p as [l|], t as [s'|n]; simpl.
  - by rewrite IH.
  - apply bool_decide_eq_true in Hp, Ht. destruct (parse_show_int n Ht) as [Hn _].
    destruct (String.eqb l (show_int n)) eqn:E; [|done].
    apply String.eqb_eq in E. congruence.
  - destruct (parse_int s'); simpl; [by rewrite IH|done].
  - apply bool_decide_eq_true in Ht. rewrite (proj1 (parse_show_int n Ht)). simpl. by rewrite IH.
Qed.

Lemma url_map_lits : Forall (λ r, forallb lit_ok r.(rule_segs) = true) url_map.
Proof. repeat constructor. Qed.

Lemma render_slash_free ts : forallb tok_ok ts = true → forallb slash_free (render <$> ts) = true.
Proof.
  induction ts as [|[s|n] ts IH]; simpl; [done| |]; intros H; apply andb_true_iff in H as [H1 H2];
    apply andb_true_iff; split; auto.
  apply bool_decide_eq_true in H1. apply (parse_show_int n H1).
Qed.

(** Routing a printed URL is routing its tokens. *)
Lemma route_render m t ts :
  forallb tok_ok (t :: ts) = true → route m (path_string (render <$> t :: ts)) = route_toks m (t :: ts).
Proof.
  intros Hts. unfold route, route_toks.
  rewrite fmap_cons, segments_path by (rewrite <-fmap_cons; by apply render_slash_free).
  rewrite <-fmap_cons. cbv zeta.
  assert (omap (λ r, (λ args, (r, args)) <$> match_segs r.(rule_segs) (render <$> t :: ts)) url_map =
          omap (λ r, (λ args, (r, args)) <$> match_toks r.(rule_segs) (t :: ts)) url_map) as ->.
  { apply list_omap_ext, Forall_Forall2_diag. eapply Forall_impl; [apply url_map_lits|].
    intros r Hr. cbv beta. by rewrite match_segs_toks. }
  done.
Qed.

(** C21: every request of the service has a URL.  The method and path a
    client sends for a request of [Service] (its ids, non-negative,
    printed in decimal) are routed by the application's URL map to the
    view that serves it, and that view, given the request's body, calls
    the handler of [Service] with this very request. *)
Theorem route_request_roundtrip req :
  Forall (λ z, 0 <= z) (request_ids req) →
  ∃ e args,
    route (request_url req).1 (path_string (render <$> (request_url req).2)) = RFound e args ∧
    to_request e args (request_body req) = Some req.
Proof.
  intros Hids.
  assert (Hok : forallb tok_ok (request_url req).2 = true).
  { destruct req; simpl in Hids;
      repeat match goal with H : Forall _ (_ :: _) |- _ => inversion_clear H end;
      cbn [request_url snd forallb tok_ok]; repeat rewrite bool_decide_eq_true_2 by lia;
      reflexivity. }
  destruct req as [id|id|id|id pid|id pid|data|id|id|id [c|]|id c];
    cbn [request_url fst snd] in *; rewrite route_render by exact Hok; eexists _, _;
    split; reflexivity.
Qed.

(** ** Examples *)

Lemma request_url_approve :
  path_string (render <$> (request_url (Approve 5 17)).2) = "/api/meetings/5/participants/17/approve".
Proof. vm_compute. reflexivity. Qed.

Lemma route_request_roundtrip_witness :
  Forall (λ z, 0 <= z) (request_ids (Approve 5 17)) ∧
  ∃ e args,
    route (request_url (Approve 5 17)).1 (path_string (render <$> (request_url (Approve 5 17)).2)) =
      RFound e args ∧
    to_request e args (request_body (Approve 5 17)) = Some (Approve 5 17).
Proof.
  split; [repeat constructor; lia|].
  apply route_request_roundtrip. repeat constructor; lia.
Defined.

(** Werkzeug's [int] converter takes no sign: a negative id never
    reaches a view, so the [id <= 0] guard of [join_meeting] only ever
    sees 0; a wrong method is a 405; a trailing slash a 404. *)
Lemma route_edges :
  route GET "/api/meetings/join/-3" = RNotFound ∧
  route GET "/api/meetings/join/0" = RFound EJoin [0] ∧
  route GET "/api/meetings/join/007" = RFound EJoin [7] ∧
  route GET "/api/meetings/create" = RMethodNotAllowed ∧
  route HEAD "/api/meetings/list" = RFound EList [] ∧
  route OPTIONS "/api/auth/login" = ROptions ∧
  route POST "/api/auth/login/" = RNotFound.
Proof. split_and!; vm_compute; reflexivity. Qed.

End Routing.
