(* ===== verification/Config.v ===== *)
(** The start-up of the application in [src/__init__.py] (lines 13-58):
    the check of the required environment variables, the CORS
    configuration, the configuration keys, and the initialisation of
    SQLAlchemy and Redis, each of which aborts the import by raising.

    The environment is a map from variable names to values ([os.getenv]
    answers [None] for an unset variable).  Whether SQLAlchemy accepts
    the database URL and whether Redis answers its [ping] are inputs.

    flask-cors reads the key [r"/api/*"] of [resources] as a regular
    expression matched at the start of the path, ignoring case: [/api]
    followed by any number of slashes, so every path that starts with
    [/api] in any case.  An origin of the list is compared with the
    request's [Origin] ignoring case, unless it looks like a regular
    expression (it holds one of [*\]?$^[()]), in which case flask-cors
    matches it with [re.match], a variable here. *)

From Stdlib Require Import Ascii.
From S2P Require Import Prelude Python.

Module Config.

Definition Env := gmap string string.

(** Lines 14-18. *)
Definition REQUIRED_ENV_VARS : list string := ["DATABASE_URL"; "JWT_SECRET_KEY"; "REDIS_URL"].

(** [not os.getenv(var)]: unset, or set to the empty string. *)
Definition env_missing (env : Env) (v : string) : bool :=
  match env !! v with None => true | Some s => String.eqb s "" end.

(** Line 21. *)
Definition missing_vars (env : Env) : list string := filter (λ v, env_missing env v = true) REQUIRED_ENV_VARS.

(** The configuration of a started application (lines 28-40). *)
Record AppConfig := mkAppConfig {
  cors_origins : list string;
  database_uri : string;
  track_modifications : bool;
  jwt_secret_key : string
}.

Inductive StartError :=
  | MissingEnv (msg : string)   (** the RuntimeError of line 23 *)
  | DatabaseInitError           (** re-raised at line 49 *)
  | RedisInitError.             (** re-raised at line 58 *)

(** [os.getenv('CORS_ORIGINS', 'http://localhost:3000').split(",")]. *)
Definition cors_origin_list (env : Env) : list string :=
  py_split "," (default "http://localhost:3000" (env !! "CORS_ORIGINS")).

(** Importing [src/__init__.py] up to line 58. *)
Definition app_start (env : Env) (db_ok redis_ok : bool) : StartError + AppConfig :=
  match missing_vars env with
  | (_ :: _) as missing =>
      inl (MissingEnv ("Missing required environment variables: " +:+ String.concat ", " missing))
  | [] =>
      if negb db_ok then inl DatabaseInitError
      else if negb redis_ok then inl RedisInitError
      else inr (mkAppConfig (cors_origin_list env) (default "" (env !! "DATABASE_URL")) false
                  (default "" (env !! "JWT_SECRET_KEY")))
  end.

(** ** CORS (flask-cors) *)

(** [probably_regex] of flask-cors. *)
Definition probably_regex (s : string) : bool :=
  existsb (λ c, str_has c s) ["*"; "\"; "]"; "?"; "$"; "^"; "["; "("; ")"]%char.

Section cors.
(** [re.match(pattern, origin, re.IGNORECASE)]. *)
Variable regex_match : string → string → bool.

(** [try_match] of an origin of the list. *)
Definition origin_matches (o origin : string) : bool :=
  if probably_regex o then regex_match o origin else String.eqb (py_lower origin) (py_lower o).

(** The resource pattern [r"/api/*"] matched at the start of the path,
    ignoring case. *)
Definition cors_path (path : string) : bool := String.prefix "/api" (py_lower path).

(** Whether flask-cors adds [Access-Control-Allow-Origin: origin] (and
    [Access-Control-Allow-Credentials]) to the answer of a request with
    this path and [Origin] header. *)
Definition cors_allows (cfg : AppConfig) (path origin : string) : bool :=
  cors_path path && existsb (λ o, origin_matches o origin) cfg.(cors_origins).

End cors.

(** ** Lemmas *)

Lemma missing_vars_nil env :
  missing_vars env = [] ↔
  env_missing env "DATABASE_URL" = false ∧ env_missing env "JWT_SECRET_KEY" = false ∧
  env_missing env "REDIS_URL" = false.
Proof.
  unfold missing_vars, REQUIRED_ENV_VARS. rewrite !filter_cons, filter_nil.
  destruct (env_missing env "DATABASE_URL"), (env_missing env "JWT_SECRET_KEY"),
    (env_missing env "REDIS_URL"); simpl; naive_solver.
Qed.

(** C26: the application starts exactly when its environment is
    complete and both services answer.  Importing [src/__init__.py]
    gets past line 58 if and only if [DATABASE_URL], [JWT_SECRET_KEY]
    and [REDIS_URL] are set to non-empty values, SQLAlchemy accepts
    the database and Redis answers its ping; otherwise it raises, the
    environment check first, with a message naming the missing
    variables in the order of [REQUIRED_ENV_VARS]. *)
Theorem app_start_spec env db r :
  ((∃ cfg, app_start env db r = inr cfg) ↔
   (∀ v, v ∈ REQUIRED_ENV_VARS → env_missing env v = false) ∧ db = true ∧ r = true) ∧
  (missing_vars env ≠ [] →
   app_start env db r =
     inl (MissingEnv ("Missing required environment variables: " +:+ String.concat ", " (missing_vars env)))).
Proof.
  unfold app_start. split.
  - assert ((∀ v, v ∈ REQUIRED_ENV_VARS → env_missing env v = false) ↔
             env_missing env "DATABASE_URL" = false ∧ env_missing env "JWT_SECRET_KEY" = false ∧
             env_missing env "REDIS_URL" = false) as ->.
    { unfold REQUIRED_ENV_VARS. split.
      - intros H. split_and!; apply H; repeat constructor.
      - intros (? & ? & ?) v Hv. rewrite !elem_of_cons, elem_of_nil in Hv. naive_solver. }
    rewrite <-missing_vars_nil. destruct (missing_vars env) eqn:E.
    + destruct db, r; simpl; naive_solver.
    + split; [by intros [? ?]|intros [? _]; done].
  - intros Hne. destruct (missing_vars env); [by exfalso; apply Hne|reflexivity].
Qed.

(** ** Scenarios *)

Definition env_full : Env :=
  {[ "DATABASE_URL" := "postgresql://db/meet"; "JWT_SECRET_KEY" := "k"; "REDIS_URL" := "redis://r";
     "CORS_ORIGINS" := "http://a.io, http://b.io" ]}.
Definition env_partial : Env := {[ "JWT_SECRET_KEY" := ""; "REDIS_URL" := "redis://r" ]}.

(** A complete environment starts; an empty secret counts as missing. *)
Lemma app_start_spec_witness :
  (∃ cfg, app_start env_full true true = inr cfg) ∧
  missing_vars env_partial ≠ [] ∧
  app_start env_partial true true =
    inl (MissingEnv "Missing required environment variables: DATABASE_URL, JWT_SECRET_KEY").
Proof.
  destruct (app_start_spec env_full true true) as [[_ Hfull] _].
  destruct (app_start_spec env_partial true true) as [_ Hpart].
  assert (missing_vars env_partial ≠ []) as Hne by (vm_compute; discriminate).
  split_and!; [apply Hfull; split_and!; [|done|done]|done|].
  - intros v Hv. unfold REQUIRED_ENV_VARS in Hv. rewrite !elem_of_cons, elem_of_nil in Hv.
    destruct Hv as [->|[->|[->|[]]]]; vm_compute; reflexivity.
  - rewrite (Hpart Hne). vm_compute. reflexivity.
Defined.

(** [CORS_ORIGINS] is split on commas only: with [http://a.io, http://b.io]
    the second origin is [ http://b.io], with its space, and the browser
    at [http://b.io] is refused; the health checks get no CORS headers. *)
Example cors_space_refused :
  match app_start env_full true true with
  | inr cfg =>
      cors_allows (λ _ _, false) cfg "/api/meetings" "http://a.io" = true ∧
      cors_allows (λ _ _, false) cfg "/api/meetings" "http://b.io" = false ∧
      cors_allows (λ _ _, false) cfg "/health" "http://a.io" = false
  | inl _ => False
  end.
Proof. vm_compute. split_and!; reflexivity. Qed.

End Config.
