(* ===== verification/Users.v ===== *)
(** The [User] model of models/user.py: its row, its constructor and its
    methods.  [generate_password_hash] and [check_password_hash]
    (werkzeug) are the [Hasher] interface; the salt a hash draws is an
    input, like the clock.  The methods return the updated row, which
    their [db.session.commit()] stores.  The routes of routes/auth.py
    call only the constructor and [check_password]; the lockout,
    login-tracking and e-mail verification methods are never called.
    The lemmas show what those methods would do: a password set is
    accepted, five failures lock the account for 15 minutes, a login
    clears the lock, and a verification token works once. *)

From S2P Require Import Prelude Time Python.

(** ** The password hashing library *)

Class Hasher := {
  gen_hash : string → string → string;   (** salt, password *)
  check_hash : string → string → bool    (** hash, password *)
}.

(** What werkzeug promises: a hash accepts the password it was made of. *)
Class HasherLaws `{Hasher} := {
  check_gen salt pw : check_hash (gen_hash salt pw) pw = true
}.

Module Users.

(** [class User] (lines 6-34). *)
Record User := mkUser {
  email : string;
  name : string;
  password_hash : string;
  u_created_at : Z;
  is_active : bool;
  is_email_verified : bool;
  email_verification_token : option string;
  email_verification_sent_at : option Z;
  password_reset_token : option string;
  password_reset_sent_at : option Z;
  last_password_change : Z;
  last_login_at : option Z;
  last_login_ip : option string;
  login_count : Z;
  failed_login_attempts : Z;
  locked_until : option Z
}.

(** The users table and its id sequence. *)
Record AuthDb := mkAuthDb { user_rows : gmap Z User; next_user_id : Z }.

(** ** Field updates *)

Definition with_password (u : User) (h : string) (t : Z) : User :=
  mkUser u.(email) u.(name) h u.(u_created_at) u.(is_active) u.(is_email_verified)
    u.(email_verification_token) u.(email_verification_sent_at)
    u.(password_reset_token) u.(password_reset_sent_at) t
    u.(last_login_at) u.(last_login_ip) u.(login_count) u.(failed_login_attempts) u.(locked_until).

Definition with_lock (u : User) (n : Z) (lu : option Z) : User :=
  mkUser u.(email) u.(name) u.(password_hash) u.(u_created_at) u.(is_active) u.(is_email_verified)
    u.(email_verification_token) u.(email_verification_sent_at)
    u.(password_reset_token) u.(password_reset_sent_at) u.(last_password_change)
    u.(last_login_at) u.(last_login_ip) u.(login_count) n lu.

Definition with_login (u : User) (t : Z) (ip : string) : User :=
  mkUser u.(email) u.(name) u.(password_hash) u.(u_created_at) u.(is_active) u.(is_email_verified)
    u.(email_verification_token) u.(email_verification_sent_at)
    u.(password_reset_token) u.(password_reset_sent_at) u.(last_password_change)
    (Some t) (Some ip) (u.(login_count) + 1) u.(failed_login_attempts) u.(locked_until).

Definition with_verification (u : User) (verified : bool) (tok : option string)
    (sent : option Z) : User :=
  mkUser u.(email) u.(name) u.(password_hash) u.(u_created_at) u.(is_active) verified
    tok sent u.(password_reset_token) u.(password_reset_sent_at) u.(last_password_change)
    u.(last_login_at) u.(last_login_ip) u.(login_count) u.(failed_login_attempts) u.(locked_until).

Definition with_reset (u : User) (tok : option string) (sent : option Z) : User :=
  mkUser u.(email) u.(name) u.(password_hash) u.(u_created_at) u.(is_active) u.(is_email_verified)
    u.(email_verification_token) u.(email_verification_sent_at) tok sent
    u.(last_password_change) u.(last_login_at) u.(last_login_ip) u.(login_count)
    u.(failed_login_attempts) u.(locked_until).

(** ** Methods *)

Section methods.
Context `{Hasher}.

(** [not password or len(password) > 72] (lines 45, 51). *)
Definition bad_length (pw : string) : bool :=
  bool_decide (pw = EmptyString) || (72 <? String.length pw)%nat.

(** [set_password] (lines 44-48): [None] is the ValueError. *)
Definition set_password (u : User) (salt pw : string) (now : Z) : option User :=
  if bad_length pw then None else Some (with_password u (gen_hash salt pw) now).

(** [User(email, name, password)] (lines 36-42): the column defaults,
    then [set_password]. *)
Definition new_user (e n pw salt : string) (now : Z) : option User :=
  set_password
    (mkUser (py_strip (py_lower e)) (py_strip n) EmptyString now true false None None None None
       now None None 0 0 None) salt pw now.

(** [check_password] (lines 50-53). *)
Definition check_password (u : User) (pw : string) : bool :=
  if bad_length pw then false else check_hash u.(password_hash) pw.

(** [is_locked] (lines 55-59). *)
Definition is_locked (u : User) (now : Z) : bool :=
  match u.(locked_until) with None => false | Some t => now <? t end.

(** [increment_failed_attempts] (lines 61-65): the fifth failure locks
    the account for 15 minutes. *)
Definition increment_failed_attempts (u : User) (now : Z) : User :=
  let n := u.(failed_login_attempts) + 1 in
  with_lock u n (if 5 <=? n then Some (now + 900 secs) else u.(locked_until)).

(** [reset_failed_attempts] (lines 67-70). *)
Definition reset_failed_attempts (u : User) : User := with_lock u 0 None.

(** [record_login] (lines 72-77). *)
Definition record_login (u : User) (ip : string) (now : Z) : User :=
  reset_failed_attempts (with_login u now ip).

(** [generate_email_verification_token] (lines 79-84), the random token
    [tok] an input. *)
Definition generate_email_verification_token (u : User) (tok : string) (now : Z) : User :=
  with_verification u u.(is_email_verified) (Some tok) (Some now).

(** [generate_password_reset_token] (lines 86-91). *)
Definition generate_password_reset_token (u : User) (tok : string) (now : Z) : User :=
  with_reset u (Some tok) (Some now).

(** [verify_email] (lines 93-102): the answer and the row; an empty
    stored token is falsy like a null one; [None] is the TypeError of
    comparing a null [email_verification_sent_at]. *)
Definition verify_email (u : User) (tok : string) (now : Z) : option (bool * User) :=
  match u.(email_verification_token) with
  | Some t =>
      if negb (bool_decide (t = EmptyString)) && bool_decide (t = tok) then
        match u.(email_verification_sent_at) with
        | None => None
        | Some sent =>
            if sent <? now - 86400 secs then Some (false, u)
            else Some (true, with_verification u true None None)
        end
      else Some (false, u)
  | None => Some (false, u)
  end.

End methods.

(** ** Lemmas *)

Section props.
Context `{Hasher}.

Lemma set_password_None u salt pw now : set_password u salt pw now = None ↔ bad_length pw = true.
Proof. unfold set_password. by destruct (bad_length pw). Qed.

(** A password the row was set with is accepted, under werkzeug's law. *)
Lemma set_password_check `{!HasherLaws} u salt pw now u' :
  set_password u salt pw now = Some u' → check_password u' pw = true.
Proof.
  unfold set_password, check_password. destruct (bad_length pw); [done|].
  intros [= <-]. apply check_gen.
Qed.

(** [k] failed logins at [now] from a row with no failure. *)
Definition fail_n (k : nat) (u : User) (now : Z) : User :=
  Nat.iter k (λ v, increment_failed_attempts v now) u.

Lemma fail_n_fields k u now :
  u.(failed_login_attempts) = 0 →
  (fail_n k u now).(failed_login_attempts) = Z.of_nat k ∧
  (fail_n k u now).(locked_until) =
    if (5 <=? k)%nat then Some (now + 900 secs) else u.(locked_until).
Proof.
  intros H0. induction k as [|k [IHf IHl]]; [done|].
  change (fail_n (S k) u now) with (increment_failed_attempts (fail_n k u now) now).
  unfold increment_failed_attempts, with_lock. cbn [failed_login_attempts locked_until].
  rewrite IHf, IHl. split; [lia|].
  destruct (5 <=? S k)%nat eqn:E1, (5 <=? k)%nat eqn:E2; zbool; case_ifs; zbool; try lia; done.
Qed.

(** The lockout rule of the model: an account with no failure and no
    lock is locked right after its fifth failed attempt, for 15
    minutes, and not before. *)
Lemma lockout_after_five k u now t :
  u.(failed_login_attempts) = 0 → u.(locked_until) = None →
  is_locked (fail_n k u now) t = true ↔ (5 <= k)%nat ∧ t < now + 900 secs.
Proof.
  intros H0 H1. destruct (fail_n_fields k u now H0) as [_ Hl].
  unfold is_locked. rewrite Hl, H1.
  destruct (5 <=? k)%nat eqn:E; zbool; rewrite ?Z.ltb_lt; split; intros; try lia; done.
Qed.

(** A successful login clears the failures and the lock. *)
Lemma record_login_unlocks u ip now t :
  is_locked (record_login u ip now) t = false ∧
  (record_login u ip now).(failed_login_attempts) = 0 ∧
  (record_login u ip now).(login_count) = u.(login_count) + 1.
Proof. done. Qed.

(** A verification token works once: after it succeeds, the row holds
    no token and every later attempt fails and leaves the row. *)
Lemma verify_email_once u tok now u' tok' now' :
  verify_email u tok now = Some (true, u') →
  u'.(is_email_verified) = true ∧ verify_email u' tok' now' = Some (false, u').
Proof.
  unfold verify_email.
  destruct (email_verification_token u) as [t|]; [|done].
  destruct (_ && _); [|done].
  destruct (email_verification_sent_at u) as [sent|]; [|done].
  destruct (sent <? now - 86400 secs); [done|]. by intros [= <-].
Qed.

End props.

End Users.
