(* ===== verification/Auth.v ===== *)
(** Authentication: routes/auth.py ([validate_email], [validate_password],
    [validate_name], the rate-limit placeholders, [register], [login],
    [verify_token]) and the [token_required] decorator of
    routes/meetings.py (lines 12-41), which decides the [current_user]
    every meeting handler is called with.

    The validators are the source's regular expressions in [Regex].
    SQL's [ILIKE] is written out: [%] and [_] in the right operand are
    wildcards and both sides are compared in lower case.  PyJWT is the
    [Jwt] interface: [jwt_decode] takes the clock and answers the
    payload or the exception it raises.  Tokens carry integer user ids;
    a non-integer [user_id] claim is taken to raise, as no token the
    server issues has one. *)

From Stdlib Require Import Ascii QArith_base.
From S2P Require Import Prelude Time Python Regex Schema Users.
Import Regex Users.

(** ** The JWT library *)

(** The exceptions [jwt.decode] raises, by class: [ExpiredSignatureError]
    and [InvalidAlgorithmError] are subclasses of [InvalidTokenError];
    [InvalidKeyError] is not. *)
Inductive JwtResult :=
  | JwtOk (payload : list (string * JVal))
  | JwtExpired
  | JwtInvalidToken
  | JwtInvalidAlgorithm
  | JwtInvalidKey
  | JwtOtherError.

Class Jwt := {
  jwt_encode : list (string * JVal) → string;
  jwt_decode : Z → string → JwtResult
}.

Module Auth.

(** ** Validators (lines 14-40) *)

Definition chars (s : string) : list Ascii.ascii := String.list_ascii_of_string s.

(** [[a-zA-Z0-9._%+-]], [[a-zA-Z0-9.-]] and [[a-zA-Z]]. *)
Definition local_char (c : Ascii.ascii) : bool :=
  is_alpha c || is_digit c || one_of (chars "._%+-") c.
Definition domain_char (c : Ascii.ascii) : bool :=
  is_alpha c || is_digit c || one_of (chars ".-") c.

(** [^[a-zA-Z0-9._%+-]+@[a-zA-Z0-9.-]+\.[a-zA-Z]{2,}$]. *)
Definition email_re : re :=
  RCat (plus (RClass local_char))
    (RCat (chr "@"%char)
       (RCat (plus (RClass domain_char))
          (RCat (chr "."%char) (rep_min 2 (RClass is_alpha))))).

Definition validate_email (e : string) : bool :=
  if bool_decide (e = EmptyString) || (120 <? String.length e)%nat then false
  else py_match_dollar email_re e.

(** The class of line 32: [!@#$%^&*(),.?:{}|<>] and the double quote
    (code 34). *)
Definition special_char (c : Ascii.ascii) : bool :=
  one_of (Ascii.ascii_of_nat 34 :: chars "!@#$%^&*(),.?:{}|<>") c.

Definition validate_password (pw : string) : bool :=
  if bool_decide (pw = EmptyString) || (72 <? String.length pw)%nat then false
  else if (String.length pw <? 8)%nat then false
  else if negb (py_search (RClass is_upper) pw) then false
  else if negb (py_search (RClass is_lower) pw) then false
  else if negb (py_search (RClass is_digit) pw) then false
  else if negb (py_search (RClass special_char) pw) then false
  else true.

(** [[a-zA-Z0-9\s.-]], [\s] being [str.isspace]. *)
Definition name_char (c : Ascii.ascii) : bool :=
  is_alpha c || is_digit c || py_space c || one_of (chars ".-") c.

(** [^[a-zA-Z0-9\s.-]{3,100}$]. *)
Definition name_re : re := rep_range 3 100 (RClass name_char).

Definition validate_name (n : string) : bool :=
  if bool_decide (n = EmptyString) || (100 <? String.length n)%nat then false
  else py_match_dollar name_re n.

(** The placeholders of lines 42-50. *)
Definition get_failed_login_attempts (e : string) : Z := 0.
Definition is_ip_blocked (ip : string) : bool := false.

(** ** SQL [ILIKE] *)

Fixpoint suffixes_of (l : list Ascii.ascii) : list (list Ascii.ascii) :=
  l :: match l with [] => [] | _ :: l' => suffixes_of l' end.

(** [s LIKE p], with PostgreSQL's default escape character [\]. *)
Fixpoint like (p s : list Ascii.ascii) : bool :=
  match p with
  | [] => bool_decide (s = [])
  | c :: p' =>
      if bool_decide (c = "%"%char) then existsb (like p') (suffixes_of s)
      else if bool_decide (c = "_"%char) then
        match s with [] => false | _ :: s' => like p' s' end
      else if bool_decide (c = "\"%char) then
        match p', s with
        | e :: p'', d :: s' => bool_decide (d = e) && like p'' s'
        | _, _ => false
        end
      else match s with [] => false | d :: s' => bool_decide (d = c) && like p' s' end
  end.

(** [column.ilike(pattern)]. *)
Definition ilike (col pat : string) : bool := like (chars (py_lower pat)) (chars (py_lower col)).

(** ** Requests and answers *)

Inductive AErr :=
  | ErrIpBlocked | ErrNoData | ErrMissingFields
  | ErrEmailFormat | ErrPasswordRequirements | ErrNameFormat
  | ErrEmailRegistered | ErrNameTaken | ErrConstraint | ErrRegistrationServer
  | ErrAccountLocked | ErrInvalidCredentials (remaining_attempts : Z) | ErrLoginServer
  | ErrTokenFormat | ErrUserNotFound | ErrTokenExpired | ErrTokenInvalid
  | ErrInvalidKey | ErrInvalidAlgorithm | ErrAuthentication | ErrVerificationServer.

Inductive AResp :=
  | AError (e : AErr)
  | ARegistered (token : string) (user_id : Z)
  | ALoggedIn (token : string) (user_id : Z)
  | AValid (user_id : Z).

Definition aerr_status (e : AErr) : Z :=
  match e with
  | ErrIpBlocked | ErrAccountLocked => 429
  | ErrNoData | ErrMissingFields | ErrEmailFormat | ErrPasswordRequirements
  | ErrNameFormat | ErrEmailRegistered | ErrNameTaken | ErrConstraint => 400
  | ErrInvalidCredentials _ | ErrTokenFormat | ErrUserNotFound | ErrTokenExpired
  | ErrTokenInvalid | ErrInvalidKey | ErrInvalidAlgorithm | ErrAuthentication => 401
  | ErrRegistrationServer | ErrLoginServer | ErrVerificationServer => 500
  end.

(** [int(timegm(dt.utctimetuple()))]: PyJWT's seconds of an instant. *)
Definition py_timestamp (t : Z) : Z := t / usec_per_sec.

Section handlers.
Context `{Hasher} `{Jwt}.
(** [int(os.getenv('JWT_EXPIRY_DAYS', '1'))]. *)
Variable expiry_days : Z.

(** The claims of lines 114-120 and 171-177. *)
Definition token_payload (uid : Z) (e : string) (now : Z) : list (string * JVal) :=
  [("user_id", JInt uid); ("email", JStr e);
   ("exp", JInt (py_timestamp (now + expiry_days * 86400 secs)));
   ("iat", JInt (py_timestamp now)); ("type", JStr "access")].

(** [validate_password] on a JSON value: [Some false] when it answers
    False ([not password] on a falsy value included), [None] when it
    raises (a [len] of a number, or [re.search] of a non-string; the
    [len] of an object counts its members). *)
Definition password_check (v : JVal) : option bool :=
  match v with
  | JStr s => Some (validate_password s)
  | JNull | JBool false | JInt 0 | JList [] | JObj [] => Some false
  | JList l => if (72 <? length l)%nat || (length l <? 8)%nat then Some false else None
  | JObj l => if (72 <? length l)%nat || (length l <? 8)%nat then Some false else None
  | JFloat q => if Qeq_bool q 0 then Some false else None
  | _ => None
  end.

(** [user.check_password(data['password'])] on a JSON value. *)
Definition check_password_json (u : User) (v : JVal) : option bool :=
  match v with
  | JStr s => Some (check_password u s)
  | JNull | JBool false | JInt 0 | JList [] | JObj [] => Some false
  | JList l => if (72 <? length l)%nat then Some false else None
  | JObj l => if (72 <? length l)%nat then Some false else None
  | JFloat q => if Qeq_bool q 0 then Some false else None
  | _ => None
  end.

Definition email_taken (adb : AuthDb) (e : string) : bool :=
  exists_row (λ kv, ilike kv.2.(email) e = true) adb.(user_rows).
Definition name_taken (adb : AuthDb) (n : string) : bool :=
  exists_row (λ kv, ilike kv.2.(name) n = true) adb.(user_rows).

(** The unique constraints on [email] and [name] (lines 10-11). *)
Definition unique_violation (adb : AuthDb) (u : User) : bool :=
  exists_row (λ kv, kv.2.(email) = u.(email) ∨ kv.2.(name) = u.(name)) adb.(user_rows).

(** [register] (lines 52-130). *)
Definition register (adb : AuthDb) (ip : string) (data : option (list (string * JVal)))
    (salt : string) (now : Z) : AResp * AuthDb :=
  if is_ip_blocked ip then (AError ErrIpBlocked, adb) else
  match data with
  | None | Some [] => (AError ErrNoData, adb)
  | Some obj =>
    if negb (forallb (λ k, obj_has k obj) ["email"; "name"; "password"])
    then (AError ErrMissingFields, adb) else
    match obj_get "email" obj, obj_get "name" obj, obj_get "password" obj with
    | Some (JStr e), Some (JStr n), Some pw =>
      let e' := py_lower (py_strip e) in
      let n' := py_strip n in
      if negb (validate_email e') then (AError ErrEmailFormat, adb) else
      match password_check pw with
      | None => (AError ErrRegistrationServer, adb)
      | Some false => (AError ErrPasswordRequirements, adb)
      | Some true =>
        if negb (validate_name n') then (AError ErrNameFormat, adb) else
        if email_taken adb e' then (AError ErrEmailRegistered, adb) else
        if name_taken adb n' then (AError ErrNameTaken, adb) else
        match pw with
        | JStr p =>
          match new_user e' n' p salt now with
          | None => (AError ErrRegistrationServer, adb)
          | Some u =>
            if unique_violation adb u then (AError ErrConstraint, adb) else
            let uid := adb.(next_user_id) in
            (ARegistered (jwt_encode (token_payload uid u.(email) now)) uid,
             mkAuthDb (<[uid := u]> adb.(user_rows)) (uid + 1))
          end
        | _ => (AError ErrRegistrationServer, adb)
        end
      end
    | _, _, _ => (AError ErrRegistrationServer, adb)
    end
  end.

(** [login] (lines 132-185); it writes nothing. *)
Definition login (adb : AuthDb) (ip : string) (data : option (list (string * JVal)))
    (now : Z) : AResp * AuthDb :=
  if is_ip_blocked ip then (AError ErrIpBlocked, adb) else
  match data with
  | None | Some [] => (AError ErrNoData, adb)
  | Some obj =>
    if negb (forallb (λ k, obj_has k obj) ["email"; "password"])
    then (AError ErrMissingFields, adb) else
    match obj_get "email" obj with
    | Some (JStr e) =>
      let e' := py_lower (py_strip e) in
      let attempts := get_failed_login_attempts e' in
      if 5 <=? attempts then (AError ErrAccountLocked, adb) else
      let invalid := (AError (ErrInvalidCredentials (5 - (attempts + 1))), adb) in
      match first_row (λ kv, ilike kv.2.(email) e' = true) adb.(user_rows) with
      | None => invalid
      | Some (uid, u) =>
        match obj_get "password" obj ≫= check_password_json u with
        | None => (AError ErrLoginServer, adb)
        | Some false => invalid
        | Some true => (ALoggedIn (jwt_encode (token_payload uid u.(email) now)) uid, adb)
        end
      end
    | _ => (AError ErrLoginServer, adb)
    end
  end.

(** [data['user_id']] and [User.query.get] on it. *)
Definition token_user (adb : AuthDb) (data : list (string * JVal)) : option (option Z) :=
  match obj_get "user_id" data with
  | Some (JInt uid) => Some (if bool_decide (is_Some (adb.(user_rows) !! uid)) then Some uid else None)
  | _ => None
  end.

(** [token_required] (meetings.py, lines 12-41): the id of the
    [current_user] the handler is called with, or the 401 answer. *)
Definition token_required (adb : AuthDb) (hdr : option string) (now : Z) : AErr + Z :=
  match hdr with
  | Some h =>
    if negb (py_startswith "Bearer " h) then inl ErrTokenFormat else
    match py_split_1 "Bearer " h with
    | None => inl ErrAuthentication
    | Some tok =>
      match jwt_decode now tok with
      | JwtOk data =>
          match token_user adb data with
          | Some (Some uid) => inr uid
          | Some None => inl ErrUserNotFound
          | None => inl ErrAuthentication
          end
      | JwtExpired => inl ErrTokenExpired
      | JwtInvalidToken | JwtInvalidAlgorithm => inl ErrTokenInvalid
      | JwtInvalidKey => inl ErrInvalidKey
      | JwtOtherError => inl ErrAuthentication
      end
    end
  | None => inl ErrTokenFormat
  end.

(** [verify_token] (lines 187-215): an [InvalidKeyError] or a missing
    [user_id] claim reaches the outer handler and answers 500. *)
Definition verify_token (adb : AuthDb) (hdr : option string) (now : Z) : AResp :=
  match hdr with
  | Some h =>
    if negb (py_startswith "Bearer " h) then AError ErrTokenFormat else
    match py_split_1 "Bearer " h with
    | None => AError ErrVerificationServer
    | Some tok =>
      match jwt_decode now tok with
      | JwtOk data =>
          match token_user adb data with
          | Some (Some uid) => AValid uid
          | Some None => AError ErrUserNotFound
          | None => AError ErrVerificationServer
          end
      | JwtExpired => AError ErrTokenExpired
      | JwtInvalidToken | JwtInvalidAlgorithm => AError ErrTokenInvalid
      | JwtInvalidKey | JwtOtherError => AError ErrVerificationServer
      end
    end
  | None => AError ErrTokenFormat
  end.

End handlers.

(** ** The validators *)

Lemma chars_length s : length (chars s) = String.length s.
Proof. induction s; simpl; by f_equal. Qed.

Lemma chars_nil s : chars s = [] ↔ s = EmptyString.
Proof. destruct s; simpl; split; done. Qed.

(** [validate_password] (lines 20-34) accepts exactly the strings
    of 8 to 72 characters holding an upper-case letter, a lower-case
    letter, a digit and one of the special characters. *)
Lemma validate_password_spec pw :
  validate_password pw = true ↔
  (8 <= String.length pw <= 72)%nat ∧
  Exists (λ c, is_upper c = true) (chars pw) ∧ Exists (λ c, is_lower c = true) (chars pw) ∧
  Exists (λ c, is_digit c = true) (chars pw) ∧ Exists (λ c, special_char c = true) (chars pw).
Proof.
  unfold validate_password, chars. rewrite <-!py_search_class. split.
  - intros H. case_ifs; try done. zbool. split_and!; done || lia.
  - intros (Hl & -> & -> & -> & ->). simpl. case_ifs; zbool; subst; simpl in *; done || lia.
Qed.

(** The words of the e-mail pattern. *)
Definition email_shape (l : list Ascii.ascii) : Prop :=
  ∃ a d t, l = a ++ "@"%char :: d ++ "."%char :: t ∧
    a ≠ [] ∧ Forall (λ c, local_char c = true) a ∧
    d ≠ [] ∧ Forall (λ c, domain_char c = true) d ∧
    (2 <= length t)%nat ∧ Forall (λ c, is_alpha c = true) t.

Lemma email_re_spec l : matches email_re l ↔ email_shape l.
Proof.
  unfold email_re, email_shape.
  repeat (setoid_rewrite plus_class || setoid_rewrite rep_min_class ||
          setoid_rewrite chr_spec || setoid_rewrite matches_cat).
  split.
  - intros (a & s2 & -> & Ha & ? & s4 & -> & -> & d & s6 & -> & Hd & ? & t & -> & -> & Ht).
    exists a, d, t. naive_solver.
  - intros (a & d & t & -> & Ha & Ha' & Hd & Hd' & Ht & Ht').
    exists a, ("@"%char :: d ++ "."%char :: t). split; [done|]. split; [done|].
    exists ["@"%char], (d ++ "."%char :: t). split; [done|]. split; [done|].
    exists d, ("."%char :: t). split; [done|]. split; [done|].
    exists ["."%char], t. done.
Qed.

Lemma email_shape_nonempty l : email_shape l → l ≠ [].
Proof. intros (a & d & t & -> & Ha & _). by destruct a. Qed.

(** C18: [validate_email] (lines 14-18) accepts exactly the strings of
    at most 120 characters made of a non-empty local part, one [@], a
    non-empty domain, a dot and at least two letters, followed or not by
    one newline, which Python's [$] lets through. *)
Lemma validate_email_spec e :
  validate_email e = true ↔
  (String.length e <= 120)%nat ∧
  (email_shape (chars e) ∨ ∃ l, chars e = l ++ [newline] ∧ email_shape l).
Proof.
  unfold validate_email. pose proof (py_match_dollar_spec email_re e) as Hm. cbv zeta in Hm.
  fold (chars e) in Hm. setoid_rewrite email_re_spec in Hm. case_ifs; zbool.
  - subst e. split; [done|]. intros [_ [Hs|(l & Hl & _)]]; [by apply email_shape_nonempty in Hs|].
    by destruct l.
  - split; [done|]. intros [Hl _]. lia.
  - rewrite Hm. split; [|tauto]. intros Hsh. split; [lia|done].
Qed.

(** The name rule of lines 36-40: 3 to 100 characters of the class; the
    newline [$] lets through is in the class already. *)
Lemma validate_name_spec n :
  validate_name n = true ↔
  (3 <= String.length n <= 100)%nat ∧ Forall (λ c, name_char c = true) (chars n).
Proof.
  unfold validate_name. pose proof (py_match_dollar_spec name_re n) as Hm. cbv zeta in Hm.
  fold (chars n) in Hm. unfold name_re in Hm.
  assert (H3 : (3 <= 100)%nat) by lia.
  pose proof (rep_range_class name_char 3 100 H3) as Hr. setoid_rewrite Hr in Hm.
  rewrite <-chars_length. case_ifs; zbool.
  - subst n. simpl. split; [done|lia].
  - split; [done|lia].
  - rewrite Hm. split; [|tauto]. intros [[Hl Hall]|(l & Hn & [Hl Hall])]; [done|].
    rewrite Hn, length_app in *. simpl in *. split; [lia|].
    apply Forall_app. split; [done|]. by repeat constructor.
Qed.

(** ** ILIKE *)

(** A pattern without the escape character matches itself. *)
Lemma like_refl l : "\"%char ∉ l → like l l = true.
Proof.
  induction l as [|c l IH]; intros Hl; simpl; [reflexivity|].
  rewrite elem_of_cons in Hl. apply Decidable.not_or in Hl as [Hc Hl].
  case_bool_decide as H1; [|case_bool_decide as H2; [|case_bool_decide as H3]].
  - subst c. apply orb_true_iff. right. apply existsb_exists. exists l.
    split; [destruct l; simpl; by left|by apply IH].
  - by apply IH.
  - by subst c.
  - rewrite bool_decide_eq_true_2 by done. by apply IH.
Qed.

(** [_] in the pattern matches any one character: a pattern without
    the escape character matches every string of its length that agrees
    with it outside its [_]s. *)
Lemma like_wild p s : "\"%char ∉ p →
  Forall2 (λ a b, a = "_"%char ∨ a = b) p s → like p s = true.
Proof.
  intros Hp HF. revert Hp. induction HF as [|a b p s Hab HF IH]; intros Hp; simpl; [reflexivity|].
  rewrite elem_of_cons in Hp. apply Decidable.not_or in Hp as [Ha Hp].
  case_bool_decide as H1; [|case_bool_decide as H2; [|case_bool_decide as H3]].
  - subst a. destruct Hab as [Hab|<-]; [done|]. apply orb_true_iff. right.
    apply existsb_exists. exists s. split; [destruct s; simpl; by left|by apply IH].
  - by apply IH.
  - by subst a.
  - destruct Hab as [|<-]; [done|]. rewrite bool_decide_eq_true_2 by done. by apply IH.
Qed.

(** Lower case keeps characters that are not letters. *)
Lemma py_lower_char_backslash c : py_lower_char c = "\"%char → c = "\"%char.
Proof. destruct c as [[] [] [] [] [] [] [] []]; by vm_compute. Qed.

Lemma chars_py_lower s : chars (py_lower s) = py_lower_char <$> chars s.
Proof. unfold py_lower, chars. apply list_ascii_of_string_of_list. Qed.

Lemma ilike_refl s : "\"%char ∉ chars s → ilike s s = true.
Proof.
  intros Hs. unfold ilike. apply like_refl. rewrite chars_py_lower, list_elem_of_fmap.
  intros (c & Hc & Hin). symmetry in Hc. apply py_lower_char_backslash in Hc. by subst c.
Qed.

(** An accepted address has the shape, up to a final newline. *)
Lemma validate_email_shape e :
  validate_email e = true →
  email_shape (chars e) ∨ ∃ l, chars e = l ++ [newline] ∧ email_shape l.
Proof.
  unfold validate_email. pose proof (py_match_dollar_spec email_re e) as Hm. cbv zeta in Hm.
  fold (chars e) in Hm. setoid_rewrite email_re_spec in Hm. case_ifs; [done..|]. apply Hm.
Qed.

(** The validated e-mail addresses and names hold no backslash. *)
Lemma validate_email_no_backslash e : validate_email e = true → "\"%char ∉ chars e.
Proof.
  intros Hs%validate_email_shape Hin.
  assert (∀ l, email_shape l → "\"%char ∉ l) as Hsh.
  { intros l (a & d & t & -> & _ & Ha & _ & Hd & _ & Ht) Hl.
    repeat (rewrite elem_of_app in Hl || rewrite elem_of_cons in Hl).
    destruct Hl as [Hl|[Hl|[Hl|[Hl|Hl]]]]; try done;
      [eapply Forall_forall in Ha|eapply Forall_forall in Hd|eapply Forall_forall in Ht];
      try exact Hl; by vm_compute in Ha || vm_compute in Hd || vm_compute in Ht. }
  destruct Hs as [Hs|(l & Hl & Hs)]; [by eapply Hsh|].
  rewrite Hl, elem_of_app, list_elem_of_singleton in Hin. destruct Hin as [Hin|Hin]; [by eapply Hsh|].
  done.
Qed.

Lemma validate_name_no_backslash n : validate_name n = true → "\"%char ∉ chars n.
Proof.
  intros [_ Hall]%validate_name_spec Hin. eapply Forall_forall in Hall; [|exact Hin].
  by vm_compute in Hall.
Qed.

(** ** Registration and login *)

Section accounts.
Context `{Hasher} `{Jwt}.
Variable expiry_days : Z.

Lemma new_user_Some e n p salt now u :
  new_user e n p salt now = Some u →
  u.(email) = py_strip (py_lower e) ∧ u.(name) = py_strip n ∧
  u.(password_hash) = gen_hash salt p ∧ bad_length p = false.
Proof. unfold new_user, set_password. case_ifs; intros; simplify_eq. done. Qed.

(** The address [User.__init__] stores is the one [register] validated. *)
Lemma stored_email e : py_strip (py_lower (py_lower (py_strip e))) = py_lower (py_strip e).
Proof. by rewrite py_lower_idem, py_strip_lower, py_strip_idem. Qed.

(** What a successful registration read and wrote. *)
Lemma register_ok adb ip data salt now tok uid adb' :
  register expiry_days adb ip (Some data) salt now = (ARegistered tok uid, adb') →
  ∃ e n p u,
    obj_get "email" data = Some (JStr e) ∧ obj_get "password" data = Some (JStr p) ∧
    obj_has "email" data = true ∧ obj_has "password" data = true ∧
    validate_email (py_lower (py_strip e)) = true ∧ validate_name (py_strip n) = true ∧
    email_taken adb (py_lower (py_strip e)) = false ∧ name_taken adb (py_strip n) = false ∧
    new_user (py_lower (py_strip e)) (py_strip n) p salt now = Some u ∧
    uid = adb.(next_user_id) ∧ adb' = mkAuthDb (<[uid := u]> adb.(user_rows)) (uid + 1).
Proof.
  unfold register. simpl. intros Hr.
  repeat (case_match; simplify_eq/=; try done).
  zbool. eexists _, _, _, _. split_and!; eauto.
Qed.

(** The only row whose e-mail matches a freshly registered address is
    the new one. *)
Lemma first_row_registered adb e u uid :
  email_taken adb e = false → ilike u.(email) e = true →
  first_row (λ kv, ilike kv.2.(email) e = true) (<[uid := u]> adb.(user_rows)) = Some (uid, u).
Proof.
  intros Ht Hu. unfold email_taken in Ht. rewrite exists_row_false in Ht.
  apply first_row_unique; [|by rewrite lookup_insert_eq|done].
  intros k1 v1 k2 v2 H1 H2 M1 M2. simpl in *.
  apply lookup_insert_Some in H1 as [[<- _]|[? H1]]; [|by destruct (Ht _ _ H1)].
  apply lookup_insert_Some in H2 as [[<- _]|[? H2]]; [done|by destruct (Ht _ _ H2)].
Qed.

(** The unique constraints never fire after the ILIKE checks: a row
    with the same e-mail or name matches its own pattern. *)
Lemma unique_violation_false adb e n p salt now u :
  validate_email (py_lower (py_strip e)) = true → validate_name (py_strip n) = true →
  email_taken adb (py_lower (py_strip e)) = false → name_taken adb (py_strip n) = false →
  new_user (py_lower (py_strip e)) (py_strip n) p salt now = Some u →
  unique_violation adb u = false.
Proof.
  intros Hve Hvn He Hn Hu. apply new_user_Some in Hu as (Hue & Hun & _).
  rewrite stored_email in Hue. rewrite py_strip_idem in Hun.
  unfold email_taken, name_taken in *. rewrite exists_row_false in He, Hn.
  apply exists_row_false. intros k v Hk [Heq|Heq]; simpl in Heq.
  - apply (He k v Hk). simpl. rewrite Heq, Hue. by apply ilike_refl, validate_email_no_backslash.
  - apply (Hn k v Hk). simpl. rewrite Heq, Hun. by apply ilike_refl, validate_name_no_backslash.
Qed.

(** C19: registering and logging in round-trip: with a hash library that
    accepts the password a hash was made of, the request body that
    registered a user, sent to [login], logs that user in, and login
    writes nothing. *)
Theorem register_then_login `{!HasherLaws} adb ip ip' data salt now now' tok uid adb' :
  register expiry_days adb ip (Some data) salt now = (ARegistered tok uid, adb') →
  ∃ tok', login expiry_days adb' ip' (Some data) now' = (ALoggedIn tok' uid, adb').
Proof.
  intros Hr. destruct (register_ok _ _ _ _ _ _ _ _ Hr) as
    (e & n & p & u & He & Hp & Hhe & Hhp & Hve & _ & Ht & _ & Hu & -> & ->).
  pose proof (new_user_Some _ _ _ _ _ _ Hu) as (Hue & _ & Hph & Hbad).
  rewrite stored_email in Hue.
  unfold login. simpl. destruct data as [|kv data]; [done|].
  rewrite Hhe, Hhp, He. simpl.
  rewrite (first_row_registered _ _ _ _ Ht);
    [|rewrite Hue; by apply ilike_refl, validate_email_no_backslash].
  rewrite Hp. simpl. unfold check_password. rewrite Hbad, Hph, check_gen. eauto.
Qed.

(** Registration never answers 'Database constraint violation':
    the unique constraints on [email] and [name] are implied by the
    ILIKE checks before them. *)
Theorem register_no_constraint_error adb ip data salt now :
  (register expiry_days adb ip data salt now).1 ≠ AError ErrConstraint.
Proof.
  unfold register. simpl. repeat (case_match; simplify_eq/=; try done).
  zbool. erewrite unique_violation_false in *; eauto.
Qed.

(** C20: the test for an existing e-mail address is a pattern match,
    not an equality: [User.query.filter(User.email.ilike(email))] reads
    the [_] of the new address as any one character.  A valid request
    whose address agrees with a stored one, in lower case, at every
    place but some where it has [_] is refused as 'Email already
    registered', whatever the stored address has there. *)
Theorem register_wildcard_collision adb ip data salt now e n pw k u :
  obj_get "email" data = Some (JStr e) → obj_get "name" data = Some (JStr n) →
  obj_get "password" data = Some pw →
  validate_email (py_lower (py_strip e)) = true → password_check pw = Some true →
  validate_name (py_strip n) = true →
  adb.(user_rows) !! k = Some u →
  Forall2 (λ a b, a = "_"%char ∨ a = b) (chars (py_lower (py_strip e))) (chars (py_lower u.(email))) →
  register expiry_days adb ip (Some data) salt now = (AError ErrEmailRegistered, adb).
Proof.
  intros He Hn Hp Hve Hpw Hvn Hk HF.
  assert (email_taken adb (py_lower (py_strip e)) = true) as Ht.
  { apply exists_row_true. exists k, u. split; [done|]. simpl. unfold ilike.
    rewrite py_lower_idem. apply like_wild; [by apply validate_email_no_backslash|done]. }
  unfold register. cbn [is_ip_blocked].
  destruct data as [|kv data]; [done|]. cbv iota beta.
  unfold obj_has. cbn [forallb]. rewrite He, Hn, Hp. cbv zeta.
  by rewrite Hve, Hpw, Hvn, Ht.
Qed.

(** [login] never locks an account out and never writes: the
    failed-attempt counter is the placeholder 0, so every failure reports
    four remaining attempts, whatever came before. *)
Theorem login_never_locks adb ip data now :
  let r := login expiry_days adb ip data now in
  r.2 = adb ∧ r.1 ≠ AError ErrAccountLocked ∧
  ∀ k, r.1 = AError (ErrInvalidCredentials k) → k = 4.
Proof.
  unfold login. simpl. repeat (case_match; simplify_eq/=); split_and!; try done;
    intros k Hk; simplify_eq; done.
Qed.

End accounts.

(** The handler for [jwt.InvalidAlgorithmError] in [token_required]
    (lines 34-35) is dead: the exception is an [InvalidTokenError],
    caught two clauses before. *)
Lemma token_required_no_invalid_algorithm `{Jwt} adb hdr now :
  token_required adb hdr now ≠ inl ErrInvalidAlgorithm.
Proof. unfold token_required. repeat case_match; done. Qed.

(** [/verify-token] and [token_required] accept the same headers with the
    same user; they differ only in the error answered. *)
Lemma verify_token_agrees `{Jwt} adb hdr now uid :
  verify_token adb hdr now = AValid uid ↔ token_required adb hdr now = inr uid.
Proof. unfold verify_token, token_required. repeat case_match; naive_solver. Qed.

(** ** Scenarios *)

Definition ex_user (e n : string) : User :=
  mkUser e n "h" 0 true false None None None None 0 None None 0 0 None.
Definition adb_axb : AuthDb := mkAuthDb {[1 := ex_user "axb@x.com" "Axb"]} 2.
Definition body_ab : list (string * JVal) :=
  [("email", JStr "a_b@x.com"); ("name", JStr "Ab Cd"); ("password", JStr "Passw0rd!")].


(** [token_required] admits only users of the table: the request
    reaches a meeting handler with a [current_user] whose id is among
    the ids the meeting tables refer to. *)
Theorem token_required_known_user `{Jwt} adb db hdr now uid :
  dom adb.(user_rows) = db.(users) → token_required adb hdr now = inr uid → uid ∈ db.(users).
Proof.
  intros Hdom Ht. rewrite <-Hdom. apply elem_of_dom.
  unfold token_required, token_user in Ht. repeat (case_match; simplify_eq/=; try done).
  by zbool.
Qed.


(** A hash library that keeps the password as a prefix, and a JWT
    library whose tokens all name user 1. *)
Definition toy_hasher : Hasher :=
  {| gen_hash salt pw := String.append pw salt; check_hash h pw := String.prefix pw h |}.
Definition toy_jwt : Jwt := {| jwt_encode _ := "tok"; jwt_decode _ _ := JwtOk [("user_id", JInt 1)] |}.

Lemma prefix_append p s : String.prefix p (String.append p s) = true.
Proof. induction p as [|c p IH]; simpl; [by destruct s|]. by destruct (Ascii.ascii_dec c c). Qed.

Definition toy_hasher_laws : @HasherLaws toy_hasher.
Proof. constructor. intros salt pw. apply prefix_append. Qed.

Definition ex_body : list (string * JVal) :=
  [("email", JStr " Test@Example.com "); ("name", JStr "Test User"); ("password", JStr "Test123!")].

Definition ex_registered : AResp * AuthDb :=
  @register toy_hasher toy_jwt 1 (mkAuthDb ∅ 1) "ip" (Some ex_body) "salt" 0.

Lemma register_then_login_witness :
  ex_registered = (ARegistered "tok" 1, ex_registered.2) ∧
  ∃ tok', @login toy_hasher toy_jwt 1 ex_registered.2 "ip" (Some ex_body) 5 =
            (ALoggedIn tok' 1, ex_registered.2).
Proof.
  split; [vm_compute; reflexivity|].
  apply (@register_then_login toy_hasher toy_jwt 1 toy_hasher_laws (mkAuthDb ∅ 1) "ip" "ip"
           ex_body "salt" 0 5 "tok" 1 ex_registered.2).
  vm_compute. reflexivity.
Defined.

(** [a_b@x.com] is refused because [axb@x.com] is registered, though
    no row holds it. *)
Lemma register_wildcard_collision_witness :
  (∀ k u, adb_axb.(user_rows) !! k = Some u → py_lower u.(email) ≠ "a_b@x.com") ∧
  @register toy_hasher toy_jwt 1 adb_axb "ip" (Some body_ab) "salt" 0 = (AError ErrEmailRegistered, adb_axb).
Proof.
  split.
  - intros k u Hk. simpl in Hk. apply lookup_singleton_Some in Hk as [_ <-]. by vm_compute.
  - apply (@register_wildcard_collision toy_hasher toy_jwt 1 adb_axb "ip" body_ab "salt" 0
             "a_b@x.com" "Ab Cd" (JStr "Passw0rd!") 1 (ex_user "axb@x.com" "Axb"));
      try (vm_compute; reflexivity).
    apply (bool_decide_eq_true_1 _). vm_compute. reflexivity.
Defined.

Lemma token_required_known_user_witness :
  1 ∈ (mkDb {[1]} ∅ ∅ ∅ ∅ 1 1 1 1).(users).
Proof.
  apply (@token_required_known_user toy_jwt (mkAuthDb {[1 := ex_user "a@b.co" "abc"]} 2)
           (mkDb {[1]} ∅ ∅ ∅ ∅ 1 1 1 1) (Some "Bearer tok") 0 1).
  - simpl. by rewrite dom_singleton_L.
  - vm_compute. reflexivity.
Defined.

End Auth.
