(* ===== verification/Socket.v ===== *)
(** The Socket.IO events of utils/socket_events.py: the decorator
    [socket_auth_required] and the six handlers registered by
    [register_socket_events].

    The server state is the one python-socketio keeps: the connected
    clients (session ids) and the room memberships.  A client is in the
    room named by its own session id from its connection on, and in the
    rooms it joins, and every connected client is in the room [None] of
    the namespace.  A handler answers with the [emit]s it makes, each to
    the rooms its [room] argument names; [emit] without [room] goes to
    the sender's own room.  Python keys rooms by value, so the room name
    of a JSON value is normalised ([True] is the room [1], [3.0] the room
    [3]); [join_room] of a list or an object raises TypeError, while
    [emit] (python-socketio's [get_participants]) takes a list as the
    union of the rooms it holds, [null] among them naming the room
    [None], and raises on an object.  An exception in a handler is logged by
    python-socketio and the client gets nothing; the memberships changed
    before it stay.

    Connection and disconnection are the library's and are modelled as
    such: they are not code of this repository.  The app factory never
    calls [register_socket_events] nor creates a SocketIO server, so none
    of this runs in the deployed service. *)

From Stdlib Require Import QArith_base Qreduction.
From S2P Require Import Prelude Python Users Auth.

Module Socket.

Definition Sid := string.

(** A room name, up to Python's equality: a string or a number. *)
Inductive Room := RoomStr (s : string) | RoomNum (q : Q).

#[export] Instance Q_eq_dec : EqDecision Q.
Proof.
  intros [n d] [n' d']. destruct (decide (n = n')), (decide (d = d'));
    [left; congruence|right; congruence..].
Defined.

#[export] Instance Room_eq_dec : EqDecision Room.
Proof. solve_decision. Defined.

Definition room_enc (r : Room) : string + (Z * positive) :=
  match r with RoomStr s => inl s | RoomNum q => inr (Qnum q, Qden q) end.
Definition room_dec (x : string + (Z * positive)) : Room :=
  match x with inl s => RoomStr s | inr (n, d) => RoomNum (Qmake n d) end.
Lemma room_dec_enc r : room_dec (room_enc r) = r.
Proof. by destruct r as [|[]]. Qed.

#[export] Instance Room_countable : Countable Room :=
  inj_countable' room_enc room_dec room_dec_enc.

(** The room a truthy JSON value names; [None] for a list or an object,
    which are unhashable ([None] itself is falsy and never names one). *)
Definition room_key (v : JVal) : option Room :=
  match v with
  | JStr s => Some (RoomStr s)
  | JInt z => Some (RoomNum (Qred (inject_Z z)))
  | JBool b => Some (RoomNum (Qred (inject_Z (Z.b2z b))))
  | JFloat q => Some (RoomNum (Qred q))
  | JNull | JList _ | JObj _ => None
  end.

(** The rooms an [emit(..., room=v)] reaches: one room for a hashable
    value, each member for a list ([null] is the room [None], an
    unhashable member raises), and [None] for an object, whose [room[0]]
    raises KeyError. *)
Definition room_target (v : JVal) : option (list (option Room)) :=
  match v with
  | JList l => mapM (λ x, match x with JNull => Some None | _ => Some <$> room_key x end) l
  | JObj _ => None
  | _ => (λ r, [Some r]) <$> room_key v
  end.

(** The server's state. *)
Record SockState := mkSock { connected : gset Sid; members : gset (Room * Sid) }.

(** One [emit(event, payload, room=to)]. *)
Record Emit := mkEmit { e_event : string; e_payload : list (string * JVal); e_to : list (option Room) }.

(** What a handler leaves: the state, its emits in order, and whether it
    raised. *)
Record Outcome := mkOutcome { o_state : SockState; o_emits : list Emit; o_raised : bool }.

Definition ok (st : SockState) (es : list Emit) : Outcome := mkOutcome st es false.
Definition raised (st : SockState) : Outcome := mkOutcome st [] true.

(** The clients an emit to room [r] reaches. *)
Definition recipients (st : SockState) (r : Room) : gset Sid :=
  set_map snd (filter (λ p : Room * Sid, p.1 = r) st.(members)).

(** The clients an emit to the rooms [to] reaches, each once; the room
    [None] holds every connected client. *)
Definition deliver (st : SockState) (to : list (option Room)) : gset Sid :=
  ⋃ ((λ t, match t with None => st.(connected) | Some r => recipients st r end) <$> to).

(** [join_room(room)] and [leave_room(room)] of the sender [sid]
    (leaving a room one is not in does nothing). *)
Definition join_room (st : SockState) (sid : Sid) (r : Room) : SockState :=
  mkSock st.(connected) ({[(r, sid)]} ∪ st.(members)).
Definition leave_room (st : SockState) (sid : Sid) (r : Room) : SockState :=
  mkSock st.(connected) (st.(members) ∖ {[(r, sid)]}).

(** The library's connection and disconnection of a client. *)
Definition connect (st : SockState) (sid : Sid) : SockState :=
  mkSock ({[sid]} ∪ st.(connected)) ({[(RoomStr sid, sid)]} ∪ st.(members)).
Definition disconnect (st : SockState) (sid : Sid) : SockState :=
  mkSock (st.(connected) ∖ {[sid]}) (filter (λ p : Room * Sid, p.2 ≠ sid) st.(members)).

(** The events the server registers. *)
Inductive Event := EvJoin | EvLeave | EvOffer | EvAnswer | EvIce | EvChat.

Section handlers.
Context `{Jwt}.

(** [socket_auth_required] (lines 6-22) on a payload dict: the message of
    the [error] event, or the payload with [user_id] set from the
    token.  [jwt.decode] of a non-string raises, like a bad token; the
    bare [except] turns every exception, the [KeyError] of a token
    without [user_id] included, into ['Invalid token']. *)
Definition socket_auth (now : Z) (data : list (string * JVal)) : string + list (string * JVal) :=
  let token := default JNull (obj_get "token" data) in
  if negb (py_truthy token) then inl "Token is missing"%string else
  match token with
  | JStr t =>
      match jwt_decode now t with
      | JwtOk payload =>
          match obj_get "user_id" payload with
          | Some uid => inr (py_dict_set "user_id" uid data)
          | None => inl "Invalid token"%string
          end
      | _ => inl "Invalid token"%string
      end
  | _ => inl "Invalid token"%string
  end.

(** [data.get(k)] as a JSON value, [None] when absent. *)
Definition get_or_null (k : string) (data : list (string * JVal)) : JVal :=
  default JNull (obj_get k data).

(** [handle_join] (lines 25-33). *)
Definition handle_join (st : SockState) (sid : Sid) (data : list (string * JVal)) : Outcome :=
  let room := get_or_null "meeting_code" data in
  if negb (py_truthy room) then ok st [] else
  match room_key room with
  | None => raised st
  | Some r =>
      let st' := join_room st sid r in
      match obj_get "user_id" data with
      | Some uid => ok st' [mkEmit "user_joined" [("user_id", uid)] [Some r]]
      | None => raised st'
      end
  end.

(** [handle_leave] (lines 35-43). *)
Definition handle_leave (st : SockState) (sid : Sid) (data : list (string * JVal)) : Outcome :=
  let room := get_or_null "meeting_code" data in
  if negb (py_truthy room) then ok st [] else
  match room_key room with
  | None => raised st
  | Some r =>
      let st' := leave_room st sid r in
      match obj_get "user_id" data with
      | Some uid => ok st' [mkEmit "user_left" [("user_id", uid)] [Some r]]
      | None => raised st'
      end
  end.

(** [handle_offer], [handle_answer], [handle_ice_candidate] (lines
    45-73): forward [data[field]] to the room [target_user]; the payload
    is built before the emit, so a missing field raises first. *)
Definition relay (event field : string) (st : SockState) (data : list (string * JVal)) : Outcome :=
  let target := get_or_null "target_user" data in
  if negb (py_truthy target) then ok st [] else
  match obj_get field data, obj_get "user_id" data with
  | Some x, Some uid =>
      match room_target target with
      | Some rs => ok st [mkEmit event [(field, x); ("user_id", uid)] rs]
      | None => raised st
      end
  | _, _ => raised st
  end.

(** [handle_chat_message] (lines 75-84). *)
Definition handle_chat_message (st : SockState) (data : list (string * JVal)) : Outcome :=
  let room := get_or_null "meeting_code" data in
  if negb (py_truthy room) then ok st [] else
  match obj_get "user_id" data, obj_get "message" data, obj_get "timestamp" data with
  | Some uid, Some m, Some t =>
      match room_target room with
      | Some rs =>
          ok st [mkEmit "chat_message" [("user_id", uid); ("message", m); ("timestamp", t)] rs]
      | None => raised st
      end
  | _, _, _ => raised st
  end.

(** An event of client [sid] with argument [arg]: the decorator, then
    the handler ([arg.get] raises AttributeError on a non-object). *)
Definition on_event (st : SockState) (sid : Sid) (now : Z) (ev : Event) (arg : JVal) : Outcome :=
  match arg with
  | JObj kvs =>
      match socket_auth now kvs with
      | inl msg => ok st [mkEmit "error" [("message", JStr msg)] [Some (RoomStr sid)]]
      | inr data =>
          match ev with
          | EvJoin => handle_join st sid data
          | EvLeave => handle_leave st sid data
          | EvOffer => relay "offer" "sdp" st data
          | EvAnswer => relay "answer" "sdp" st data
          | EvIce => relay "ice_candidate" "candidate" st data
          | EvChat => handle_chat_message st data
          end
      end
  | _ => raised st
  end.

(** The server as a labelled transition system: the label of an event
    records what was emitted and to whom it was delivered. *)
Inductive Label :=
  | LConnect (sid : Sid)
  | LDisconnect (sid : Sid)
  | LEvent (sid : Sid) (ev : Event) (sent : list (Emit * gset Sid)).

Inductive sstep : SockState → Label → SockState → Prop :=
  | sstep_connect st sid :
      sid ∉ st.(connected) → sstep st (LConnect sid) (connect st sid)
  | sstep_disconnect st sid :
      sid ∈ st.(connected) → sstep st (LDisconnect sid) (disconnect st sid)
  | sstep_event st sid now ev arg :
      sid ∈ st.(connected) →
      let o := on_event st sid now ev arg in
      sstep st (LEvent sid ev ((λ e, (e, deliver o.(o_state) e.(e_to))) <$> o.(o_emits)))
        o.(o_state).

(** The states reachable from the server with no client. *)
Inductive sreachable : SockState → Prop :=
  | sreach_init : sreachable (mkSock ∅ ∅)
  | sreach_step st l st' : sreachable st → sstep st l st' → sreachable st'.

End handlers.

(** ** Lemmas *)

Section props.
Context `{Jwt}.

Lemma socket_auth_inr now kvs data :
  socket_auth now kvs = inr data →
  ∃ t payload uid, obj_get "token" kvs = Some (JStr t) ∧ jwt_decode now t = JwtOk payload ∧
    obj_get "user_id" payload = Some uid ∧ data = py_dict_set "user_id" uid kvs.
Proof.
  unfold socket_auth. destruct (obj_get "token" kvs) as [tok|]; simpl; [|done].
  destruct (py_truthy tok); simpl; [|done].
  destruct tok as [| | | t | | |]; try done.
  destruct (jwt_decode now t) as [payload| | | | |] eqn:Ed; try done.
  destruct (obj_get "user_id" payload) as [uid|] eqn:Eu; [|done].
  intros [= <-]. by exists t, payload, uid.
Qed.

Lemma obj_get_snoc k v l : obj_get k (l ++ [(k, v)]) = Some v.
Proof. rewrite obj_get_last, last_get_app. simpl. by rewrite bool_decide_eq_true_2. Qed.

(** Every emit of a handler carries the [user_id] of its payload dict. *)
Lemma handler_user_id st sid ev data e :
  e ∈ (match ev with
       | EvJoin => handle_join st sid data
       | EvLeave => handle_leave st sid data
       | EvOffer => relay "offer" "sdp" st data
       | EvAnswer => relay "answer" "sdp" st data
       | EvIce => relay "ice_candidate" "candidate" st data
       | EvChat => handle_chat_message st data
       end).(o_emits) →
  e.(e_event) ≠ "error"%string ∧ obj_get "user_id" e.(e_payload) = obj_get "user_id" data.
Proof.
  destruct ev; unfold handle_join, handle_leave, relay, handle_chat_message;
    repeat case_match; simpl; rewrite ?elem_of_nil, ?list_elem_of_singleton;
    intros; subst; try done; simpl; split; try done.
  all: first [by rewrite (obj_get_snoc _ _ [_]) | by vm_compute].
Qed.

(** C25: the [user_id] that a Socket.IO event forwards to other clients
    is the one of the sender's valid token: every emit other than the
    [error] answer comes from an event whose payload holds a token that
    [jwt.decode] accepts with a [user_id], and carries that [user_id],
    whatever [user_id] the client put in its payload. *)
Theorem socket_user_id_authentic st sid now ev arg e :
  e ∈ (on_event st sid now ev arg).(o_emits) → e.(e_event) ≠ "error"%string →
  ∃ kvs t payload, arg = JObj kvs ∧ obj_get "token" kvs = Some (JStr t) ∧
    jwt_decode now t = JwtOk payload ∧ is_Some (obj_get "user_id" payload) ∧
    obj_get "user_id" e.(e_payload) = obj_get "user_id" payload.
Proof.
  unfold on_event. destruct arg as [| | | | | |kvs]; simpl; try (intros []%elem_of_nil).
  destruct (socket_auth now kvs) as [msg|data] eqn:Ea.
  { simpl. rewrite list_elem_of_singleton. by intros ->. }
  apply socket_auth_inr in Ea as (t & payload & uid & Ht & Hd & Hu & ->).
  intros [_ He]%handler_user_id _. exists kvs, t, payload. rewrite Hu.
  split_and!; try done. by rewrite He, obj_get_dict_set, bool_decide_eq_true_2.
Qed.

(** An event changes no connection and no membership but the sender's. *)
Lemma on_event_frame st sid now ev arg :
  (on_event st sid now ev arg).(o_state).(connected) = st.(connected) ∧
  ∀ p, p.2 ≠ sid → p ∈ (on_event st sid now ev arg).(o_state).(members) ↔ p ∈ st.(members).
Proof.
  unfold on_event, handle_join, handle_leave, relay, handle_chat_message, join_room, leave_room.
  split; [by repeat case_match|].
  intros [r s] Hs. repeat case_match; simpl; set_solver.
Qed.

(** In every state the server reaches, every member of a room is a
    connected client: a client's memberships come from its connection
    and its own [join] events, and disconnection drops them all. *)
Theorem socket_rooms_invariant st :
  sreachable st → ∀ r s, (r, s) ∈ st.(members) → s ∈ st.(connected).
Proof.
  induction 1 as [|st l st' Hr IH Hs]; [set_solver|].
  destruct Hs as [st sid Hsid|st sid Hsid|st sid now ev arg Hsid o]; simpl.
  - set_solver.
  - intros r s. rewrite elem_of_filter. set_solver.
  - intros r s Hp. destruct (on_event_frame st sid now ev arg) as [Hc Hm].
    fold o in Hc, Hm. rewrite Hc.
    destruct (decide (s = sid)) as [->|Hne]; [done|].
    apply (Hm (r, s) Hne) in Hp. by eapply IH.
Qed.

(** C24: the relay handlers restrict neither who may receive an SDP
    offer nor how many: an authenticated [offer] whose [target_user] is
    the list [[null]] is one emit, delivered to every connected client
    of the server, in any meeting or none. *)
Theorem socket_offer_reaches_everyone st sid now kvs data :
  socket_auth now kvs = inr data → obj_get "target_user" data = Some (JList [JNull]) →
  is_Some (obj_get "sdp" data) →
  ∃ e, (on_event st sid now EvOffer (JObj kvs)).(o_emits) = [e] ∧
    deliver (on_event st sid now EvOffer (JObj kvs)).(o_state) e.(e_to) = st.(connected).
Proof.
  intros Ha Ht [x Hx]. pose proof Ha as (t & payload & uid & _ & _ & _ & ->)%socket_auth_inr.
  unfold on_event. rewrite Ha. unfold relay, get_or_null. rewrite Ht, Hx, obj_get_dict_set.
  rewrite bool_decide_eq_true_2 by done. simpl. eexists. split; [done|].
  unfold deliver. simpl. set_solver.
Qed.

End props.

(** A client joins any room it names: the socket layer consults neither
    the meetings nor the participant rows (no admission, no ban). *)
Lemma socket_join_any_room `{Jwt} st sid now kvs data s :
  socket_auth now kvs = inr data → obj_get "meeting_code" data = Some (JStr s) → s ≠ ""%string →
  (RoomStr s, sid) ∈ (on_event st sid now EvJoin (JObj kvs)).(o_state).(members).
Proof.
  intros Ha Hm Hs. unfold on_event. rewrite Ha. unfold handle_join, get_or_null. rewrite Hm. simpl.
  rewrite (proj2 (String.eqb_neq s "") Hs). simpl.
  destruct (obj_get "user_id" data); simpl; set_solver.
Qed.

(** ** A scenario *)

(** Tokens [t1] and [t2] of users 1 and 2; clients [s1] and [s2]. *)
Definition sock_jwt : Jwt := {|
  jwt_encode _ := "";
  jwt_decode _ t :=
    if String.eqb t "t1" then JwtOk [("user_id", JInt 1)]
    else if String.eqb t "t2" then JwtOk [("user_id", JInt 2)]
    else JwtInvalidToken |}.

Definition sock_st0 : SockState := connect (connect (mkSock ∅ ∅) "s1") "s2".

(** [s1] joins the room [m1], claiming to be user 99. *)
Definition sock_join_arg : JVal :=
  JObj [("token", JStr "t1"); ("meeting_code", JStr "m1"); ("user_id", JInt 99)].
Definition sock_st1 : SockState := (@on_event sock_jwt sock_st0 "s1" 0 EvJoin sock_join_arg).(o_state).

(** [s2] posts to [m1] without having joined it: [s1] receives it. *)
Lemma socket_chat_without_join :
  let o := @on_event sock_jwt sock_st1 "s2" 0 EvChat
             (JObj [("token", JStr "t2"); ("meeting_code", JStr "m1");
                    ("message", JStr "hi"); ("timestamp", JInt 5)]) in
  (RoomStr "m1", "s2") ∉ sock_st1.(members) ∧
  ((λ e, (e.(e_event), deliver o.(o_state) e.(e_to))) <$> o.(o_emits)) =
    [("chat_message"%string, {["s1"]})].
Proof. split; [vm_compute; set_solver|vm_compute; reflexivity]. Qed.

(** [s1] sends an offer to user 2, the user of [s2]: the emit goes to the
    room [2], which no client is in. *)
Lemma socket_offer_to_user_lost :
  let o := @on_event sock_jwt sock_st1 "s1" 0 EvOffer
             (JObj [("token", JStr "t1"); ("target_user", JInt 2); ("sdp", JStr "v=0")]) in
  ((λ e, (e.(e_event), deliver o.(o_state) e.(e_to))) <$> o.(o_emits)) =
    [("offer"%string, ∅)].
Proof. vm_compute. reflexivity. Qed.

Lemma socket_offer_reaches_everyone_witness :
  ∃ e, (@on_event sock_jwt sock_st1 "s2" 0 EvOffer
          (JObj [("token", JStr "t2"); ("target_user", JList [JNull]); ("sdp", JStr "v=0")])).(o_emits) = [e] ∧
    deliver (@on_event sock_jwt sock_st1 "s2" 0 EvOffer
          (JObj [("token", JStr "t2"); ("target_user", JList [JNull]); ("sdp", JStr "v=0")])).(o_state)
      e.(e_to) = sock_st1.(connected).
Proof.
  apply (@socket_offer_reaches_everyone sock_jwt sock_st1 "s2" 0
           [("token", JStr "t2"); ("target_user", JList [JNull]); ("sdp", JStr "v=0")]
           [("token", JStr "t2"); ("target_user", JList [JNull]); ("sdp", JStr "v=0"); ("user_id", JInt 2)]).
  - vm_compute. reflexivity.
  - vm_compute. reflexivity.
  - vm_compute. eexists. reflexivity.
Defined.

Lemma socket_user_id_authentic_witness :
  ∃ kvs t payload, sock_join_arg = JObj kvs ∧ obj_get "token" kvs = Some (JStr t) ∧
    @jwt_decode sock_jwt 0 t = JwtOk payload ∧ is_Some (obj_get "user_id" payload) ∧
    obj_get "user_id" [("user_id", JInt 1)] = obj_get "user_id" payload.
Proof.
  apply (@socket_user_id_authentic sock_jwt sock_st0 "s1" 0 EvJoin sock_join_arg
           (mkEmit "user_joined" [("user_id", JInt 1)] [Some (RoomStr "m1")])).
  - vm_compute. apply list_elem_of_singleton. reflexivity.
  - discriminate.
Defined.

End Socket.
