(* ===== verification/Legacy.v ===== *)
(** The legacy blueprints [routes/auth.py] and [routes/meetings.py] at
    the root of the Flask service (outside [src/]).  The app factory of
    [src/__init__.py] does not register them, and they import a module
    [app] and models ([models.meeting.Meeting] with [code], [host_id],
    [is_active]; [models.user.User] with [username]) that the repository
    does not contain.  They are modelled as written, over the columns
    they use: the rows hold exactly the attributes the handlers read and
    write, and what the missing models would provide is an input (the
    meeting [code], the password salt) or stated in the header of the
    development ([is_active] defaults to True, [created_at] is the clock,
    the password is hashed by werkzeug as in [src/models/user.py]).

    A username that is not a string cannot be bound to the [String]
    column of the query and is taken to fail (500).

    The JSON body is any JSON value: [k in data] is Python's membership
    (keys of an object, elements of a list, substrings of a string, a
    TypeError otherwise), and an exception no handler catches is the
    500 of Flask. *)

From Stdlib Require Import Ascii QArith_base.
From stdpp Require Import sorting.
From S2P Require Import Prelude Time Python Users Auth.
Import Auth.

Module Legacy.

(** ** Rows and the database *)

(** A user row: the lower-cased email, the username as sent and the
    password hash. *)
Record LUser := mkLUser { lu_email : string; lu_username : string; lu_hash : string }.

(** A meeting row: [code], [title] (as sent), [host_id], [is_active],
    [created_at]. *)
Record LMeeting := mkLMeeting {
  lm_code : string; lm_title : JVal; lm_host_id : Z; lm_is_active : bool; lm_created_at : Z
}.

Record LDb := mkLDb {
  l_users : gmap Z LUser; l_meetings : gmap Z LMeeting; l_next_user : Z; l_next_meeting : Z
}.

(** The answers: an error with its status and message, the 500 of an
    uncaught exception, a token with the user's [to_dict], a user's
    [to_dict], a meeting's [to_dict] with its status, and the list of
    [list_meetings]. *)
Inductive LResp :=
  | LError (status : Z) (msg : string)
  | LServerError
  | LToken (status : Z) (token : string) (uid : Z)
  | LUserDict (uid : Z)
  | LMeetingDict (status : Z) (mid : Z)
  | LMeetingList (mids : list Z).

(** ** Python on the request body *)

(** [v.lower()]: AttributeError on a non-string. *)
Definition lower_of (v : JVal) : option string :=
  match v with JStr s => Some (py_lower s) | _ => None end.

Section legacy.
Context `{Hasher} `{Jwt}.

(** [email_validator.validate_email] on a string: whether it raises
    [EmailNotValidError] (syntax and, by default, deliverability). *)
Variable email_valid : string → bool.

(** ** token_required (routes/auth.py lines 12-34) *)

(** The check of the token once it has been cut out of the header. *)
Definition legacy_check_token (db : LDb) (tok : string) (now : Z) : LResp + Z :=
  if String.eqb tok "" then inl (LError 401 "Token is missing") else
  match jwt_decode now tok with
  | JwtOk data =>
      match obj_get "user_id" data with
      | Some (JInt uid) =>
          if bool_decide (is_Some (db.(l_users) !! uid)) then inr uid
          else inl (LError 401 "User not found")
      | _ => inl LServerError
      end
  | JwtExpired => inl (LError 401 "Token has expired")
  | JwtInvalidToken | JwtInvalidAlgorithm => inl (LError 401 "Invalid token")
  | JwtInvalidKey | JwtOtherError => inl LServerError
  end.

(** The current user, or the answer of the decorator.  [split(' ')[1]]
    raises IndexError on a header without a space (500); the word before
    the space is not looked at; an empty token is 'Token is missing'. *)
Definition legacy_token_required (db : LDb) (hdr : option string) (now : Z) : LResp + Z :=
  match hdr with
  | None => inl (LError 401 "Token is missing")
  | Some h =>
    match py_split_1 " " h with
    | None => inl LServerError
    | Some tok => legacy_check_token db tok now
    end
  end.

(** [jwt.encode({'user_id': id, 'exp': utcnow() + timedelta(days=1)})]. *)
Definition legacy_token (uid now : Z) : string :=
  jwt_encode [("user_id", JInt uid); ("exp", JInt (py_timestamp (now + 86400 secs)))].

(** ** register, login, me (routes/auth.py lines 36-103) *)

Definition legacy_register (db : LDb) (data : JVal) (salt : string) (now : Z) : LResp * LDb :=
  match py_all_in ["email"; "username"; "password"] data with
  | None => (LServerError, db)
  | Some false => (LError 400 "Missing required fields", db)
  | Some true =>
    match py_getitem "email" data with
    | Some (JStr e) =>
      if negb (email_valid e) then (LError 400 "Invalid email address", db) else
      let e' := py_lower e in
      if exists_row (λ kv, kv.2.(lu_email) = e') db.(l_users)
      then (LError 400 "Email already registered", db) else
      match py_getitem "username" data with
      | Some (JStr un) =>
        if exists_row (λ kv, kv.2.(lu_username) = un) db.(l_users)
        then (LError 400 "Username already taken", db) else
        match py_getitem "password" data with
        | Some (JStr pw) =>
          let uid := db.(l_next_user) in
          (LToken 201 (legacy_token uid now) uid,
           mkLDb (<[uid := mkLUser e' un (gen_hash salt pw)]> db.(l_users)) db.(l_meetings)
                 (uid + 1) db.(l_next_meeting))
        | _ => (LServerError, db)
        end
      | _ => (LServerError, db)
      end
    | _ => (LServerError, db)
    end
  end.

(** [user.check_password(pw)]: werkzeug raises on a non-string. *)
Definition legacy_check (u : LUser) (pw : JVal) : option bool :=
  match pw with JStr p => Some (check_hash u.(lu_hash) p) | _ => None end.

Definition legacy_login (db : LDb) (data : JVal) (now : Z) : LResp :=
  match py_all_in ["email"; "password"] data with
  | None => LServerError
  | Some false => LError 400 "Missing required fields"
  | Some true =>
    match py_getitem "email" data ≫= lower_of with
    | None => LServerError
    | Some e' =>
      match first_row (λ kv, kv.2.(lu_email) = e') db.(l_users) with
      | None => LError 401 "Invalid email or password"
      | Some (uid, u) =>
        match py_getitem "password" data ≫= legacy_check u with
        | None => LServerError
        | Some false => LError 401 "Invalid email or password"
        | Some true => LToken 200 (legacy_token uid now) uid
        end
      end
    end
  end.

(** [get_current_user] under the decorator. *)
Definition legacy_me (db : LDb) (hdr : option string) (now : Z) : LResp :=
  match legacy_token_required db hdr now with
  | inl r => r
  | inr uid => LUserDict uid
  end.

(** ** The meeting routes (routes/meetings.py lines 8-56) *)

(** [create_meeting]: [Meeting(title=..., host_id=...)] with the code
    the model generates and [is_active] True. *)
Definition legacy_create (db : LDb) (uid : Z) (data : JVal) (code : string) (now : Z) : LResp * LDb :=
  match py_in "title" data with
  | None => (LServerError, db)
  | Some false => (LError 400 "Meeting title is required", db)
  | Some true =>
    match py_getitem "title" data with
    | Some t =>
      let mid := db.(l_next_meeting) in
      (LMeetingDict 201 mid,
       mkLDb db.(l_users) (<[mid := mkLMeeting code t uid true now]> db.(l_meetings))
             db.(l_next_user) (mid + 1))
    | None => (LServerError, db)
    end
  end.

(** [join_meeting]: a read; nothing is written. *)
Definition legacy_join (db : LDb) (code : string) : LResp :=
  match first_row (λ kv, kv.2.(lm_code) = code ∧ kv.2.(lm_is_active) = true) db.(l_meetings) with
  | None => LError 404 "Meeting not found or inactive"
  | Some (mid, _) => LMeetingDict 200 mid
  end.

Definition deactivate (m : LMeeting) : LMeeting :=
  mkLMeeting m.(lm_code) m.(lm_title) m.(lm_host_id) false m.(lm_created_at).

Definition legacy_end (db : LDb) (uid : Z) (code : string) : LResp * LDb :=
  match first_row (λ kv, kv.2.(lm_code) = code ∧ kv.2.(lm_host_id) = uid) db.(l_meetings) with
  | None => (LError 404 "Meeting not found", db)
  | Some (mid, m) =>
    if negb m.(lm_is_active) then (LError 400 "Meeting already ended", db) else
    (LMeetingDict 200 mid,
     mkLDb db.(l_users) (<[mid := deactivate m]> db.(l_meetings)) db.(l_next_user) db.(l_next_meeting))
  end.

(** [order_by(Meeting.created_at.desc())]. *)
Definition lnewer (a b : Z * LMeeting) : Prop := b.2.(lm_created_at) ≤ a.2.(lm_created_at).

#[export] Instance lnewer_dec a b : Decision (lnewer a b).
Proof. unfold lnewer. apply _. Defined.

(** [filter_by(host_id=...).order_by(created_at.desc()).all()]: the
    host's meetings, newest first. *)
Definition legacy_list (db : LDb) (uid : Z) : LResp :=
  LMeetingList ((merge_sort lnewer
                  (map_to_list (filter (λ kv : Z * LMeeting, kv.2.(lm_host_id) = uid) db.(l_meetings)))).*1).

(** ** The requests and the server *)

Inductive LRequest :=
  | LRegister (data : JVal) | LLogin (data : JVal) | LMe (hdr : option string)
  | LCreate (hdr : option string) (data : JVal) | LJoin (hdr : option string) (code : string)
  | LEnd (hdr : option string) (code : string) | LList (hdr : option string).

(** A meeting route behind the decorator. *)
Definition guarded (db : LDb) (hdr : option string) (now : Z) (f : Z → LResp * LDb) : LResp * LDb :=
  match legacy_token_required db hdr now with
  | inl r => (r, db)
  | inr uid => f uid
  end.

(** One request, with the clock, the password salt and the meeting code
    the models would generate. *)
Definition legacy_handle (db : LDb) (req : LRequest) (now : Z) (salt code : string) : LResp * LDb :=
  match req with
  | LRegister data => legacy_register db data salt now
  | LLogin data => (legacy_login db data now, db)
  | LMe hdr => (legacy_me db hdr now, db)
  | LCreate hdr data => guarded db hdr now (λ uid, legacy_create db uid data code now)
  | LJoin hdr c => guarded db hdr now (λ _, (legacy_join db c, db))
  | LEnd hdr c => guarded db hdr now (λ uid, legacy_end db uid c)
  | LList hdr => guarded db hdr now (λ uid, (legacy_list db uid, db))
  end.

Inductive lstep : LDb → LDb → Prop :=
  | lstep_req db req now salt code : lstep db (legacy_handle db req now salt code).2.

Definition lreachable : LDb → LDb → Prop := rtc lstep.

End legacy.

(** ** The invariant of the tables *)

(** Emails are stored lower-cased and are unique, usernames are unique,
    the id sequences are ahead of the rows, and every meeting's host is
    a user. *)
Record legacy_inv (db : LDb) : Prop := {
  li_lower i u : db.(l_users) !! i = Some u → py_lower u.(lu_email) = u.(lu_email);
  li_email_unique i j ui uj : db.(l_users) !! i = Some ui → db.(l_users) !! j = Some uj →
    ui.(lu_email) = uj.(lu_email) → i = j;
  li_name_unique i j ui uj : db.(l_users) !! i = Some ui → db.(l_users) !! j = Some uj →
    ui.(lu_username) = uj.(lu_username) → i = j;
  li_user_fresh i : db.(l_next_user) <= i → db.(l_users) !! i = None;
  li_meeting_fresh i : db.(l_next_meeting) <= i → db.(l_meetings) !! i = None;
  li_hosts i m : db.(l_meetings) !! i = Some m → is_Some (db.(l_users) !! m.(lm_host_id))
}.

(** A meeting row [m'] is a later version of [m]: same code, title and
    host, and active only if [m] was. *)
Definition lm_follows (m m' : LMeeting) : Prop :=
  m'.(lm_code) = m.(lm_code) ∧ m'.(lm_title) = m.(lm_title) ∧ m'.(lm_host_id) = m.(lm_host_id) ∧
  (m'.(lm_is_active) = true → m.(lm_is_active) = true).

(** ** Lemmas *)

Lemma legacy_inv_empty n k : legacy_inv (mkLDb ∅ ∅ n k).
Proof. split; simpl; intros *; rewrite ?lookup_empty; done. Qed.

Section legacy_props.
Context `{Hasher} `{Jwt}.
Variable email_valid : string → bool.

(** A user added by [register]: the new row's email and username are
    not held by another row. *)
Lemma legacy_inv_add_user db u :
  legacy_inv db → py_lower u.(lu_email) = u.(lu_email) →
  (∀ k v, db.(l_users) !! k = Some v → v.(lu_email) ≠ u.(lu_email)) →
  (∀ k v, db.(l_users) !! k = Some v → v.(lu_username) ≠ u.(lu_username)) →
  legacy_inv (mkLDb (<[db.(l_next_user) := u]> db.(l_users)) db.(l_meetings)
                    (db.(l_next_user) + 1) db.(l_next_meeting)).
Proof.
  intros [Hl He Hn Hu Hm Hh] Hlu Hfe Hfn. split; simpl.
  - intros i v. rewrite lookup_insert_Some. intros [[_ <-]|[_ Hi]]; eauto.
  - intros i j ui uj. rewrite !lookup_insert_Some.
    intros [[<- <-]|[Hi Hi']] [[<- <-]|[Hj Hj']] E; eauto;
      [exfalso; by eapply (Hfe j)|exfalso; by eapply (Hfe i)].
  - intros i j ui uj. rewrite !lookup_insert_Some.
    intros [[<- <-]|[Hi Hi']] [[<- <-]|[Hj Hj']] E; eauto;
      [exfalso; by eapply (Hfn j)|exfalso; by eapply (Hfn i)].
  - intros i Hi. rewrite lookup_insert_ne by lia. apply Hu. lia.
  - done.
  - intros i m Hi. apply lookup_insert_is_Some'. right. eauto.
Qed.

Lemma legacy_register_inv db data salt now :
  legacy_inv db → legacy_inv (legacy_register email_valid db data salt now).2.
Proof.
  intros Hinv. unfold legacy_register.
  repeat case_match; simpl; try done. apply legacy_inv_add_user; simpl; [done|apply py_lower_idem| |].
  all: intros k v Hk E; match goal with Hf : exists_row _ _ = false |- _ =>
    apply (proj1 (exists_row_false _ _) Hf k v Hk); simpl in *; congruence end.
Qed.

(** The decorator only answers ids of existing users. *)
Lemma legacy_token_user db hdr now uid :
  legacy_token_required db hdr now = inr uid → is_Some (db.(l_users) !! uid).
Proof.
  unfold legacy_token_required, legacy_check_token.
  intros Ht. repeat case_match; simplify_eq; try done.
  match goal with Hb : bool_decide _ = true |- _ => by apply bool_decide_eq_true in Hb end.
Qed.

Lemma legacy_create_inv db uid data code now :
  legacy_inv db → is_Some (db.(l_users) !! uid) → legacy_inv (legacy_create db uid data code now).2.
Proof.
  intros [Hl He Hn Hu Hm Hh] Huid. unfold legacy_create.
  repeat case_match; simpl; try by split. split; simpl; try done.
  - intros i Hi. rewrite lookup_insert_ne by lia. apply Hm. lia.
  - intros i m. rewrite lookup_insert_Some. intros [[_ <-]|[_ Hi]]; eauto.
Qed.

Lemma legacy_end_inv db uid code :
  legacy_inv db → legacy_inv (legacy_end db uid code).2.
Proof.
  intros [Hl He Hn Hu Hm Hh]. unfold legacy_end.
  repeat case_match; simpl; try by split. split; simpl; try done.
  all: match goal with Hf : first_row _ _ = Some _ |- _ => apply first_row_Some in Hf as [Hk _] end.
  - intros i Hi. rewrite lookup_insert_ne; [by apply Hm|]. intros ->. by rewrite Hm in Hk.
  - intros i m'. rewrite lookup_insert_Some. intros [[<- <-]|[_ Hi]]; simpl; eauto.
Qed.

Lemma legacy_handle_inv db req now salt code :
  legacy_inv db → legacy_inv (legacy_handle email_valid db req now salt code).2.
Proof.
  intros Hinv. destruct req; simpl; try done; [by apply legacy_register_inv|..];
    unfold guarded; destruct (legacy_token_required db hdr now) as [r|uid] eqn:E; try done;
    [apply legacy_create_inv; [done|by eapply legacy_token_user]|apply legacy_end_inv, Hinv].
Qed.

(** C30: the tables of the legacy service stay consistent.  From a
    consistent state, every sequence of requests keeps the emails
    lower-cased and unique, the usernames unique, the id sequences ahead
    of the rows, and the host of every meeting an existing user. *)
Theorem legacy_inv_reachable db db' :
  legacy_inv db → lreachable email_valid db db' → legacy_inv db'.
Proof.
  intros Hinv Hr. induction Hr as [db|db1 db2 db3 Hs _ IH]; [done|].
  apply IH. destruct Hs. by apply legacy_handle_inv.
Qed.

Lemma py_all_in_cons k ks data :
  py_all_in (k :: ks) data = Some true ↔ py_in k data = Some true ∧ py_all_in ks data = Some true.
Proof. simpl. destruct (py_in k data) as [[]|]; naive_solver. Qed.

(** A registration body logs its user in.  After a successful
    legacy [register], the same JSON body sent to [login] is answered
    200 with a token for the new user, whatever case the email was
    sent in, when the hash library accepts the password a hash was made
    of. *)
Theorem legacy_register_then_login `{!HasherLaws} db data salt now now' tok uid db' :
  legacy_inv db →
  legacy_register email_valid db data salt now = (LToken 201 tok uid, db') →
  legacy_login db' data now' = LToken 200 (legacy_token uid now') uid.
Proof.
  intros Hinv Hreg. pose proof (legacy_register_inv db data salt now Hinv) as Hinv'.
  rewrite Hreg in Hinv'. simpl in Hinv'. unfold legacy_register in Hreg.
  destruct (py_all_in _ data) as [[]|] eqn:Hall; try done.
  destruct (py_getitem "email" data) as [[| | |e| | |]|] eqn:He; try done.
  destruct (email_valid e); simpl in Hreg; [|done].
  destruct (exists_row _ _); [done|].
  destruct (py_getitem "username" data) as [[| | |un| | |]|] eqn:Hu; try done.
  destruct (exists_row _ _); [done|].
  destruct (py_getitem "password" data) as [[| | |pw| | |]|] eqn:Hp; try done.
  simplify_eq. unfold legacy_login.
  apply py_all_in_cons in Hall as [Hin1 Hall]. apply py_all_in_cons in Hall as [_ Hall].
  apply py_all_in_cons in Hall as [Hin3 _]. simpl. rewrite Hin1, Hin3, He. simpl.
  rewrite (first_row_unique _ _ (l_next_user db) (mkLUser (py_lower e) un (gen_hash salt pw))).
  - rewrite Hp. simpl. by rewrite check_gen.
  - intros k1 v1 k2 v2 Hk1 Hk2 E1 E2. simpl in *. eapply (li_email_unique _ Hinv'); eauto. congruence.
  - apply lookup_insert_Some. by left.
  - done.
Qed.

(** C31: the legacy decorator reads the token after the first space and
    nothing else of the header.  A header without a space makes
    [split(' ')[1]] raise IndexError, answered 500; a header
    [<word> <token>] is decided by the token alone, whatever the word
    ([Bearer], [Basic], anything). *)
Theorem legacy_token_header db h scheme tok now :
  (str_has " " h = false → legacy_token_required db (Some h) now = inl LServerError) ∧
  (str_has " " scheme = false → str_has " " tok = false →
   legacy_token_required db (Some (scheme +:+ String " " tok)) now = legacy_check_token db tok now).
Proof.
  unfold legacy_token_required. split.
  - intros Hh. by rewrite py_split_1_none.
  - intros Hs Ht. by rewrite py_split_1_app.
Qed.

Lemma lm_follows_refl m : lm_follows m m.
Proof. unfold lm_follows. naive_solver. Qed.

Lemma lm_follows_trans m1 m2 m3 : lm_follows m1 m2 → lm_follows m2 m3 → lm_follows m1 m3.
Proof. unfold lm_follows. intros (A1 & B1 & C1 & D1) (A2 & B2 & C2 & D2). split_and!; [congruence..|auto]. Qed.

(** One request keeps every meeting row, as a later version of itself. *)
Lemma legacy_handle_meetings db req now salt code i m :
  legacy_inv db → db.(l_meetings) !! i = Some m →
  ∃ m', (legacy_handle email_valid db req now salt code).2.(l_meetings) !! i = Some m' ∧ lm_follows m m'.
Proof.
  intros Hinv Hi.
  assert (i < db.(l_next_meeting)).
  { destruct (decide (i < db.(l_next_meeting))); [done|]. rewrite (li_meeting_fresh _ Hinv) in Hi by lia. done. }
  destruct req; simpl; unfold guarded;
    try (destruct (legacy_token_required db hdr now); simpl);
    try (by eexists; split; [|apply lm_follows_refl]).
  - unfold legacy_register. repeat case_match; simpl; eexists; (split; [done|apply lm_follows_refl]).
  - unfold legacy_create. repeat case_match; simpl; eexists;
      (split; [|apply lm_follows_refl]); try done. rewrite lookup_insert_ne by lia. done.
  - unfold legacy_end. repeat case_match; simpl; try (eexists; split; [done|apply lm_follows_refl]).
    match goal with Hf : first_row _ _ = Some (?k, _) |- _ =>
      apply first_row_Some in Hf as [Hk _]; destruct (decide (k = i)) as [<-|Hne] end.
    + rewrite Hk in Hi. simplify_eq. eexists. split; [apply lookup_insert_Some; by left|].
      unfold lm_follows, deactivate. simpl. naive_solver.
    + eexists. split; [rewrite lookup_insert_ne by done; done|apply lm_follows_refl].
Qed.

(** Legacy meetings are never lost nor revived.  Along any run from
    a consistent state, a meeting row stays, with its code, title and
    host unchanged, and a meeting that has been ended is never active
    again: [end_meeting] is the only write, and it only clears
    [is_active]. *)
Theorem legacy_meetings_monotone db db' i m :
  legacy_inv db → lreachable email_valid db db' → db.(l_meetings) !! i = Some m →
  ∃ m', db'.(l_meetings) !! i = Some m' ∧ lm_follows m m'.
Proof.
  intros Hinv Hr. revert m. induction Hr as [db|db1 db2 db3 Hs _ IH]; intros m Hi.
  - exists m. split; [done|apply lm_follows_refl].
  - destruct Hs as [db1 req now salt code].
    destruct (legacy_handle_meetings db1 req now salt code i m Hinv Hi) as (m2 & H2 & F2).
    destruct (IH (legacy_handle_inv db1 req now salt code Hinv) m2 H2) as (m3 & H3 & F3).
    exists m3. split; [done|by eapply lm_follows_trans].
Qed.

End legacy_props.

(** ** Scenarios *)

Definition ldb0 : LDb := mkLDb ∅ ∅ 1 1.
Definition lbody : JVal :=
  JObj [("email", JStr "Ann@X.io"); ("username", JStr "ann"); ("password", JStr "pw")].
Definition lrun (db : LDb) (req : LRequest) (now : Z) (code : string) : LResp * LDb :=
  @legacy_handle toy_hasher toy_jwt (λ _, true) db req now "salt" code.
Definition ldb1 : LDb := (lrun ldb0 (LRegister lbody) 0 "c1").2.
(** User 1 creates meeting [c1], then ends it. *)
Definition ldb2 : LDb := (lrun ldb1 (LCreate (Some "Bearer tok") (JObj [("title", JStr "sync")])) 10 "c1").2.
Definition ldb3 : LDb := (lrun ldb2 (LEnd (Some "Bearer tok") "c1") 20 "c2").2.

(** The registration of [lbody] keeps the tables consistent. *)
Lemma legacy_inv_reachable_witness :
  legacy_inv ldb0 ∧ @lreachable toy_hasher toy_jwt (λ _, true) ldb0 ldb1 ∧ legacy_inv ldb1.
Proof.
  assert (legacy_inv ldb0) as H0 by apply legacy_inv_empty.
  assert (@lreachable toy_hasher toy_jwt (λ _, true) ldb0 ldb1) as Hr
    by (apply rtc_once; constructor).
  split_and!; [done|done|]. exact (@legacy_inv_reachable toy_hasher toy_jwt (λ _, true) ldb0 ldb1 H0 Hr).
Defined.

(** [Ann@X.io] registers and logs in with the same body. *)
Lemma legacy_register_then_login_witness :
  legacy_inv ldb0 ∧
  @legacy_register toy_hasher toy_jwt (λ _, true) ldb0 lbody "salt" 0 = (LToken 201 "tok" 1, ldb1) ∧
  @legacy_login toy_hasher toy_jwt ldb1 lbody 5 = LToken 200 (@legacy_token toy_jwt 1 5) 1.
Proof.
  assert (legacy_inv ldb0) as H0 by apply legacy_inv_empty.
  assert (@legacy_register toy_hasher toy_jwt (λ _, true) ldb0 lbody "salt" 0 = (LToken 201 "tok" 1, ldb1))
    as Hreg by (vm_compute; reflexivity).
  split_and!; [done|done|].
  exact (@legacy_register_then_login toy_hasher toy_jwt (λ _, true) toy_hasher_laws ldb0 lbody
           "salt" 0 5 "tok" 1 ldb1 H0 Hreg).
Defined.

(** [tok] alone is a 500; [Basic tok] is checked as [Bearer tok] is. *)
Lemma legacy_token_header_witness :
  str_has " " "tok" = false ∧ str_has " " "Basic" = false ∧
  @legacy_token_required toy_jwt ldb1 (Some "tok") 0 = inl LServerError ∧
  @legacy_token_required toy_jwt ldb1 (Some ("Basic" +:+ String " " "tok")) 0 =
    @legacy_check_token toy_jwt ldb1 "tok" 0.
Proof.
  destruct (@legacy_token_header toy_jwt ldb1 "tok" "Basic" "tok" 0) as [H1 H2].
  split_and!; [done|done|by apply H1|by apply H2].
Defined.

(** Any word before the token is accepted, and a lone [Bearer] is a 500. *)
Example legacy_any_scheme :
  @legacy_token_required toy_jwt ldb1 (Some "Basic tok") 0 = inr 1 ∧
  @legacy_token_required toy_jwt ldb1 (Some "Bearer") 0 = inl LServerError.
Proof. split; vm_compute; reflexivity. Qed.

(** Meeting [c1] survives its end, inactive. *)
Lemma legacy_meetings_monotone_witness :
  legacy_inv ldb1 ∧ @lreachable toy_hasher toy_jwt (λ _, true) ldb1 ldb3 ∧
  ldb1.(l_meetings) !! 1 = None ∧ ldb2.(l_meetings) !! 1 = Some (mkLMeeting "c1" (JStr "sync") 1 true 10) ∧
  ∃ m', ldb3.(l_meetings) !! 1 = Some m' ∧ lm_follows (mkLMeeting "c1" (JStr "sync") 1 true 10) m'.
Proof.
  assert (legacy_inv ldb1) as H1 by (apply legacy_handle_inv, legacy_inv_empty).
  assert (legacy_inv ldb2) as H2 by (by apply legacy_handle_inv).
  assert (@lreachable toy_hasher toy_jwt (λ _, true) ldb2 ldb3) as Hr by (apply rtc_once; constructor).
  split_and!; [done| |vm_compute; reflexivity|vm_compute; reflexivity|].
  - eapply rtc_l; [|exact Hr]. constructor.
  - apply (@legacy_meetings_monotone toy_hasher toy_jwt (λ _, true) ldb2 ldb3 1 _ H2 Hr).
    vm_compute. reflexivity.
Defined.

End Legacy.
