(* ===== verification/Migration.v ===== *)
(** The Alembic migration [migrations/versions/initial_schema.py]: its
    [upgrade] (five [create_table] and 20 [create_index]) and its
    [downgrade] (the [drop_index]es, then the [drop_table]s), run
    against a PostgreSQL catalog.

    The catalog maps table names to their definition (columns with type,
    nullability, server default and [onupdate], primary key, foreign
    keys, unique constraints) and index names to the indexed table and
    columns.  Each DDL statement fails as PostgreSQL fails it: creating
    a relation or an index that exists, a foreign key to a missing table
    or to columns that are neither its primary key nor one of its unique
    constraints, an index on a missing table or column, dropping what
    does not exist, or dropping a table another table references.
    Dropping a table drops its indexes.  The implicit indexes of primary
    keys and unique constraints, which share the namespace of relations,
    are not tracked. *)

From S2P Require Import Prelude.

Module Migration.

(** ** The DDL *)

Inductive SqlType := TInteger | TString (n : Z) | TText | TDateTime | TBoolean | TFloat | TJson | TJsonb.

(** [server_default]: none, [sa.func.now()], or a literal. *)
Inductive SDefault := NoDefault | ServerNow | ServerLit (s : string).

Record Column := mkColumn {
  col_name : string; col_type : SqlType; col_nullable : bool; col_default : SDefault;
  col_onupdate_now : bool
}.

(** [ondelete=]; none given is NO ACTION. *)
Inductive OnDelete := Cascade | SetNull | NoAction.

Record ForeignKey := mkFK {
  fk_cols : list string; fk_table : string; fk_refcols : list string; fk_ondelete : OnDelete
}.

Record Table := mkTable {
  t_columns : list Column; t_pk : list string; t_fks : list ForeignKey;
  t_uniques : list (list string)
}.

(** An index: its table and columns, whether it is [UNIQUE], whether
    it uses GIN. *)
Record Index := mkIndex { ix_table : string; ix_cols : list string; ix_unique : bool; ix_gin : bool }.

Inductive Ddl :=
  | CreateTable (name : string) (t : Table)
  | CreateIndex (name : string) (ix : Index)
  | DropIndex (name : string)
  | DropTable (name : string).

Record Catalog := mkCatalog { tables : gmap string Table; indexes : gmap string Index }.

#[export] Instance SqlType_eq_dec : EqDecision SqlType.
Proof. solve_decision. Defined.
#[export] Instance SDefault_eq_dec : EqDecision SDefault.
Proof. solve_decision. Defined.
#[export] Instance OnDelete_eq_dec : EqDecision OnDelete.
Proof. solve_decision. Defined.

(** ** PostgreSQL's checks *)

Definition column_names (t : Table) : list string := col_name <$> t.(t_columns).

(** The referenced columns of a foreign key are the primary key or a
    unique constraint of the referenced table (itself, for a
    self-reference). *)
Definition fk_ok (c : Catalog) (name : string) (t : Table) (fk : ForeignKey) : bool :=
  let target := if bool_decide (fk.(fk_table) = name) then Some t else c.(tables) !! fk.(fk_table) in
  match target with
  | None => false
  | Some r =>
      bool_decide (Forall (λ k, k ∈ column_names t) fk.(fk_cols)) &&
      bool_decide (length fk.(fk_cols) = length fk.(fk_refcols)) &&
      bool_decide (fk.(fk_refcols) = r.(t_pk) ∨ fk.(fk_refcols) ∈ r.(t_uniques))
  end.

Definition table_ok (c : Catalog) (name : string) (t : Table) : bool :=
  bool_decide (NoDup (column_names t)) &&
  bool_decide (Forall (λ k, k ∈ column_names t) t.(t_pk)) &&
  bool_decide (Forall (λ u, Forall (λ k, k ∈ column_names t) u) t.(t_uniques)) &&
  forallb (fk_ok c name t) t.(t_fks).

(** No table other than [name] has a foreign key to [name]. *)
Definition unreferenced (c : Catalog) (name : string) : bool :=
  bool_decide (map_Forall (λ k t, k = name ∨ name ∉ fk_table <$> t.(t_fks)) c.(tables)).

(** One statement; [None] is the error PostgreSQL raises, which aborts
    the migration's transaction. *)
Definition apply_ddl (c : Catalog) (op : Ddl) : option Catalog :=
  match op with
  | CreateTable n t =>
      if bool_decide (is_Some (c.(tables) !! n)) then None
      else if table_ok c n t then Some (mkCatalog (<[n := t]> c.(tables)) c.(indexes)) else None
  | CreateIndex n ix =>
      if bool_decide (is_Some (c.(indexes) !! n)) then None else
      match c.(tables) !! ix.(ix_table) with
      | Some t =>
          if bool_decide (Forall (λ k, k ∈ column_names t) ix.(ix_cols))
          then Some (mkCatalog c.(tables) (<[n := ix]> c.(indexes))) else None
      | None => None
      end
  | DropIndex n =>
      if bool_decide (is_Some (c.(indexes) !! n))
      then Some (mkCatalog c.(tables) (delete n c.(indexes))) else None
  | DropTable n =>
      if bool_decide (is_Some (c.(tables) !! n)) && unreferenced c n
      then Some (mkCatalog (delete n c.(tables)) (filter (λ kv, kv.2.(ix_table) ≠ n) c.(indexes)))
      else None
  end.

(** The statements in order, stopping at the first error. *)
Fixpoint run (c : Catalog) (ops : list Ddl) : option Catalog :=
  match ops with
  | [] => Some c
  | op :: ops' => apply_ddl c op ≫= λ c', run c' ops'
  end.

(** ** initial_schema.py *)

Definition col (n : string) (ty : SqlType) (nullable : bool) (d : SDefault) : Column :=
  mkColumn n ty nullable d false.
(** [updated_at]: [server_default=sa.func.now(), onupdate=sa.func.now()]. *)
Definition updated_col : Column := mkColumn "updated_at" TDateTime false ServerNow true.

(** Lines 17-46. *)
Definition users_table : Table :=
  mkTable
    [col "id" TInteger false NoDefault; col "email" (TString 120) false NoDefault;
     col "name" (TString 100) false NoDefault; col "password_hash" (TString 128) false NoDefault;
     col "created_at" TDateTime false ServerNow; updated_col;
     col "is_active" TBoolean false (ServerLit "true");
     col "is_email_verified" TBoolean false (ServerLit "false");
     col "email_verification_token" (TString 100) true NoDefault;
     col "email_verification_sent_at" TDateTime true NoDefault;
     col "password_reset_token" (TString 100) true NoDefault;
     col "password_reset_sent_at" TDateTime true NoDefault;
     col "last_login_at" TDateTime true NoDefault;
     col "failed_login_attempts" TInteger false (ServerLit "0");
     col "locked_until" TDateTime true NoDefault;
     col "last_password_change" TDateTime false ServerNow;
     col "last_login_ip" (TString 45) true NoDefault;
     col "login_count" TInteger false (ServerLit "0");
     col "preferences" TJsonb false (ServerLit "{}")]
    ["id"] [] [["email"]; ["name"]].

(** Lines 49-70. *)
Definition meetings_table : Table :=
  mkTable
    [col "id" TInteger false NoDefault; col "title" (TString 200) false NoDefault;
     col "description" TText true NoDefault; col "start_time" TDateTime false NoDefault;
     col "end_time" TDateTime false NoDefault; col "created_by" TInteger false NoDefault;
     col "created_at" TDateTime false ServerNow; updated_col;
     col "ended_at" TDateTime true NoDefault;
     col "meeting_type" (TString 20) false (ServerLit "regular");
     col "max_participants" TInteger true NoDefault;
     col "requires_approval" TBoolean false (ServerLit "false");
     col "is_recorded" TBoolean false (ServerLit "false");
     col "recording_url" (TString 500) true NoDefault;
     col "recurring_pattern" (TString 50) true NoDefault;
     col "parent_meeting_id" TInteger true NoDefault]
    ["id"]
    [mkFK ["created_by"] "users" ["id"] Cascade; mkFK ["parent_meeting_id"] "meetings" ["id"] SetNull]
    [].

(** Lines 73-92. *)
Definition participants_table : Table :=
  mkTable
    [col "id" TInteger false NoDefault; col "meeting_id" TInteger false NoDefault;
     col "user_id" TInteger false NoDefault; col "status" (TString 20) false (ServerLit "pending");
     col "role" (TString 20) false (ServerLit "attendee"); col "joined_at" TDateTime true NoDefault;
     col "left_at" TDateTime true NoDefault; col "is_banned" TBoolean false (ServerLit "false");
     col "created_at" TDateTime false ServerNow; updated_col;
     col "total_time" TInteger true NoDefault; col "connection_quality" TFloat true NoDefault;
     col "participation_score" TFloat true NoDefault; col "feedback" TText true NoDefault]
    ["id"]
    [mkFK ["meeting_id"] "meetings" ["id"] Cascade; mkFK ["user_id"] "users" ["id"] Cascade]
    [].

(** Lines 95-106. *)
Definition co_hosts_table : Table :=
  mkTable
    [col "id" TInteger false NoDefault; col "meeting_id" TInteger false NoDefault;
     col "user_id" TInteger false NoDefault; col "created_at" TDateTime false ServerNow; updated_col]
    ["id"]
    [mkFK ["meeting_id"] "meetings" ["id"] Cascade; mkFK ["user_id"] "users" ["id"] Cascade]
    [["meeting_id"; "user_id"]].

(** Lines 109-120. *)
Definition audit_logs_table : Table :=
  mkTable
    [col "id" TInteger false NoDefault; col "meeting_id" TInteger false NoDefault;
     col "user_id" TInteger false NoDefault; col "action" (TString 50) false NoDefault;
     col "details" TJsonb true NoDefault; col "created_at" TDateTime false ServerNow]
    ["id"]
    [mkFK ["meeting_id"] "meetings" ["id"] Cascade; mkFK ["user_id"] "users" ["id"] Cascade]
    [].

Definition ix (n t : string) (cs : list string) : Ddl := CreateIndex n (mkIndex t cs false false).

(** [upgrade()] (lines 15-146). *)
Definition upgrade_ops : list Ddl :=
  [CreateTable "users" users_table; CreateTable "meetings" meetings_table;
   CreateTable "meeting_participants" participants_table;
   CreateTable "meeting_co_hosts" co_hosts_table;
   CreateTable "meeting_audit_logs" audit_logs_table;
   ix "idx_users_email" "users" ["email"]; ix "idx_users_name" "users" ["name"];
   ix "idx_users_is_active" "users" ["is_active"];
   ix "idx_users_is_email_verified" "users" ["is_email_verified"];
   ix "idx_users_email_verification_token" "users" ["email_verification_token"];
   ix "idx_users_password_reset_token" "users" ["password_reset_token"];
   CreateIndex "idx_users_preferences" (mkIndex "users" ["preferences"] false true);
   ix "idx_meetings_created_by" "meetings" ["created_by"];
   ix "idx_meetings_start_time" "meetings" ["start_time"];
   ix "idx_meetings_end_time" "meetings" ["end_time"];
   ix "idx_meetings_meeting_type" "meetings" ["meeting_type"];
   ix "idx_meetings_parent_id" "meetings" ["parent_meeting_id"];
   ix "idx_meeting_participants_meeting_id" "meeting_participants" ["meeting_id"];
   ix "idx_meeting_participants_user_id" "meeting_participants" ["user_id"];
   ix "idx_meeting_participants_status" "meeting_participants" ["status"];
   ix "idx_meeting_co_hosts_meeting_id" "meeting_co_hosts" ["meeting_id"];
   ix "idx_meeting_co_hosts_user_id" "meeting_co_hosts" ["user_id"];
   ix "idx_meeting_audit_logs_meeting_id" "meeting_audit_logs" ["meeting_id"];
   ix "idx_meeting_audit_logs_user_id" "meeting_audit_logs" ["user_id"];
   ix "idx_meeting_audit_logs_created_at" "meeting_audit_logs" ["created_at"]].

(** [downgrade()] (lines 148-176). *)
Definition downgrade_ops : list Ddl :=
  (DropIndex <$> ["idx_meeting_audit_logs_created_at"; "idx_meeting_audit_logs_user_id";
    "idx_meeting_audit_logs_meeting_id"; "idx_meeting_co_hosts_user_id";
    "idx_meeting_co_hosts_meeting_id"; "idx_meeting_participants_status";
    "idx_meeting_participants_user_id"; "idx_meeting_participants_meeting_id";
    "idx_meetings_parent_id"; "idx_meetings_meeting_type"; "idx_meetings_end_time";
    "idx_meetings_start_time"; "idx_meetings_created_by"; "idx_users_preferences";
    "idx_users_password_reset_token"; "idx_users_email_verification_token";
    "idx_users_is_email_verified"; "idx_users_is_active"; "idx_users_name"; "idx_users_email"]) ++
  (DropTable <$> ["meeting_audit_logs"; "meeting_co_hosts"; "meeting_participants"; "meetings"; "users"]).

(** ** Reverting a migration *)

(** The statement that undoes a creation. *)
Definition inv_ddl (op : Ddl) : Ddl :=
  match op with
  | CreateTable n _ => DropTable n
  | CreateIndex n _ => DropIndex n
  | op => op
  end.

Definition is_create (op : Ddl) : Prop :=
  match op with CreateTable _ _ | CreateIndex _ _ => True | _ => False end.

(** A catalog PostgreSQL can be in: every foreign key and every index
    names an existing table. *)
Definition wf (c : Catalog) : Prop :=
  map_Forall (λ _ t, Forall (λ fk, is_Some (c.(tables) !! fk.(fk_table))) t.(t_fks)) c.(tables) ∧
  map_Forall (λ _ ix, is_Some (c.(tables) !! ix.(ix_table))) c.(indexes).

(** ** Lemmas *)

Lemma run_ddl_app c l1 l2 : run c (l1 ++ l2) = run c l1 ≫= λ c', run c' l2.
Proof. revert c. induction l1 as [|op l1 IH]; intros c; simpl; [done|]. destruct (apply_ddl c op); simpl; [apply IH|done]. Qed.

Lemma fk_ok_target c n t fk :
  fk_ok c n t fk = true → fk.(fk_table) = n ∨ is_Some (c.(tables) !! fk.(fk_table)).
Proof. unfold fk_ok. case_bool_decide; [by left|]. destruct (c.(tables) !! _); [by right|done]. Qed.

(** A creation keeps the catalog well formed and its inverse undoes it. *)
Lemma inverse_one c op c1 :
  wf c → is_create op → apply_ddl c op = Some c1 → wf c1 ∧ apply_ddl c1 (inv_ddl op) = Some c.
Proof.
  intros [Hft Hix] Hop Happ. destruct op as [n t|n ix| |]; try done; simpl in Happ.
  - case_bool_decide as Hn; [done|]. destruct (table_ok c n t) eqn:Hok; [|done]. simplify_eq/=.
    apply eq_None_not_Some in Hn.
    assert (Hfk : Forall (λ fk, fk.(fk_table) = n ∨ is_Some (c.(tables) !! fk.(fk_table))) t.(t_fks)).
    { apply andb_true_iff in Hok as [_ Hok]. apply Forall_forall. intros fk Hfk.
      apply (fk_ok_target c n t). exact (proj1 (forallb_forall _ _) Hok fk (proj1 (list_elem_of_In _ _) Hfk)). }
    split; [split|].
    + intros k t' Hk. simpl in Hk |- *. apply lookup_insert_Some in Hk as [[_ <-]|[_ Hk]].
      * eapply Forall_impl; [exact Hfk|]. intros fk [->|Hs]; apply lookup_insert_is_Some'; auto.
      * eapply Forall_impl; [exact (Hft k t' Hk)|]. intros fk Hs. apply lookup_insert_is_Some'; auto.
    + intros k i Hi. simpl in Hi |- *. apply lookup_insert_is_Some'. right. by apply (Hix k i).
    + simpl. rewrite bool_decide_eq_true_2 by (apply lookup_insert_is_Some; by left). simpl.
      unfold unreferenced. rewrite bool_decide_eq_true_2.
      * rewrite delete_insert_id by done. rewrite map_filter_id; [by destruct c|].
        intros k i Hi. simpl. intros E. destruct (Hix k i Hi) as [? Hs]. rewrite E in Hs. congruence.
      * intros k t' Hk. simpl in Hk. rewrite lookup_insert_Some in Hk. destruct Hk as [[-> _]|[Hne Hk]]; [by left|].
        right. intros Hin. apply list_elem_of_fmap in Hin as (fk & Heq & Hin).
        pose proof (proj1 (Forall_forall _ _) (Hft k t' Hk) fk Hin) as [? Hs]. congruence.
  - case_bool_decide as Hn; [done|]. destruct (c.(tables) !! ix_table ix) as [t|] eqn:Ht; [|done].
    case_bool_decide; [|done]. simplify_eq/=. apply eq_None_not_Some in Hn. split; [split|].
    + done.
    + intros k i Hk. simpl in Hk |- *. apply lookup_insert_Some in Hk as [[_ <-]|[_ Hk]]; [by rewrite Ht|by apply (Hix k)].
    + simpl. rewrite bool_decide_eq_true_2 by (apply lookup_insert_is_Some; by left).
      rewrite delete_insert_id by done. by destruct c.
Qed.

(** Creations run in order are undone by their inverses in reverse
    order. *)
Lemma run_inverse c ops c' :
  wf c → Forall is_create ops → run c ops = Some c' →
  wf c' ∧ run c' (reverse (inv_ddl <$> ops)) = Some c.
Proof.
  revert c. induction ops as [|op ops IH]; intros c Hwf Hcr Hrun; simpl in Hrun; [by simplify_eq|].
  apply Forall_cons in Hcr as [Hop Hcr].
  destruct (apply_ddl c op) as [c1|] eqn:H1; [|done]. simpl in Hrun.
  destruct (inverse_one c op c1 Hwf Hop H1) as [Hwf1 Hinv].
  destruct (IH c1 Hwf1 Hcr Hrun) as [Hwf' Hrun'].
  split; [done|]. rewrite fmap_cons, reverse_cons, run_ddl_app, Hrun'. simpl. by rewrite Hinv.
Qed.

Lemma downgrade_is_inverse : downgrade_ops = reverse (inv_ddl <$> upgrade_ops).
Proof. reflexivity. Qed.

Lemma upgrade_creates : Forall is_create upgrade_ops.
Proof. repeat constructor. Qed.

(** C27: [downgrade] undoes [upgrade].  On any well-formed catalog on
    which [upgrade] succeeds, [downgrade] succeeds too and gives back
    exactly the catalog it started from: its [drop_index]es and
    [drop_table]s are the inverses of the creations in reverse order, so
    no table is dropped while another still references it. *)
Theorem migration_roundtrip c c' :
  wf c → run c upgrade_ops = Some c' → run c' downgrade_ops = Some c.
Proof.
  intros Hwf Hup. rewrite downgrade_is_inverse.
  exact (proj2 (run_inverse c upgrade_ops c' Hwf upgrade_creates Hup)).
Qed.

(** ** Scenarios *)

Definition empty_catalog : Catalog := mkCatalog ∅ ∅.
Definition schema : option Catalog := run empty_catalog upgrade_ops.

(** The migration applies to an empty database and comes back. *)
Lemma migration_roundtrip_witness :
  wf empty_catalog ∧ run empty_catalog upgrade_ops = schema ∧ is_Some schema ∧
  ∀ c', schema = Some c' → run c' downgrade_ops = Some empty_catalog.
Proof.
  assert (wf empty_catalog) as Hwf by (split; apply map_Forall_empty).
  split_and!; [done|done|vm_compute; eauto|].
  intros c' Hc. exact (migration_roundtrip empty_catalog c' Hwf Hc).
Defined.

(** A second [upgrade] fails ([users] exists), and a table another
    migration adds with a key to [users] makes [downgrade] fail. *)
Example upgrade_twice_fails : (schema ≫= λ c, run c upgrade_ops) = None.
Proof. vm_compute. reflexivity. Qed.

Example downgrade_blocked :
  (schema ≫= λ c, apply_ddl c (CreateTable "sessions"
     (mkTable [col "id" TInteger false NoDefault; col "user_id" TInteger false NoDefault]
        ["id"] [mkFK ["user_id"] "users" ["id"] Cascade] []))
   ≫= λ c, run c downgrade_ops) = None.
Proof. vm_compute. reflexivity. Qed.

(** [users] has unique constraints on [email] and [name] only: the
    tokens [models/user.py] declares [unique=True] are not unique in the
    database. *)
Example users_uniques :
  (schema ≫= λ c, c.(tables) !! "users") ≫= (λ t, Some t.(t_uniques)) = Some [["email"]; ["name"]].
Proof. vm_compute. reflexivity. Qed.

End Migration.
