(* ===== verification/Models.v ===== *)
(** The declarations of the model classes [src/models/*.py]: every
    [db.Column] of [User], [Meeting], [MeetingParticipant],
    [MeetingCoHost] and [MeetingAuditLog] with its type, nullability,
    client-side [default=] and [onupdate=], [unique=], [index=] and
    [ForeignKey], and the attributes each [__init__] assigns.

    [orm_ddl] is the schema SQLAlchemy's [db.create_all()] emits from
    these declarations (the test suites build their database this way,
    tests/test_meeting.py line 19): one [CREATE TABLE] per class with
    its primary key, its foreign keys (without [ON DELETE], so NO
    ACTION) and a [UNIQUE] per [unique=True] column, then an index
    [ix_<table>_<column>] per [index=True] column ([UNIQUE] when the
    column is also [unique=True]).  Client-side defaults
    are not part of the DDL.  The statements run on the catalog of
    [Migration], which compares them with the migration's tables.

    A column whose [nullable] is not given is nullable unless it is the
    primary key, as SQLAlchemy decides. *)

From S2P Require Import Prelude Migration.
Import Migration.

Module Models.

(** ** Declarations *)

(** A client-side [default=]: none, [lambda: datetime.now(UTC)], or a
    literal. *)
Inductive PyDefault := NoPyDefault | PyNow | PyLit (s : string).

#[export] Instance PyDefault_eq_dec : EqDecision PyDefault.
Proof. solve_decision. Defined.

Record OrmColumn := mkOrmColumn {
  oc_name : string; oc_type : SqlType; oc_pk : bool; oc_nullable : bool;
  oc_default : PyDefault; oc_onupdate_now : bool; oc_unique : bool; oc_index : bool;
  oc_fk : option string
}.

(** A model class: its table, its columns, and the attributes its
    [__init__] assigns. *)
Record OrmTable := mkOrmTable { ot_name : string; ot_columns : list OrmColumn; ot_init : list string }.

(** [id = db.Column(db.Integer, primary_key=True)]. *)
Definition pk_col : OrmColumn := mkOrmColumn "id" TInteger true false NoPyDefault false false false None.

(** A column without key, index or uniqueness. *)
Definition ocol (n : string) (ty : SqlType) (nullable : bool) (d : PyDefault) : OrmColumn :=
  mkOrmColumn n ty false nullable d false false false None.

(** [db.Column(db.Integer, db.ForeignKey('<t>.id'), nullable=...)]. *)
Definition ofk (n t : string) (nullable : bool) : OrmColumn :=
  mkOrmColumn n TInteger false nullable NoPyDefault false false false (Some t).

(** [created_at] and [updated_at]: [default=lambda: datetime.now(UTC)],
    and for [updated_at] also [onupdate=]. *)
Definition created_col : OrmColumn := ocol "created_at" TDateTime false PyNow.
Definition updated_at_col : OrmColumn :=
  mkOrmColumn "updated_at" TDateTime false false PyNow true false false None.

(** [class User] (models/user.py lines 9-34); [__init__] (lines
    36-42) assigns [password_hash] and [last_password_change] through
    [set_password] (lines 44-48). *)
Definition orm_users : OrmTable :=
  mkOrmTable "users"
    [pk_col;
     mkOrmColumn "email" (TString 120) false false NoPyDefault false true true None;
     mkOrmColumn "name" (TString 100) false false NoPyDefault false true true None;
     ocol "password_hash" (TString 128) false NoPyDefault; created_col; updated_at_col;
     ocol "is_active" TBoolean false (PyLit "True");
     ocol "is_email_verified" TBoolean false (PyLit "False");
     mkOrmColumn "email_verification_token" (TString 100) false true NoPyDefault false true false None;
     ocol "email_verification_sent_at" TDateTime true NoPyDefault;
     mkOrmColumn "password_reset_token" (TString 100) false true NoPyDefault false true false None;
     ocol "password_reset_sent_at" TDateTime true NoPyDefault;
     ocol "last_password_change" TDateTime false PyNow;
     ocol "last_login_at" TDateTime true NoPyDefault;
     ocol "last_login_ip" (TString 45) true NoPyDefault;
     ocol "login_count" TInteger false (PyLit "0");
     ocol "failed_login_attempts" TInteger false (PyLit "0");
     ocol "locked_until" TDateTime true NoPyDefault]
    ["email"; "name"; "password_hash"; "last_password_change"; "created_at"; "updated_at"].

(** [class Meeting] (models/meeting.py lines 7-24, [__init__] lines
    32-42). *)
Definition orm_meetings : OrmTable :=
  mkOrmTable "meetings"
    [pk_col; ocol "title" (TString 200) false NoPyDefault; ocol "description" TText true NoPyDefault;
     ocol "start_time" TDateTime false NoPyDefault; ocol "end_time" TDateTime false NoPyDefault;
     ofk "created_by" "users" false; created_col; updated_at_col;
     ocol "ended_at" TDateTime true NoPyDefault;
     ocol "meeting_type" (TString 20) false (PyLit "regular");
     ocol "max_participants" TInteger true NoPyDefault;
     ocol "requires_approval" TBoolean false (PyLit "False");
     ocol "is_recorded" TBoolean false (PyLit "False");
     ocol "recording_url" (TString 500) true NoPyDefault;
     ocol "recurring_pattern" (TString 50) true NoPyDefault;
     ofk "parent_meeting_id" "meetings" true]
    ["title"; "description"; "start_time"; "end_time"; "created_by"; "meeting_type";
     "max_participants"; "requires_approval"; "is_recorded"].

(** [class MeetingParticipant] (models/meeting_participant.py lines
    7-22, [__init__] lines 27-31). *)
Definition orm_participants : OrmTable :=
  mkOrmTable "meeting_participants"
    [pk_col; ofk "meeting_id" "meetings" false; ofk "user_id" "users" false;
     ocol "status" (TString 20) false (PyLit "pending");
     ocol "role" (TString 20) false (PyLit "attendee");
     ocol "joined_at" TDateTime true NoPyDefault; ocol "left_at" TDateTime true NoPyDefault;
     ocol "is_banned" TBoolean false (PyLit "False"); created_col; updated_at_col;
     ocol "total_time" TInteger true NoPyDefault; ocol "connection_quality" TFloat true NoPyDefault;
     ocol "participation_score" TFloat true NoPyDefault; ocol "feedback" TText true NoPyDefault]
    ["meeting_id"; "user_id"; "status"; "role"].

(** [class MeetingCoHost] (models/meeting_co_host.py lines 7-11,
    [__init__] lines 16-18): no [UniqueConstraint]. *)
Definition orm_co_hosts : OrmTable :=
  mkOrmTable "meeting_co_hosts"
    [pk_col; ofk "meeting_id" "meetings" false; ofk "user_id" "users" false; created_col;
     updated_at_col]
    ["meeting_id"; "user_id"].

(** [class MeetingAuditLog] (models/meeting_audit_log.py lines 7-12,
    [__init__] lines 18-22): [details] is [db.JSON]. *)
Definition orm_audit_logs : OrmTable :=
  mkOrmTable "meeting_audit_logs"
    [pk_col; ofk "meeting_id" "meetings" false; ofk "user_id" "users" false;
     ocol "action" (TString 50) false NoPyDefault; ocol "details" TJson true NoPyDefault;
     created_col]
    ["meeting_id"; "user_id"; "action"; "details"].

(** The classes in the order [create_all] creates their tables: by
    foreign-key dependency, ties by name. *)
Definition orm_tables : list OrmTable :=
  [orm_users; orm_meetings; orm_audit_logs; orm_co_hosts; orm_participants].

(** ** The DDL of [create_all] *)

Definition to_column (c : OrmColumn) : Column :=
  mkColumn c.(oc_name) c.(oc_type) c.(oc_nullable) NoDefault false.

(** A column with [unique=True] and [index=True] gets a unique index
    instead of a [UNIQUE] constraint. *)
Definition orm_table (t : OrmTable) : Table :=
  mkTable (to_column <$> t.(ot_columns))
    (oc_name <$> filter (λ c, c.(oc_pk) = true) t.(ot_columns))
    (omap (λ c, (λ r, mkFK [c.(oc_name)] r ["id"] NoAction) <$> c.(oc_fk)) t.(ot_columns))
    ((λ c, [c.(oc_name)]) <$> filter (λ c, c.(oc_unique) && negb c.(oc_index) = true) t.(ot_columns)).

Definition orm_indexes (t : OrmTable) : list Ddl :=
  (λ c, CreateIndex ("ix_" +:+ t.(ot_name) +:+ "_" +:+ c.(oc_name))
          (mkIndex t.(ot_name) [c.(oc_name)] c.(oc_unique) false))
    <$> filter (λ c, c.(oc_index) = true) t.(ot_columns).

Definition orm_ddl : list Ddl :=
  mjoin ((λ t, CreateTable t.(ot_name) (orm_table t) :: orm_indexes t) <$> orm_tables).

(** ** The ORM against the migrated database *)

(** The ORM's [JSON] is stored in the migration's [JSONB]. *)
Definition type_compat (a b : SqlType) : bool :=
  bool_decide (a = b) || bool_decide (a = TJson ∧ b = TJsonb).

(** A mapped column is a column of the table with the same name, a
    compatible type and the same nullability. *)
Definition column_fits (mt : Table) (oc : OrmColumn) : bool :=
  existsb (λ mc, String.eqb mc.(col_name) oc.(oc_name) && type_compat oc.(oc_type) mc.(col_type) &&
                 Bool.eqb mc.(col_nullable) oc.(oc_nullable)) mt.(t_columns).

(** A column the ORM does not map must accept an INSERT that omits it:
    nullable or with a server default. *)
Definition extra_ok (t : OrmTable) (mc : Column) : bool :=
  bool_decide (mc.(col_name) ∈ oc_name <$> t.(ot_columns)) || mc.(col_nullable) ||
  bool_decide (mc.(col_default) ≠ NoDefault).

Definition table_fits (t : OrmTable) (mt : Table) : bool :=
  forallb (column_fits mt) t.(ot_columns) && forallb (extra_ok t) mt.(t_columns).

Definition catalog_fits (c : Catalog) : bool :=
  forallb (λ t, match c.(tables) !! t.(ot_name) with Some mt => table_fits t mt | None => false end)
    orm_tables.

(** A NOT NULL column other than the primary key that a new object
    leaves empty: no client default, and not assigned by [__init__]. *)
Definition unfilled (t : OrmTable) (c : OrmColumn) : bool :=
  negb c.(oc_pk) && negb c.(oc_nullable) && bool_decide (c.(oc_default) = NoPyDefault) &&
  negb (bool_decide (c.(oc_name) ∈ t.(ot_init))).

(** ** Lemmas *)

Lemma column_fits_spec mt oc :
  column_fits mt oc = true →
  ∃ mc, mc ∈ mt.(t_columns) ∧ mc.(col_name) = oc.(oc_name) ∧
    type_compat oc.(oc_type) mc.(col_type) = true ∧ mc.(col_nullable) = oc.(oc_nullable).
Proof.
  unfold column_fits. rewrite existsb_exists. intros (mc & Hin & Hb).
  apply andb_true_iff in Hb as [Hb Hn]. apply andb_true_iff in Hb as [Hs Ht].
  exists mc. split_and!; [by apply list_elem_of_In|by apply String.eqb_eq|done|by apply eqb_prop].
Qed.

Lemma extra_ok_spec t mc :
  extra_ok t mc = true → mc.(col_name) ∉ oc_name <$> t.(ot_columns) →
  mc.(col_nullable) = true ∨ mc.(col_default) ≠ NoDefault.
Proof.
  unfold extra_ok. intros Hb Hn. rewrite bool_decide_eq_false_2 in Hb by done.
  apply orb_true_iff in Hb as [Hb|Hb]; [by left|right]. by apply bool_decide_eq_true in Hb.
Qed.

Lemma catalog_fits_spec c t :
  catalog_fits c = true → t ∈ orm_tables →
  ∃ mt, c.(tables) !! t.(ot_name) = Some mt ∧
    forallb (column_fits mt) t.(ot_columns) = true ∧ forallb (extra_ok t) mt.(t_columns) = true.
Proof.
  unfold catalog_fits. rewrite forallb_forall. intros Hall Ht.
  specialize (Hall t (proj1 (list_elem_of_In _ _) Ht)).
  destruct (c.(tables) !! t.(ot_name)) as [mt|]; [|done].
  apply andb_true_iff in Hall. eauto.
Qed.

Lemma forallb_elem {A} (f : A → bool) l x : forallb f l = true → x ∈ l → f x = true.
Proof. rewrite forallb_forall. intros H Hx. by apply H, list_elem_of_In. Qed.

(** ** Properties *)

(** C28: the model classes fit the migrated database.  After [upgrade]
    on an empty database, the table of every class exists; every column
    the class maps is a column of it with the same name, a compatible
    type ([JSON] in [JSONB]) and the same nullability; and every column
    the class does not map ([users.preferences]) is nullable or has a
    server default.  So each INSERT the ORM emits names existing columns
    and leaves out only columns that accept it. *)
Theorem orm_fits_migration c t :
  run empty_catalog upgrade_ops = Some c → t ∈ orm_tables →
  ∃ mt, c.(tables) !! t.(ot_name) = Some mt ∧
    (∀ oc, oc ∈ t.(ot_columns) → ∃ mc, mc ∈ mt.(t_columns) ∧ mc.(col_name) = oc.(oc_name) ∧
       type_compat oc.(oc_type) mc.(col_type) = true ∧ mc.(col_nullable) = oc.(oc_nullable)) ∧
    (∀ mc, mc ∈ mt.(t_columns) → mc.(col_name) ∉ oc_name <$> t.(ot_columns) →
       mc.(col_nullable) = true ∨ mc.(col_default) ≠ NoDefault).
Proof.
  intros Hc Ht.
  assert (Hfit : catalog_fits c = true).
  { assert (H : match run empty_catalog upgrade_ops with
                | Some c => catalog_fits c | None => false end = true) by (vm_compute; reflexivity).
    by rewrite Hc in H. }
  destruct (catalog_fits_spec c t Hfit Ht) as (mt & Hmt & H1 & H2).
  exists mt. split_and!; [done| |].
  - intros oc Hoc. by apply column_fits_spec, (forallb_elem _ _ _ H1).
  - intros mc Hmc. apply extra_ok_spec, (forallb_elem _ _ _ H2 Hmc).
Qed.

(** C29: a new object of any model class leaves no NOT NULL column empty
    by itself: every NOT NULL column other than the primary key has a
    client-side default or is assigned by the class's [__init__].  (The
    values a handler passes may still be [None], as [meeting.id] before
    a flush in create_meeting.) *)
Theorem constructors_fill_not_null t c :
  t ∈ orm_tables → c ∈ t.(ot_columns) → c.(oc_pk) = false → c.(oc_nullable) = false →
  c.(oc_default) ≠ NoPyDefault ∨ c.(oc_name) ∈ t.(ot_init).
Proof.
  intros Ht Hc Hpk Hn.
  assert (Hall : forallb (λ t, forallb (λ c, negb (unfilled t c)) t.(ot_columns)) orm_tables = true)
    by (vm_compute; reflexivity).
  pose proof (forallb_elem _ _ _ (forallb_elem _ _ _ Hall Ht) Hc) as Hu.
  unfold unfilled in Hu. rewrite Hpk, Hn in Hu. simpl in Hu.
  destruct (decide (c.(oc_default) = NoPyDefault)) as [Hd|Hd]; [right|by left].
  rewrite bool_decide_eq_true_2 in Hu by done. simpl in Hu.
  destruct (decide (c.(oc_name) ∈ t.(ot_init))) as [Hi|Hi]; [done|].
  rewrite bool_decide_eq_false_2 in Hu by done. discriminate.
Qed.

(** ** Scenarios *)

Lemma orm_fits_migration_witness :
  ∃ c, run empty_catalog upgrade_ops = Some c ∧ orm_audit_logs ∈ orm_tables ∧
    ∃ mt, c.(tables) !! "meeting_audit_logs" = Some mt ∧
      ∃ mc, mc ∈ mt.(t_columns) ∧ mc.(col_name) = "details" ∧ type_compat TJson mc.(col_type) = true.
Proof.
  destruct (run empty_catalog upgrade_ops) as [c|] eqn:Hc; [|vm_compute in Hc; discriminate].
  assert (Hin : orm_audit_logs ∈ orm_tables) by (do 2 right; left).
  exists c. split_and!; [done|done|].
  destruct (orm_fits_migration c orm_audit_logs Hc Hin) as (mt & Hmt & Hcols & _).
  exists mt. split; [exact Hmt|].
  destruct (Hcols (ocol "details" TJson true NoPyDefault)) as (mc & ? & ? & ? & _);
    [do 4 right; left|].
  eauto.
Defined.

(** [created_by] of a meeting, NOT NULL without default, is set by
    [Meeting.__init__]. *)
Lemma constructors_fill_not_null_witness :
  (ofk "created_by" "users" false).(oc_default) ≠ NoPyDefault ∨
  "created_by" ∈ orm_meetings.(ot_init).
Proof.
  apply (constructors_fill_not_null orm_meetings); [right; left|do 5 right; left|done|done].
Defined.

(** [create_all] builds a schema from the declarations. *)
Example create_all_builds : is_Some (run empty_catalog orm_ddl).
Proof. vm_compute. eauto. Qed.

(** The schemas differ in their constraints: the class [MeetingCoHost]
    declares no [uq_meeting_co_hosts]; the class [User] declares its two
    tokens unique (and [email], [name] through unique indexes); and the
    class foreign keys have no [ON DELETE]. *)
Example orm_constraints_differ :
  (orm_table orm_co_hosts).(t_uniques) = [] ∧
  co_hosts_table.(t_uniques) = [["meeting_id"; "user_id"]] ∧
  (orm_table orm_users).(t_uniques) = [["email_verification_token"]; ["password_reset_token"]] ∧
  orm_indexes orm_users =
    [CreateIndex "ix_users_email" (mkIndex "users" ["email"] true false);
     CreateIndex "ix_users_name" (mkIndex "users" ["name"] true false)] ∧
  fk_ondelete <$> (orm_table orm_participants).(t_fks) = [NoAction; NoAction] ∧
  fk_ondelete <$> participants_table.(t_fks) = [Cascade; Cascade].
Proof. vm_compute. repeat split. Qed.

End Models.
