(* ===== verification/Serialize.v ===== *)
(** Serialisation of the rows: [datetime.isoformat()], the string every
    [to_dict] of models/*.py writes for a date, and the [to_dict]
    methods themselves.

    An instant is a count of microseconds since 1970-01-01T00:00:00 in
    UTC, the epoch of [Auth.py_timestamp].  A [datetime] splits it into
    the fields of the proleptic Gregorian calendar; the calendar is
    written the way H. Hinnant's [civil_from_days] and
    [days_from_civil] compute it, by 400-year eras of 146097 days.
    Python's [datetime] covers the years 1 to 9999 ([datetime.min] to
    [datetime.max]); the theorems are stated on that range.

    [isoformat] prints [YYYY-MM-DDTHH:MM:SS], then [.ffffff] when the
    microseconds are not 0, then [+00:00] for an aware UTC datetime.
    Rows read back from the [DateTime] columns (without time zone) are
    naive; a row built in the request with [datetime.now(UTC)] is aware.
    [parse_isoformat] is [datetime.fromisoformat] on the strings of this
    shape: it reads the fields, refuses out-of-range ones as Python
    does, and answers the instant and whether an offset was given. *)

From Stdlib Require Import Ascii QArith_base.
From S2P Require Import Prelude Time Python Schema Session Lifecycle Users.
Import Users.

Module Serialize.

(** ** The calendar *)

Definition days_per_era : Z := 146097.

(** Within an era starting on 0000-03-01: the year of the era (counted
    from March), the month and the day of the day [doe] of the era. *)
Definition civil_of_doe (doe : Z) : Z * Z * Z :=
  let yoe := (doe - doe / 1460 + doe / 36524 - doe / 146096) / 365 in
  let doy := doe - (365 * yoe + yoe / 4 - yoe / 100) in
  let mp := (5 * doy + 2) / 153 in
  let d := doy - (153 * mp + 2) / 5 + 1 in
  let m := if mp <? 10 then mp + 3 else mp - 9 in
  (yoe, m, d).

Definition doe_of_civil (yoe m d : Z) : Z :=
  let doy := (153 * (if 2 <? m then m - 3 else m + 9) + 2) / 5 + d - 1 in
  yoe * 365 + yoe / 4 - yoe / 100 + doy.

(** January and February belong to the March-based year before. *)
Definition jan_feb (m : Z) : Z := if m <=? 2 then 1 else 0.

(** [civil_from_days]: the date of the day [z] after 1970-01-01. *)
Definition civil_from_days (z : Z) : Z * Z * Z :=
  let z' := z + 719468 in
  let era := z' / days_per_era in
  let '(yoe, m, d) := civil_of_doe (z' mod days_per_era) in
  (yoe + era * 400 + jan_feb m, m, d).

(** [days_from_civil]: the day of a date. *)
Definition days_from_civil (y m d : Z) : Z :=
  let y' := y - jan_feb m in
  y' / 400 * days_per_era + doe_of_civil (y' mod 400) m d - 719468.

Definition is_leap (y : Z) : bool :=
  ((y mod 4 =? 0) && negb (y mod 100 =? 0)) || (y mod 400 =? 0).

(** [calendar.monthrange(y, m)[1]]. *)
Definition days_in_month (y m : Z) : Z :=
  if m =? 2 then (if is_leap y then 29 else 28)
  else if (m =? 4) || (m =? 6) || (m =? 9) || (m =? 11) then 30 else 31.

(** What holds of every day of an era, checked by evaluation. *)
Definition doe_ok (doe : Z) : bool :=
  let '(yoe, m, d) := civil_of_doe doe in
  (0 <=? yoe) && (yoe <=? 399) && (doe_of_civil yoe m d =? doe) &&
  (1 <=? m) && (m <=? 12) && (1 <=? d) && (d <=? days_in_month (yoe + jan_feb m) m) &&
  ((doe <? 306) || (1 <=? yoe + jan_feb m)) &&
  ((146036 <? doe) || (yoe + jan_feb m <=? 399)).

Fixpoint check_from (fuel : nat) (k : Z) : bool :=
  match fuel with
  | O => true
  | S f => doe_ok k && check_from f (k + 1)
  end.

(** ** datetime.isoformat() *)

Definition usec_per_day : Z := 86400 secs.

(** [datetime.min] (0001-01-01T00:00:00) and the last microsecond of
    [datetime.max] (9999-12-31T23:59:59.999999). *)
Definition datetime_min : Z := -719162 * usec_per_day.
Definition datetime_max : Z := 2932897 * usec_per_day - 1.

(** The fields of the UTC datetime at instant [t]: Python normalises
    with floor division, so an instant before the epoch is a time of
    the day before. *)
Record Fields := mkFields {
  f_year : Z; f_month : Z; f_day : Z;
  f_hour : Z; f_minute : Z; f_second : Z; f_usec : Z
}.

Definition fields_of (t : Z) : Fields :=
  let '(y, m, d) := civil_from_days (t / usec_per_day) in
  let r := t mod usec_per_day in
  mkFields y m d (r / 3600 secs) (r / 60 secs mod 60) (r / 1 secs mod 60) (r mod 1 secs).

(** [%0kd] for [0 <= n < 10^k]: the last [k] decimal digits of [n]. *)
Fixpoint pad (k : nat) (n : Z) : list ascii :=
  match k with
  | O => []
  | S k' => pad k' (n / 10) ++ [digit_char (n mod 10)]
  end.

(** The offset [+00:00] of a datetime in [UTC]. *)
Definition utc_suffix : list ascii := ["+"; "0"; "0"; ":"; "0"; "0"]%char.

(** [YYYY-MM-DD] ([date.isoformat]). *)
Definition date_chars (y m d : Z) : list ascii :=
  pad 4 y ++ ["-"%char] ++ pad 2 m ++ ["-"%char] ++ pad 2 d.

(** [HH:MM:SS], then [.ffffff] when the microseconds are not 0 (the
    [timespec='auto'] of [isoformat]). *)
Definition time_chars (hh mm ss us : Z) : list ascii :=
  pad 2 hh ++ [":"%char] ++ pad 2 mm ++ [":"%char] ++ pad 2 ss ++
  (if us =? 0 then [] else ["."%char] ++ pad 6 us).

(** [dt.isoformat()] of the datetime at [t], aware (tzinfo [UTC]) or
    naive. *)
Definition isoformat_chars (aware : bool) (t : Z) : list ascii :=
  let f := fields_of t in
  date_chars f.(f_year) f.(f_month) f.(f_day) ++ ["T"%char] ++
  time_chars f.(f_hour) f.(f_minute) f.(f_second) f.(f_usec) ++
  (if aware then utc_suffix else []).

Definition isoformat (aware : bool) (t : Z) : string := String.string_of_list_ascii (isoformat_chars aware t).

(** ** datetime.fromisoformat(s) *)

(** Exactly [k] decimal digits. *)
Definition read_num (k : nat) (l : list ascii) : option (Z * list ascii) :=
  let ds := take k l in
  if bool_decide (length ds = k) && forallb is_digit_char ds
  then Some (digits_value 0 ds, drop k l) else None.

Definition expect (c : ascii) (l : list ascii) : option (list ascii) :=
  match l with
  | c' :: l' => if Ascii.eqb c c' then Some l' else None
  | [] => None
  end.

(** [YYYY-MM-DD], with the checks of the [date] constructor. *)
Definition parse_date (l : list ascii) : option (Z * Z * Z * list ascii) :=
  '(y, l) ← read_num 4 l; l ← expect "-" l; '(m, l) ← read_num 2 l;
  l ← expect "-" l; '(d, l) ← read_num 2 l;
  if (1 <=? y) && (1 <=? m) && (m <=? 12) && (1 <=? d) && (d <=? days_in_month y m)
  then Some (y, m, d, l) else None.

(** The fraction after the seconds: at least one digit, the first six
    read as microseconds and the others dropped. *)
Definition parse_fraction (l : list ascii) : option Z :=
  if bool_decide (l ≠ []) && forallb is_digit_char l
  then Some (digits_value 0 (take 6 l) * 10 ^ (6 - Z.of_nat (length (take 6 l))))
  else None.

(** [HH[:MM[:SS[.f...]]]], with the checks of the [time] constructor. *)
Definition parse_time (l : list ascii) : option (Z * Z * Z * Z) :=
  '(hh, l) ← read_num 2 l;
  '(mm, ss, us) ←
    match l with
    | [] => Some (0, 0, 0)
    | _ =>
      l ← expect ":" l; '(mm, l) ← read_num 2 l;
      match l with
      | [] => Some (mm, 0, 0)
      | _ =>
        l ← expect ":" l; '(ss, l) ← read_num 2 l;
        match l with
        | [] => Some (mm, ss, 0)
        | _ => l ← expect "." l; us ← parse_fraction l; Some (mm, ss, us)
        end
      end
    end;
  if (hh <=? 23) && (mm <=? 59) && (ss <=? 59) then Some (hh, mm, ss, us) else None.

Definition is_tz_start (c : ascii) : bool :=
  Ascii.eqb c "+" || Ascii.eqb c "-" || Ascii.eqb c "Z".

(** The time and the offset: the offset starts at the first [+], [-]
    or [Z]. *)
Fixpoint split_tz (l : list ascii) : list ascii * list ascii :=
  match l with
  | [] => ([], [])
  | c :: l' => if is_tz_start c then ([], l) else let '(t, z) := split_tz l' in (c :: t, z)
  end.

(** The offset: none (naive), [Z] (3.11 and later), or [+HH:MM] /
    [-HH:MM]; [timezone] refuses an offset of 24 hours or more.  The
    answer is the offset in microseconds and whether there is one. *)
Definition parse_tz (l : list ascii) : option (Z * bool) :=
  match l with
  | [] => Some (0, false)
  | ["Z"%char] => Some (0, true)
  | c :: l =>
    let sign := if Ascii.eqb c "-" then -1 else 1 in
    '(hh, l) ← read_num 2 l; l ← expect ":" l; '(mm, l) ← read_num 2 l;
    if bool_decide (l = []) && (hh * 3600 + mm * 60 <? 86400)
    then Some (sign * (hh * 3600 + mm * 60) secs, true) else None
  end.

(** [datetime.fromisoformat(s)] on the extended formats
    [YYYY-MM-DD] and [YYYY-MM-DD?HH[:MM[:SS[.f...]]][Z|+HH:MM|-HH:MM]]
    (any character as the separator): the instant in UTC and whether
    the datetime is aware. *)
Definition parse_isoformat_chars (l : list ascii) : option (Z * bool) :=
  '(y, m, d, l) ← parse_date l;
  '(hh, mm, ss, us, off, aware) ←
    match l with
    | [] => Some (0, 0, 0, 0, 0, false)
    | _ :: l =>
      let '(tl, zl) := split_tz l in
      '(hh, mm, ss, us) ← parse_time tl; '(off, aware) ← parse_tz zl;
      Some (hh, mm, ss, us, off, aware)
    end;
  Some (days_from_civil y m d * usec_per_day + hh * 3600 secs + mm * 60 secs + ss secs + us - off,
        aware).

Definition parse_isoformat (s : string) : option (Z * bool) :=
  parse_isoformat_chars (String.list_ascii_of_string s).

(** The routes' [s.replace('Z', '+00:00')]. *)
Definition replace_Z (l : list ascii) : list ascii :=
  l ≫= λ c, if Ascii.eqb c "Z" then utc_suffix else [c].

(** The parser of routes/meetings.py lines 71-72. *)
Definition request_datetime (s : string) : option (Z * bool) :=
  parse_isoformat_chars (replace_Z (String.list_ascii_of_string s)).

(** ** The [to_dict] methods of models/*.py *)

(** The strings the enum columns hold. *)
Definition meeting_type_str (t : MeetingType) : string :=
  match t with Regular => "regular" | Recurring => "recurring" | Private => "private" end.

Definition pattern_str (p : RecurringPattern) : string :=
  match p with Daily => "daily" | Weekly => "weekly" | Monthly => "monthly" | Custom => "custom" end.

Definition status_str (s : Status) : string :=
  match s with Pending => "pending" | Approved => "approved" | Declined => "declined" end.

Definition role_str (r : Role) : string :=
  match r with Host => "host" | CoHostRole => "co-host" | Attendee => "attendee" end.

Definition action_str (a : Action) : string :=
  match a with
  | Created => "created" | Joined => "joined" | AddedCoHost => "added_co_host"
  | RemovedCoHost => "removed_co_host" | ApprovedParticipant => "approved_participant"
  | RejectedParticipant => "rejected_participant"
  end.

(** A nullable column as JSON: [None] is [null]. *)
Definition opt_json {A} (f : A → JVal) (o : option A) : JVal :=
  match o with Some a => f a | None => JNull end.

(** The [details] column (routes/meetings.py lines 171-176, 284-287,
    449, 488, 578, 621). *)
Definition details_json (d : Details) : JVal :=
  match d with
  | DCreated mt ra ir rp =>
      JObj [("meeting_type", JStr (meeting_type_str mt)); ("requires_approval", JBool ra);
            ("is_recorded", JBool ir); ("recurring_pattern", opt_json (JStr ∘ pattern_str) rp)]
  | DJoined r s =>
      JObj [("role", JStr (role_str r));
            ("status", JStr (match s with StatusOf st => status_str st | HostStatus => "host" end))]
  | DCoHostId u => JObj [("co_host_id", JInt u)]
  | DParticipantId p => JObj [("participant_id", JInt p)]
  end.

(** What [to_dict] prints beyond the columns of the rows: whether the
    [datetime]s are aware (set in this request from [datetime.now(UTC)])
    or naive (loaded from a [DateTime] column), and the [updated_at]
    column. *)
Record Stamps := mkStamps { aware : bool; updated_at : Z }.

Definition iso (st : Stamps) (t : Z) : JVal := JStr (isoformat st.(aware) t).

(** [Meeting.to_dict] (models/meeting.py lines 44-62);
    [recording_url] is a column no handler writes. *)
Definition meeting_to_dict (st : Stamps) (recording_url : option string) (id : Z) (m : Meeting) :
    list (string * JVal) :=
  [("id", JInt id); ("title", JStr m.(title)); ("description", opt_json JStr m.(description));
   ("start_time", iso st m.(start_time)); ("end_time", iso st m.(end_time));
   ("created_by", JInt m.(created_by)); ("created_at", iso st m.(m_created_at));
   ("updated_at", iso st st.(updated_at)); ("ended_at", opt_json (iso st) m.(ended_at));
   ("meeting_type", JStr (meeting_type_str m.(meeting_type)));
   ("max_participants", opt_json JInt m.(max_participants));
   ("requires_approval", JBool m.(requires_approval)); ("is_recorded", JBool m.(is_recorded));
   ("recording_url", opt_json JStr recording_url);
   ("recurring_pattern", opt_json (JStr ∘ pattern_str) m.(recurring_pattern));
   ("parent_meeting_id", opt_json JInt m.(parent_meeting_id))].

(** The participation statistics columns of [MeetingParticipant]. *)
Record Stats := mkStats {
  total_time : option Z; connection_quality : option Q;
  participation_score : option Q; feedback : option string
}.

(** [MeetingParticipant.to_dict] (models/meeting_participant.py lines 33-49). *)
Definition participant_to_dict (st : Stamps) (sx : Stats) (id : Z) (p : Participant) :
    list (string * JVal) :=
  [("id", JInt id); ("meeting_id", JInt p.(p_meeting_id)); ("user_id", JInt p.(p_user_id));
   ("status", JStr (status_str p.(status))); ("role", JStr (role_str p.(role)));
   ("joined_at", opt_json (iso st) p.(joined_at)); ("left_at", opt_json (iso st) p.(left_at));
   ("is_banned", JBool p.(is_banned)); ("created_at", iso st p.(p_created_at));
   ("updated_at", iso st st.(updated_at)); ("total_time", opt_json JInt sx.(total_time));
   ("connection_quality", opt_json JFloat sx.(connection_quality));
   ("participation_score", opt_json JFloat sx.(participation_score));
   ("feedback", opt_json JStr sx.(feedback))].

(** [MeetingCoHost.to_dict] (models/meeting_co_host.py lines 20-27). *)
Definition co_host_to_dict (st : Stamps) (created_at id : Z) (c : CoHost) : list (string * JVal) :=
  [("id", JInt id); ("meeting_id", JInt c.(ch_meeting_id)); ("user_id", JInt c.(ch_user_id));
   ("created_at", iso st created_at); ("updated_at", iso st st.(updated_at))].

(** [MeetingAuditLog.to_dict] (models/meeting_audit_log.py lines 24-32). *)
Definition audit_log_to_dict (st : Stamps) (id : Z) (a : AuditLog) : list (string * JVal) :=
  [("id", JInt id); ("meeting_id", JInt a.(al_meeting_id)); ("user_id", JInt a.(al_user_id));
   ("action", JStr (action_str a.(action))); ("details", details_json a.(details));
   ("created_at", iso st a.(al_created_at))].

(** [User.to_dict] (models/user.py lines 104-114). *)
Definition user_to_dict (st : Stamps) (id : Z) (u : User) : list (string * JVal) :=
  [("id", JInt id); ("email", JStr u.(email)); ("name", JStr u.(name));
   ("is_active", JBool u.(is_active)); ("is_email_verified", JBool u.(is_email_verified));
   ("created_at", iso st u.(u_created_at)); ("updated_at", iso st st.(updated_at));
   ("last_login_at", opt_json (iso st) u.(last_login_at))].

(** The body of the 200 answer of [join_meeting] (routes/meetings.py
    lines 293-301): [meeting_dict.update({...})]. *)
Definition joined_body (st : Stamps) (url : option string) (id : Z) (m : Meeting)
    (r : Role) (is_creator : bool) (participant_count : nat) (trm : Z) : list (string * JVal) :=
  py_dict_update (meeting_to_dict st url id m)
    [("is_creator", JBool is_creator); ("is_co_host", JBool (String.eqb (role_str r) "co-host"));
     ("role", JStr (role_str r)); ("participant_count", JInt (Z.of_nat participant_count));
     ("time_remaining_minutes", JInt trm)].

(** The body of [get_waiting_room] (lines 522-531).  [User.query.get]
    of a missing user is [None], and its [.to_dict()] raises ([None]
    here, the 500 of the [except]). *)
Definition waiting_room_body (st : Stamps) (users : gmap Z User) (l : list (Z * Z * Z)) : option JVal :=
  items ← mapM (λ '(pid, uid, ca),
    u ← users !! uid;
    Some (JObj [("id", JInt pid); ("user", JObj (user_to_dict st uid u)); ("joined_at", iso st ca)])) l;
  Some (JObj [("waiting_participants", JList items)]).

(** ** Reading a meeting back from its JSON

    What a client of the API can recover from [Meeting.to_dict]: the
    inverse of each column's encoding, [fromisoformat] for the times. *)

Definition as_str (v : JVal) : option string := match v with JStr s => Some s | _ => None end.
Definition as_int (v : JVal) : option Z := match v with JInt z => Some z | _ => None end.
Definition as_bool (v : JVal) : option bool := match v with JBool b => Some b | _ => None end.
Definition as_opt {A} (f : JVal → option A) (v : JVal) : option (option A) :=
  match v with JNull => Some None | _ => Some <$> f v end.
Definition as_time (v : JVal) : option Z := s ← as_str v; '(t, _) ← parse_isoformat s; Some t.

Definition meeting_type_of_str (s : string) : option MeetingType :=
  List.find (λ t, String.eqb (meeting_type_str t) s) [Regular; Recurring; Private].
Definition pattern_of_str (s : string) : option RecurringPattern :=
  List.find (λ p, String.eqb (pattern_str p) s) [Daily; Weekly; Monthly; Custom].

Definition field {A} (d : list (string * JVal)) (k : string) (f : JVal → option A) : option A :=
  obj_get k d ≫= f.

Definition meeting_of_dict (d : list (string * JVal)) : option (Z * Meeting) :=
  let get {A} := @field A d in
  id ← get "id" as_int; t ← get "title" as_str; ds ← get "description" (as_opt as_str);
  st ← get "start_time" as_time; et ← get "end_time" as_time; cb ← get "created_by" as_int;
  ca ← get "created_at" as_time; ea ← get "ended_at" (as_opt as_time);
  mt ← get "meeting_type" (λ v, as_str v ≫= meeting_type_of_str);
  mp ← get "max_participants" (as_opt as_int); ra ← get "requires_approval" as_bool;
  ir ← get "is_recorded" as_bool;
  rp ← get "recurring_pattern" (as_opt (λ v, as_str v ≫= pattern_of_str));
  pm ← get "parent_meeting_id" (as_opt as_int);
  Some (id, mkMeeting t ds st et cb ca ea mt mp ra ir rp pm).

(** The keys [meeting_of_dict] reads. *)
Definition meeting_keys : list string :=
  ["id"; "title"; "description"; "start_time"; "end_time"; "created_by"; "created_at"; "ended_at";
   "meeting_type"; "max_participants"; "requires_approval"; "is_recorded"; "recurring_pattern";
   "parent_meeting_id"].

(** The instants [isoformat] can print. *)
Definition representable (t : Z) : Prop := datetime_min <= t <= datetime_max.

(** ** Lemmas *)

Lemma check_from_spec fuel k j :
  check_from fuel k = true → k <= j < k + Z.of_nat fuel → doe_ok j = true.
Proof.
  revert k. induction fuel as [|f IH]; intros k Hc Hj; [lia|].
  simpl in Hc. apply andb_true_iff in Hc as [Hk Hc].
  destruct (decide (j = k)) as [->|Hne]; [done|]. apply (IH (k + 1)); [done|lia].
Qed.

Lemma all_doe_ok : check_from (Z.to_nat days_per_era) 0 = true.
Proof. vm_compute. reflexivity. Qed.

(** Every day of an era: its date lies in the era, is a valid date, and
    gives the day back. *)
Lemma doe_ok_spec doe : 0 <= doe < days_per_era →
  let '(yoe, m, d) := civil_of_doe doe in
  0 <= yoe <= 399 ∧ doe_of_civil yoe m d = doe ∧ 1 <= m <= 12 ∧
  1 <= d <= days_in_month (yoe + jan_feb m) m ∧
  (306 <= doe → 1 <= yoe + jan_feb m) ∧ (doe <= 146036 → yoe + jan_feb m <= 399).
Proof.
  intros Hd. pose proof (check_from_spec _ 0 doe all_doe_ok ltac:(unfold days_per_era in *; lia)) as H.
  unfold doe_ok in H. destruct (civil_of_doe doe) as [[yoe m] d].
  apply andb_true_iff in H as [H Hhi]. apply andb_true_iff in H as [H Hlo].
  apply orb_true_iff in Hhi as [Hhi|Hhi]; apply orb_true_iff in Hlo as [Hlo|Hlo];
    zbool; split_and!; lia.
Qed.

Lemma is_leap_era y k : is_leap (y + k * 400) = is_leap y.
Proof.
  unfold is_leap.
  replace (y + k * 400) with (y + k * 100 * 4) by lia. rewrite Z.mod_add by lia.
  replace (y + k * 100 * 4) with (y + k * 4 * 100) by lia. rewrite Z.mod_add by lia.
  replace (y + k * 4 * 100) with (y + k * 400) by lia. by rewrite Z.mod_add by lia.
Qed.

Lemma days_in_month_era y k m : days_in_month (y + k * 400) m = days_in_month y m.
Proof. unfold days_in_month. by rewrite is_leap_era. Qed.

(** [days_from_civil] undoes [civil_from_days], whose dates are valid. *)
Lemma civil_from_days_spec z :
  let '(y, m, d) := civil_from_days z in
  days_from_civil y m d = z ∧ 1 <= m <= 12 ∧ 1 <= d <= days_in_month y m.
Proof.
  unfold civil_from_days.
  pose proof (Z.mod_pos_bound (z + 719468) days_per_era ltac:(done)) as Hb.
  pose proof (doe_ok_spec _ Hb) as Hd.
  pose proof (Z.div_mod (z + 719468) days_per_era ltac:(done)) as Hdm.
  set (era := (z + 719468) / days_per_era) in *. set (doe := (z + 719468) mod days_per_era) in *.
  destruct (civil_of_doe doe) as [[yoe m] d]. destruct Hd as (Hy & Hc & Hm & Hdd & _).
  unfold days_from_civil.
  replace (yoe + era * 400 + jan_feb m - jan_feb m) with (yoe + era * 400) by lia.
  rewrite Z.div_add, Z.mod_add, (Z.div_small yoe), (Z.mod_small yoe) by lia.
  replace (yoe + era * 400 + jan_feb m) with (yoe + jan_feb m + era * 400) by lia.
  rewrite days_in_month_era. split_and!; lia.
Qed.

Lemma jan_feb_bound m : 0 <= jan_feb m <= 1.
Proof. unfold jan_feb. case_ifs; lia. Qed.

(** The days of [datetime.min] to [datetime.max] have the years 1 to 9999. *)
Lemma civil_from_days_year z : -719162 <= z <= 2932896 →
  let '(y, m, d) := civil_from_days z in 1 <= y <= 9999.
Proof.
  intros Hz. unfold civil_from_days.
  pose proof (Z.mod_pos_bound (z + 719468) days_per_era ltac:(done)) as Hb.
  pose proof (doe_ok_spec _ Hb) as Hd.
  pose proof (Z.div_mod (z + 719468) days_per_era ltac:(done)) as Hdm.
  assert (0 <= (z + 719468) / days_per_era < 25).
  { split; [apply Z.div_pos|apply Z.div_lt_upper_bound]; unfold days_per_era in *; lia. }
  set (era := (z + 719468) / days_per_era) in *. set (doe := (z + 719468) mod days_per_era) in *.
  clearbody era doe.
  destruct (civil_of_doe doe) as [[yoe m] d]. destruct Hd as (Hy & _ & _ & _ & Hlo & Hhi).
  pose proof (jan_feb_bound m). unfold days_per_era in *. cbn iota.
  destruct (decide (era = 0)) as [E|]; [|destruct (decide (era = 24)) as [E|]];
    [rewrite E in *; specialize (Hlo ltac:(lia))|rewrite E in *; specialize (Hhi ltac:(lia))|]; lia.
Qed.

(** *** Fixed-width numbers *)

Lemma pad_length k n : length (pad k n) = k.
Proof. revert n. induction k as [|k IH]; intros n; cbn [pad]; [done|]. rewrite length_app, IH. simpl. lia. Qed.

Lemma pad_digits k n : forallb is_digit_char (pad k n) = true.
Proof.
  revert n. induction k as [|k IH]; intros n; cbn [pad]; [done|].
  rewrite forallb_app, IH. cbn [forallb andb].
  by rewrite (proj2 (digit_char_spec _ (Z.mod_pos_bound n 10 ltac:(lia)))).
Qed.

Lemma pad_value k n : digits_value 0 (pad k n) = n mod 10 ^ Z.of_nat k.
Proof.
  revert n. induction k as [|k IH]; intros n; cbn [pad].
  - by rewrite Z.mod_1_r.
  - rewrite digits_value_snoc, IH, (proj1 (digit_char_spec _ (Z.mod_pos_bound n 10 ltac:(lia)))).
    rewrite Nat2Z.inj_succ, Z.pow_succ_r, Z.rem_mul_r by (try apply Z.pow_pos_nonneg; lia). lia.
Qed.

(** Reading [k] digits gives back the number [pad k] printed. *)
Lemma read_num_pad k n rest : 0 <= n < 10 ^ Z.of_nat k → read_num k (pad k n ++ rest) = Some (n, rest).
Proof.
  intros Hn. unfold read_num.
  rewrite take_app_length', drop_app_length' by (by rewrite pad_length).
  rewrite pad_length, pad_digits, bool_decide_eq_true_2 by done. simpl.
  rewrite pad_value, Z.mod_small by done. done.
Qed.

#[local] Arguments pad : simpl never.

(** *** The time of day *)

Lemma usec_per_day_pos : 0 < usec_per_day.
Proof. done. Qed.

Lemma time_of_day_spec r : 0 <= r < usec_per_day →
  0 <= r / 3600 secs <= 23 ∧ 0 <= r / 60 secs mod 60 <= 59 ∧ 0 <= r / 1 secs mod 60 <= 59 ∧
  0 <= r mod 1 secs < 1000000 ∧
  r / 3600 secs * 3600 secs + r / 60 secs mod 60 * 60 secs + r / 1 secs mod 60 * 1 secs + r mod 1 secs = r.
Proof.
  unfold usec_per_day, seconds, usec_per_sec. intros Hr.
  rewrite !Z.mul_1_l, (Z.mul_comm 3600), (Z.mul_comm 60).
  rewrite <-(Z.div_div r 1000000 3600), <-(Z.div_div r 1000000 60) by lia.
  pose proof (Z.div_mod r 1000000 ltac:(lia)). pose proof (Z.mod_pos_bound r 1000000 ltac:(lia)).
  assert (0 <= r / 1000000 < 86400) by (split; [apply Z.div_pos|apply Z.div_lt_upper_bound]; lia).
  set (s := r / 1000000) in *. clearbody s.
  replace (s / 3600) with (s / 60 / 60) by (rewrite Z.div_div by lia; reflexivity).
  pose proof (Z.div_mod s 60 ltac:(lia)). pose proof (Z.mod_pos_bound s 60 ltac:(lia)).
  assert (0 <= s / 60 < 1440) by (split; [apply Z.div_pos|apply Z.div_lt_upper_bound]; lia).
  set (mi := s / 60) in *. clearbody mi.
  pose proof (Z.div_mod mi 60 ltac:(lia)). pose proof (Z.mod_pos_bound mi 60 ltac:(lia)).
  assert (0 <= mi / 60 < 24) by (split; [apply Z.div_pos|apply Z.div_lt_upper_bound]; lia).
  split_and!; lia.
Qed.

Lemma fields_of_spec t : datetime_min <= t <= datetime_max →
  let f := fields_of t in
  days_from_civil f.(f_year) f.(f_month) f.(f_day) * usec_per_day + f.(f_hour) * 3600 secs +
    f.(f_minute) * 60 secs + f.(f_second) * 1 secs + f.(f_usec) = t ∧
  1 <= f.(f_year) <= 9999 ∧ 1 <= f.(f_month) <= 12 ∧ 1 <= f.(f_day) <= days_in_month f.(f_year) f.(f_month) ∧
  0 <= f.(f_hour) <= 23 ∧ 0 <= f.(f_minute) <= 59 ∧ 0 <= f.(f_second) <= 59 ∧ 0 <= f.(f_usec) < 1000000.
Proof.
  intros Ht. unfold fields_of.
  assert (-719162 <= t / usec_per_day <= 2932896).
  { unfold datetime_min, datetime_max in Ht.
    split; [apply Z.div_le_lower_bound|apply Z.lt_succ_r, Z.div_lt_upper_bound]; unfold usec_per_day, seconds, usec_per_sec in *; lia. }
  pose proof (civil_from_days_spec (t / usec_per_day)) as Hc.
  pose proof (civil_from_days_year (t / usec_per_day) ltac:(done)) as Hy.
  pose proof (time_of_day_spec (t mod usec_per_day) (Z.mod_pos_bound _ _ usec_per_day_pos)) as Hd.
  pose proof (Z.div_mod t usec_per_day ltac:(pose proof usec_per_day_pos; lia)).
  destruct (civil_from_days _) as [[y m] d]. cbn [f_year f_month f_day f_hour f_minute f_second f_usec].
  destruct Hc as (Hz & Hm & Hdd). split_and!; lia.
Qed.

(** *** Reading back what [isoformat] prints *)

(** Settle the comparisons of the code's validation by [lia]. *)
Ltac zcmp_true :=
  repeat first [ rewrite (proj2 (Z.leb_le _ _)) by lia | rewrite (proj2 (Z.ltb_lt _ _)) by lia ];
  cbn [andb].

Lemma expect_cons c l : expect c (c :: l) = Some l.
Proof. unfold expect. by rewrite Ascii.eqb_refl. Qed.

Lemma digit_not_tz c : is_digit_char c = true → is_tz_start c = false.
Proof.
  intros H. unfold is_tz_start.
  destruct (Ascii.eqb_spec c "+") as [->|]; [vm_compute in H; discriminate|].
  destruct (Ascii.eqb_spec c "-") as [->|]; [vm_compute in H; discriminate|].
  destruct (Ascii.eqb_spec c "Z") as [->|]; [vm_compute in H; discriminate|]. done.
Qed.

Lemma pad_forall (P : ascii → bool) k n :
  (∀ c, is_digit_char c = true → P c = true) → forallb P (pad k n) = true.
Proof.
  intros HP. pose proof (pad_digits k n) as H. induction (pad k n) as [|c l IH]; [done|].
  apply andb_true_iff in H as [Hc Hl]. cbn [forallb]. by rewrite HP, IH.
Qed.

Lemma pad_no_tz k n : forallb (λ c, negb (is_tz_start c)) (pad k n) = true.
Proof. apply pad_forall. intros c Hc. by rewrite digit_not_tz. Qed.

Lemma split_tz_app l z : forallb (λ c, negb (is_tz_start c)) l = true →
  (z = [] ∨ ∃ c z', z = c :: z' ∧ is_tz_start c = true) → split_tz (l ++ z) = (l, z).
Proof.
  intros Hl Hz. induction l as [|c l IH]; simpl.
  - destruct Hz as [->|(c & z' & -> & Hc)]; simpl; [done|by rewrite Hc].
  - apply andb_true_iff in Hl as [Hc Hl]. apply negb_true_iff in Hc. by rewrite Hc, IH.
Qed.

Lemma time_chars_no_tz hh mm ss us : forallb (λ c, negb (is_tz_start c)) (time_chars hh mm ss us) = true.
Proof. unfold time_chars. destruct (us =? 0); by rewrite !forallb_app, !pad_no_tz. Qed.

Lemma days_in_month_le y m : days_in_month y m <= 31.
Proof. unfold days_in_month. case_ifs; lia. Qed.

Lemma parse_date_print y m d rest :
  1 <= y <= 9999 → 1 <= m <= 12 → 1 <= d <= days_in_month y m →
  parse_date (date_chars y m d ++ rest) = Some (y, m, d, rest).
Proof.
  intros Hy Hm Hd. pose proof (days_in_month_le y m). unfold parse_date, date_chars. rewrite <-!app_assoc.
  rewrite read_num_pad by (simpl; lia). cbn [mbind option_bind app]. rewrite expect_cons.
  cbn [mbind option_bind]. rewrite read_num_pad by (simpl; lia). cbn [mbind option_bind app].
  rewrite expect_cons. cbn [mbind option_bind]. rewrite read_num_pad by (simpl; lia).
  cbn [mbind option_bind]. by zcmp_true.
Qed.

Lemma parse_fraction_pad us : 0 <= us < 1000000 → parse_fraction (pad 6 us) = Some us.
Proof.
  intros Hu. unfold parse_fraction. rewrite pad_digits, take_ge by (by rewrite pad_length).
  rewrite bool_decide_eq_true_2 by (intros E; apply (f_equal length) in E; by rewrite pad_length in E).
  rewrite pad_length, pad_value, Z.mod_small by (simpl; lia). simpl. f_equal. lia.
Qed.

Lemma parse_time_print hh mm ss us :
  0 <= hh <= 23 → 0 <= mm <= 59 → 0 <= ss <= 59 → 0 <= us < 1000000 →
  parse_time (time_chars hh mm ss us) = Some (hh, mm, ss, us).
Proof.
  intros Hh Hm Hs Hu. unfold parse_time, time_chars.
  rewrite read_num_pad by (simpl; lia). cbn [mbind option_bind app]. rewrite expect_cons.
  cbn [mbind option_bind]. rewrite read_num_pad by (simpl; lia). cbn [mbind option_bind app].
  rewrite expect_cons. cbn [mbind option_bind]. rewrite read_num_pad by (simpl; lia).
  destruct (Z.eqb_spec us 0) as [->|Hus]; cbn [mbind option_bind app].
  - by zcmp_true.
  - rewrite expect_cons. cbn [mbind option_bind]. rewrite parse_fraction_pad by done.
    cbn [mbind option_bind]. by zcmp_true.
Qed.

Lemma parse_tz_print (aware : bool) : parse_tz (if aware then utc_suffix else []) = Some (0, aware).
Proof. by destruct aware. Qed.

(** The parser reads the characters [isoformat] prints back to the
    instant and its awareness. *)
Lemma parse_isoformat_chars_print (aware : bool) t : representable t →
  parse_isoformat_chars (isoformat_chars aware t) = Some (t, aware).
Proof.
  intros Ht. pose proof (fields_of_spec t Ht) as (Heq & Hy & Hm & Hd & Hh & Hmi & Hs & Hu).
  unfold isoformat_chars. set (f := fields_of t) in *. clearbody f.
  unfold parse_isoformat_chars. rewrite parse_date_print by done. cbn [mbind option_bind app].
  rewrite split_tz_app by (apply time_chars_no_tz || (destruct aware; [right; by eexists _, _|by left])).
  rewrite parse_time_print by done. cbn [mbind option_bind]. rewrite parse_tz_print.
  cbn [mbind option_bind]. unfold seconds in *. do 2 f_equal. lia.
Qed.

(** [datetime.fromisoformat] reads back what [isoformat] prints.
    For every instant from [datetime.min] to [datetime.max], aware in
    UTC or naive, parsing [isoformat] gives the same instant and the
    same awareness: the microseconds, the date of the proleptic
    Gregorian calendar and the time of day all survive the text. *)
Theorem isoformat_roundtrip aware t : datetime_min <= t <= datetime_max →
  parse_isoformat (isoformat aware t) = Some (t, aware).
Proof.
  intros Ht. unfold parse_isoformat, isoformat. rewrite String.list_ascii_of_string_of_list_ascii.
  by apply parse_isoformat_chars_print.
Qed.

(** The last microsecond of 2023-11-14T22:13:20 UTC, printed aware. *)
Lemma isoformat_roundtrip_witness :
  datetime_min <= 1700000000999999 <= datetime_max ∧
  parse_isoformat (isoformat true 1700000000999999) = Some (1700000000999999, true).
Proof.
  split; [vm_compute; split; discriminate|]. apply isoformat_roundtrip. vm_compute; split; discriminate.
Defined.

(** *** What the routes parse *)

Lemma pad_no_Z k n : forallb (λ c, negb (Ascii.eqb c "Z")) (pad k n) = true.
Proof.
  apply pad_forall. intros c Hc. pose proof (digit_not_tz c Hc) as H.
  unfold is_tz_start in H. apply orb_false_iff in H as [_ H]. by rewrite H.
Qed.

Lemma isoformat_no_Z (aware : bool) t : forallb (λ c, negb (Ascii.eqb c "Z")) (isoformat_chars aware t) = true.
Proof.
  unfold isoformat_chars, date_chars, time_chars.
  destruct (_ =? 0), aware; by rewrite !forallb_app, !pad_no_Z.
Qed.

Lemma replace_Z_id l : forallb (λ c, negb (Ascii.eqb c "Z")) l = true → replace_Z l = l.
Proof.
  unfold replace_Z. induction l as [|c l IH]; intros H; [done|].
  apply andb_true_iff in H as [Hc Hl]. apply negb_true_iff in Hc.
  cbn [mbind list_bind]. rewrite Hc. cbn [app]. by rewrite <-(IH Hl) at 2.
Qed.

(** The [replace('Z', '+00:00')] of the routes leaves [isoformat]'s
    strings alone, so they read the instant back as well. *)
Lemma request_datetime_isoformat aware t : representable t →
  request_datetime (isoformat aware t) = Some (t, aware).
Proof.
  intros Ht. unfold request_datetime, isoformat. rewrite String.list_ascii_of_string_of_list_ascii.
  rewrite replace_Z_id by apply isoformat_no_Z. by apply parse_isoformat_chars_print.
Qed.

(** *** Reading a meeting back *)

Lemma meeting_type_str_inv t : meeting_type_of_str (meeting_type_str t) = Some t.
Proof. by destruct t. Qed.

Lemma pattern_str_inv p : pattern_of_str (pattern_str p) = Some p.
Proof. by destruct p. Qed.

(** [meeting_of_dict] only looks at the keys of [meeting_keys]. *)
Lemma meeting_of_dict_agree d d' :
  (∀ k, k ∈ meeting_keys → obj_get k d = obj_get k d') → meeting_of_dict d = meeting_of_dict d'.
Proof.
  intros H. unfold meeting_of_dict, field.
  rewrite !(H _) by (unfold meeting_keys; repeat constructor). done.
Qed.

(** A dict that agrees with [Meeting.to_dict] on [meeting_keys] reads
    back as the meeting. *)
Lemma meeting_of_dict_decode st url id m d :
  representable m.(start_time) → representable m.(end_time) → representable m.(m_created_at) →
  (∀ e, m.(ended_at) = Some e → representable e) →
  (∀ k, k ∈ meeting_keys → obj_get k d = obj_get k (meeting_to_dict st url id m)) →
  meeting_of_dict d = Some (id, m).
Proof.
  intros Hs He Hc Hea Hd. rewrite (meeting_of_dict_agree _ _ Hd).
  destruct m as [t ds s e cb ca ea mt mp ra ir rp pm]. simpl in *.
  unfold meeting_of_dict, field, meeting_to_dict.
  destruct ea as [ea|]; [specialize (Hea ea eq_refl)|]; destruct ds, rp, mp, pm;
    cbv -[isoformat_chars parse_isoformat_chars meeting_type_of_str meeting_type_str
          pattern_of_str pattern_str];
    rewrite ?String.list_ascii_of_string_of_list_ascii, ?parse_isoformat_chars_print,
      ?meeting_type_str_inv, ?pattern_str_inv by done; reflexivity.
Qed.

(** C22: a meeting's JSON loses nothing a client can read back.  For a
    meeting whose instants [isoformat] can print, reading the fields of
    [Meeting.to_dict] (times through [datetime.fromisoformat], enums
    through their strings, [null] for absent columns) gives back its id
    and every column of the row, whichever [updated_at], [recording_url]
    and awareness the dict was printed with. *)
Theorem meeting_to_dict_roundtrip st url id m :
  representable m.(start_time) → representable m.(end_time) → representable m.(m_created_at) →
  (∀ e, m.(ended_at) = Some e → representable e) →
  meeting_of_dict (meeting_to_dict st url id m) = Some (id, m).
Proof. intros. by eapply meeting_of_dict_decode. Qed.

(** The join answer carries the meeting: the five keys [update] adds
    are new, so every field of [to_dict] survives. *)
Lemma joined_body_meeting st url id m r ic pc trm :
  representable m.(start_time) → representable m.(end_time) → representable m.(m_created_at) →
  (∀ e, m.(ended_at) = Some e → representable e) →
  meeting_of_dict (joined_body st url id m r ic pc trm) = Some (id, m).
Proof.
  intros. eapply meeting_of_dict_decode; [done..|]. intros k Hk.
  unfold joined_body. rewrite obj_get_dict_update, obj_get_last.
  assert (k ∉ ["is_creator"; "is_co_host"; "role"; "participant_count"; "time_remaining_minutes"])
    by (unfold meeting_keys in Hk; set_solver).
  rewrite last_get_None by done. by rewrite (left_id_L None union).
Qed.

(** C23: [create_meeting] reads the times the API prints exactly when
    they were printed aware.  Sending back two instants as [isoformat]
    printed them (for instance the [start_time] and [end_time] of a
    [to_dict]), the route's [fromisoformat(s.replace('Z', '+00:00'))]
    gives the same instants when both strings carry the [+00:00] of an
    aware datetime, and the 400 'Timezone information is required' when
    either was printed naive, as [to_dict] prints a row loaded from a
    [DateTime] column without time zone. *)
Theorem create_reads_printed_times (a b : bool) s e : representable s → representable e →
  Lifecycle.parse_times request_datetime (Some (JStr (isoformat a s))) (Some (JStr (isoformat b e))) =
    if a && b then inr (s, e) else inl ErrTimezoneRequired.
Proof. intros Hs He. unfold Lifecycle.parse_times. by rewrite !request_datetime_isoformat. Qed.

(** A naive start time printed from a loaded row is refused. *)
Lemma create_reads_printed_times_witness :
  representable 1700000000000000 ∧ representable 1700003600000000 ∧
  Lifecycle.parse_times request_datetime (Some (JStr (isoformat false 1700000000000000)))
    (Some (JStr (isoformat true 1700003600000000))) = inl ErrTimezoneRequired.
Proof.
  assert (representable 1700000000000000 ∧ representable 1700003600000000) as [Hs He]
    by (unfold representable; vm_compute; split; split; discriminate).
  split_and!; [done|done|]. exact (create_reads_printed_times false true _ _ Hs He).
Defined.

(** The meeting of a concrete row survives its JSON. *)
Lemma meeting_to_dict_roundtrip_witness :
  let m := mkMeeting "standup" (Some "daily") 1700000000000000 1700000900000000 2 1699990000000000
             None Regular (Some 10) true false None None in
  representable m.(start_time) ∧ representable m.(end_time) ∧ representable m.(m_created_at) ∧
  (∀ e, m.(ended_at) = Some e → representable e) ∧
  meeting_of_dict (meeting_to_dict (mkStamps false 1699990000000000) None 7 m) = Some (7, m).
Proof.
  cbv zeta.
  assert (representable 1700000000000000 ∧ representable 1700000900000000 ∧ representable 1699990000000000)
    as (Hs & He & Hc) by (unfold representable; vm_compute; split_and!; discriminate).
  split_and!; [done|done|done|discriminate|].
  apply meeting_to_dict_roundtrip; [done|done|done|discriminate].
Defined.

End Serialize.
